(* ===== verification/_CoqProject ===== *)
-Q . S2P
Spec2Rocq.v
PyStr.v
PyVal.v
Json.v
Schema.v
PyTime.v
Protocol.v
Session.v
Conversation.v
Submission.v
Polling.v
Report.v
Document.v
Validate.v
Handlers.v
Texts.v
Concurrency.v
Atomic.v
Interface.v
Log.v
Style.v
Chain.v
Schedule.v
Journey.v
Visitors.v
