(* ===== verification/Spec2Rocq.v ===== *)
(** * Mobile trauma assessment assistant: a verification development

    The program under study is the single Python module [src/app.py]: one
    process-wide object of class [EnhancedTraumaAssessmentApp] (the session
    report, the onboarding gate, the submission and polling flags), the
    page of the user interface with the events wired to its components,
    the handlers those events call on the object, and one background
    thread per submission that polls a lookup store for a specialist's
    reply.

    ** The parts of the program and the files that model them

    In dependency order:

    - [Spec2Rocq] (this file): the prelude.  Python truthiness as the
      class [Truthy] with its instances, the [result] type of a call that
      may raise with its monad instances, the [guard] notation for the
      code's early returns (scope [py_scope]), the tactics and the hint
      database [py] the other files use, and generic lemmas on lists
      (counting the elements that pass a test).
    - [PyStr]: the string methods the program calls ([lower], [upper],
      [title], [in], [endswith], slicing, [replace], [join]) as structural
      functions on byte strings, each with the specification it meets,
      and the characters of a string ([str_chars]).
    - [PyVal]: the JSON values that enter the program unchecked, with
      [v[k]], [v.get], slicing, [str] and [repr] and the exception each
      raises on a value of the wrong type.
    - [Json]: [json.dump] at the arguments of [save_report_with_data]
      ([json_emit], [json_encode]) and a reader of the documents it writes
      ([json_parse]).
    - [Schema]: the shapes of the documents ([jty]) and the check of a
      value against a shape ([has_type]).
    - [PyTime]: a reading of the clock and its three renderings.
    - [Protocol]: the interface [FlagProtocol] between a main flow that
      raises a flag when it starts a task and the tasks that lower it,
      with the invariant [pool_inv] proved against the interface alone.
    - [Session]: the Session Report Store.  The object as the record [App]
      with one setter per assignment of the source; [__init__] is [init],
      [complete_onboarding] and [generate_cultural_context] keep their
      names, [clear_conversation] is the assignments of the handler of
      that name; [gate_inv] is the invariant of the onboarding gate.
    - [Conversation]: the Conversation Engine.  [add_message] with
      [add_file] (the body of its loop) and [append_observation];
      [bot_response] as the generator ([bot_next], [bot_take]) and in
      closed form ([stream]).
    - [Submission]: [push_report_to_care_bridge] with its payload
      ([api_data]) and its [except] clauses ([push_failure]),
      [start_response_polling], and [get_specialist_response] with the
      rendering of the reply ([format_specialist_response]).
    - [Polling]: [_poll_for_response], as one function
      ([poll_for_response], with [poll_loop] the [while] and
      [poll_iteration] its body) and one statement at a time
      ([thread_step] on a program counter [PollPc]).
    - [Report]: the Report Synthesizer.  [generate_comprehensive_report]
      with the [try] block ([structured_assessment]) and the report text
      in eight sections ([render_report]).
    - [Document]: the dictionary [self.report_data] that the record of
      [Session] stands for ([report_document]), the shapes of the report,
      of the payload and of the reply row ([report_ty], [payload_ty],
      [reply_ty]), the decoders ([report_of_document]), the assignments of
      the source on the dictionary ([doc_set], [doc_set2], [doc_append2])
      and the text of the data file ([saved_data]).  [Codec] is the
      interface of a part that can be written and read back.
    - [Validate]: what the program needs of
      [RiskAssessment.model_validate_json], as the class [Validator], and
      the validation without conversions ([strict_validate]) as an
      instance of it.
    - [Handlers]: the functions wired to the interface
      ([handle_onboarding], [handle_conversation],
      [generate_report_with_progress], both as the list of its yields and
      as the generator resumed one [next()] at a time ([ReportGen],
      [report_next]), [save_report_with_data] with the files it writes
      ([saved_files]), [push_to_care_bridge], [check_for_response]) and
      [phase], the state of a submission as [check_for_response] reports
      it.
    - [Texts]: the literals of the page, byte for byte: the style sheet
      [css] and the contents of the [gr.HTML] and [gr.Markdown] blocks
      that are bound to no name.
    - [Concurrency]: the object shared by the handler calls and the
      threads.  [sys_step] is one handler call or one statement of one
      thread; [reachable] the systems any schedule reaches;
      [polling_protocol] shows that the handlers and the thread follow
      [FlagProtocol]; [spec_edge] is the state machine of the
      specification and [code_edge] the moves the code makes.
    - [Atomic]: the two calls of the main flow that read or write what
      the threads read or write, one statement at a time:
      [push_report_to_care_bridge] from the assignment of the identifier
      to the start of the thread and [check_for_response] with its three
      reads.  A [Fine] state is the system with the place of the main
      flow in the call under way ([MainPc]); [fine_step] is the start of
      a call, its next statement, or a statement of a thread;
      [linearized] relates a fine state to the state of [Concurrency] in
      which the call under way has not happened yet.
    - [Interface]: the block [with gr.Blocks(...) as demo].  [Widget.t]
      names the components, [layout] nests them with the texts of
      [Texts] between them, [caption], [placeholder] and [elem_classes]
      are what the constructors are given, [child_age] and
      [child_gender] are the two fields with constraints, [Wire] is an
      event registration ([start_assessment_click], [chat_msg], ...).  A
      [Page] gives every component its value; [ui_step] is one action of
      a user (an edit, a click, a submission, a load of the page), one
      step of a chain ([Chain]: a chain of [handle_conversation] or a
      generator of [generate_report_with_progress] under way) or one
      statement of a thread, on the page and the [Concurrency.System]
      behind it.
    - [Log]: the standard output: for every function that prints, the
      entries it prints on the same arguments ([init_prints],
      [add_message_prints], [bot_response_prints],
      [start_response_polling_prints], [poll_for_response_prints],
      [thread_step_prints], ...), and the log of a run of the system
      ([sys_run_prints]) and of the actions on a page ([ui_run_prints]).
    - [Style]: the style sheet as data ([style_sheet], with the types of
      [Css] and the printer [Css.css_text]), the classes the layout names
      ([layout_classes], with [html_classes] for the HTML blocks) and the
      status lines of the handlers ([statuses_styled]).
    - [Chain]: the chain [chat_input.submit(add_message).then(bot_response)
      .then(unlock)] of [handle_conversation] and the generator of the
      report, step by step: the steps a chain has left ([chain_steps]),
      the lock of the text box ([lock_inv]), and the states that show the
      same on every component ([ui_equiv]).
    - [Schedule]: the orders in which the platform may take the steps of
      the chains and the threads their statements: the measure of the
      chains under way ([rank]) and the interface [Mover] between the
      handlers of the page and the polling thread.
    - [Journey]: the push handler, the thread and the check handler put
      together, for a push that is accepted and a reply that is found at
      one of the 120 queries, or that is not found at any of them.
    - [Visitors]: the pages of several visitors ([Visit]) on the one
      object [app] ([Server]); a [Move] opens a page, makes an action of
      [Interface] on one page, or runs a statement of a thread.  [launch]
      is the arguments of [demo.launch].

    ** What the theorems show

    - Submission: every failing outcome of a push (each guard, each
      exception class, a status other than 201, an undecodable body)
      leaves the object unchanged and starts nothing
      ([push_failed_unchanged], [push_api_error],
      [push_guard_no_request]); a thread is started exactly under the
      conditions of [push_started_iff]; starting twice is starting once
      ([start_response_polling_twice]); the reply renders exactly when it
      has the five fields ([format_specialist_response_ok]), that is, the
      shape [reply_ty] ([format_specialist_response_typed]).
    - Json, Schema, Document: what [json.dump] writes is read back as the
      same value ([json_parse_encode]); the document of a record has the
      shape of the report and every document of that shape is the
      document of one record ([report_ty_decodes],
      [report_document_roundtrip]); the setters of [Session] are the
      assignments of the source on the dictionary
      ([document_assignments]); the payload has its shape, which has no
      name of the child ([api_data_typed]); the data file that is saved
      loads back as the report data ([saved_files_load]).
    - Interface: every action is a sequence of handler calls and thread
      statements of [Concurrency] ([ui_reachable_system]); through the
      interface the child record is typed as the specification types it
      ([ui_reachable_child_typed]) and every component holds a value of
      its class ([ui_reachable_page_typed]); an action writes only the
      outputs of its events ([ui_run_frame]); the main column shows the
      side of the gate as long as the page is loaded once
      ([single_session_gate]), and no longer after a second load
      ([reload_leaves_gate_open], [second_visit_inherits]); the welcome
      line is never on screen ([welcome_never_seen]).
    - Validate: against the interface [Validator], an answer of the
      model that is the text of a record of [RiskAssessment] is what the
      report holds after [generate_comprehensive_report], whatever it
      held before, and what is posted to the platform
      ([report_stores_answer], [answer_posted]); [strict_validate] takes
      exactly the texts of the documents of the shape
      ([strict_validate_typed]); nothing keeps the severity within 1 to
      10 ([severity_unchecked]).
    - Log: the statements of a thread stepped alone print what the loop
      prints as one function ([thread_log_poll_for_response]); the log of
      the loop has one line for every attempt, at most [max_polls] of
      them, and an error for exactly the attempts that failed, each
      counted in [poll_count] ([poll_errors_logged]);
      [start_response_polling] prints one line whatever it does
      ([start_response_polling_logged]), and a run prints the line that
      says polling starts once for every thread of the system
      ([threads_logged], [ui_threads_logged]); the error of the language
      model goes to the log and the sentence that stands in for the reply
      to the page ([fallback_logged]); nothing is printed when the
      monitoring ends ([log_timeout_silent]), and that a report is not
      monitored is said in the log only ([unwatched_only_logged]).
    - Style: the text of [style_sheet] is the literal [css]
      ([style_sheet_text]); every class the layout names has a rule
      ([layout_styled]); on every reachable page the four status
      components hold nothing or a block of a class with a rule
      ([ui_reachable_statuses_styled]); [header-container] has a rule and
      is named nowhere ([rules_not_named]); the banner of the main column
      carries the name and the location as they were typed, markup
      included ([Handlers.banner_embeds_input], [markup_reaches_banner]);
      the notice under the form says that nothing is stored while the
      saved files hold the record ([notice_and_files]).
    - Chain: as long as [New Conversation] is not pressed during a chain
      the page has at most one chain of [handle_conversation] under way
      and the text box is unlocked exactly when it has none
      ([lock_excludes]), whatever generators of reports run beside it, so
      a second submission waits ([submit_waits]); every chain ends after
      [chain_steps] steps, and a chain of [handle_conversation] leaves
      the text box unlocked ([chain_ends]); a chain that nothing
      interrupts shows what [conversation_turn] shows in one step
      ([turn_uninterrupted], with [ui_step_proper]: an action maps states
      that show the same to states that show the same), and the
      generator of a report resumed four times leaves what
      [generate_report_with_progress] leaves ([report_uninterrupted]);
      the report is generated from the record as it is at the second
      resumption ([report_of_later_state]) and the first yield blanks
      the report shown ([report_blank_while_generating]);
      [New Conversation] during a chain
      breaks the lock ([clear_breaks_lock]), after which two chains
      overlap and the cleared turns are drawn again
      ([cleared_turns_redrawn], [unlocked_before_reply]); after a turn
      the stored transcript is the chat surface without the last reply
      ([transcript_lags]).
    - Schedule: no order of chain steps goes on for ever
      ([chain_steps_end]: the relation [chain_step] is well founded);
      the handlers of every event but the push and the check neither
      read nor write [polling_active] and [specialist_response] (the
      instances of [Mover]), so a statement of a thread commutes with
      them ([tick_commutes]), a run without the two buttons is the run
      with the statements of the threads moved to the front
      ([thread_moves_first]) and shows what the run without the threads
      shows ([thread_unseen]); the check does not commute
      ([check_does_not_commute]).
    - Visitors: with any number of pages the record behind the gate is
      typed and every page holds values of its classes
      ([server_reachable_typed]), the system is a reachable system of
      [Concurrency] ([server_reachable_system]), every page keeps its
      lock ([visitors_locked]) and a page that is alone behaves as
      [Interface.ui_run] says ([lone_visitor]); the visitors share the
      one record, the one model conversation and the one reply
      ([children_swapped], [sentences_shared], [second_page_behind],
      [reply_shown_to_all]).
    - Journey: a push that is accepted, the statements of the thread up
      to the query that finds the reply (after fewer than 120 queries
      that found nothing or raised), and a check put the rendered reply
      on the page and leave the identifier stored, the reply stored and
      the flag low ([reply_reaches_page]); after 120 such queries the
      thread has returned with the flag low and a check shows the line
      that monitoring stopped ([timeout_reaches_page]); without the
      lookup store nothing watches ([journey_unwatched]).
    - Polling: the loop stops after [max_polls] = 120 attempts at the
      latest ([poll_for_response_count], [poll_for_response_timeout]),
      stores the first row that renders ([poll_for_response_found]), and
      lowers the flag when it returns ([poll_for_response_deactivates]);
      a row that does not render is stored but keeps the loop running
      ([poll_for_response_malformed]).  The statement-by-statement thread
      computes the same result ([thread_run_poll_for_response]).
    - Concurrency: in every reachable system at most one thread may write
      [polling_active], and exactly one while it is raised
      ([single_poller], [flag_low_no_owner]); every thread returns, in
      whatever order the steps are taken ([monitoring_ends]); a run that
      pushes once, with the store configured and a truthy identifier,
      follows the machine of the specification ([run_refines_spec]);
      every run follows [code_edge] ([run_follows_code]), whose four
      extra edges are each taken by a run ([orphan_edge_taken],
      [unwatched_edge_taken], [resubmit_edge_taken]).
    - Atomic: taking a push as one step loses nothing: every statement
      of the main flow or of a thread is none or one step of
      [Concurrency] ([fine_step_linearized]), the push takes effect at
      its last statement, and the states between two calls are the
      reachable states of [Concurrency] whatever the threads did in the
      middle of the calls ([push_atomic]); at most one thread may write
      [polling_active] also between two statements of a push
      ([fine_single_poller]).  A check that no thread interrupts reports
      the phase of the submission ([check_alone_reports]); one that a
      thread interrupts may report a phase the submission was never in
      ([check_reports_timeout_on_reply]: the time limit, with the reply
      stored), each report being what one attribute held when it was
      read ([fine_step_reports]).
    - Session, Conversation, Report, Handlers: the gate and what it
      stores ([complete_onboarding_age], [complete_onboarding_rejected]),
      the observations joined in order ([observations_join]), the
      attachments counted ([add_message_media_count]), the generator
      against its closed form ([bot_take_bot_response]), the fallback of
      the report ([generate_report_fallback]), the status line of each
      phase ([check_for_response_phase]).

    ** Bounds and fuel

    [poll_loop] recurses on a fuel; [poll_for_response] runs it with fuel
    [max_polls].  [poll_loop_fuel] shows that any fuel of at least
    [max_polls - poll_count] gives the same result, so the fuel never
    cuts the loop short.  A thread alone returns within
    [5 * max_polls + 2] statements ([thread_run_poll_for_response]); in
    an interleaving, within [thread_measure thread_start]
    = [6 * max_polls + 8] of its own statements ([thread_returns]).
    [time.sleep(5)] only passes time: the seconds slept are
    [poll_interval] times the counter ([slept]), ten minutes at most in
    every reachable system ([reachable_slept],
    [poll_for_response_time]).

    A chain of [Chain] has [chain_steps] steps left: the yields of the
    generator (one for each character of the reply), the resumption that
    ends it and the unlocking; the generator of a report has four
    resumptions.  [chain_ends] runs exactly that many.  The number of
    yields of [bot_response] is known when the generator is first
    resumed, not before (the reply depends on the record then), so the
    measure of [chain_steps_end] is the pair [rank]: the generators not
    yet resumed, then the steps the others have left, in lexicographic
    order.

    [parse_value] of [Json] recurses on a fuel; [json_parse] runs it with
    the length of the text plus one.  A value needs one unit for each of
    its nodes ([json_size], [reads_all]) and the text of a value is at
    least as long as the value has nodes ([json_emit_length]), so the
    fuel never cuts the reading short.

    ** Modelling conventions

    - A Python [str] is a Rocq [string]: the bytes of its UTF-8
      encoding.  Iteration and slicing go by characters ([str_chars]: a
      byte that is not a continuation byte, with the continuation bytes
      after it), so a reply in Arabic or Ukrainian is streamed letter by
      letter; on ASCII text a character is a byte ([str_chars_ascii]).
      Case mapping is the ASCII one: [lower], [upper] and [title] leave a
      letter outside [A-Za-z] as it is.  This is exact for the texts the
      program maps (its keywords, the file extensions, the three choices
      of the gender field) and for every text without cased letters
      outside ASCII.
    - A Python [int] is a [Z]; the age typed into the form is a rational;
      a JSON number with a fraction is outside the model.
    - A handler is a function from the state before the call (and the
      outcome of each external call it makes) to the state after it and
      the value it returns.  A call that may raise returns a [result].
    - The outcome of an external call (language model, HTTP, lookup
      store, wall clock, writing a file) is an argument of the function
      that makes it, so a theorem quantifies over every behaviour of the
      outside.
    - The chat history is passed by value: the interface hands each
      handler its own copy, so the list stored in the report is the one
      [add_message] built.
    - In [Concurrency] a handler call is one step, and starting a thread
      does not fail.  The statements of the threads interleave freely
      with the handler calls and with each other.  [Atomic] justifies the
      one step for the push and shows what it hides for the check.  The
      main flow makes one call at a time: two handler calls of two
      visitors running side by side are outside the model.
    - In [Interface] these behaviours of the platform are taken from its
      documentation: a component that is not on screen receives no event,
      and a text box that is not interactive takes no edit and no
      submission; a number field with bounds and a drop-down refuse a
      value outside the bounds or the choices before the handler is
      called; an event chained with [then] runs when the one before it
      has ended, on the values the page has then; every load of the page
      starts from the values of the constructors, while [app] is one
      object for the process, and the chains of the page it replaces are
      not followed.
    - The chain of a submitted message is taken one step at a time: the
      call of [add_message], each resumption of the generator of
      [bot_response], the unlocking.  The steps of the chains, the other
      actions and the statements of the threads interleave freely; the
      platform runs the calls of one event one after the other, so it
      allows some of these orders only, and what holds of all of them
      holds of those.  The generator of
      [generate_report_with_progress] is taken one resumption at a time
      in the same way; the call of [generate_comprehensive_report] inside
      its second resumption is one step.  Its [except] branch is not
      reached: [generate_comprehensive_report] catches what the model and
      the validation raise, and nothing else in it raises on the values
      of the model.
    - A turn of [conversation_history] is written to the data file with
      the keys [role] and [content], the two the code gives it.

    ** What is not modelled

    What a browser draws: the style sheet is modelled as text and as
    data, not its effect on the page, and the arguments that size or
    colour a component and the selected tab are left out.  The imports
    and [load_dotenv] at the head of the module, the text of an exception
    of a library in a printed line ([Log.Caught] holds the words before
    it), and the start of the server by [demo.launch] (its arguments are
    [Visitors.launch]).  The clients of the language model, of HTTP and
    of the lookup store: their outcomes are inputs.
    [RiskAssessment.model_validate_json] is an input as well: its
    conversions are those of a library; the shape of the class
    ([assessment_ty]) and what the program needs of the validation
    ([Validate.Validator]) are modelled.  The text of the HTTP request body,
    which the HTTP library encodes.  Whether the two files of
    [save_report_with_data] can be written (the oracle [written]); what
    is written is modelled.
*)

From stdpp Require Export prelude strings pretty.
From Stdlib Require Export Ascii.

(** ** The scope of the development's notations *)

Declare Scope py_scope.
Delimit Scope py_scope with py.

(** [guard c else r ;; k] is the code's early return: [if not c: return r],
    then the rest [k] of the body. *)
Notation "'guard' c 'else' r ;; k" := (if c then k else r)
  (at level 10, c at level 99, r at level 99, k at level 200,
   only parsing) : py_scope.

(** ** Python truthiness

    [truthy x] is [bool(x)]: what [if x], [not x] and [all([...])] test. *)

Class Truthy (A : Type) := truthy : A → bool.
Global Hint Mode Truthy ! : typeclass_instances.
Global Arguments truthy {_ _} !_ / : assert.

Global Instance bool_truthy : Truthy bool := λ b, b.
Global Instance string_truthy : Truthy string :=
  λ s, match s with EmptyString => false | String _ _ => true end.
Global Instance Z_truthy : Truthy Z := λ z, negb (z =? 0)%Z.
Global Instance nat_truthy : Truthy nat := λ n, negb (n =? 0).
Global Instance N_truthy : Truthy N := λ n, negb (n =? 0)%N.
Global Instance list_truthy {A} : Truthy (list A) :=
  λ l, match l with [] => false | _ :: _ => true end.
Global Instance option_truthy `{Truthy A} : Truthy (option A) :=
  λ o, match o with None => false | Some x => truthy x end.

(** [all(xs)] on the truth values of the elements. *)
Definition py_all (bs : list bool) : bool := forallb id bs.

(** ** Calls that may raise

    The exception classes the modelled code can raise and catch.  The
    [requests] classes keep the inheritance the [except] clauses rely on
    when the submission component declares them. *)

Inductive exn : Type :=
| KeyError (key : string)
| TypeError
| AttributeError
| ValueError.

Global Instance exn_eq_dec : EqDecision exn.
Proof. solve_decision. Defined.

Inductive result (A : Type) : Type :=
| Ok (a : A)
| Raise (e : exn).
Global Arguments Ok {_} _.
Global Arguments Raise {_} _.

Global Instance result_eq_dec `{EqDecision A} : EqDecision (result A).
Proof. solve_decision. Defined.

Global Instance result_ret : MRet result := λ _ x, Ok x.
Global Instance result_bind : MBind result := λ _ _ f m,
  match m with Ok x => f x | Raise e => Raise e end.
Global Instance result_fmap : FMap result := λ _ _ f m,
  match m with Ok x => Ok (f x) | Raise e => Raise e end.

(** [is_ok m]: the call returned. *)
Definition is_ok {A} (m : result A) : bool :=
  match m with Ok _ => true | Raise _ => false end.

(** [try m except Exception: h]: the handler's value replaces a raise. *)
Definition try_except {A} (m : result A) (h : exn → A) : A :=
  match m with Ok x => x | Raise e => h e end.

(** ** Automation *)

Create HintDb py discriminated.
Create Rewrite HintDb py.

(** Case analysis on the condition of the first [if] of the goal. *)
Ltac case_cond :=
  match goal with
  | |- context [if ?c then _ else _] => destruct c eqn:?
  end.

(** Turn the boolean facts of the context into propositions. *)
Ltac bool_hyps :=
  repeat match goal with
  | H : _ && _ = true |- _ => apply andb_true_iff in H as [? ?]
  | H : _ || _ = false |- _ => apply orb_false_iff in H as [? ?]
  | H : negb _ = true |- _ => apply negb_true_iff in H
  | H : negb _ = false |- _ => apply negb_false_iff in H
  | H : bool_decide _ = true |- _ => apply bool_decide_eq_true in H
  | H : bool_decide _ = false |- _ => apply bool_decide_eq_false in H
  end.

(** ** Lemmas on truthiness and results *)

Lemma truthy_string_length (s : string) :
  truthy s = negb (String.length s =? 0).
Proof. by destruct s. Qed.

Lemma truthy_list_length {A} (l : list A) :
  truthy l = negb (length l =? 0).
Proof. by destruct l. Qed.

Lemma truthy_list_snoc {A} (l : list A) (x : A) : truthy (l ++ [x]) = true.
Proof. by destruct l. Qed.

Lemma truthy_list_app {A} (l k : list A) :
  truthy (l ++ k) = truthy l || truthy k.
Proof. by destruct l. Qed.

Lemma truthy_string_app (s t : string) :
  truthy (s +:+ t) = truthy s || truthy t.
Proof. by destruct s. Qed.

Lemma py_all_true (bs : list bool) :
  py_all bs = true ↔ Forall (λ b, b = true) bs.
Proof.
  unfold py_all. rewrite forallb_forall, Forall_forall.
  by setoid_rewrite list_elem_of_In.
Qed.

Lemma py_all_cons (b : bool) (bs : list bool) :
  py_all (b :: bs) = b && py_all bs.
Proof. done. Qed.

Lemma result_bind_ok {A B} (f : A → result B) (m : result A) (y : B) :
  m ≫= f = Ok y ↔ ∃ x, m = Ok x ∧ f x = Ok y.
Proof.
  destruct m; simpl; split; try by intros (? & [=] & ?).
  - eauto.
  - by intros (? & [= <-] & ?).
  - done.
Qed.

Lemma try_except_ok {A} (x : A) (h : exn → A) : try_except (Ok x) h = x.
Proof. done. Qed.

Lemma try_except_total {A} (m : result A) (h : exn → A) :
  ∃ x, try_except m h = x ∧ (m = Ok x ∨ ∃ e, m = Raise e ∧ x = h e).
Proof. destruct m; naive_solver. Qed.

#[export] Hint Rewrite @truthy_list_snoc @truthy_list_app truthy_string_app
  @try_except_ok : py.
#[export] Hint Resolve truthy_list_snoc : py.

(** ** Lemmas on lists the components share *)

Lemma last_snoc_Some {A} (l : list A) (x : A) : last (l ++ [x]) = Some x.
Proof. by rewrite last_snoc. Qed.

Lemma length_snoc {A} (l : list A) (x : A) : length (l ++ [x]) = S (length l).
Proof. rewrite length_app. simpl. lia. Qed.

Lemma prefix_snoc {A} (l : list A) (x : A) : l `prefix_of` l ++ [x].
Proof. by apply prefix_app_r. Qed.

#[export] Hint Rewrite @last_snoc_Some @length_snoc : py.
#[export] Hint Resolve prefix_snoc : py.

(** ** Counting the elements that satisfy a test *)

Lemma filter_length_cons {A} (P : A → bool) (a : A) (l : list A) :
  length (filter (λ x, P x) (a :: l))
  = Nat.b2n (P a) + length (filter (λ x, P x) l).
Proof. rewrite filter_cons. by destruct (P a). Qed.

Lemma filter_length_app {A} (P : A → bool) (l k : list A) :
  length (filter (λ x, P x) (l ++ k))
  = length (filter (λ x, P x) l) + length (filter (λ x, P x) k).
Proof. by rewrite filter_app, length_app. Qed.

(** Replacing an element moves the count by the difference of the two
    tests. *)
Lemma filter_length_insert {A} (P : A → bool) (l : list A) (i : nat) (x y : A) :
  l !! i = Some x →
  length (filter (λ a, P a) (<[i := y]> l)) + Nat.b2n (P x)
  = length (filter (λ a, P a) l) + Nat.b2n (P y).
Proof.
  revert i. induction l as [|a l IH]; intros [|i] Hi; simplify_eq/=.
  - rewrite !filter_length_cons. lia.
  - rewrite !filter_length_cons. specialize (IH i Hi). lia.
Qed.

(** Removing an element takes its test from the count. *)
Lemma filter_length_delete {A} (P : A → bool) (l : list A) (i : nat) (x : A) :
  l !! i = Some x →
  length (filter (λ a, P a) (delete i l)) + Nat.b2n (P x)
  = length (filter (λ a, P a) l).
Proof.
  revert i. induction l as [|a l IH]; intros [|i] Hi; simplify_eq/=.
  - rewrite filter_length_cons. lia.
  - rewrite !filter_length_cons. specialize (IH i Hi). lia.
Qed.

Lemma filter_length_lookup {A} (P : A → bool) (l : list A) (i : nat) (x : A) :
  l !! i = Some x → Nat.b2n (P x) ≤ length (filter (λ a, P a) l).
Proof.
  revert i. induction l as [|a l IH]; intros [|i] Hi; simplify_eq/=;
    rewrite filter_length_cons; [lia|]. specialize (IH i Hi). lia.
Qed.

(** When at most one element passes the test, two positions that pass it
    are the same position. *)
Lemma filter_length_unique {A} (P : A → bool) (l : list A) (i j : nat) (x y : A) :
  length (filter (λ a, P a) l) ≤ 1 →
  l !! i = Some x → l !! j = Some y → P x = true → P y = true → i = j.
Proof.
  revert i j. induction l as [|a l IH]; intros i j Hlen Hi Hj Hx Hy; [done|].
  rewrite filter_length_cons in Hlen.
  destruct i as [|i], j as [|j]; simplify_eq/=; [done|..].
  - pose proof (filter_length_lookup P l j y Hj). rewrite Hx, Hy in *. simpl in *. lia.
  - pose proof (filter_length_lookup P l i x Hi). rewrite Hx, Hy in *. simpl in *. lia.
  - f_equal. apply IH; [lia|done..].
Qed.

Lemma filter_length_none {A} (P : A → bool) (l : list A) :
  Forall (λ a, P a = false) l → length (filter (λ a, P a) l) = 0.
Proof.
  induction 1 as [|a l Ha _ IH]; [done|]. by rewrite filter_length_cons, Ha, IH.
Qed.
