(* ===== verification/PyStr.v ===== *)
(** * PyStr: the string methods the program calls

    [str.lower], [str.upper], [str.title], [x in s], [s.endswith(...)],
    [s[:n]], [s.replace(old, new)], [sep.join(xs)] and [str(n)], as
    structural functions on byte strings, and the specification each one
    meets (a decomposition of the string by [+:+]).

    A string of Python is a sequence of code points; the string that
    models it is its UTF-8 encoding.  A character is a byte that is not a
    continuation byte followed by the continuation bytes after it
    ([str_chars]); slicing and iteration go by characters.  Searching for
    a substring, a suffix or a replacement goes by bytes, which finds the
    same places in UTF-8.  Case mapping is the ASCII one: a byte outside
    [A-Za-z] is left as it is. *)

From S2P Require Import Spec2Rocq.

(** Inside this file [simpl] may unfold an append on a constructor. *)
Local Arguments String.append !_ _ / : simpl nomatch.

(** ** Characters *)

Definition is_ascii_upper (a : ascii) : bool :=
  let n := N_of_ascii a in (65 <=? n)%N && (n <=? 90)%N.

Definition is_ascii_lower (a : ascii) : bool :=
  let n := N_of_ascii a in (97 <=? n)%N && (n <=? 122)%N.

Definition is_cased (a : ascii) : bool := is_ascii_upper a || is_ascii_lower a.

Definition ascii_lower (a : ascii) : ascii :=
  if is_ascii_upper a then ascii_of_N (N_of_ascii a + 32) else a.

Definition ascii_upper (a : ascii) : ascii :=
  if is_ascii_lower a then ascii_of_N (N_of_ascii a - 32) else a.

(** A byte [10xxxxxx]: it continues the character the byte before it
    belongs to. *)
Definition is_continuation (a : ascii) : bool :=
  let n := N_of_ascii a in (128 <=? n)%N && (n <? 192)%N.

(** A byte of the ASCII range: a character of its own. *)
Definition is_ascii (a : ascii) : bool := (N_of_ascii a <? 128)%N.

(** ** Strings *)

Fixpoint str_map (f : ascii → ascii) (s : string) : string :=
  match s with
  | EmptyString => EmptyString
  | String a s' => String (f a) (str_map f s')
  end.

(** [s.lower()] and [s.upper()]. *)
Definition str_lower : string → string := str_map ascii_lower.
Definition str_upper : string → string := str_map ascii_upper.

(** [s.title()]: a cased character is upper-cased after an uncased one (or
    at the start) and lower-cased after a cased one. *)
Fixpoint title_go (prev_cased : bool) (s : string) : string :=
  match s with
  | EmptyString => EmptyString
  | String a s' =>
      String (if prev_cased then ascii_lower a else ascii_upper a)
             (title_go (is_cased a) s')
  end.
Definition str_title : string → string := title_go false.

(** [s.startswith(p)]. *)
Fixpoint str_startswith (s p : string) {struct p} : bool :=
  match p, s with
  | EmptyString, _ => true
  | String b p', String a s' => Ascii.eqb a b && str_startswith s' p'
  | String _ _, EmptyString => false
  end.

(** [needle in hay]: some suffix of [hay] starts with [needle]. *)
Fixpoint str_in (needle hay : string) : bool :=
  str_startswith hay needle ||
  match hay with
  | EmptyString => false
  | String _ hay' => str_in needle hay'
  end.

(** [s.endswith(suf)]: some suffix of [s] is [suf]. *)
Fixpoint str_endswith (s suf : string) : bool :=
  String.eqb s suf ||
  match s with
  | EmptyString => false
  | String _ s' => str_endswith s' suf
  end.

(** [s.endswith((suf1, ..., sufn))]. *)
Definition str_endswith_any (s : string) (sufs : list string) : bool :=
  existsb (str_endswith s) sufs.

(** [any(k in s for k in ks)]. *)
Definition str_in_any (ks : list string) (s : string) : bool :=
  existsb (λ k, str_in k s) ks.

(** The first byte of [s] is a continuation byte. *)
Definition continues (s : string) : bool :=
  match s with
  | String a _ => is_continuation a
  | EmptyString => false
  end.

(** The characters of a string, each as its bytes: what [for c in s]
    goes through. *)
Fixpoint str_chars (s : string) : list string :=
  match s with
  | EmptyString => []
  | String a s' =>
      match str_chars s' with
      | c :: cs =>
          if continues c then String a c :: cs else String a "" :: c :: cs
      | [] => [String a ""]
      end
  end.

Definition str_concat (xs : list string) : string := foldr String.append "" xs.

(** [len(s)]. *)
Definition str_len (s : string) : nat := length (str_chars s).

(** [s[:n]] for [0 <= n]. *)
Definition str_take (n : nat) (s : string) : string :=
  str_concat (take n (str_chars s)).

(** Every byte of [s] is of the ASCII range. *)
Fixpoint str_is_ascii (s : string) : bool :=
  match s with
  | EmptyString => true
  | String a s' => is_ascii a && str_is_ascii s'
  end.

(** [s.replace(old, new)].  The scan is left to right and does not look
    inside a replacement; [skip] counts the characters of a match still
    to pass over.  An empty [old] matches between any two characters and
    at both ends. *)
Fixpoint replace_go (old new : string) (skip : nat) (s : string) : string :=
  match s with
  | EmptyString => EmptyString
  | String a s' =>
      match skip with
      | S k => replace_go old new k s'
      | O =>
          if str_startswith s old
          then new +:+ replace_go old new (String.length old - 1) s'
          else String a (replace_go old new 0 s')
      end
  end.

Fixpoint interleave (new s : string) : string :=
  match s with
  | EmptyString => EmptyString
  | String a s' => String a (new +:+ interleave new s')
  end.

Definition str_replace (old new s : string) : string :=
  match old with
  | EmptyString => new +:+ interleave new s
  | String _ _ => replace_go old new 0 s
  end.

(** [sep.join(xs)]. *)
Definition str_join (sep : string) (xs : list string) : string :=
  String.concat sep xs.

(** [str(n)] for an [int]. *)
Definition str_of_int (z : Z) : string := pretty z.

(** Replacing one character: every occurrence becomes [new], the others
    stay. *)
Fixpoint subst_char (c : ascii) (new : string) (s : string) : string :=
  match s with
  | EmptyString => EmptyString
  | String a s' =>
      (if Ascii.eqb a c then new else String a "") +:+ subst_char c new s'
  end.

(** ** Append *)

Lemma str_app_nil_r (s : string) : s +:+ "" = s.
Proof. induction s; simpl; by f_equal. Qed.

Lemma str_app_assoc (s t u : string) : (s +:+ t) +:+ u = s +:+ (t +:+ u).
Proof. induction s; simpl; by f_equal. Qed.

Lemma str_app_cons (a : ascii) (s t : string) :
  String a s +:+ t = String a (s +:+ t).
Proof. done. Qed.

Lemma str_length_app (s t : string) :
  String.length (s +:+ t) = String.length s + String.length t.
Proof. induction s; simpl; by f_equal. Qed.

Lemma str_app_eq_nil (s t : string) : s +:+ t = "" ↔ s = "" ∧ t = "".
Proof. destruct s; simpl; naive_solver. Qed.

#[export] Hint Rewrite str_app_nil_r str_app_assoc str_length_app : py.

(** ** Case mapping *)

(** Every fact about one character is decided by running through the 256
    of them. *)
Ltac all_ascii a := destruct a as [[] [] [] [] [] [] [] []]; vm_compute; reflexivity.

Lemma ascii_lower_idemp (a : ascii) : ascii_lower (ascii_lower a) = ascii_lower a.
Proof. all_ascii a. Qed.

Lemma ascii_upper_idemp (a : ascii) : ascii_upper (ascii_upper a) = ascii_upper a.
Proof. all_ascii a. Qed.

Lemma ascii_lower_upper (a : ascii) : ascii_lower (ascii_upper a) = ascii_lower a.
Proof. all_ascii a. Qed.

Lemma ascii_upper_lower (a : ascii) : ascii_upper (ascii_lower a) = ascii_upper a.
Proof. all_ascii a. Qed.

Lemma is_cased_lower (a : ascii) : is_cased (ascii_lower a) = is_cased a.
Proof. all_ascii a. Qed.

Lemma is_cased_upper (a : ascii) : is_cased (ascii_upper a) = is_cased a.
Proof. all_ascii a. Qed.

Lemma ascii_lower_not_upper (a : ascii) : is_ascii_upper (ascii_lower a) = false.
Proof. all_ascii a. Qed.

Lemma ascii_lower_fixed (a : ascii) :
  is_ascii_upper a = false → ascii_lower a = a.
Proof. unfold ascii_lower. by intros ->. Qed.

Section str_map.
Context (f g : ascii → ascii).

Lemma str_map_length (s : string) : String.length (str_map f s) = String.length s.
Proof. induction s; simpl; by f_equal. Qed.

Lemma str_map_app (s t : string) : str_map f (s +:+ t) = str_map f s +:+ str_map f t.
Proof. induction s; simpl; by f_equal. Qed.

Lemma str_map_compose (s : string) :
  str_map f (str_map g s) = str_map (f ∘ g) s.
Proof. induction s; simpl; by f_equal. Qed.

Lemma str_map_ext (s : string) : (∀ a, f a = g a) → str_map f s = str_map g s.
Proof. intros Hfg. induction s; simpl; by f_equal. Qed.

Lemma str_map_nil_inv (s : string) : str_map f s = "" ↔ s = "".
Proof. by destruct s. Qed.

End str_map.

Lemma str_lower_idemp (s : string) : str_lower (str_lower s) = str_lower s.
Proof.
  unfold str_lower. rewrite str_map_compose.
  apply str_map_ext, ascii_lower_idemp.
Qed.

Lemma str_lower_upper (s : string) : str_lower (str_upper s) = str_lower s.
Proof.
  unfold str_lower, str_upper. rewrite str_map_compose.
  apply str_map_ext, ascii_lower_upper.
Qed.

Lemma str_lower_app (s t : string) :
  str_lower (s +:+ t) = str_lower s +:+ str_lower t.
Proof. apply str_map_app. Qed.

Lemma str_lower_length (s : string) :
  String.length (str_lower s) = String.length s.
Proof. apply str_map_length. Qed.

Lemma truthy_str_lower (s : string) : truthy (str_lower s) = truthy s.
Proof. by destruct s. Qed.

Lemma title_go_length (b : bool) (s : string) :
  String.length (title_go b s) = String.length s.
Proof. revert b. induction s; intros b; simpl; by f_equal. Qed.

Lemma title_go_idemp (b : bool) (s : string) :
  title_go b (title_go b s) = title_go b s.
Proof.
  revert b. induction s as [|a s IH]; intros b; [done|]. simpl.
  destruct b; rewrite ?is_cased_lower, ?is_cased_upper, IH; f_equal;
    auto using ascii_lower_idemp, ascii_upper_idemp.
Qed.

#[export] Hint Rewrite str_lower_idemp str_lower_app str_lower_length
  truthy_str_lower title_go_length : py.

(** ** Prefixes, suffixes and substrings *)

Lemma str_startswith_spec (s p : string) :
  str_startswith s p = true ↔ ∃ t, s = p +:+ t.
Proof.
  revert s. induction p as [|b p IH]; intros s; simpl.
  { split; [by exists s | done]. }
  destruct s as [|a s]; simpl.
  { split; [done|]. by intros [? ?]. }
  rewrite andb_true_iff, Ascii.eqb_eq, IH. split.
  - intros [-> [t ->]]. by exists t.
  - intros [t [= -> ->]]. eauto.
Qed.

Lemma str_startswith_app (p t : string) : str_startswith (p +:+ t) p = true.
Proof. apply str_startswith_spec. eauto. Qed.

Lemma str_startswith_refl (s : string) : str_startswith s s = true.
Proof. apply str_startswith_spec. exists "". by rewrite str_app_nil_r. Qed.

Lemma str_in_spec (needle hay : string) :
  str_in needle hay = true ↔ ∃ a b, hay = a +:+ needle +:+ b.
Proof.
  induction hay as [|c hay IH]; simpl.
  - rewrite orb_false_r, str_startswith_spec. split.
    + intros [t ->]. by exists "", t.
    + intros ([|??] & b & Heq); [eauto | done].
  - rewrite orb_true_iff, IH, str_startswith_spec. split.
    + intros [[t ->] | (a & b & ->)]; [by exists "", t | by exists (String c a), b].
    + intros ([|c' a] & b & Heq); simpl in Heq; [eauto | right].
      injection Heq as -> ->. eauto.
Qed.

Lemma str_in_app (needle a b : string) : str_in needle (a +:+ needle +:+ b) = true.
Proof. apply str_in_spec. eauto. Qed.

Lemma str_in_app_l (x a b : string) : str_in x a = true → str_in x (a +:+ b) = true.
Proof.
  rewrite !str_in_spec. intros (p & q & ->). exists p, (q +:+ b).
  by rewrite !str_app_assoc.
Qed.

Lemma str_in_app_r (x a b : string) : str_in x b = true → str_in x (a +:+ b) = true.
Proof.
  rewrite !str_in_spec. intros (p & q & ->). exists (a +:+ p), q.
  by rewrite !str_app_assoc.
Qed.

Lemma str_in_refl (s : string) : str_in s s = true.
Proof. apply str_in_spec. exists "", "". by rewrite str_app_nil_r. Qed.

Lemma str_in_empty (hay : string) : str_in "" hay = true.
Proof. by destruct hay. Qed.

Lemma str_in_trans (s t u : string) :
  str_in s t = true → str_in t u = true → str_in s u = true.
Proof.
  rewrite !str_in_spec. intros (a & b & ->) (c & d & ->).
  exists (c +:+ a), (b +:+ d). by rewrite !str_app_assoc.
Qed.

Lemma str_in_length (needle hay : string) :
  str_in needle hay = true → String.length needle ≤ String.length hay.
Proof.
  rewrite str_in_spec. intros (a & b & ->). rewrite !str_length_app. lia.
Qed.

Lemma str_endswith_spec (s suf : string) :
  str_endswith s suf = true ↔ ∃ p, s = p +:+ suf.
Proof.
  induction s as [|c s IH]; cbn [str_endswith].
  - rewrite orb_false_r, String.eqb_eq. split.
    + intros <-. by exists "".
    + intros (p & Heq). symmetry in Heq. apply str_app_eq_nil in Heq. naive_solver.
  - rewrite orb_true_iff, IH, String.eqb_eq. split.
    + intros [<- | (p & ->)]; [by exists "" | by exists (String c p)].
    + intros ([|c' p] & Heq); simpl in Heq; [eauto | right].
      injection Heq as -> ->. eauto.
Qed.

Lemma str_endswith_app (p suf : string) : str_endswith (p +:+ suf) suf = true.
Proof. apply str_endswith_spec. eauto. Qed.

Lemma str_endswith_in (s suf : string) :
  str_endswith s suf = true → str_in suf s = true.
Proof.
  rewrite str_endswith_spec, str_in_spec. intros (p & ->).
  exists p, "". by rewrite str_app_nil_r.
Qed.

Lemma str_endswith_any_spec (s : string) (sufs : list string) :
  str_endswith_any s sufs = true ↔ ∃ suf p, suf ∈ sufs ∧ s = p +:+ suf.
Proof.
  unfold str_endswith_any. rewrite existsb_exists.
  setoid_rewrite str_endswith_spec. setoid_rewrite list_elem_of_In. naive_solver.
Qed.

(** any(keyword in s for keyword in keywords) is true exactly when some
    keyword of the list occurs in s. *)
Lemma str_in_any_spec (ks : list string) (s : string) :
  str_in_any ks s = true ↔ ∃ k, k ∈ ks ∧ str_in k s = true.
Proof.
  unfold str_in_any. rewrite existsb_exists.
  by setoid_rewrite list_elem_of_In.
Qed.

#[export] Hint Rewrite str_startswith_app str_startswith_refl str_in_app
  str_in_refl str_in_empty str_endswith_app : py.

(** ** Slices *)

Lemma str_concat_app (xs ys : list string) :
  str_concat (xs ++ ys) = str_concat xs +:+ str_concat ys.
Proof.
  induction xs as [|x xs IH]; simpl; [done|]. by rewrite IH, str_app_assoc.
Qed.

(** The characters of a string, put together, are the string. *)
Lemma str_chars_concat (s : string) : str_concat (str_chars s) = s.
Proof.
  induction s as [|a s IH]; [done|]. cbn [str_chars].
  destruct (str_chars s) as [|c cs]; simpl in *; [by subst|].
  destruct (continues c); simpl; by rewrite IH.
Qed.

Lemma str_chars_nil (s : string) : str_chars s = [] ↔ s = "".
Proof.
  split; [|by intros ->]. destruct s as [|a s]; [done|]. cbn [str_chars].
  destruct (str_chars s) as [|c cs]; [done|]. by destruct (continues c).
Qed.

(** No character is empty, and none but the first starts with a
    continuation byte. *)
Lemma str_chars_nonempty (s : string) : Forall (λ c, truthy c = true) (str_chars s).
Proof.
  induction s as [|a s IH]; [done|]. cbn [str_chars].
  destruct (str_chars s) as [|c cs]; [by repeat constructor|].
  apply Forall_cons in IH as [Hc Hcs].
  destruct (continues c); by repeat constructor.
Qed.

Lemma str_chars_starts (s : string) :
  Forall (λ c, continues c = false) (tail (str_chars s)).
Proof.
  induction s as [|a s IH]; [done|]. cbn [str_chars].
  destruct (str_chars s) as [|c cs]; [done|].
  destruct (continues c) eqn:E; [done|]. by constructor.
Qed.

Lemma str_len_le (s : string) : str_len s ≤ String.length s.
Proof.
  unfold str_len. induction s as [|a s IH]; [done|]. cbn [str_chars].
  destruct (str_chars s) as [|c cs]; simpl in *; [lia|].
  destruct (continues c); simpl; lia.
Qed.

(** On ASCII text a character is a byte. *)
Lemma str_chars_ascii (s : string) :
  str_is_ascii s = true →
  str_chars s = (λ a, String a "") <$> String.list_ascii_of_string s.
Proof.
  induction s as [|a s IH]; [done|]. simpl. intros H. bool_hyps.
  rewrite IH by done. destruct s as [|b s]; [done|]. simpl in *. bool_hyps.
  assert (is_continuation b = false) as ->; [|done].
  unfold is_continuation, is_ascii in *. apply andb_false_iff. left.
  apply N.leb_gt. by apply N.ltb_lt.
Qed.

Lemma str_len_ascii (s : string) : str_is_ascii s = true → str_len s = String.length s.
Proof.
  intros H. unfold str_len. rewrite str_chars_ascii, length_fmap by done.
  clear H. induction s; simpl; by f_equal.
Qed.

Lemma str_take_ascii (n : nat) (s : string) :
  str_is_ascii s = true → str_take n s = String.substring 0 n s.
Proof.
  intros H. unfold str_take. rewrite str_chars_ascii by done. clear H.
  revert n. induction s as [|a s IH]; intros [|n]; simpl; try done.
  by rewrite IH.
Qed.

Lemma str_take_length (n : nat) (s : string) :
  String.length (str_take n s) ≤ String.length s.
Proof.
  rewrite <- (str_chars_concat s) at 2. unfold str_take.
  rewrite <- (take_drop n (str_chars s)) at 2.
  rewrite str_concat_app, str_length_app. lia.
Qed.

Lemma str_take_prefix (n : nat) (s : string) : ∃ t, s = str_take n s +:+ t.
Proof.
  exists (str_concat (drop n (str_chars s))). unfold str_take.
  by rewrite <- str_concat_app, take_drop, str_chars_concat.
Qed.

(** A slice as long as the string, in characters or in bytes, is the
    string. *)
Lemma str_take_len (n : nat) (s : string) : str_len s ≤ n → str_take n s = s.
Proof.
  intros Hn. unfold str_take. by rewrite take_ge, str_chars_concat.
Qed.

Lemma str_take_all (n : nat) (s : string) :
  String.length s ≤ n → str_take n s = s.
Proof. intros Hn. apply str_take_len. pose proof (str_len_le s). lia. Qed.

(** ** Replace *)

Lemma str_replace_char (c : ascii) (new s : string) :
  str_replace (String c "") new s = subst_char c new s.
Proof.
  unfold str_replace. induction s as [|a s IH]; simpl; [done|].
  rewrite andb_true_r. destruct (Ascii.eqb a c); simpl; by rewrite IH.
Qed.

Lemma subst_char_map (c d : ascii) (s : string) :
  subst_char c (String d "") s = str_map (λ a, if Ascii.eqb a c then d else a) s.
Proof. induction s as [|a s IH]; simpl; [done|]. destruct (Ascii.eqb a c); simpl; by f_equal. Qed.

Lemma str_replace_char_length (c d : ascii) (s : string) :
  String.length (str_replace (String c "") (String d "") s) = String.length s.
Proof. by rewrite str_replace_char, subst_char_map, str_map_length. Qed.

Lemma str_replace_absent (c : ascii) (new s : string) :
  str_in (String c "") s = false → str_replace (String c "") new s = s.
Proof.
  rewrite str_replace_char. induction s as [|a s IH]; simpl; [done|].
  rewrite andb_true_r. destruct (Ascii.eqb a c); simpl; [done|].
  intros. f_equal. auto.
Qed.

(** ** Join *)

Lemma str_join_nil (sep : string) : str_join sep [] = "".
Proof. done. Qed.

Lemma str_join_singleton (sep x : string) : str_join sep [x] = x.
Proof. done. Qed.

Lemma str_join_cons (sep x y : string) (xs : list string) :
  str_join sep (x :: y :: xs) = x +:+ sep +:+ str_join sep (y :: xs).
Proof. done. Qed.

Lemma str_join_snoc (sep x : string) (xs : list string) :
  xs ≠ [] → str_join sep (xs ++ [x]) = str_join sep xs +:+ sep +:+ x.
Proof.
  induction xs as [|y [|z xs] IH]; intros Hne; [done..|].
  change (str_join sep ((y :: z :: xs) ++ [x]))
    with (y +:+ sep +:+ str_join sep ((z :: xs) ++ [x])).
  rewrite IH by done. by rewrite str_join_cons, !str_app_assoc.
Qed.

Lemma truthy_str_join_cons (sep x : string) (xs : list string) :
  truthy x = true → truthy (str_join sep (x :: xs)) = true.
Proof.
  intros Hx. destruct xs; [done|].
  by rewrite str_join_cons, truthy_string_app, Hx.
Qed.

Lemma str_join_in (sep : string) (xs : list string) (x : string) :
  x ∈ xs → str_in x (str_join sep xs) = true.
Proof.
  induction xs as [|y [|z xs] IH]; intros Hx; [by inv Hx| |].
  - apply list_elem_of_singleton in Hx as ->. simpl. apply str_in_refl.
  - rewrite str_join_cons. apply elem_of_cons in Hx as [->|Hx].
    + apply (str_in_app _ "").
    + apply str_in_trans with (str_join sep (z :: xs)); [auto|].
      apply str_in_spec. exists (y +:+ sep), "".
      by rewrite str_app_nil_r, str_app_assoc.
Qed.

(** ** Decimal numerals *)

Lemma str_of_int_inj (m n : Z) : str_of_int m = str_of_int n → m = n.
Proof. apply pretty_Z_inj. Qed.

Lemma pretty_N_go_length (x : N) (s : string) :
  String.length s ≤ String.length (pretty_N_go x s).
Proof.
  revert s. induction (N.lt_wf_0 x) as [x _ IH]; intros s.
  destruct (decide (x = 0%N)) as [->|]; [by rewrite pretty_N_go_0|].
  rewrite pretty_N_go_step by lia.
  etrans; [|apply IH, N.div_lt; lia]. simpl. lia.
Qed.

Lemma pretty_N_truthy (x : N) : truthy (pretty x) = true.
Proof.
  unfold pretty, pretty_N. case_decide; [done|].
  rewrite pretty_N_go_step by lia.
  match goal with |- context [pretty_N_go ?y ?s] =>
    pose proof (pretty_N_go_length y s); destruct (pretty_N_go y s) end;
    [simpl in *; lia | done].
Qed.

Lemma str_of_int_truthy (n : Z) : truthy (str_of_int n) = true.
Proof. destruct n; [done| |done]. apply (pretty_N_truthy (N.pos _)). Qed.

(** ** The methods at the arguments the program passes *)

Example str_title_gender : str_title "prefer not to say" = "Prefer Not To Say".
Proof. reflexivity. Qed.

Example str_title_apostrophe : str_title "they're HERE" = "They'Re Here".
Proof. reflexivity. Qed.

Example str_replace_iso_date :
  str_replace "T" " " (str_take 19 "2024-05-06T07:08:09.123456+00:00")
  = "2024-05-06 07:08:09".
Proof. reflexivity. Qed.

Example str_replace_longer : str_replace "ab" "X" "cababab-abb" = "cXXX-Xb".
Proof. reflexivity. Qed.

Example str_replace_empty_old : str_replace "" "-" "abc" = "-a-b-c-".
Proof. reflexivity. Qed.

Example str_endswith_extension :
  str_endswith_any (str_lower "Scan.JPEG") [".jpg"; ".jpeg"; ".png"; ".gif"; ".bmp"]
  = true.
Proof. reflexivity. Qed.
