(* ===== verification/PyVal.v ===== *)
(** * PyVal: the dynamically typed values the program receives

    The JSON documents that enter the program (the body of the platform's
    HTTP reply, the rows of the lookup store) are Python values whose shape
    the code does not check before it uses them.  [pyval] is that value,
    with the operations the code applies to it ([v[k]], [v.get(k, d)],
    [v[:n]], [v.upper()], [str(v)], [isinstance(v, dict)], hashing as a
    dictionary key) and the exception each raises on a value of the wrong
    type.  A [dict] is an association list in insertion order; a JSON
    number with a fraction is outside the model. *)

From S2P Require Import Spec2Rocq PyStr.

Inductive pyval : Type :=
| PNone
| PBool (b : bool)
| PInt (z : Z)
| PStr (s : string)
| PList (l : list pyval)
| PDict (d : list (string * pyval)).

(** ** Induction over nested lists and dictionaries *)

Section pyval_ind.
Context (P : pyval → Prop).
Context (Hnone : P PNone) (Hbool : ∀ b, P (PBool b)) (Hint : ∀ z, P (PInt z)).
Context (Hstr : ∀ s, P (PStr s)).
Context (Hlist : ∀ l, Forall P l → P (PList l)).
Context (Hdict : ∀ d, Forall (λ kv, P kv.2) d → P (PDict d)).

Fixpoint pyval_nested_ind (v : pyval) : P v :=
  match v with
  | PNone => Hnone
  | PBool b => Hbool b
  | PInt z => Hint z
  | PStr s => Hstr s
  | PList l =>
      Hlist l ((fix go (l : list pyval) : Forall P l :=
        match l with
        | [] => Forall_nil_2 P
        | x :: l' => Forall_cons_2 P x l' (pyval_nested_ind x) (go l')
        end) l)
  | PDict d =>
      Hdict d ((fix go (d : list (string * pyval)) : Forall (λ kv, P kv.2) d :=
        match d with
        | [] => Forall_nil_2 _
        | kv :: d' => Forall_cons_2 _ kv d' (pyval_nested_ind kv.2) (go d')
        end) d)
  end.
End pyval_ind.

(** ** Equality, truthiness, types *)

Fixpoint pyval_eqb (v w : pyval) : bool :=
  match v, w with
  | PNone, PNone => true
  | PBool a, PBool b => bool_decide (a = b)
  | PInt a, PInt b => bool_decide (a = b)
  | PStr a, PStr b => bool_decide (a = b)
  | PList l, PList k =>
      (fix go (l k : list pyval) : bool :=
        match l, k with
        | [], [] => true
        | x :: l', y :: k' => pyval_eqb x y && go l' k'
        | _, _ => false
        end) l k
  | PDict d, PDict e =>
      (fix go (d e : list (string * pyval)) : bool :=
        match d, e with
        | [], [] => true
        | (a, x) :: d', (b, y) :: e' =>
            bool_decide (a = b) && pyval_eqb x y && go d' e'
        | _, _ => false
        end) d e
  | _, _ => false
  end.

(** [bool(v)]. *)
Global Instance pyval_truthy : Truthy pyval := λ v,
  match v with
  | PNone => false
  | PBool b => b
  | PInt z => truthy z
  | PStr s => truthy s
  | PList l => truthy l
  | PDict d => truthy d
  end.

(** [type(v).__name__], as the interpreter's messages spell it. *)
Definition type_name (v : pyval) : string :=
  match v with
  | PNone => "NoneType"
  | PBool _ => "bool"
  | PInt _ => "int"
  | PStr _ => "str"
  | PList _ => "list"
  | PDict _ => "dict"
  end.

(** [isinstance(v, dict)] and [isinstance(v, str)]. *)
Definition is_dict (v : pyval) : bool :=
  match v with PDict _ => true | _ => false end.
Definition is_str (v : pyval) : bool :=
  match v with PStr _ => true | _ => false end.

(** A list or a dictionary cannot be a dictionary key. *)
Definition hashable (v : pyval) : bool :=
  match v with PList _ | PDict _ => false | _ => true end.

(** ** Dictionaries *)

Fixpoint dict_get (k : string) (d : list (string * pyval)) : option pyval :=
  match d with
  | [] => None
  | (k', v) :: d' => if decide (k' = k) then Some v else dict_get k d'
  end.

(** [d[k] = v]: the value of an existing key is replaced in place, a new
    key goes last. *)
Fixpoint dict_set (k : string) (v : pyval) (d : list (string * pyval))
  : list (string * pyval) :=
  match d with
  | [] => [(k, v)]
  | (k', v') :: d' =>
      if decide (k' = k) then (k, v) :: d' else (k', v') :: dict_set k v d'
  end.

(** [v[k]] for a string [k]. *)
Definition py_getitem (v : pyval) (k : string) : result pyval :=
  match v with
  | PDict d => from_option Ok (Raise (KeyError k)) (dict_get k d)
  | _ => Raise TypeError
  end.

(** [v.get(k, default)]. *)
Definition py_get (v : pyval) (k : string) (default : pyval) : result pyval :=
  match v with
  | PDict d => Ok (from_option id default (dict_get k d))
  | _ => Raise AttributeError
  end.

(** [v[:n]] *)
Definition py_slice_to (n : nat) (v : pyval) : result pyval :=
  match v with
  | PStr s => Ok (PStr (str_take n s))
  | PList l => Ok (PList (take n l))
  | _ => Raise TypeError
  end.

(** [v.upper()] and [v.replace(old, new)]: methods of [str] only. *)
Definition py_upper (v : pyval) : result string :=
  match v with PStr s => Ok (str_upper s) | _ => Raise AttributeError end.

Definition py_replace (old new : string) (v : pyval) : result string :=
  match v with PStr s => Ok (str_replace old new s) | _ => Raise AttributeError end.

(** ** [repr] and [str] *)

Definition dquote : ascii := "034"%char.
Definition squote : ascii := "039"%char.
Definition backslash : ascii := "092"%char.

Definition hex_digit (n : N) : ascii :=
  match n with
  | 0 => "0" | 1 => "1" | 2 => "2" | 3 => "3" | 4 => "4" | 5 => "5"
  | 6 => "6" | 7 => "7" | 8 => "8" | 9 => "9" | 10 => "a" | 11 => "b"
  | 12 => "c" | 13 => "d" | 14 => "e" | _ => "f"
  end%char%N.

(** One character of a string literal delimited by [q]. *)
Definition repr_char (q a : ascii) : string :=
  let n := N_of_ascii a in
  if Ascii.eqb a backslash then String backslash (String backslash "")
  else if Ascii.eqb a q then String backslash (String q "")
  else if (n =? 9)%N then String backslash "t"
  else if (n =? 10)%N then String backslash "n"
  else if (n =? 13)%N then String backslash "r"
  else if (n <? 32)%N || (n =? 127)%N
       then String backslash (String "x" (String (hex_digit (n / 16)) (String (hex_digit (n mod 16)) "")))
  else String a "".

Fixpoint str_flat_map (f : ascii → string) (s : string) : string :=
  match s with
  | EmptyString => EmptyString
  | String a s' => f a +:+ str_flat_map f s'
  end.

(** The literal is in single quotes unless the text has a single quote and
    no double quote. *)
Definition repr_quote (s : string) : ascii :=
  if str_in (String squote "") s && negb (str_in (String dquote "") s)
  then dquote else squote.

Definition repr_str (s : string) : string :=
  let q := repr_quote s in
  String q (str_flat_map (repr_char q) s +:+ String q "").

Fixpoint py_repr (v : pyval) : string :=
  match v with
  | PNone => "None"
  | PBool true => "True"
  | PBool false => "False"
  | PInt z => str_of_int z
  | PStr s => repr_str s
  | PList l => "[" +:+ str_join ", " (map py_repr l) +:+ "]"
  | PDict d =>
      "{" +:+ str_join ", " (map (λ kv, repr_str kv.1 +:+ ": " +:+ py_repr kv.2) d)
          +:+ "}"
  end.

(** [str(v)], which is also how an f-string formats [{v}]. *)
Definition py_str (v : pyval) : string :=
  match v with PStr s => s | _ => py_repr v end.

(** ** Decidable equality *)

Lemma pyval_eqb_eq (v w : pyval) : pyval_eqb v w = true ↔ v = w.
Proof.
  revert w. induction v as [|b|z|s|l IH|d IH] using pyval_nested_ind;
    intros [|b'|z'|s'|l'|d']; simpl; try (split; [done|by intros [=]]);
    rewrite ?bool_decide_eq_true; try (split; congruence).
  - revert l'. induction IH as [|x l Hx _ IHl]; intros [|y l']; try (split; [done|by intros [=]]).
    rewrite andb_true_iff, Hx, IHl. split; [by intros [-> [= ->]] | by intros [= -> ->]].
  - revert d'. induction IH as [|[a x] d Hx _ IHd]; intros [|[b y] d']; try (split; [done|by intros [=]]).
    simpl in Hx. rewrite !andb_true_iff, bool_decide_eq_true, Hx, IHd.
    split; [by intros [[-> ->] [= ->]] | by intros [= -> -> ->]].
Qed.

Global Instance pyval_eq_dec : EqDecision pyval.
Proof.
  intros v w. destruct (pyval_eqb v w) eqn:E.
  - left. by apply pyval_eqb_eq.
  - right. intros Heq%pyval_eqb_eq. congruence.
Defined.

(** ** Lemmas *)

Lemma dict_get_set_eq (k : string) (v : pyval) (d : list (string * pyval)) :
  dict_get k (dict_set k v d) = Some v.
Proof.
  induction d as [|[k' v'] d IH]; simpl; repeat case_decide; simpl;
    repeat case_decide; done.
Qed.

Lemma dict_get_set_ne (k k' : string) (v : pyval) (d : list (string * pyval)) :
  k ≠ k' → dict_get k' (dict_set k v d) = dict_get k' d.
Proof.
  intros Hne. induction d as [|[k0 v0] d IH]; simpl; repeat case_decide; simpl;
    repeat case_decide; congruence.
Qed.

Lemma dict_get_Some_elem (k : string) (v : pyval) (d : list (string * pyval)) :
  dict_get k d = Some v → (k, v) ∈ d.
Proof.
  induction d as [|[k' v'] d IH]; simpl; [done|].
  case_decide; [intros [= ->]; subst; left | right; auto].
Qed.

Lemma dict_get_None (k : string) (d : list (string * pyval)) :
  dict_get k d = None ↔ k ∉ d.*1.
Proof.
  induction d as [|[k' v'] d IH]; simpl.
  - split; [intros _ H; inv H | done].
  - rewrite not_elem_of_cons. case_decide; naive_solver.
Qed.

Lemma py_getitem_ok (v : pyval) (k : string) (x : pyval) :
  py_getitem v k = Ok x ↔ ∃ d, v = PDict d ∧ dict_get k d = Some x.
Proof.
  destruct v; simpl; try (split; [done | by intros (? & [=] & ?)]).
  destruct (dict_get k d) eqn:E; simpl; split; try done.
  - intros [= ->]. eauto.
  - intros (? & [= <-] & ?). congruence.
  - intros (? & [= <-] & ?). congruence.
Qed.

Lemma py_getitem_raise (v : pyval) (k : string) (e : exn) :
  py_getitem v k = Raise e →
  (is_dict v = true ∧ e = KeyError k) ∨ (is_dict v = false ∧ e = TypeError).
Proof.
  destruct v; simpl; try (intros [= <-]; by right).
  destruct (dict_get k d); simpl; [done|]. intros [= <-]. by left.
Qed.

Lemma py_get_default (d : list (string * pyval)) (k : string) (dflt : pyval) :
  dict_get k d = None → py_get (PDict d) k dflt = Ok dflt.
Proof. simpl. by intros ->. Qed.

Lemma py_get_found (d : list (string * pyval)) (k : string) (dflt x : pyval) :
  dict_get k d = Some x → py_get (PDict d) k dflt = Ok x.
Proof. simpl. by intros ->. Qed.

Lemma py_str_str (s : string) : py_str (PStr s) = s.
Proof. done. Qed.

Lemma py_str_int (z : Z) : py_str (PInt z) = str_of_int z.
Proof. done. Qed.

Lemma truthy_pyval_str (s : string) : truthy (PStr s) = truthy s.
Proof. done. Qed.

#[export] Hint Rewrite dict_get_set_eq py_str_str py_str_int truthy_pyval_str : py.

(** ** [repr] on concrete values *)

Example py_repr_nested :
  py_repr (PDict [("a", PList [PInt 1; PNone; PBool true]); ("b", PStr "x")])
  = "{'a': [1, None, True], 'b': 'x'}".
Proof. reflexivity. Qed.

Example py_repr_quotes :
  py_repr (PStr (String squote "it")) = String dquote (String squote ("it" +:+ String dquote ""))
  ∧ py_repr (PStr (String squote (String dquote "")))
    = String squote (String backslash (String squote (String dquote (String squote "")))).
Proof. split; reflexivity. Qed.

Example py_repr_control :
  py_repr (PStr (String "010"%char (String "001"%char "")))
  = String squote (String backslash ("n" +:+ String backslash ("x01" +:+ String squote ""))).
Proof. reflexivity. Qed.
