(* ===== verification/Json.v ===== *)
(** * Json: the text [json.dump] writes, and reading it back

    [save_report_with_data] writes the session's report with
    [json.dump(app.report_data, f, indent=2, ensure_ascii=False,
    default=str)].  [json_emit] is the encoder of the Python library at
    these arguments, on the values of [PyVal]: it produces the chunks in
    the order the encoder yields them, in front of the text that follows
    ([json_encode v] is [json_emit] in front of nothing).  A string is
    written between quotes with the quote, the backslash and the control
    characters escaped and every other byte as it is; a list or a
    dictionary with members puts each on a line of its own, indented by
    [indent] spaces for each level; the separators are [","] and [": "].
    The values of [PyVal] are all serialisable, so [default] is never
    called.

    [json_parse] reads such a text back: a reader for the documents the
    encoder writes, with white space allowed where the encoder puts its
    line breaks.  On a document with a repeated key it returns both
    members in order (the library's [json.loads] would keep the last); a
    document written from a dictionary has none.  Its recursion is on a
    fuel, and the length of the text is always enough. *)

From S2P Require Import Spec2Rocq PyStr PyVal.

(** ** Writing *)

Definition newline : ascii := "010"%char.

(** [k] after [n] spaces. *)
Fixpoint spaces (n : nat) (k : string) : string :=
  match n with
  | O => k
  | S n' => String " " (spaces n' k)
  end.

(** ['\n' + _indent * _current_indent_level]. *)
Definition newline_indent (indent level : nat) (k : string) : string :=
  String newline (spaces (indent * level) k).

(** One character of a string, as [ESCAPE_DCT] renders it. *)
Definition json_char (a : ascii) : string :=
  let n := N_of_ascii a in
  if bool_decide (a = dquote) then String backslash (String dquote "")
  else if bool_decide (a = backslash) then String backslash (String backslash "")
  else if (n =? 8)%N then String backslash "b"
  else if (n =? 12)%N then String backslash "f"
  else if (n =? 10)%N then String backslash "n"
  else if (n =? 13)%N then String backslash "r"
  else if (n =? 9)%N then String backslash "t"
  else if (n <? 32)%N
       then String backslash
              (String "u" (String "0" (String "0"
                (String (hex_digit (n / 16)) (String (hex_digit (n mod 16)) "")))))
  else String a "".

(** [encode_basestring(s)], in front of [k]. *)
Fixpoint json_chars (s : string) (k : string) : string :=
  match s with
  | EmptyString => k
  | String a s' => json_char a +:+ json_chars s' k
  end.

Definition json_str (s : string) (k : string) : string :=
  String dquote (json_chars s (String dquote k)).

(** [_iterencode(v, level)], in front of [k]. *)
Fixpoint json_emit (indent level : nat) (v : pyval) (k : string) : string :=
  match v with
  | PNone => "null" +:+ k
  | PBool true => "true" +:+ k
  | PBool false => "false" +:+ k
  | PInt z => str_of_int z +:+ k
  | PStr s => json_str s k
  | PList [] => "[]" +:+ k
  | PList (x :: l) =>
      String "[" (newline_indent indent (S level)
        (json_emit indent (S level) x
          ((fix items (l : list pyval) : string :=
              match l with
              | [] => newline_indent indent level (String "]" k)
              | y :: l' =>
                  String "," (newline_indent indent (S level)
                    (json_emit indent (S level) y (items l')))
              end) l)))
  | PDict [] => "{}" +:+ k
  | PDict ((key, x) :: d) =>
      String "{" (newline_indent indent (S level)
        (json_str key (String ":" (String " "
          (json_emit indent (S level) x
            ((fix members (d : list (string * pyval)) : string :=
                match d with
                | [] => newline_indent indent level (String "}" k)
                | (key, y) :: d' =>
                    String "," (newline_indent indent (S level)
                      (json_str key (String ":" (String " "
                        (json_emit indent (S level) y (members d'))))))
                end) d))))))
  end.

(** What follows the first member of a list, and of a dictionary. *)
Fixpoint json_items (indent level : nat) (l : list pyval) (k : string) : string :=
  match l with
  | [] => newline_indent indent level (String "]" k)
  | y :: l' =>
      String "," (newline_indent indent (S level)
        (json_emit indent (S level) y (json_items indent level l' k)))
  end.

Fixpoint json_members (indent level : nat) (d : list (string * pyval))
    (k : string) : string :=
  match d with
  | [] => newline_indent indent level (String "}" k)
  | (key, y) :: d' =>
      String "," (newline_indent indent (S level)
        (json_str key (String ":" (String " "
          (json_emit indent (S level) y (json_members indent level d' k))))))
  end.

(** [json.dumps(v, indent=indent, ensure_ascii=False)]. *)
Definition json_encode (indent : nat) (v : pyval) : string :=
  json_emit indent 0 v "".

(** ** Reading *)

Definition is_ws (a : ascii) : bool :=
  bool_decide (a = " "%char) || bool_decide (a = newline)
  || bool_decide (a = "013"%char) || bool_decide (a = "009"%char).

Fixpoint skip_ws (s : string) : string :=
  match s with
  | EmptyString => EmptyString
  | String a s' => if is_ws a then skip_ws s' else s
  end.

Definition digit_val (a : ascii) : option N :=
  let n := N_of_ascii a in
  if (48 <=? n)%N && (n <=? 57)%N then Some (n - 48)%N else None.

Definition hex_val (a : ascii) : option N :=
  let n := N_of_ascii a in
  if (48 <=? n)%N && (n <=? 57)%N then Some (n - 48)%N
  else if (97 <=? n)%N && (n <=? 102)%N then Some (n - 87)%N
  else if (65 <=? n)%N && (n <=? 70)%N then Some (n - 55)%N
  else None.

(** The digits at the head of a text, read in base ten onto [acc]. *)
Fixpoint parse_digits (acc : N) (s : string) : N * string :=
  match s with
  | EmptyString => (acc, EmptyString)
  | String a s' =>
      match digit_val a with
      | Some d => parse_digits (10 * acc + d) s'
      | None => (acc, s)
      end
  end.

(** Where the reader is inside a string: between characters, after a
    backslash, or with [k] hexadecimal digits of a [\u] escape to come. *)
Inductive StrState : Type :=
| Plain
| Escaped
| Hex (k : nat) (acc : N).

(** The character an escape of one letter stands for. *)
Definition unescape (a : ascii) : option ascii :=
  if bool_decide (a = dquote) then Some dquote
  else if bool_decide (a = backslash) then Some backslash
  else if bool_decide (a = "/"%char) then Some "/"%char
  else if bool_decide (a = "b"%char) then Some "008"%char
  else if bool_decide (a = "f"%char) then Some "012"%char
  else if bool_decide (a = "n"%char) then Some "010"%char
  else if bool_decide (a = "r"%char) then Some "013"%char
  else if bool_decide (a = "t"%char) then Some "009"%char
  else None.

Definition cons_char (a : ascii) (r : option (string * string))
  : option (string * string) :=
  '(t, rest) ← r; Some (String a t, rest).

(** The characters of a string up to its closing quote, and the text
    after it.  A [\u] escape must name an ASCII character, which is
    one byte of the string; the writer escapes control characters only. *)
Fixpoint parse_chars (st : StrState) (s : string) : option (string * string) :=
  match s with
  | EmptyString => None
  | String a s' =>
      match st with
      | Plain =>
          if bool_decide (a = dquote) then Some (EmptyString, s')
          else if bool_decide (a = backslash) then parse_chars Escaped s'
          else if (N_of_ascii a <? 32)%N then None
          else cons_char a (parse_chars Plain s')
      | Escaped =>
          if bool_decide (a = "u"%char) then parse_chars (Hex 4 0) s'
          else c ← unescape a; cons_char c (parse_chars Plain s')
      | Hex k acc =>
          d ← hex_val a;
          let acc := (16 * acc + d)%N in
          match k with
          | 1 => if (acc <? 128)%N
                 then cons_char (ascii_of_N acc) (parse_chars Plain s')
                 else None
          | _ => parse_chars (Hex (pred k) acc) s'
          end
      end
  end.

(** [s] with the prefix [p] removed. *)
Fixpoint expect (p s : string) : option string :=
  match p, s with
  | EmptyString, _ => Some s
  | String a p', String b s' => if bool_decide (a = b) then expect p' s' else None
  | _, _ => None
  end.

Definition parse_int (s : string) : option (pyval * string) :=
  match s with
  | String a s' =>
      if bool_decide (a = "-"%char) then
        match s' with
        | String b _ =>
            if bool_decide (is_Some (digit_val b)) then
              let '(n, rest) := parse_digits 0 s' in Some (PInt (- Z.of_N n), rest)
            else None
        | EmptyString => None
        end
      else if bool_decide (is_Some (digit_val a)) then
        let '(n, rest) := parse_digits 0 s in Some (PInt (Z.of_N n), rest)
      else None
  | EmptyString => None
  end.

(** A value at the head of a text, and the text after it. *)
Fixpoint parse_value (fuel : nat) (s : string) : option (pyval * string) :=
  match fuel with
  | O => None
  | S fuel =>
      match skip_ws s with
      | EmptyString => None
      | String a r as s =>
          if bool_decide (a = "n"%char) then rest ← expect "ull" r; Some (PNone, rest)
          else if bool_decide (a = "t"%char) then
            rest ← expect "rue" r; Some (PBool true, rest)
          else if bool_decide (a = "f"%char) then
            rest ← expect "alse" r; Some (PBool false, rest)
          else if bool_decide (a = dquote) then
            '(t, rest) ← parse_chars Plain r; Some (PStr t, rest)
          else if bool_decide (a = "["%char) then
            match skip_ws r with
            | String b rest =>
                if bool_decide (b = "]"%char) then Some (PList [], rest)
                else '(l, rest) ← parse_items fuel r; Some (PList l, rest)
            | EmptyString => None
            end
          else if bool_decide (a = "{"%char) then
            match skip_ws r with
            | String b rest =>
                if bool_decide (b = "}"%char) then Some (PDict [], rest)
                else '(d, rest) ← parse_members fuel r; Some (PDict d, rest)
            | EmptyString => None
            end
          else parse_int s
      end
  end
with parse_items (fuel : nat) (s : string) : option (list pyval * string) :=
  match fuel with
  | O => None
  | S fuel =>
      '(v, r) ← parse_value fuel s;
      match skip_ws r with
      | String a rest =>
          if bool_decide (a = ","%char) then
            '(l, rest) ← parse_items fuel rest; Some (v :: l, rest)
          else if bool_decide (a = "]"%char) then Some ([v], rest)
          else None
      | EmptyString => None
      end
  end
with parse_members (fuel : nat) (s : string)
  : option (list (string * pyval) * string) :=
  match fuel with
  | O => None
  | S fuel =>
      match skip_ws s with
      | String q r =>
          if bool_decide (q = dquote) then
            '(key, r) ← parse_chars Plain r;
            match skip_ws r with
            | String c r =>
                if bool_decide (c = ":"%char) then
                  '(v, r) ← parse_value fuel r;
                  match skip_ws r with
                  | String a rest =>
                      if bool_decide (a = ","%char) then
                        '(d, rest) ← parse_members fuel rest;
                        Some ((key, v) :: d, rest)
                      else if bool_decide (a = "}"%char) then
                        Some ([(key, v)], rest)
                      else None
                  | EmptyString => None
                  end
                else None
            | EmptyString => None
            end
          else None
      | EmptyString => None
      end
  end.

(** A document: one value and nothing but white space after it. *)
Definition json_parse (s : string) : option pyval :=
  '(v, rest) ← parse_value (S (String.length s)) s;
  if bool_decide (skip_ws rest = "") then Some v else None.

(** The nodes of a value: what the reader needs of fuel. *)
Fixpoint json_size (v : pyval) : nat :=
  match v with
  | PList l =>
      S ((fix go (l : list pyval) : nat :=
            match l with [] => 0 | x :: l' => S (json_size x + go l') end) l)
  | PDict d =>
      S ((fix go (d : list (string * pyval)) : nat :=
            match d with [] => 0 | kv :: d' => S (json_size kv.2 + go d') end) d)
  | _ => 1
  end.

(** ** A sample document *)

Definition sample_document : pyval :=
  PDict [("name", PStr "Sam"); ("age", PInt 8);
         ("notes", PList [PStr ("a" +:+ String dquote "b" +:+ String newline "c");
                          PNone; PBool true; PInt (-3)]);
         ("media", PDict [("drawings", PList []); ("empty", PDict [])])].

(** The same, in front of some text: what the reader returns after the
    first member of a list or of a dictionary. *)
Definition items_size (l : list pyval) : nat :=
  foldr (λ x n, S (json_size x + n)) 0 l.

Definition members_size (d : list (string * pyval)) : nat :=
  foldr (λ kv n, S (json_size kv.2 + n)) 0 d.

(** The text does not go on with a digit. *)
Definition delimited (k : string) : Prop :=
  match k with
  | EmptyString => True
  | String a _ => digit_val a = None
  end.

(** The reader returns [v] from what the encoder writes for it, whatever
    the level and the text after it. *)
Definition reads (indent : nat) (v : pyval) : Prop :=
  ∀ level k fuel, json_size v ≤ fuel → delimited k →
  parse_value fuel (json_emit indent level v k) = Some (v, k).

(** The text of a value is at least as long as the value has nodes. *)
Definition long_enough (indent : nat) (v : pyval) : Prop :=
  ∀ level k,
  json_size v + String.length k ≤ String.length (json_emit indent level v k).

(** ** Lemmas: the shape of the text *)

Lemma json_emit_list indent level x l k :
  json_emit indent level (PList (x :: l)) k
  = String "[" (newline_indent indent (S level)
      (json_emit indent (S level) x (json_items indent level l k))).
Proof.
  cbn [json_emit]. do 3 f_equal.
  induction l as [|y l IH]; [done|]. cbn [json_items]. by rewrite IH.
Qed.

Lemma json_emit_dict indent level key x d k :
  json_emit indent level (PDict ((key, x) :: d)) k
  = String "{" (newline_indent indent (S level)
      (json_str key (String ":" (String " "
        (json_emit indent (S level) x (json_members indent level d k)))))).
Proof.
  cbn [json_emit]. do 6 f_equal.
  induction d as [|[key' y] d IH]; [done|]. cbn [json_members]. by rewrite IH.
Qed.

Lemma json_size_list l : json_size (PList l) = S (items_size l).
Proof. done. Qed.

Lemma json_size_dict d : json_size (PDict d) = S (members_size d).
Proof. done. Qed.

Lemma json_size_pos v : 1 ≤ json_size v.
Proof. destruct v; simpl; lia. Qed.

(** ** Lemmas: white space *)

Lemma skip_ws_spaces n k : skip_ws (spaces n k) = skip_ws k.
Proof. by induction n. Qed.

Lemma skip_ws_newline_indent indent level k :
  skip_ws (newline_indent indent level k) = skip_ws k.
Proof. unfold newline_indent. simpl. apply skip_ws_spaces. Qed.

Lemma skip_ws_idemp s : skip_ws (skip_ws s) = skip_ws s.
Proof.
  induction s as [|a s IH]; [done|]. simpl.
  destruct (is_ws a) eqn:E; [done|]. simpl. by rewrite E.
Qed.

Lemma skip_ws_head a s : is_ws a = false → skip_ws (String a s) = String a s.
Proof. simpl. by intros ->. Qed.

Lemma parse_value_ws fuel s : parse_value fuel (skip_ws s) = parse_value fuel s.
Proof. destruct fuel; [done|]. simpl. by rewrite skip_ws_idemp. Qed.

Lemma parse_value_space fuel s :
  parse_value fuel (String " " s) = parse_value fuel s.
Proof. by rewrite <- (parse_value_ws _ (String _ _)), <- (parse_value_ws _ s). Qed.

Lemma parse_items_ws fuel s : parse_items fuel (skip_ws s) = parse_items fuel s.
Proof. destruct fuel; [done|]. simpl. by rewrite parse_value_ws. Qed.

Lemma parse_members_ws fuel s :
  parse_members fuel (skip_ws s) = parse_members fuel s.
Proof. destruct fuel; [done|]. simpl. by rewrite skip_ws_idemp. Qed.

(** ** Lemmas: strings *)

(** Reading what [json_char] writes gives the character back. *)
Lemma parse_chars_json_char a s :
  parse_chars Plain (json_char a +:+ s) = cons_char a (parse_chars Plain s).
Proof. by destruct a as [[] [] [] [] [] [] [] []]. Qed.

Lemma str_app_json_chars s t k : json_chars s t +:+ k = json_chars s (t +:+ k).
Proof.
  induction s as [|a s IH]; [done|]. simpl. by rewrite str_app_assoc, IH.
Qed.

Lemma parse_chars_json_chars s k :
  parse_chars Plain (json_chars s (String dquote k)) = Some (s, k).
Proof.
  induction s as [|a s IH]; [done|]. simpl.
  by rewrite parse_chars_json_char, IH.
Qed.

Lemma is_ws_digit a d : digit_val a = Some d → is_ws a = false.
Proof. by destruct a as [[] [] [] [] [] [] [] []]. Qed.

(** ** Lemmas: integers *)

Lemma digit_val_pretty d : (d < 10)%N → digit_val (pretty_N_char d) = Some d.
Proof.
  intros Hd.
  destruct d as [|p]; [done|].
  do 4 (try (destruct p as [p|p|]; try done; try lia)).
Qed.

Lemma parse_digits_delimited acc k : delimited k → parse_digits acc k = (acc, k).
Proof. destruct k; [done|]. simpl. by intros ->. Qed.

(** Reading the digits [pretty_N_go] puts in front of a text: the number
    they spell is read onto the accumulator. *)
Lemma parse_digits_pretty_go x s :
  (0 < x)%N → parse_digits 0 (pretty_N_go x s) = parse_digits x s.
Proof.
  revert s. induction (N.lt_wf_0 x) as [x _ IH]; intros s Hx.
  rewrite pretty_N_go_step by done.
  assert (x `mod` 10 < 10)%N as Hd by (apply N.mod_lt; lia).
  assert (10 ≠ 0)%N as H10 by done.
  pose proof (N.div_mod x 10 H10) as Hx10.
  destruct (decide (x `div` 10 = 0)%N) as [Hz|Hnz].
  - rewrite Hz, pretty_N_go_0. simpl. rewrite digit_val_pretty by done.
    f_equal. lia.
  - rewrite IH; [|apply N.div_lt; lia|lia]. simpl.
    rewrite digit_val_pretty by done. f_equal. lia.
Qed.

(** The first character [pretty_N_go] writes for a positive number is a
    digit. *)
Lemma pretty_N_go_head x s :
  (0 < x)%N → ∃ d r, pretty_N_go x s = String (pretty_N_char d) r ∧ (d < 10)%N.
Proof.
  revert s. induction (N.lt_wf_0 x) as [x _ IH]; intros s Hx.
  rewrite pretty_N_go_step by done.
  destruct (decide (x `div` 10 = 0)%N) as [Hz|Hnz].
  - rewrite Hz, pretty_N_go_0. eexists _, _. split; [done|]. apply N.mod_lt. lia.
  - apply IH; [apply N.div_lt; lia|by apply N.neq_0_lt_0].
Qed.

Lemma pretty_N_go_app x s k : pretty_N_go x s +:+ k = pretty_N_go x (s +:+ k).
Proof.
  revert s. induction (N.lt_wf_0 x) as [x _ IH]; intros s.
  destruct (decide (x = 0)%N) as [->|]; [by rewrite !pretty_N_go_0|].
  rewrite (pretty_N_go_step x s), (pretty_N_go_step x (s +:+ k)) by lia.
  rewrite IH by (apply N.div_lt; lia).
  reflexivity.
Qed.

(** The digits of a natural number in front of a text: a first digit,
    and the number when read. *)
Lemma parse_digits_pretty (n : N) k :
  delimited k →
  ∃ a r, pretty n +:+ k = String a r ∧ is_Some (digit_val a)
         ∧ parse_digits 0 (String a r) = (n, k).
Proof.
  intros Hk. unfold pretty, pretty_N. case_decide as Hn.
  - subst n. exists "0"%char, k. repeat split; [by eexists|].
    simpl. by apply parse_digits_delimited.
  - rewrite pretty_N_go_app. change ("" +:+ k) with k.
    destruct (pretty_N_go_head n k) as (d & r & Heq & Hd); [lia|].
    exists (pretty_N_char d), r. rewrite <- Heq.
    split; [done|]. split; [by rewrite digit_val_pretty|].
    rewrite parse_digits_pretty_go by lia. by apply parse_digits_delimited.
Qed.

Lemma parse_int_digits a r n rest :
  is_Some (digit_val a) → parse_digits 0 (String a r) = (n, rest) →
  parse_int (String a r) = Some (PInt (Z.of_N n), rest)
  ∧ parse_int (String "-" (String a r)) = Some (PInt (- Z.of_N n), rest).
Proof.
  intros Hd Hp. assert (a ≠ "-"%char) as Hm by (by intros ->; destruct Hd).
  unfold parse_int. cbv beta iota. split.
  - by rewrite bool_decide_false, bool_decide_true, Hp.
  - by rewrite (bool_decide_true (_ = _)), bool_decide_true, Hp.
Qed.

Lemma parse_int_str_of_int z k :
  delimited k → parse_int (str_of_int z +:+ k) = Some (PInt z, k).
Proof.
  intros Hk. destruct z as [|p|p].
  - simpl. by rewrite parse_digits_delimited.
  - destruct (parse_digits_pretty (N.pos p) k Hk) as (a & r & Heq & Hd & Hp).
    change (str_of_int (Z.pos p)) with (pretty (N.pos p)). rewrite Heq.
    by destruct (parse_int_digits a r _ _ Hd Hp) as [-> _].
  - destruct (parse_digits_pretty (N.pos p) k Hk) as (a & r & Heq & Hd & Hp).
    change (str_of_int (Z.neg p)) with ("-" +:+ pretty (N.pos p)).
    rewrite str_app_assoc, Heq. change ("-" +:+ ?s) with (String "-" s).
    by destruct (parse_int_digits a r _ _ Hd Hp) as [_ ->].
Qed.

(** An integer starts with a digit or the sign. *)
Lemma str_of_int_head z k :
  ∃ a r, str_of_int z +:+ k = String a r
         ∧ (a = "-"%char ∨ is_Some (digit_val a)).
Proof.
  destruct z as [|p|p].
  - exists "0"%char, k. split; [done|]. right. by eexists.
  - change (str_of_int (Z.pos p)) with (pretty (N.pos p)).
    unfold pretty, pretty_N. case_decide; [done|]. rewrite pretty_N_go_app.
    destruct (pretty_N_go_head (N.pos p) ("" +:+ k)) as (d & r & -> & Hd); [done|].
    eexists _, _. split; [done|]. right. by rewrite digit_val_pretty.
  - eexists "-"%char, _. split; [|by left].
    by change (str_of_int (Z.neg p)) with ("-" +:+ pretty (N.pos p)).
Qed.

(** ** Lemmas: one step of the reader *)

Lemma parse_value_int fuel a r :
  a = "-"%char ∨ is_Some (digit_val a) →
  parse_value (S fuel) (String a r) = parse_int (String a r).
Proof.
  intros [->|[d Hd]]; [done|].
  by destruct a as [[] [] [] [] [] [] [] []].
Qed.

Lemma parse_value_str fuel r :
  parse_value (S fuel) (String dquote r)
  = '(t, rest) ← parse_chars Plain r; Some (PStr t, rest).
Proof. done. Qed.

Lemma parse_value_list fuel r a rest :
  skip_ws r = String a rest → a ≠ "]"%char →
  parse_value (S fuel) (String "[" r)
  = '(l, rest) ← parse_items fuel r; Some (PList l, rest).
Proof.
  intros Hr Ha. cbn [parse_value]. rewrite skip_ws_head by done.
  rewrite Hr. by rewrite (bool_decide_false (a = "]"%char)) by done.
Qed.

Lemma parse_value_dict fuel r a rest :
  skip_ws r = String a rest → a ≠ "}"%char →
  parse_value (S fuel) (String "{" r)
  = '(d, rest) ← parse_members fuel r; Some (PDict d, rest).
Proof.
  intros Hr Ha. cbn [parse_value]. rewrite skip_ws_head by done.
  rewrite Hr. by rewrite (bool_decide_false (a = "}"%char)) by done.
Qed.

Lemma parse_items_step fuel s v r :
  parse_value fuel s = Some (v, r) →
  parse_items (S fuel) s
  = match skip_ws r with
    | String a rest =>
        if bool_decide (a = ","%char) then
          '(l, rest) ← parse_items fuel rest; Some (v :: l, rest)
        else if bool_decide (a = "]"%char) then Some ([v], rest)
        else None
    | EmptyString => None
    end.
Proof. intros H. cbn [parse_items]. by rewrite H. Qed.

Lemma parse_members_step fuel key s v r :
  parse_value fuel s = Some (v, r) →
  parse_members (S fuel) (json_str key (String ":" s))
  = match skip_ws r with
    | String a rest =>
        if bool_decide (a = ","%char) then
          '(d, rest) ← parse_members fuel rest; Some ((key, v) :: d, rest)
        else if bool_decide (a = "}"%char) then Some ([(key, v)], rest)
        else None
    | EmptyString => None
    end.
Proof.
  intros H. cbn [parse_members]. unfold json_str.
  rewrite skip_ws_head, (bool_decide_true (_ = _)) by done.
  rewrite parse_chars_json_chars. cbn [mbind option_bind].
  rewrite skip_ws_head, (bool_decide_true (_ = _)) by done. by rewrite H.
Qed.

(** What the encoder writes for a value starts with a character that is
    neither white space nor a closing bracket. *)
Lemma json_emit_head indent level v k :
  ∃ a r, json_emit indent level v k = String a r
         ∧ is_ws a = false ∧ a ≠ "]"%char ∧ a ≠ "}"%char.
Proof.
  destruct v as [|[]|z|s|[|x l]|[|[key x] d]]; try (by eexists _, _).
  destruct (str_of_int_head z k) as (a & r & Heq & Ha). exists a, r.
  split; [done|]. destruct Ha as [->|[d Hd]]; [done|].
  split; [by eapply is_ws_digit|]. by split; intros ->.
Qed.

Lemma skip_ws_json_emit indent level v k :
  skip_ws (json_emit indent level v k) = json_emit indent level v k.
Proof.
  destruct (json_emit_head indent level v k) as (a & r & -> & Ha & _).
  by apply skip_ws_head.
Qed.

(** ** Lemmas: reading what was written *)

Lemma delimited_newline_indent indent level k :
  delimited (newline_indent indent level k).
Proof. done. Qed.

(** The members of a list after the first. *)
Lemma parse_items_emit indent level k (l : list pyval) :
  Forall (reads indent) l →
  ∀ x fuel, reads indent x → S (json_size x + items_size l) ≤ fuel →
  parse_items fuel (json_emit indent (S level) x (json_items indent level l k))
  = Some (x :: l, k).
Proof.
  induction 1 as [|y l Hy _ IH]; intros x [|fuel] Hx Hfuel; try lia.
  - rewrite (parse_items_step _ _ x (json_items indent level [] k))
      by (apply Hx; [lia|done]).
    cbn [json_items]. by rewrite skip_ws_newline_indent.
  - rewrite (parse_items_step _ _ x (json_items indent level (y :: l) k))
      by (apply Hx; [simpl in *; lia|done]).
    cbn [json_items]. rewrite skip_ws_head, (bool_decide_true (_ = _)) by done.
    rewrite <- parse_items_ws, skip_ws_newline_indent, parse_items_ws.
    rewrite IH; [done..|]. simpl in *. lia.
Qed.

(** The members of a dictionary after the first. *)
Lemma parse_members_emit indent level k (d : list (string * pyval)) :
  Forall (λ kv, reads indent kv.2) d →
  ∀ key x fuel, reads indent x → S (json_size x + members_size d) ≤ fuel →
  parse_members fuel
    (json_str key (String ":" (String " "
      (json_emit indent (S level) x (json_members indent level d k)))))
  = Some ((key, x) :: d, k).
Proof.
  induction 1 as [|[key' y] d Hy _ IH]; intros key x [|fuel] Hx Hfuel; try lia.
  - rewrite (parse_members_step _ _ _ x (json_members indent level [] k)).
    + cbn [json_members]. by rewrite skip_ws_newline_indent.
    + rewrite parse_value_space. apply Hx; [lia|done].
  - rewrite (parse_members_step _ _ _ x (json_members indent level ((key', y) :: d) k)).
    + cbn [json_members]. rewrite skip_ws_head, (bool_decide_true (_ = _)) by done.
      rewrite <- parse_members_ws, skip_ws_newline_indent, parse_members_ws.
      rewrite IH; [done..|]. simpl in *. lia.
    + rewrite parse_value_space. apply Hx; [simpl in *; lia|done].
Qed.

(** Every value is read back from what the encoder writes for it. *)
Lemma reads_all indent v : reads indent v.
Proof.
  induction v as [|b|z|s|l IH|d IH] using pyval_nested_ind;
    intros level k fuel Hfuel Hk;
    (destruct fuel as [|fuel];
      [match type of Hfuel with json_size ?v ≤ _ =>
         pose proof (json_size_pos v) end; lia|]).
  - done.
  - by destruct b.
  - cbn [json_emit].
    destruct (str_of_int_head z k) as (a & r & Heq & Ha).
    rewrite Heq, parse_value_int, <- Heq by done. by apply parse_int_str_of_int.
  - cbn [json_emit]. unfold json_str.
    by rewrite parse_value_str, parse_chars_json_chars.
  - destruct l as [|x l]; [done|]. rewrite json_size_list in Hfuel.
    apply Forall_cons in IH as [Hx Hl].
    destruct (json_emit_head indent (S level) x (json_items indent level l k))
      as (a & r & Heq & Hws & Ha & _).
    rewrite json_emit_list, (parse_value_list _ _ a r);
      [|by rewrite skip_ws_newline_indent, Heq, skip_ws_head|done].
    rewrite <- parse_items_ws, skip_ws_newline_indent, parse_items_ws.
    rewrite parse_items_emit; [done..|]. simpl in *. lia.
  - destruct d as [|[key x] d]; [done|]. rewrite json_size_dict in Hfuel.
    apply Forall_cons in IH as [Hx Hd].
    rewrite json_emit_dict, (parse_value_dict _ _ dquote
      (json_chars key (String dquote (String ":" (String " "
        (json_emit indent (S level) x (json_members indent level d k)))))));
      [|by rewrite skip_ws_newline_indent|done].
    rewrite <- parse_members_ws, skip_ws_newline_indent, parse_members_ws.
    rewrite parse_members_emit; [done..|]. simpl in *. lia.
Qed.

(** ** Lemmas: the length of the text bounds the fuel *)

Lemma spaces_length n k : String.length (spaces n k) = n + String.length k.
Proof. induction n; simpl; lia. Qed.

Lemma newline_indent_length indent level k :
  String.length (newline_indent indent level k)
  = S (indent * level + String.length k).
Proof. unfold newline_indent. simpl. by rewrite spaces_length. Qed.

Lemma json_chars_length s k : String.length k ≤ String.length (json_chars s k).
Proof.
  induction s as [|a s IH]; [done|]. simpl. rewrite str_length_app. lia.
Qed.

Lemma json_str_length s k : 2 + String.length k ≤ String.length (json_str s k).
Proof.
  unfold json_str. pose proof (json_chars_length s (String dquote k)).
  simpl in *. lia.
Qed.

Lemma str_of_int_length z : 1 ≤ String.length (str_of_int z).
Proof.
  pose proof (str_of_int_truthy z) as H. rewrite truthy_string_length in H.
  destruct (String.length (str_of_int z)); [done|lia].
Qed.

Lemma json_items_length indent level k l :
  Forall (long_enough indent) l →
  items_size l + S (String.length k)
  ≤ String.length (json_items indent level l k).
Proof.
  induction 1 as [|y l Hy _ IH]; cbn [json_items items_size foldr].
  - rewrite newline_indent_length. simpl. lia.
  - specialize (Hy (S level) (json_items indent level l k)).
    cbn [String.length]. rewrite newline_indent_length. fold (items_size l). lia.
Qed.

Lemma json_members_length indent level k d :
  Forall (λ kv, long_enough indent kv.2) d →
  members_size d + S (String.length k)
  ≤ String.length (json_members indent level d k).
Proof.
  induction 1 as [|[key y] d Hy _ IH]; cbn [json_members members_size foldr].
  - rewrite newline_indent_length. simpl. lia.
  - specialize (Hy (S level) (json_members indent level d k)).
    cbn [String.length]. rewrite newline_indent_length.
    match goal with |- context [json_str key ?s] =>
      pose proof (json_str_length key s) end.
    simpl in *. fold (members_size d). lia.
Qed.

Lemma json_emit_length indent v : long_enough indent v.
Proof.
  induction v as [|b|z|s|l IH|d IH] using pyval_nested_ind; intros level k.
  - simpl. rewrite str_length_app. simpl. lia.
  - destruct b; simpl; rewrite str_length_app; simpl; lia.
  - cbn [json_emit json_size]. rewrite str_length_app.
    pose proof (str_of_int_length z). lia.
  - pose proof (json_str_length s k). simpl in *. lia.
  - destruct l as [|x l]; [simpl; rewrite str_length_app; simpl; lia|].
    apply Forall_cons in IH as [Hx Hl].
    rewrite json_emit_list, json_size_list. cbn [String.length items_size foldr].
    rewrite newline_indent_length. fold (items_size l).
    specialize (Hx (S level) (json_items indent level l k)).
    pose proof (json_items_length indent level k l Hl). lia.
  - destruct d as [|[key x] d]; [simpl; rewrite str_length_app; simpl; lia|].
    apply Forall_cons in IH as [Hx Hd].
    rewrite json_emit_dict, json_size_dict. cbn [String.length members_size foldr].
    rewrite newline_indent_length. fold (members_size d).
    match goal with |- context [json_str key ?s] =>
      pose proof (json_str_length key s) end.
    specialize (Hx (S level) (json_members indent level d k)).
    pose proof (json_members_length indent level k d Hd).
    simpl in *. lia.
Qed.

(** ** The round trip *)

Lemma json_parse_emit indent v : json_parse (json_emit indent 0 v "") = Some v.
Proof.
  unfold json_parse.
  pose proof (json_emit_length indent v 0 "") as Hlen. simpl in Hlen.
  rewrite (reads_all indent v); [done|lia|done].
Qed.

(** C13: Reading the text json.dump writes for a value (indent as given,
    ensure_ascii off) gives the value back: strings with quotes, backslashes
    and control characters, negative integers, empty and nested lists and
    dictionaries included. The reader's fuel, the length of the text, is
    always enough. *)
Theorem json_parse_encode indent v : json_parse (json_encode indent v) = Some v.
Proof. apply json_parse_emit. Qed.

(** Two values with the same text are the same value. *)
Corollary json_encode_inj indent : Inj (=) (=) (json_encode indent).
Proof.
  intros v w Heq. apply (f_equal json_parse) in Heq. unfold json_encode in Heq.
  rewrite !json_parse_emit in Heq. by injection Heq.
Qed.

(** The sample document as the library writes it (the quotes shown as
    apostrophes), and read back. *)
Example json_encode_sample :
  subst_char dquote "'" (json_encode 2 sample_document)
  = "{
  'name': 'Sam',
  'age': 8,
  'notes': [
    'a\'b\nc',
    null,
    true,
    -3
  ],
  'media': {
    'drawings': [],
    'empty': {}
  }
}".
Proof. reflexivity. Qed.

Example json_parse_spaced :
  json_parse " [1, -20 ,[ ], {} ,null] "
  = Some (PList [PInt 1; PInt (-20); PList []; PDict []; PNone]).
Proof. reflexivity. Qed.

Example json_parse_refuses : json_parse "[1 2]" = None ∧ json_parse "-" = None.
Proof. done. Qed.
