(* ===== verification/Schema.v ===== *)
(** * Schema: the shapes of the documents the program builds and reads

    The program handles three kinds of JSON document: the report data it
    keeps and saves, the payload it posts to the platform, and the row of
    the lookup store that carries the specialist's reply.  Python gives
    them no types; the class [RiskAssessment] and the dictionary literals
    of the source fix their shapes.  [jty] is a small language for these
    shapes and [has_type] the check of a value against one, as a boolean
    function.

    A [TRecord] is a dictionary with exactly the listed keys in the listed
    order (what a dictionary literal of the source produces); a [TObject]
    is a dictionary in which the listed keys are present, whatever else it
    holds (what the code requires of a document it reads). *)

From S2P Require Import Spec2Rocq PyStr PyVal.

Inductive jty : Type :=
| TAny
| TNone
| TBool
| TInt
| TStr
| TEnum (values : list string)
| TList (t : jty)
| TRecord (fields : list (string * jty))
| TObject (required : list (string * jty))
| TUnion (a b : jty).

Fixpoint has_type (t : jty) (v : pyval) : bool :=
  match t with
  | TAny => true
  | TNone => match v with PNone => true | _ => false end
  | TBool => match v with PBool _ => true | _ => false end
  | TInt => match v with PInt _ => true | _ => false end
  | TStr => match v with PStr _ => true | _ => false end
  | TEnum values => match v with PStr s => bool_decide (s ∈ values) | _ => false end
  | TList t => match v with PList l => forallb (has_type t) l | _ => false end
  | TRecord fields =>
      match v with
      | PDict d =>
          (fix go (fields : list (string * jty)) (d : list (string * pyval)) : bool :=
             match fields, d with
             | [], [] => true
             | (k, t) :: fields, (k', x) :: d =>
                 bool_decide (k = k') && has_type t x && go fields d
             | _, _ => false
             end) fields d
      | _ => false
      end
  | TObject required =>
      match v with
      | PDict d =>
          forallb (λ kt, match dict_get kt.1 d with
                         | Some x => has_type kt.2 x
                         | None => false
                         end) required
      | _ => false
      end
  | TUnion a b => has_type a v || has_type b v
  end.

(** The members of a record against its fields, one by one. *)
Fixpoint fields_typed (fields : list (string * jty)) (d : list (string * pyval))
  : bool :=
  match fields, d with
  | [], [] => true
  | (k, t) :: fields, (k', x) :: d =>
      bool_decide (k = k') && has_type t x && fields_typed fields d
  | _, _ => false
  end.

(** ** Lemmas *)

Lemma forallb_Forall {A} (f : A → bool) (l : list A) :
  forallb f l = true ↔ Forall (λ x, f x = true) l.
Proof.
  induction l as [|x l IH]; simpl; [by split|].
  rewrite andb_true_iff, IH, Forall_cons. done.
Qed.

Lemma has_type_record fields d :
  has_type (TRecord fields) (PDict d) = fields_typed fields d.
Proof.
  done.
Qed.

(** A record with a first field is a dictionary whose first member has
    the key and a value of the type, and whose other members are a record
    of the other fields. *)
Lemma has_type_record_cons k t fields v :
  has_type (TRecord ((k, t) :: fields)) v = true ↔
  ∃ x d, v = PDict ((k, x) :: d) ∧ has_type t x = true
         ∧ has_type (TRecord fields) (PDict d) = true.
Proof.
  split.
  - destruct v as [| | | | |[|[k' x] d]]; try done.
    rewrite has_type_record. cbn [fields_typed]. intros H. bool_hyps. subst k'.
    exists x, d. by rewrite has_type_record.
  - intros (x & d & -> & Hx & Hd). rewrite has_type_record in *.
    cbn [fields_typed]. by rewrite bool_decide_true, Hx, Hd.
Qed.

Lemma has_type_record_nil v : has_type (TRecord []) v = true ↔ v = PDict [].
Proof.
  split; [|by intros ->]. by destruct v as [| | | | |[|[k' x] d]].
Qed.

Lemma has_type_str v : has_type TStr v = true ↔ ∃ s, v = PStr s.
Proof. split; [destruct v; naive_solver|by intros [s ->]]. Qed.

Lemma has_type_int v : has_type TInt v = true ↔ ∃ z, v = PInt z.
Proof. split; [destruct v; naive_solver|by intros [z ->]]. Qed.

Lemma has_type_enum values v :
  has_type (TEnum values) v = true ↔ ∃ s, v = PStr s ∧ s ∈ values.
Proof.
  split.
  - destruct v; try done. simpl. intros H. bool_hyps. eauto.
  - intros (s & -> & Hs). simpl. by rewrite bool_decide_true.
Qed.

Lemma has_type_list t v :
  has_type (TList t) v = true ↔
  ∃ l, v = PList l ∧ Forall (λ x, has_type t x = true) l.
Proof.
  split.
  - destruct v as [| | | |l|]; try done. cbn [has_type]. intros H.
    exists l. by rewrite <- forallb_Forall.
  - intros (l & -> & Hl). cbn [has_type]. by rewrite forallb_Forall.
Qed.

(** The values of a list of the encodings of [xs] have the type when
    every encoding has. *)
Lemma has_type_list_fmap {A} t (f : A → pyval) (xs : list A) :
  (∀ x, has_type t (f x) = true) → has_type (TList t) (PList (f <$> xs)) = true.
Proof.
  intros Hf. apply has_type_list. eexists. split; [done|].
  apply Forall_fmap, Forall_true. intros x. apply Hf.
Qed.

Lemma has_type_object required d :
  has_type (TObject required) (PDict d) = true ↔
  Forall (λ kt, ∃ x, dict_get kt.1 d = Some x ∧ has_type kt.2 x = true) required.
Proof.
  cbn [has_type]. rewrite forallb_Forall.
  apply Forall_iff. intros [k t]. simpl.
  destruct (dict_get k d) as [x|]; naive_solver.
Qed.

Lemma has_type_object_dict required v :
  has_type (TObject required) v = true → ∃ d, v = PDict d.
Proof. destruct v; try done. eauto. Qed.
