(* ===== verification/PyTime.v ===== *)
(** * PyTime: readings of the wall clock and their renderings

    The program reads [datetime.now()] and prints it three ways:
    [isoformat()] (attachment timestamps, the session start, the report's
    footer), [strftime("%B %d, %Y at %H:%M")] and [strftime("%B %d, %Y")]
    (the report), [strftime("%Y%m%d_%H%M%S")] (the names of saved files).
    A reading is a record of naive local-time fields; what the clock says
    is an input of the handler that reads it. *)

From S2P Require Import Spec2Rocq PyStr.

Record datetime : Type := {
  year : N; month : N; day : N;
  hour : N; minute : N; second : N; microsecond : N
}.

Global Instance datetime_eq_dec : EqDecision datetime.
Proof. solve_decision. Defined.

(** The fields are in the ranges [datetime] enforces. *)
Definition datetime_valid (t : datetime) : Prop :=
  (1000 ≤ year t ≤ 9999 ∧ 1 ≤ month t ≤ 12 ∧ 1 ≤ day t ≤ 31 ∧
   hour t < 24 ∧ minute t < 60 ∧ second t < 60 ∧ microsecond t < 1000000)%N.

Global Instance datetime_valid_dec t : Decision (datetime_valid t).
Proof. unfold datetime_valid. apply _. Defined.

(** [n] in decimal, zero-padded on the left to [width] digits. *)
Definition zero_pad (width : nat) (n : N) : string :=
  let s := pretty n in
  String.concat "" (replicate (width - String.length s) "0") +:+ s.

(** [%B] in the C locale. *)
Definition month_name (m : N) : string :=
  match m with
  | 1 => "January" | 2 => "February" | 3 => "March" | 4 => "April"
  | 5 => "May" | 6 => "June" | 7 => "July" | 8 => "August"
  | 9 => "September" | 10 => "October" | 11 => "November" | _ => "December"
  end%N.

(** [t.isoformat()]: the fraction is printed only when it is not zero. *)
Definition isoformat (t : datetime) : string :=
  zero_pad 4 (year t) +:+ "-" +:+ zero_pad 2 (month t) +:+ "-" +:+
  zero_pad 2 (day t) +:+ "T" +:+ zero_pad 2 (hour t) +:+ ":" +:+
  zero_pad 2 (minute t) +:+ ":" +:+ zero_pad 2 (second t) +:+
  (if truthy (microsecond t) then "." +:+ zero_pad 6 (microsecond t) else "").

(** [t.strftime("%B %d, %Y")]. *)
Definition strftime_date (t : datetime) : string :=
  month_name (month t) +:+ " " +:+ zero_pad 2 (day t) +:+ ", " +:+ pretty (year t).

(** [t.strftime("%B %d, %Y at %H:%M")]. *)
Definition strftime_date_time (t : datetime) : string :=
  strftime_date t +:+ " at " +:+ zero_pad 2 (hour t) +:+ ":" +:+ zero_pad 2 (minute t).

(** [t.strftime("%Y%m%d_%H%M%S")]. *)
Definition strftime_compact (t : datetime) : string :=
  pretty (year t) +:+ zero_pad 2 (month t) +:+ zero_pad 2 (day t) +:+ "_" +:+
  zero_pad 2 (hour t) +:+ zero_pad 2 (minute t) +:+ zero_pad 2 (second t).

(** The reading of the examples. *)
Definition sample_time : datetime :=
  {| year := 2025; month := 3; day := 7; hour := 9; minute := 5; second := 2;
     microsecond := 1500 |}.

(** ** Lemmas *)

Lemma str_concat_replicate_length (n : nat) (c : string) :
  String.length (String.concat "" (replicate n c)) = n * String.length c.
Proof.
  induction n as [|n IH]; [done|]. simpl replicate.
  destruct (replicate n c) eqn:E.
  - destruct n; [simpl; lia | done].
  - change (String.concat "" (c :: s :: l))
      with (c +:+ "" +:+ String.concat "" (s :: l)).
    rewrite !str_length_app, IH. simpl. lia.
Qed.

Lemma zero_pad_length (width : nat) (n : N) :
  String.length (pretty n) ≤ width → String.length (zero_pad width n) = width.
Proof.
  intros Hle. unfold zero_pad.
  rewrite str_length_app, str_concat_replicate_length. simpl. lia.
Qed.

Lemma zero_pad_wide (width : nat) (n : N) :
  width ≤ String.length (pretty n) → zero_pad width n = pretty n.
Proof.
  intros Hle. unfold zero_pad.
  by replace (width - String.length (pretty n)) with 0 by lia.
Qed.

Lemma truthy_isoformat (t : datetime) : truthy (isoformat t) = true.
Proof.
  unfold isoformat. rewrite truthy_string_app. apply orb_true_r.
Qed.

(** ** The renderings of one reading *)

Example isoformat_sample : isoformat sample_time = "2025-03-07T09:05:02.001500".
Proof. reflexivity. Qed.

Example strftime_date_time_sample :
  strftime_date_time sample_time = "March 07, 2025 at 09:05".
Proof. reflexivity. Qed.

Example strftime_compact_sample : strftime_compact sample_time = "20250307_090502".
Proof. reflexivity. Qed.
