(* ===== verification/Protocol.v ===== *)
(** * Protocol: a flag raised by the caller and lowered by its one holder

    The discipline that keeps [polling_active] consistent without a lock,
    apart from the program that follows it.  A state has a flag; the main
    flow makes calls, and a call may start a task; a task advances one
    statement at a time.  [FlagProtocol] is what the two sides promise:

    - a call raises the flag exactly when it starts a task, and starts one
      only while the flag is low;
    - a task that holds the flag finds it raised and leaves it raised
      until the statement with which it gives it up, which lowers it; a
      task that does not hold it leaves it alone and never takes it.

    Against this interface alone, [pool_inv] (the holders are one when the
    flag is raised and none when it is low) is preserved by every call and
    every statement of every task.  The submission and polling components
    are shown to be an instance in [Concurrency]. *)

From S2P Require Import Spec2Rocq.

Class FlagProtocol (State Task Call Obs : Type) : Type := {
  (** the flag of a state *)
  raised : State → bool;
  (** the task may still write the flag *)
  holder : Task → bool;
  (** what a task keeps true of itself *)
  task_ok : Task → Prop;
  (** a task as started *)
  task_init : Task;
  (** a call of the main flow: the state after it, and whether it started
      a task *)
  do_call : Call → State → State * bool;
  (** one statement of a task, on what it observes of the outside *)
  task_step : Obs → Task → State → Task * State;
  task_init_holder : holder task_init = true;
  task_init_ok : task_ok task_init;
  do_call_raised c s :
    raised (do_call c s).1 = raised s || (do_call c s).2
    ∧ ((do_call c s).2 = true → raised s = false);
  task_step_ok o t s : task_ok t → task_ok (task_step o t s).1;
  task_step_raised o t s :
    task_ok t → (holder t = true → raised s = true) →
    raised (task_step o t s).2 = (if holder t then holder (task_step o t s).1 else raised s)
    ∧ (holder (task_step o t s).1 = true → holder t = true)
}.

Section pool.
Context `{FlagProtocol State Task Call Obs}.

(** A state with the tasks started on it. *)
Definition pool_call (c : Call) (p : State * list Task) : State * list Task :=
  ((do_call c p.1).1, p.2 ++ (if (do_call c p.1).2 then [task_init] else [])).

Definition pool_advance (i : nat) (o : Obs) (p : State * list Task)
  : State * list Task :=
  match p.2 !! i with
  | Some t => ((task_step o t p.1).2, <[i := (task_step o t p.1).1]> p.2)
  | None => p
  end.

Definition holders (ts : list Task) : nat := length (filter (λ t, holder t) ts).

Definition pool_inv (p : State * list Task) : Prop :=
  Forall task_ok p.2 ∧ holders p.2 = Nat.b2n (raised p.1).

(** A holder finds the flag raised. *)
Lemma pool_inv_holder p i t :
  pool_inv p → p.2 !! i = Some t → holder t = true → raised p.1 = true.
Proof.
  intros [_ Hc] Hi Ho. unfold holders in Hc.
  pose proof (filter_length_lookup holder _ _ _ Hi) as Hle.
  rewrite Hc, Ho in Hle. by destruct (raised p.1); [|simpl in Hle; lia].
Qed.

(** Two holders are the same task. *)
Lemma pool_inv_unique p i j ti tj :
  pool_inv p → p.2 !! i = Some ti → p.2 !! j = Some tj →
  holder ti = true → holder tj = true → i = j.
Proof.
  intros [_ Hc] Hi Hj Hoi Hoj.
  apply (filter_length_unique holder p.2 i j ti tj); try done.
  fold (holders p.2). rewrite Hc. by destruct (raised p.1); simpl; lia.
Qed.

(** While the flag is low no task holds it. *)
Lemma pool_inv_low p :
  pool_inv p → raised p.1 = false → Forall (λ t, holder t = false) p.2.
Proof.
  intros Hinv Hf. apply Forall_lookup. intros i t Hi.
  destruct (holder t) eqn:Ho; [|done].
  by rewrite (pool_inv_holder p i t) in Hf.
Qed.

(** When no task holds the flag it is low. *)
Lemma pool_inv_none p :
  pool_inv p → Forall (λ t, holder t = false) p.2 → raised p.1 = false.
Proof.
  intros [_ Hc] Hall. unfold holders in Hc.
  rewrite (filter_length_none holder) in Hc by done. by destruct (raised p.1).
Qed.

Lemma pool_call_inv c p : pool_inv p → pool_inv (pool_call c p).
Proof.
  intros [Hts Hc]. destruct (do_call_raised c p.1) as [Hf Hst].
  unfold pool_inv, pool_call, holders in *. cbn [fst snd].
  rewrite Forall_app, filter_length_app, Hc, Hf.
  destruct (do_call c p.1).2; simpl.
  - rewrite Hst by done. split; [|by rewrite filter_length_cons, task_init_holder].
    split; [done|]. apply Forall_singleton, task_init_ok.
  - rewrite orb_false_r. split; [by split; [|apply Forall_nil]|]. lia.
Qed.

Lemma pool_advance_inv i o p : pool_inv p → pool_inv (pool_advance i o p).
Proof.
  intros Hinv. unfold pool_advance.
  destruct (p.2 !! i) as [t|] eqn:Hi; [|done].
  pose proof (pool_inv_holder p i t Hinv Hi) as Hown.
  destruct Hinv as [Hts Hc].
  assert (task_ok t) as Ht by by eapply Forall_lookup_1.
  destruct (task_step_raised o t p.1 Ht Hown) as [Hflag Hmono].
  pose proof (filter_length_insert holder _ i _ (task_step o t p.1).1 Hi) as Hins.
  unfold pool_inv, holders in *. cbn [fst snd]. split.
  - apply Forall_insert; [done|]. by apply task_step_ok.
  - rewrite Hflag. destruct (holder t) eqn:Ho.
    + rewrite Hown in Hc by done. simpl in *. lia.
    + destruct (holder (task_step o t p.1).1); [by discriminate Hmono|].
      simpl in *. lia.
Qed.

End pool.
