(* ===== verification/Session.v ===== *)
(** * Session: the session report and the onboarding gate

    The state of [EnhancedTraumaAssessmentApp] ([src/app.py], [__init__]):
    the [report_data] dictionary as nested records with the source's keys,
    the onboarding flag, the submission fields and the model's own copy of
    the conversation.  The operations of this file are the ones that create
    the session, open the gate ([complete_onboarding] with
    [generate_cultural_context]) and clear the conversation
    ([clear_conversation]).  [gate_inv] is what the open gate guarantees
    of the child's record; [example_session] is the session the examples
    of the later files start from. *)

From S2P Require Import Spec2Rocq PyStr PyVal PyTime.
From Stdlib Require Import QArith_base.
Local Close Scope Q_scope.

(** ** Data *)

Record ChildInfo : Type := {
  name : string;
  age : Z;
  gender : string;
  location : string
}.

Record AssessmentData : Type := {
  parent_observations : string;
  ai_analysis : string;
  severity_score : Z;
  risk_indicators : list string;
  cultural_context : string
}.

(** An entry of a [media_attachments] list. *)
Record Attachment : Type := {
  path : string;
  timestamp : string
}.

Record MediaAttachments : Type := {
  drawings : list Attachment;
  audio_recordings : list Attachment;
  photos : list Attachment
}.

Inductive Role : Type := User | Assistant.

(** The content of a chat turn: its text, or [{"path": file}]. *)
Inductive Content : Type :=
| Text (s : string)
| Path (file : string).

(** A turn of the history the chat surface shows. *)
Record Message : Type := {
  role : Role;
  content : Content
}.

(** A turn of [ollama_conversation], the history sent to the model. *)
Record ChatMessage : Type := {
  chat_role : Role;
  chat_content : string
}.

Record ReportData : Type := {
  child_info : ChildInfo;
  assessment_data : AssessmentData;
  media_attachments : MediaAttachments;
  mobile_app_id : string;
  session_start : string;
  conversation_history : list Message
}.

Record App : Type := {
  report_data : ReportData;
  is_onboarded : bool;
  submitted_report_id : pyval;
  polling_active : bool;
  ollama_conversation : list ChatMessage;
  supabase_url : option string;
  supabase_key : option string;
  (** [true] when [self.supabase] is a client, [false] when it is [None]. *)
  supabase : bool;
  (** [None] until the attribute [specialist_response] is first assigned. *)
  specialist_response : option pyval
}.

Global Instance ChildInfo_eq_dec : EqDecision ChildInfo.
Proof. solve_decision. Defined.
Global Instance AssessmentData_eq_dec : EqDecision AssessmentData.
Proof. solve_decision. Defined.
Global Instance Attachment_eq_dec : EqDecision Attachment.
Proof. solve_decision. Defined.
Global Instance MediaAttachments_eq_dec : EqDecision MediaAttachments.
Proof. solve_decision. Defined.
Global Instance Role_eq_dec : EqDecision Role.
Proof. solve_decision. Defined.
Global Instance Content_eq_dec : EqDecision Content.
Proof. solve_decision. Defined.
Global Instance Message_eq_dec : EqDecision Message.
Proof. solve_decision. Defined.
Global Instance ChatMessage_eq_dec : EqDecision ChatMessage.
Proof. solve_decision. Defined.
Global Instance ReportData_eq_dec : EqDecision ReportData.
Proof. solve_decision. Defined.
Global Instance App_eq_dec : EqDecision App.
Proof. solve_decision. Defined.

(** ** Assignments to one key

    [set_k v r] is [r] after [r["k"] = v]; [with_k f r] applies [f] to
    the value under [k]. *)

Definition set_parent_observations (v : string) (d : AssessmentData) :=
  {| parent_observations := v; ai_analysis := ai_analysis d;
     severity_score := severity_score d; risk_indicators := risk_indicators d;
     cultural_context := cultural_context d |}.
Definition set_ai_analysis (v : string) (d : AssessmentData) :=
  {| parent_observations := parent_observations d; ai_analysis := v;
     severity_score := severity_score d; risk_indicators := risk_indicators d;
     cultural_context := cultural_context d |}.
Definition set_severity_score (v : Z) (d : AssessmentData) :=
  {| parent_observations := parent_observations d; ai_analysis := ai_analysis d;
     severity_score := v; risk_indicators := risk_indicators d;
     cultural_context := cultural_context d |}.
Definition set_risk_indicators (v : list string) (d : AssessmentData) :=
  {| parent_observations := parent_observations d; ai_analysis := ai_analysis d;
     severity_score := severity_score d; risk_indicators := v;
     cultural_context := cultural_context d |}.
Definition set_cultural_context (v : string) (d : AssessmentData) :=
  {| parent_observations := parent_observations d; ai_analysis := ai_analysis d;
     severity_score := severity_score d; risk_indicators := risk_indicators d;
     cultural_context := v |}.

Definition with_drawings (f : list Attachment → list Attachment) (m : MediaAttachments) :=
  {| drawings := f (drawings m); audio_recordings := audio_recordings m;
     photos := photos m |}.
Definition with_photos (f : list Attachment → list Attachment) (m : MediaAttachments) :=
  {| drawings := drawings m; audio_recordings := audio_recordings m;
     photos := f (photos m) |}.

Definition set_child_info (v : ChildInfo) (r : ReportData) :=
  {| child_info := v; assessment_data := assessment_data r;
     media_attachments := media_attachments r; mobile_app_id := mobile_app_id r;
     session_start := session_start r;
     conversation_history := conversation_history r |}.
Definition with_assessment_data (f : AssessmentData → AssessmentData) (r : ReportData) :=
  {| child_info := child_info r; assessment_data := f (assessment_data r);
     media_attachments := media_attachments r; mobile_app_id := mobile_app_id r;
     session_start := session_start r;
     conversation_history := conversation_history r |}.
Definition with_media_attachments (f : MediaAttachments → MediaAttachments) (r : ReportData) :=
  {| child_info := child_info r; assessment_data := assessment_data r;
     media_attachments := f (media_attachments r); mobile_app_id := mobile_app_id r;
     session_start := session_start r;
     conversation_history := conversation_history r |}.
Definition set_conversation_history (v : list Message) (r : ReportData) :=
  {| child_info := child_info r; assessment_data := assessment_data r;
     media_attachments := media_attachments r; mobile_app_id := mobile_app_id r;
     session_start := session_start r; conversation_history := v |}.

Definition with_report_data (f : ReportData → ReportData) (self : App) :=
  {| report_data := f (report_data self); is_onboarded := is_onboarded self;
     submitted_report_id := submitted_report_id self;
     polling_active := polling_active self;
     ollama_conversation := ollama_conversation self;
     supabase_url := supabase_url self; supabase_key := supabase_key self;
     supabase := supabase self; specialist_response := specialist_response self |}.
Definition set_is_onboarded (v : bool) (self : App) :=
  {| report_data := report_data self; is_onboarded := v;
     submitted_report_id := submitted_report_id self;
     polling_active := polling_active self;
     ollama_conversation := ollama_conversation self;
     supabase_url := supabase_url self; supabase_key := supabase_key self;
     supabase := supabase self; specialist_response := specialist_response self |}.
Definition set_submitted_report_id (v : pyval) (self : App) :=
  {| report_data := report_data self; is_onboarded := is_onboarded self;
     submitted_report_id := v; polling_active := polling_active self;
     ollama_conversation := ollama_conversation self;
     supabase_url := supabase_url self; supabase_key := supabase_key self;
     supabase := supabase self; specialist_response := specialist_response self |}.
Definition set_polling_active (v : bool) (self : App) :=
  {| report_data := report_data self; is_onboarded := is_onboarded self;
     submitted_report_id := submitted_report_id self; polling_active := v;
     ollama_conversation := ollama_conversation self;
     supabase_url := supabase_url self; supabase_key := supabase_key self;
     supabase := supabase self; specialist_response := specialist_response self |}.
Definition with_ollama_conversation (f : list ChatMessage → list ChatMessage) (self : App) :=
  {| report_data := report_data self; is_onboarded := is_onboarded self;
     submitted_report_id := submitted_report_id self;
     polling_active := polling_active self;
     ollama_conversation := f (ollama_conversation self);
     supabase_url := supabase_url self; supabase_key := supabase_key self;
     supabase := supabase self; specialist_response := specialist_response self |}.
Definition set_specialist_response (v : pyval) (self : App) :=
  {| report_data := report_data self; is_onboarded := is_onboarded self;
     submitted_report_id := submitted_report_id self;
     polling_active := polling_active self;
     ollama_conversation := ollama_conversation self;
     supabase_url := supabase_url self; supabase_key := supabase_key self;
     supabase := supabase self; specialist_response := Some v |}.

(** ** [__init__]

    [uuid] is the value of [str(uuid.uuid4())], [now] the clock's reading,
    [url] and [key] the two environment variables ([None] when unset). *)

Definition init (uuid : string) (now : datetime) (url key : option string) : App :=
  {| report_data :=
       {| child_info := {| name := ""; age := 0; gender := ""; location := "" |};
          assessment_data :=
            {| parent_observations := ""; ai_analysis := ""; severity_score := 0;
               risk_indicators := []; cultural_context := "" |};
          media_attachments :=
            {| drawings := []; audio_recordings := []; photos := [] |};
          mobile_app_id := uuid;
          session_start := isoformat now;
          conversation_history := [] |};
     is_onboarded := false;
     submitted_report_id := PNone;
     polling_active := false;
     ollama_conversation := [];
     supabase_url := url;
     supabase_key := key;
     supabase := truthy url && truthy key;
     specialist_response := None |}.

(** ** [generate_cultural_context] *)

Definition generate_cultural_context (location : string) : string :=
  let location_lower := str_lower location in
  if str_in_any ["gaza"; "palestine"; "west bank"] location_lower then
    "Assessment conducted considering ongoing conflict exposure and displacement trauma"
  else if str_in_any ["ukraine"; "kyiv"; "kharkiv"; "mariupol"] location_lower then
    "Assessment considering war-related trauma and displacement from conflict zones"
  else if str_in_any ["syria"; "lebanon"; "jordan"] location_lower then
    "Assessment considering refugee experience and cultural adaptation challenges"
  else
    "Assessment conducted with consideration for local cultural context in "
    +:+ location.

(** The sentence of the first branch. *)
Definition conflict_context : string :=
  "Assessment conducted considering ongoing conflict exposure and displacement trauma".

(** ** [complete_onboarding]

    The form's number field gives [None] when empty and a number otherwise;
    [int(child_age)] truncates it toward zero. *)

Global Instance Q_truthy : Truthy Q := λ q, negb (Qnum q =? 0)%Z.

Definition py_int (q : Q) : Z := Z.quot (Qnum q) (Z.pos (Qden q)).

Definition complete_onboarding
    (child_name : string) (child_age : option Q)
    (child_gender child_location : string) (self : App)
  : App * (bool * string) :=
  (guard py_all [truthy child_name; truthy child_age; truthy child_gender;
                 truthy child_location]
   else (self, (false, "Please fill in all required information about your child.")) ;;
   let self := with_report_data (set_child_info
     {| name := child_name;
        age := from_option py_int 0%Z child_age;
        gender := child_gender;
        location := child_location |}) self in
   let self := set_is_onboarded true self in
   let self := with_report_data (with_assessment_data (set_cultural_context
     (generate_cultural_context child_location))) self in
   (self, (true, "Welcome! I'm ready to help you with " +:+ child_name
                 +:+ "'s assessment.")))%py.

(** ** [clear_conversation] *)

Definition clear_conversation (self : App) : App :=
  let self := with_report_data (set_conversation_history []) self in
  let self := with_report_data (with_assessment_data (set_parent_observations "")) self in
  let self := with_report_data (with_assessment_data (set_ai_analysis "")) self in
  with_report_data (with_media_attachments (λ _,
    {| drawings := []; audio_recordings := []; photos := [] |})) self.

(** ** The invariant of the gate

    Once the gate is open the child's name, gender and location are not
    empty.  (The age is not part of it: see [onboarding_age_truncated].) *)

Definition gate_inv (self : App) : Prop :=
  is_onboarded self = true →
  let c := child_info (report_data self) in
  truthy (name c) = true ∧ truthy (gender c) = true ∧ truthy (location c) = true.

Global Instance gate_inv_dec self : Decision (gate_inv self).
Proof. unfold gate_inv. apply _. Defined.

(** ** A session for the examples

    A parent in Gaza onboards an eight-year-old, says one sentence and
    gets one answer; the lookup store is configured. *)

Definition example_init : App :=
  init "7f0c" sample_time (Some "https://db.example") (Some "key").

Definition example_app : App :=
  (complete_onboarding "Sam" (Some (inject_Z 8)) "Female" "Gaza" example_init).1.

Definition example_session : App :=
  with_ollama_conversation (λ _,
    [{| chat_role := User; chat_content := "He cannot sleep" |};
     {| chat_role := Assistant; chat_content := "I hear you." |}])
    (with_report_data (λ r,
       set_conversation_history
         [{| role := User; content := Text "He cannot sleep" |}]
         (with_assessment_data (set_parent_observations "He cannot sleep") r))
       example_app).

(** ** Lemmas on the assignments *)

Lemma report_data_with_report_data f self :
  report_data (with_report_data f self) = f (report_data self).
Proof. done. Qed.

Lemma with_report_data_compose f g self :
  with_report_data f (with_report_data g self) = with_report_data (f ∘ g) self.
Proof. done. Qed.

Lemma with_assessment_data_compose f g r :
  with_assessment_data f (with_assessment_data g r) = with_assessment_data (f ∘ g) r.
Proof. done. Qed.

Lemma with_report_data_id self : with_report_data id self = self.
Proof. by destruct self. Qed.

#[export] Hint Rewrite report_data_with_report_data : py.

(** ** [generate_cultural_context] *)

(** A location that contains gaza, palestine or west bank in any case
    gets the context sentence on conflict exposure and displacement. *)
Lemma cultural_context_conflict (location : string) :
  str_in_any ["gaza"; "palestine"; "west bank"] (str_lower location) = true →
  generate_cultural_context location = conflict_context.
Proof. unfold generate_cultural_context. by intros ->. Qed.

Lemma cultural_context_default (location : string) :
  str_in_any ["gaza"; "palestine"; "west bank"; "ukraine"; "kyiv"; "kharkiv";
              "mariupol"; "syria"; "lebanon"; "jordan"] (str_lower location) = false →
  generate_cultural_context location
  = "Assessment conducted with consideration for local cultural context in "
    +:+ location.
Proof.
  unfold generate_cultural_context, str_in_any. simpl.
  intros H. repeat (apply orb_false_iff in H as [-> H]). done.
Qed.

Lemma truthy_generate_cultural_context (location : string) :
  truthy (generate_cultural_context location) = true.
Proof. unfold generate_cultural_context. by repeat case_cond. Qed.

(** ** [complete_onboarding] *)

Section onboarding.
Context (child_name : string) (child_age : option Q).
Context (child_gender child_location : string) (self : App).

Let filled : bool :=
  truthy child_name && truthy child_age && truthy child_gender
  && truthy child_location.

Lemma complete_onboarding_filled :
  py_all [truthy child_name; truthy child_age; truthy child_gender;
          truthy child_location] = filled.
Proof. unfold filled, py_all. simpl. by rewrite andb_true_r, !andb_assoc. Qed.

Lemma complete_onboarding_status :
  (complete_onboarding child_name child_age child_gender child_location self).2.1
  = filled.
Proof.
  unfold complete_onboarding. rewrite complete_onboarding_filled.
  by destruct filled.
Qed.

(** When a field of the form is empty (or the age is 0) onboarding
    fails with the message asking for all information and the object is
    unchanged. *)
Lemma complete_onboarding_rejected :
  filled = false →
  complete_onboarding child_name child_age child_gender child_location self
  = (self, (false, "Please fill in all required information about your child.")).
Proof.
  intros H. unfold complete_onboarding.
  by rewrite complete_onboarding_filled, H.
Qed.

Lemma complete_onboarding_accepted :
  filled = true →
  ∃ q, child_age = Some q ∧
  complete_onboarding child_name child_age child_gender child_location self
  = (with_report_data (with_assessment_data (set_cultural_context
       (generate_cultural_context child_location)))
     (set_is_onboarded true
     (with_report_data (set_child_info
        {| name := child_name; age := py_int q; gender := child_gender;
           location := child_location |}) self)),
     (true, "Welcome! I'm ready to help you with " +:+ child_name
            +:+ "'s assessment.")).
Proof.
  intros H. unfold complete_onboarding.
  rewrite complete_onboarding_filled, H.
  unfold filled in H. destruct child_age as [q|]; [by exists q|].
  simpl in H. by rewrite andb_false_r in H.
Qed.

Lemma complete_onboarding_gate :
  is_onboarded
    (complete_onboarding child_name child_age child_gender child_location self).1
  = filled || is_onboarded self.
Proof.
  unfold complete_onboarding. rewrite complete_onboarding_filled.
  by destruct filled.
Qed.

Lemma complete_onboarding_gate_inv :
  gate_inv self →
  gate_inv
    (complete_onboarding child_name child_age child_gender child_location self).1.
Proof.
  intros Hinv. unfold complete_onboarding.
  rewrite complete_onboarding_filled. destruct filled eqn:E; [|done].
  unfold filled in E. bool_hyps. by intros _.
Qed.

End onboarding.

(** ** [clear_conversation] *)

Lemma clear_conversation_idemp (self : App) :
  clear_conversation (clear_conversation self) = clear_conversation self.
Proof. done. Qed.

Lemma clear_conversation_gate_inv (self : App) :
  gate_inv self → gate_inv (clear_conversation self).
Proof. done. Qed.

Lemma init_gate_inv uuid now url key : gate_inv (init uuid now url key).
Proof. done. Qed.

(** ** The age

    The form's value is converted and stored as it comes: no range is
    checked and the fraction is dropped. *)

(** C38: With the three texts filled, any non-zero age is accepted and
    stored truncated toward zero: no range is checked (one half is stored as
    0). *)
Lemma complete_onboarding_age (child_name child_gender child_location : string)
    (q : Q) (self : App) :
  truthy child_name && truthy child_gender && truthy child_location = true →
  truthy q = true →
  let self' :=
    (complete_onboarding child_name (Some q) child_gender child_location self).1 in
  is_onboarded self' = true ∧ age (child_info (report_data self')) = py_int q.
Proof.
  intros Hs Hq. bool_hyps.
  destruct (complete_onboarding_accepted child_name (Some q) child_gender
              child_location self) as (q' & [= <-] & ->); [|done].
  simpl. by rewrite H, H1, H0, Hq.
Qed.

Lemma complete_onboarding_age_witness :
  let self' := (complete_onboarding "Sam" (Some (1 # 2)%Q) "Female" "Gaza"
                  example_init).1 in
  is_onboarded self' = true ∧ age (child_info (report_data self')) = 0%Z.
Proof.
  apply (complete_onboarding_age "Sam" "Female" "Gaza" (1 # 2)%Q example_init);
    reflexivity.
Defined.

(** ** The scenarios of onboarding *)

Lemma complete_onboarding_rejected_witness :
  complete_onboarding "" (Some (inject_Z 8)) "Female" "Gaza" example_init
  = (example_init,
     (false, "Please fill in all required information about your child.")).
Proof.
  apply (complete_onboarding_rejected "" (Some (inject_Z 8)) "Female" "Gaza").
  reflexivity.
Defined.

Lemma cultural_context_conflict_witness :
  generate_cultural_context "Gaza" = conflict_context.
Proof. apply (cultural_context_conflict "Gaza"). reflexivity. Defined.
