(* ===== verification/Conversation.v ===== *)
(** * Conversation: user turns and the streamed reply

    [add_message], [classify_file_type] and [bot_response] of
    [src/app.py].  The chat surface calls [add_message] with the history it
    shows and the user's input, then [bot_response] with the history
    [add_message] returned; each call receives its own copy of the history,
    so the list stored in the report is the one [add_message] built.

    [bot_response] is a generator.  [bot_next] is one resumption of it (the
    code up to the next [yield]); [bot_response] is the sequence of all the
    histories it yields when it is run to the end, and [bot_take] the
    first few of them when the consumer stops early.  The reply of the
    language model is the oracle [chat]: [None] when the call raises. *)

From S2P Require Import Spec2Rocq PyStr PyVal PyTime Session.

(** ** Data *)

(** The value of the multimodal text box: [message["text"]] and
    [message["files"]] (an absent key reads as empty). *)
Record UserInput : Type := {
  text : string;
  files : list string
}.

(** [gr.MultimodalTextbox(value=None, interactive=...)]. *)
Record MultimodalTextbox : Type := {
  value : option UserInput;
  interactive : bool
}.

(** A call of [ollama.chat] on the model [llm_hub/child_trauma_gemma]. *)
Inductive ChatRequest : Type :=
| ImageChat (prompt : string) (image : string)
| TextChat (messages : list ChatMessage)
| StructuredChat (prompt : string).

(** The generator object of [bot_response]: created and not started,
    suspended at the [yield] with [shown] on display and the characters
    [rest] to come after [base], or finished. *)
Inductive BotGen : Type :=
| BotCreated (history : list Message)
| BotSuspended (base : list Message) (shown : string) (rest : list string)
| BotFinished.

(** ** [classify_file_type] *)

Definition classify_file_type (file_path : string) : string :=
  if str_endswith_any (str_lower file_path) [".jpg"; ".jpeg"; ".png"; ".gif"; ".bmp"]
  then "image" else "other".

(** ** [add_message] *)

Definition user_turn (c : Content) : Message := {| role := User; content := c |}.

(** The body of [for file in message["files"]]: the history, the
    attachments and the number of clock readings so far. *)
Definition add_file (clock : nat → datetime)
    (st : list Message * MediaAttachments * nat) (file : string)
  : list Message * MediaAttachments * nat :=
  let '(history, media, reads) := st in
  let file_type := classify_file_type file in
  let history := history ++ [user_turn (Path file)] in
  if bool_decide (file_type = "image") then
    let entry := {| path := file; timestamp := isoformat (clock reads) |} in
    let media :=
      if str_in "draw" (str_lower file)
      then with_drawings (λ l, l ++ [entry]) media
      else with_photos (λ l, l ++ [entry]) media in
    (history, media, S reads)
  else (history, media, reads).

(** [current_obs + " " + text if current_obs else text]. *)
Definition append_observation (current_obs text : string) : string :=
  if truthy current_obs then current_obs +:+ " " +:+ text else text.

Definition add_message (clock : nat → datetime)
    (history : list Message) (message : UserInput) (self : App)
  : App * (list Message * MultimodalTextbox) :=
  let locked := {| value := None; interactive := false |} in
  (guard is_onboarded self else (self, (history, locked)) ;;
   let '(history, media, _) :=
     foldl (add_file clock)
       (history, media_attachments (report_data self), 0) (files message) in
   let self := with_report_data (with_media_attachments (λ _, media)) self in
   let '(history, self) :=
     if truthy (text message) then
       (history ++ [user_turn (Text (text message))],
        with_report_data (with_assessment_data (λ d,
          set_parent_observations
            (append_observation (parent_observations d) (text message)) d))
          (with_ollama_conversation
            (λ c, c ++ [{| chat_role := User; chat_content := text message |}])
            self))
     else (history, self) in
   let self := with_report_data (set_conversation_history history) self in
   (self, (history, locked)))%py.

(** ** [bot_response] *)

Definition image_prompt (child : string) : string :=
  "I am sharing an image related to my child " +:+ child +:+
  "'s situation. Please analyze this image in the context of trauma assessment and respond empathetically.".

Definition image_fallback (child : string) : string :=
  "I can see you've shared an image. Thank you for providing this visual information about "
  +:+ child +:+
  ". Visual expressions can tell us a lot about how children process their experiences. Could you tell me more about when this was created or what you'd like me to know about it?".

Definition text_fallback (child : string) : string :=
  "Thank you for sharing that with me. I understand this is a difficult time for you and "
  +:+ child +:+ ". Could you tell me more about what you're observing?".

(** [for msg in reversed(history)]: the content of the last user turn. *)
Definition last_user_content (history : list Message) : option Content :=
  content <$> find (λ m, bool_decide (role m = User)) (reverse history).

(** The request the reply is asked with, and the sentence that stands in
    for the reply when the call raises. *)
Definition reply_request (history : list Message) (self : App)
  : ChatRequest * string :=
  let child := name (child_info (report_data self)) in
  match last_user_content history with
  | Some (Path image_path) =>
      if truthy image_path
      then (ImageChat (image_prompt child) image_path, image_fallback child)
      else (TextChat (ollama_conversation self), text_fallback child)
  | _ => (TextChat (ollama_conversation self), text_fallback child)
  end.

Definition response_text (chat : ChatRequest → option string)
    (history : list Message) (self : App) : string :=
  let '(request, fallback) := reply_request history self in
  default fallback (chat request).

Definition assistant_turn (s : string) : Message :=
  {| role := Assistant; content := Text s |}.

(** The loop [for character in response_text], from its head: the next
    character is appended to the last turn and the history is yielded. *)
Definition stream_next (base : list Message) (shown : string)
    (rest : list string) : BotGen * option (list Message) :=
  match rest with
  | [] => (BotFinished, None)
  | character :: rest' =>
      let shown := shown +:+ character in
      (BotSuspended base shown rest', Some (base ++ [assistant_turn shown]))
  end.

(** One [next()] on the generator. *)
Definition bot_next (chat : ChatRequest → option string)
    (g : BotGen) (self : App) : App * (BotGen * option (list Message)) :=
  match g with
  | BotCreated history =>
      (guard truthy history && is_onboarded self
       else (self, (BotFinished, None)) ;;
       let reply := response_text chat history self in
       let self := with_ollama_conversation
         (λ c, c ++ [{| chat_role := Assistant; chat_content := reply |}]) self in
       (self, stream_next history "" (str_chars reply)))%py
  | BotSuspended base shown rest => (self, stream_next base shown rest)
  | BotFinished => (self, (BotFinished, None))
  end.

(** The first [n] resumptions: the state they leave, the generator, and
    the histories yielded. *)
Fixpoint bot_take (chat : ChatRequest → option string) (n : nat)
    (g : BotGen) (self : App) : App * (BotGen * list (list Message)) :=
  match n with
  | O => (self, (g, []))
  | S n' =>
      let '(self, (g, y)) := bot_next chat g self in
      match y with
      | None => (self, (g, []))
      | Some h =>
          let '(self, (g, hs)) := bot_take chat n' g self in
          (self, (g, h :: hs))
      end
  end.

(** The yields of the loop, in closed form. *)
Fixpoint stream (base : list Message) (shown : string) (rest : list string)
  : list (list Message) :=
  match rest with
  | [] => []
  | character :: rest' =>
      let shown := shown +:+ character in
      (base ++ [assistant_turn shown]) :: stream base shown rest'
  end.

(** The generator run to its end. *)
Definition bot_response (chat : ChatRequest → option string)
    (history : list Message) (self : App) : App * list (list Message) :=
  (guard truthy history && is_onboarded self else (self, []) ;;
   let reply := response_text chat history self in
   (with_ollama_conversation
      (λ c, c ++ [{| chat_role := Assistant; chat_content := reply |}]) self,
    stream history "" (str_chars reply)))%py.

(** [file_type == "image"]. *)
Definition is_image (file : string) : bool :=
  bool_decide (classify_file_type file = "image").

(** ** The turn of the examples *)

Definition example_clock : nat → datetime := λ _, sample_time.

Definition example_chat : ChatRequest → option string := λ _, Some "I hear you.".

Definition example_input : UserInput := {| text := "He cannot sleep"; files := [] |}.

(** ** [classify_file_type] *)

Lemma classify_file_type_cases (file_path : string) :
  classify_file_type file_path = "image" ∨ classify_file_type file_path = "other".
Proof. unfold classify_file_type. case_cond; auto. Qed.

(** A file is classified as image exactly when its lower-cased path
    ends in one of the five extensions. *)
Lemma classify_file_type_image (file_path : string) :
  classify_file_type file_path = "image" ↔
  ∃ ext p, ext ∈ [".jpg"; ".jpeg"; ".png"; ".gif"; ".bmp"] ∧
           str_lower file_path = p +:+ ext.
Proof.
  unfold classify_file_type. rewrite <- str_endswith_any_spec.
  by case_cond.
Qed.

(** ** [add_message] *)

Section add_file.
Context (clock : nat → datetime).

Lemma add_file_history st file :
  (add_file clock st file).1.1 = st.1.1 ++ [user_turn (Path file)].
Proof. destruct st as [[h m] k]. unfold add_file. by case_cond. Qed.

Lemma add_file_audio st file :
  audio_recordings (add_file clock st file).1.2 = audio_recordings st.1.2.
Proof. destruct st as [[h m] k]. unfold add_file. by repeat case_cond. Qed.

Lemma add_file_count st file :
  length (drawings (add_file clock st file).1.2)
  + length (photos (add_file clock st file).1.2)
  = length (drawings st.1.2) + length (photos st.1.2)
    + (if is_image file then 1 else 0).
Proof.
  destruct st as [[h m] k]. unfold add_file, is_image.
  repeat case_cond; simpl; rewrite ?length_app; simpl; lia.
Qed.

Lemma add_file_reads st file :
  (add_file clock st file).2 = st.2 + (if is_image file then 1 else 0).
Proof.
  destruct st as [[h m] k]. unfold add_file, is_image.
  case_cond; simpl; lia.
Qed.

Lemma add_files_history st fs :
  (foldl (add_file clock) st fs).1.1 = st.1.1 ++ (user_turn ∘ Path <$> fs).
Proof.
  revert st. induction fs as [|f fs IH]; intros st; simpl.
  - by rewrite app_nil_r.
  - by rewrite IH, add_file_history, <- app_assoc.
Qed.

Lemma add_files_audio st fs :
  audio_recordings (foldl (add_file clock) st fs).1.2 = audio_recordings st.1.2.
Proof.
  revert st. induction fs as [|f fs IH]; intros st; simpl; [done|].
  by rewrite IH, add_file_audio.
Qed.

Lemma add_files_count st fs :
  length (drawings (foldl (add_file clock) st fs).1.2)
  + length (photos (foldl (add_file clock) st fs).1.2)
  = length (drawings st.1.2) + length (photos st.1.2)
    + length (filter (λ f, is_image f = true) fs).
Proof.
  revert st. induction fs as [|f fs IH]; intros st; simpl; [lia|].
  rewrite IH, add_file_count, filter_cons.
  destruct (is_image f); simpl; lia.
Qed.

End add_file.

Lemma append_observation_empty (text : string) : append_observation "" text = text.
Proof. done. Qed.

Lemma append_observation_join (xs : list string) (text : string) :
  append_observation (str_join " " xs) text
  = if truthy (str_join " " xs) then str_join " " (xs ++ [text]) else text.
Proof.
  unfold append_observation. case_cond; [|done].
  rewrite str_join_snoc; [done|]. by intros ->.
Qed.

(** Appending non-empty texts one after the other to empty observations
    gives the texts joined by single spaces, in order. *)
Lemma observations_join (texts : list string) :
  Forall (λ t, truthy t = true) texts →
  foldl append_observation "" texts = str_join " " texts.
Proof.
  induction texts as [|t texts IH] using rev_ind; intros Hall; [done|].
  apply Forall_app in Hall as [Hall _].
  rewrite foldl_app. simpl. rewrite IH, append_observation_join by done.
  destruct texts as [|t0 texts]; [done|].
  apply Forall_cons in Hall as [Ht0 _].
  by rewrite truthy_str_join_cons.
Qed.

Section add_message.
Context (clock : nat → datetime) (history : list Message).
Context (message : UserInput) (self : App).

(** Before onboarding add_message returns the history it was given and
    a locked text box, and changes nothing. *)
Lemma add_message_rejected :
  is_onboarded self = false →
  add_message clock history message self
  = (self, (history, {| value := None; interactive := false |})).
Proof. unfold add_message. by intros ->. Qed.

Lemma add_message_history :
  is_onboarded self = true →
  (add_message clock history message self).2.1
  = history ++ (user_turn ∘ Path <$> files message)
    ++ (if truthy (text message) then [user_turn (Text (text message))] else []).
Proof.
  intros Hon. unfold add_message. rewrite Hon.
  pose proof (add_files_history clock
    (history, media_attachments (report_data self), 0) (files message)) as Hh.
  destruct (foldl _ _ _) as [[h m] k]. simpl in Hh. subst h.
  case_cond; simpl; by rewrite <- ?app_assoc, ?app_nil_r.
Qed.

Lemma add_message_stored :
  is_onboarded self = true →
  conversation_history (report_data (add_message clock history message self).1)
  = (add_message clock history message self).2.1.
Proof.
  intros Hon. unfold add_message. rewrite Hon.
  destruct (foldl _ _ _) as [[h m] k]. by case_cond.
Qed.

Lemma add_message_observations :
  is_onboarded self = true →
  parent_observations (assessment_data (report_data
    (add_message clock history message self).1))
  = if truthy (text message)
    then append_observation
           (parent_observations (assessment_data (report_data self))) (text message)
    else parent_observations (assessment_data (report_data self)).
Proof.
  intros Hon. unfold add_message. rewrite Hon.
  destruct (foldl _ _ _) as [[h m] k]. by case_cond.
Qed.

Lemma add_message_ollama :
  ollama_conversation (add_message clock history message self).1
  = ollama_conversation self
    ++ (if is_onboarded self && truthy (text message)
        then [{| chat_role := User; chat_content := text message |}] else []).
Proof.
  unfold add_message. destruct (is_onboarded self); simpl; [|by rewrite app_nil_r].
  destruct (foldl _ _ _) as [[h m] k]. case_cond; simpl; by rewrite ?app_nil_r.
Qed.

(** add_message adds one drawing or photo per uploaded image file and
    never an audio recording. *)
Lemma add_message_media_count :
  is_onboarded self = true →
  let m' := media_attachments (report_data (add_message clock history message self).1) in
  let m := media_attachments (report_data self) in
  length (drawings m') + length (photos m')
  = length (drawings m) + length (photos m)
    + length (filter (λ f, is_image f = true) (files message))
  ∧ audio_recordings m' = audio_recordings m.
Proof.
  intros Hon. unfold add_message. rewrite Hon.
  pose proof (add_files_count clock
    (history, media_attachments (report_data self), 0) (files message)) as Hc.
  pose proof (add_files_audio clock
    (history, media_attachments (report_data self), 0) (files message)) as Ha.
  destruct (foldl _ _ _) as [[h m] k]. by case_cond.
Qed.

(** The text box is returned emptied and locked on both paths. *)
Lemma add_message_locked :
  (add_message clock history message self).2.2
  = {| value := None; interactive := false |}.
Proof.
  unfold add_message. destruct (is_onboarded self); [|done].
  destruct (foldl _ _ _) as [[h m] k]. by case_cond.
Qed.

Lemma add_message_frame :
  let self' := (add_message clock history message self).1 in
  child_info (report_data self') = child_info (report_data self)
  ∧ is_onboarded self' = is_onboarded self
  ∧ submitted_report_id self' = submitted_report_id self
  ∧ polling_active self' = polling_active self
  ∧ supabase self' = supabase self
  ∧ specialist_response self' = specialist_response self.
Proof.
  unfold add_message. destruct (is_onboarded self) eqn:E; [|done].
  destruct (foldl _ _ _) as [[h m] k]. by case_cond.
Qed.

End add_message.

(** ** [bot_response] *)

Lemma stream_length base shown rest :
  length (stream base shown rest) = length rest.
Proof. revert shown. induction rest; intros; simpl; by f_equal. Qed.

Lemma stream_lookup base shown rest (k : nat) :
  k < length rest →
  stream base shown rest !! k
  = Some (base ++ [assistant_turn (shown +:+ str_concat (take (S k) rest))]).
Proof.
  revert shown k. induction rest as [|c rest IH]; intros shown k Hk; simpl in *; [lia|].
  destruct k as [|k]; simpl.
  - by rewrite str_app_nil_r.
  - rewrite IH by lia. by rewrite str_app_assoc.
Qed.

Lemma stream_last base shown rest :
  rest ≠ [] →
  last (stream base shown rest)
  = Some (base ++ [assistant_turn (shown +:+ str_concat rest)]).
Proof.
  intros Hne. assert (0 < length rest) by (destruct rest; [done|simpl; lia]).
  rewrite last_lookup, stream_length, stream_lookup by lia.
  by rewrite take_ge by lia.
Qed.

(** The last yield of a reply shows the whole reply. *)
Lemma stream_reply_last base reply :
  reply ≠ "" →
  last (stream base "" (str_chars reply)) = Some (base ++ [assistant_turn reply]).
Proof.
  intros Hne. rewrite stream_last by (by rewrite str_chars_nil).
  by rewrite str_chars_concat.
Qed.

(** The yields of a reply are as many as it has characters. *)
Lemma stream_reply_length base reply :
  length (stream base "" (str_chars reply)) = str_len reply.
Proof. apply stream_length. Qed.

(** Every history yielded by the streaming loop is the base history
    followed by one assistant turn whose text is a non-empty prefix of the
    reply, cut between two characters. *)
Lemma stream_extends base shown rest h :
  h ∈ stream base shown (str_chars rest) →
  ∃ s, h = base ++ [assistant_turn (shown +:+ s)] ∧ truthy s = true
       ∧ str_startswith rest s = true.
Proof.
  intros (k & Hk)%list_elem_of_lookup.
  assert (k < str_len rest) as Hlt.
  { unfold str_len. rewrite <- (stream_length base shown). by eapply lookup_lt_Some. }
  rewrite stream_lookup in Hk by done. injection Hk as <-.
  exists (str_take (S k) rest). split_and!; [done| |].
  - unfold str_take. pose proof (str_chars_nonempty rest) as Hall.
    unfold str_len in Hlt. destruct (str_chars rest) as [|c cs]; [simpl in Hlt; lia|].
    apply Forall_cons in Hall as [Hc _]. simpl. by destruct c.
  - apply str_startswith_spec. apply str_take_prefix.
Qed.

Section bot.
Context (chat : ChatRequest → option string).

Lemma bot_take_suspended n base shown rest self :
  (bot_take chat n (BotSuspended base shown rest) self).1 = self
  ∧ (bot_take chat n (BotSuspended base shown rest) self).2.2
    = take n (stream base shown rest).
Proof.
  revert shown rest. induction n as [|n IH]; intros shown rest; [done|].
  destruct rest as [|c rest]; [done|]. simpl.
  specialize (IH (shown +:+ c) rest).
  destruct (bot_take _ _ _ _) as [self' [g hs]]. simpl in *.
  destruct IH as [-> ->]. done.
Qed.

Lemma bot_response_rejected history self :
  truthy history && is_onboarded self = false →
  bot_response chat history self = (self, []).
Proof. unfold bot_response. by intros ->. Qed.

Lemma bot_response_accepted history self :
  truthy history && is_onboarded self = true →
  bot_response chat history self
  = (with_ollama_conversation (λ c, c ++
       [{| chat_role := Assistant;
           chat_content := response_text chat history self |}]) self,
     stream history "" (str_chars (response_text chat history self))).
Proof. unfold bot_response. by intros ->. Qed.

Lemma bot_response_report history self :
  report_data (bot_response chat history self).1 = report_data self.
Proof. unfold bot_response. by case_cond. Qed.

(** The reply is the model's answer, or when the call raised one of the
    two fixed fallback sentences. *)
Lemma response_text_cases history self :
  let child := name (child_info (report_data self)) in
  (∃ r, response_text chat history self = r
        ∧ chat (reply_request history self).1 = Some r)
  ∨ chat (reply_request history self).1 = None
    ∧ response_text chat history self = (reply_request history self).2
    ∧ (reply_request history self).2 ∈ [image_fallback child; text_fallback child].
Proof.
  unfold response_text.
  destruct (reply_request history self) as [req fb] eqn:E. simpl.
  destruct (chat req) as [r|]; [left; eauto | right]. split_and!; [done..|].
  unfold reply_request in E. repeat case_match; simplify_eq; set_solver.
Qed.

Lemma fallback_names_child (child : string) :
  str_in child (image_fallback child) = true
  ∧ str_in child (text_fallback child) = true.
Proof. split; apply str_in_app. Qed.

(** Resuming the generator of bot_response n + 1 times leaves the state
    and yields the first n + 1 histories of the closed form bot_response. *)
Lemma bot_take_bot_response n history self :
  (bot_take chat (S n) (BotCreated history) self).1
  = (bot_response chat history self).1
  ∧ (bot_take chat (S n) (BotCreated history) self).2.2
    = take (S n) (bot_response chat history self).2.
Proof.
  unfold bot_response. cbn [bot_take bot_next].
  destruct (truthy history && is_onboarded self); [|done].
  destruct (str_chars (response_text chat history self)) as [|c rest]; [done|].
  cbn [stream_next stream take].
  pose proof (bot_take_suspended n history ("" +:+ c) rest
    (with_ollama_conversation (λ l, l ++
       [{| chat_role := Assistant;
           chat_content := response_text chat history self |}]) self))
    as [Hs Hy].
  destruct (bot_take _ _ _ _) as [self' [g hs]]. simpl in *. by subst.
Qed.

End bot.

(** The session of the examples is what one turn of conversation leaves. *)
Example example_session_run :
  let '(self, (history, _)) := add_message example_clock [] example_input example_app in
  (bot_response example_chat history self).1 = example_session
  ∧ last (bot_response example_chat history self).2
    = Some [user_turn (Text "He cannot sleep"); assistant_turn "I hear you."].
Proof. by vm_compute. Qed.

(** ** The scenarios of a conversation *)

Lemma observations_join_witness :
  foldl append_observation "" ["He cannot sleep"; "He hides when planes pass"]
  = "He cannot sleep He hides when planes pass".
Proof.
  apply (observations_join ["He cannot sleep"; "He hides when planes pass"]).
  by repeat constructor.
Defined.

Lemma add_message_rejected_witness :
  add_message example_clock [] example_input example_init
  = (example_init, ([], {| value := None; interactive := false |})).
Proof. by apply add_message_rejected. Defined.

Lemma add_message_history_witness :
  (add_message example_clock [] {| text := "Look"; files := ["drawing1.png"] |}
     example_app).2.1
  = [user_turn (Path "drawing1.png"); user_turn (Text "Look")].
Proof.
  by apply (add_message_history example_clock []
              {| text := "Look"; files := ["drawing1.png"] |} example_app).
Defined.

Lemma add_message_media_count_witness :
  let m' := media_attachments (report_data
              (add_message example_clock []
                 {| text := ""; files := ["drawing1.png"; "voice.mp3"; "home.JPG"] |}
                 example_app).1) in
  length (drawings m') + length (photos m') = 2 ∧ audio_recordings m' = [].
Proof.
  by apply (add_message_media_count example_clock []
              {| text := ""; files := ["drawing1.png"; "voice.mp3"; "home.JPG"] |}
              example_app).
Defined.

Lemma stream_extends_witness :
  ∃ s, [assistant_turn "Hi"] = [] ++ [assistant_turn ("" +:+ s)]
       ∧ truthy s = true ∧ str_startswith "Hi!" s = true.
Proof. apply (stream_extends [] "" "Hi!"). vm_compute. set_solver. Defined.

(** Two turns are joined with one space, in the order they were said. *)
Example observations_two_turns :
  let say t self := (add_message example_clock [] {| text := t; files := [] |} self).1 in
  parent_observations (assessment_data (report_data (say "B" (say "A" example_app))))
  = "A B".
Proof. reflexivity. Qed.
