(* ===== verification/Submission.v ===== *)
(** * Submission: pushing the report and reading the reply

    [push_report_to_care_bridge], [start_response_polling] and
    [get_specialist_response] of [src/app.py].

    The HTTP exchange is the oracle [post]: given the request it says what
    [requests.post] did, a response or a raised exception, and for a
    response what [response.json()] gives.  [start_response_polling]
    returns, beside the state, whether it started a thread; the thread's
    body is the polling component's. *)

From S2P Require Import Spec2Rocq PyStr PyVal PyTime Session.

(** ** The HTTP exchange *)

(** The exception classes of [requests] the handler tells apart, each with
    the text [str(e)] gives.  [ConnectTimeout] inherits from both
    [ConnectionError] and [Timeout]. *)
Inductive HttpExn : Type :=
| ConnectionError (msg : string)
| ConnectTimeout (msg : string)
| ReadTimeout (msg : string)
| RequestException (msg : string)
| OtherException (msg : string).

Definition is_ConnectionError (e : HttpExn) : bool :=
  match e with ConnectionError _ | ConnectTimeout _ => true | _ => false end.
Definition is_Timeout (e : HttpExn) : bool :=
  match e with ConnectTimeout _ | ReadTimeout _ => true | _ => false end.
Definition is_RequestException (e : HttpExn) : bool :=
  match e with OtherException _ => false | _ => true end.
Definition exn_str (e : HttpExn) : string :=
  match e with
  | ConnectionError m | ConnectTimeout m | ReadTimeout m
  | RequestException m | OtherException m => m
  end.

Record HttpRequest : Type := {
  url : string;
  json : pyval;
  headers : list (string * string);
  timeout : Z
}.

(** A response: its status, its body as text, and what [response.json()]
    does (the decoded body, or the exception it raises). *)
Record HttpResponse : Type := {
  status_code : Z;
  resp_text : string;
  resp_json : HttpExn + pyval
}.

Definition HttpOutcome : Type := HttpExn + HttpResponse.

(** ** The payload *)

Definition attachment_json (a : Attachment) : pyval :=
  PDict [("path", PStr (path a)); ("timestamp", PStr (timestamp a))].

Definition media_json (m : MediaAttachments) : pyval :=
  PDict [("drawings", PList (attachment_json <$> drawings m));
         ("audio_recordings", PList (attachment_json <$> audio_recordings m));
         ("photos", PList (attachment_json <$> photos m))].

Definition api_data (r : ReportData) : pyval :=
  PDict [
    ("child_info", PDict [
       ("age", PInt (age (child_info r)));
       ("gender", PStr (str_lower (gender (child_info r))));
       ("location", PStr (location (child_info r)))]);
    ("assessment_data", PDict [
       ("parent_observations", PStr (parent_observations (assessment_data r)));
       ("ai_analysis", PStr (ai_analysis (assessment_data r)));
       ("severity_score", PInt (severity_score (assessment_data r)));
       ("risk_indicators", PList (PStr <$> risk_indicators (assessment_data r)));
       ("cultural_context", PStr (cultural_context (assessment_data r)))]);
    ("media_attachments", media_json (media_attachments r));
    ("mobile_app_id", PStr (mobile_app_id r))].

Definition default_base_url : string := "https://care-bridge-platform-7vs1.vercel.app".

Definition report_request (base_url : string) (r : ReportData) : HttpRequest :=
  {| url := base_url +:+ "/api/reports";
     json := api_data r;
     headers := [("Content-Type", "application/json")];
     timeout := 10 |}.

(** ** [start_response_polling]

    The second component says whether [polling_thread.start()] ran. *)

Definition start_response_polling (self : App) : App * bool :=
  (guard supabase self && truthy (submitted_report_id self) else (self, false) ;;
   guard negb (polling_active self) else (self, false) ;;
   (set_polling_active true self, true))%py.

(** ** [push_report_to_care_bridge] *)

(** [result.get('id', 'Unknown')] on the decoded body; on a body that is
    not an object the attribute lookup raises. *)
Definition report_id_of (result : pyval) : HttpExn + pyval :=
  match py_get result "id" (PStr "Unknown") with
  | Ok v => inr v
  | Raise _ =>
      inl (OtherException ("'" +:+ type_name result +:+ "' object has no attribute 'get'"))
  end.

(** [response.json()] and then the lookup of the identifier. *)
Definition decode_report_id (response : HttpResponse) : HttpExn + pyval :=
  match resp_json response with
  | inl e => inl e
  | inr result => report_id_of result
  end.

(** The four [except] clauses, in the order they are tried. *)
Definition push_failure (e : HttpExn) : string :=
  if is_ConnectionError e then
    "❌ Could not connect to Care Bridge Platform. Please check if the platform is running."
  else if is_Timeout e then "❌ Request timed out. Please try again."
  else if is_RequestException e then "❌ Network error: " +:+ exn_str e
  else "❌ Unexpected error: " +:+ exn_str e.

Definition push_success (report_id : pyval) : string :=
  "✅ Report successfully pushed to Care Bridge Platform!
📋 Report ID: " +:+ py_str report_id +:+ "
🔄 Now monitoring for specialist response...".

(** The state after the call, whether a polling thread was started, and
    the pair the handler returns. *)
Definition push_report_to_care_bridge (post : HttpRequest → HttpOutcome)
    (base_url : string) (self : App) : App * bool * (bool * string) :=
  (guard is_onboarded self
   else (self, false, (false, "Please complete the initial assessment form first.")) ;;
   guard truthy (conversation_history (report_data self))
   else (self, false,
         (false, "Please have a conversation first before pushing a report.")) ;;
   match post (report_request base_url (report_data self)) with
   | inl e => (self, false, (false, push_failure e))
   | inr response =>
       if bool_decide (status_code response = 201%Z) then
         match decode_report_id response with
         | inl e => (self, false, (false, push_failure e))
         | inr report_id =>
             let self := set_submitted_report_id report_id self in
             let '(self, started) := start_response_polling self in
             (self, started, (true, push_success report_id))
         end
       else
         (self, false,
          (false, "❌ API Error: " +:+ str_of_int (status_code response) +:+ " - "
                  +:+ resp_text response))
   end)%py.

(** ** [get_specialist_response] *)

(** The dictionary [urgency_color]. *)
Definition urgency_color : list (string * string) :=
  [("low", "🟢"); ("medium", "🟡"); ("high", "🟠"); ("critical", "🔴")].

(** [urgency_color.get(level, '⚪')]: a key that cannot be hashed raises;
    a key that is not a string is equal to none of the four. *)
Definition urgency_emoji_of (level : pyval) : result string :=
  if hashable level then
    Ok (match level with
        | PStr s =>
            from_option (λ hit, hit.2.2) "⚪"
              (list_find (λ kv, kv.1 = s) urgency_color)
        | _ => "⚪"
        end)
  else Raise TypeError.

Definition response_header (date specialist urgency_emoji level notes : string)
  : string :=
  "
# 👨‍⚕️ SPECIALIST RESPONSE RECEIVED

**Response Date:** " +:+
  date +:+
  "  
**Specialist ID:** " +:+
  specialist +:+
  "  
**Urgency Level:** " +:+
  urgency_emoji +:+
  " " +:+
  level +:+
  "

---

## 📝 PSYCHOLOGIST NOTES

" +:+
  notes +:+
  "

---

## 💡 RECOMMENDATIONS

".

(** One line of the loop over [recommendations.items()]. *)
Definition recommendation_line (kv : string * pyval) : string :=
  "**" +:+ str_title (str_replace "_" " " kv.1) +:+ ":** " +:+ py_str kv.2 +:+ "

".

Definition format_recommendations (recommendations : pyval) : string :=
  match recommendations with
  | PDict items => String.concat "" (recommendation_line <$> items)
  | other => py_str other
  end.

(** The body of [if hasattr(self, 'specialist_response')]. *)
Definition format_specialist_response (response : pyval) : result string :=
  level ← py_getitem response "urgency_level";
  urgency_emoji ← urgency_emoji_of level;
  raw_date ← py_getitem response "response_date";
  sliced ← py_slice_to 19 raw_date;
  date ← py_replace "T" " " sliced;
  specialist ← py_getitem response "psychologist_id";
  upper ← py_upper level;
  notes ← py_getitem response "psychologist_notes";
  recommendations ← py_getitem response "recommendations";
  Ok (response_header date (py_str specialist) urgency_emoji upper (py_str notes)
      +:+ format_recommendations recommendations).

Definition get_specialist_response (self : App) : result (bool * string) :=
  match specialist_response self with
  | Some response => s ← format_specialist_response response; Ok (true, s)
  | None => Ok (false, "No specialist response available yet. Still monitoring...")
  end.

(** ** The platform of the examples *)

(** The platform accepts the report as [r-1]. *)
Definition example_created : HttpRequest → HttpOutcome := λ _,
  inr {| status_code := 201; resp_text := "";
         resp_json := inr (PDict [("id", PStr "r-1")]) |}.

(** The platform fails. *)
Definition example_failed : HttpRequest → HttpOutcome := λ _,
  inr {| status_code := 500; resp_text := "Internal Server Error";
         resp_json := inl (OtherException "Expecting value") |}.

(** A reply as the specialist's side writes it. *)
Definition example_reply : pyval :=
  PDict [("report_id", PStr "r-1");
         ("psychologist_id", PStr "psy-7");
         ("urgency_level", PStr "high");
         ("response_date", PStr "2025-03-08T10:15:00.123456+00:00");
         ("psychologist_notes", PStr "Sleep disturbance after displacement.");
         ("recommendations", PDict [("follow_up", PStr "within 2 weeks")])].

(** ** Lemmas: [start_response_polling] *)

Lemma start_response_polling_cases (self : App) :
  start_response_polling self
  = if supabase self && truthy (submitted_report_id self) && negb (polling_active self)
    then (set_polling_active true self, true) else (self, false).
Proof. unfold start_response_polling. by repeat case_cond. Qed.

Lemma start_response_polling_started (self : App) :
  (start_response_polling self).2 = true ↔
  supabase self = true ∧ truthy (submitted_report_id self) = true
  ∧ polling_active self = false.
Proof.
  rewrite start_response_polling_cases.
  destruct (supabase self), (truthy _), (polling_active self); naive_solver.
Qed.

Lemma start_response_polling_active (self : App) :
  polling_active (start_response_polling self).1
  = polling_active self || supabase self && truthy (submitted_report_id self).
Proof.
  rewrite start_response_polling_cases.
  by destruct (supabase self), (truthy _), (polling_active self) eqn:E.
Qed.

Lemma start_response_polling_frame (self : App) :
  let self' := (start_response_polling self).1 in
  report_data self' = report_data self
  ∧ is_onboarded self' = is_onboarded self
  ∧ submitted_report_id self' = submitted_report_id self
  ∧ supabase self' = supabase self
  ∧ ollama_conversation self' = ollama_conversation self
  ∧ specialist_response self' = specialist_response self.
Proof. rewrite start_response_polling_cases. by case_cond. Qed.

Lemma start_response_polling_unchanged (self : App) :
  (start_response_polling self).2 = false → (start_response_polling self).1 = self.
Proof. rewrite start_response_polling_cases. by case_cond. Qed.

(** Calling start_response_polling a second time right after the first
    starts no thread and changes nothing, whatever the first call did. *)
Lemma start_response_polling_twice (self : App) :
  start_response_polling (start_response_polling self).1
  = ((start_response_polling self).1, false).
Proof.
  rewrite !start_response_polling_cases.
  destruct (supabase self) eqn:Es, (truthy (submitted_report_id self)) eqn:Et,
    (polling_active self) eqn:Ea; simpl; rewrite ?Es, ?Et, ?Ea; simpl;
    by rewrite ?andb_false_r.
Qed.

(** ** Lemmas: the payload *)

(** The payload sent to the platform does not depend on the child's
    name, the transcript or the session start. *)
Lemma api_data_anonymous (r : ReportData) (n : string) (h : list Message) (s : string) :
  api_data
    {| child_info := {| name := n; age := age (child_info r);
                        gender := gender (child_info r);
                        location := location (child_info r) |};
       assessment_data := assessment_data r;
       media_attachments := media_attachments r;
       mobile_app_id := mobile_app_id r;
       session_start := s;
       conversation_history := h |}
  = api_data r.
Proof. done. Qed.

Lemma api_data_gender (r : ReportData) :
  (py_getitem (api_data r) "child_info" ≫= λ c, py_getitem c "gender")
  = Ok (PStr (str_lower (gender (child_info r)))).
Proof. done. Qed.

Lemma report_request_url (base_url : string) (r : ReportData) :
  str_endswith (url (report_request base_url r)) "/api/reports" = true
  ∧ str_startswith (url (report_request base_url r)) base_url = true.
Proof. split; [apply str_endswith_app | apply str_startswith_app]. Qed.

(** ** Lemmas: the [except] clauses *)

Lemma push_failure_cases (e : HttpExn) :
  push_failure e =
  match e with
  | ConnectionError _ | ConnectTimeout _ =>
      "❌ Could not connect to Care Bridge Platform. Please check if the platform is running."
  | ReadTimeout _ => "❌ Request timed out. Please try again."
  | RequestException m => "❌ Network error: " +:+ m
  | OtherException m => "❌ Unexpected error: " +:+ m
  end.
Proof. by destruct e. Qed.

Lemma report_id_of_dict (d : list (string * pyval)) :
  report_id_of (PDict d) = inr (from_option id (PStr "Unknown") (dict_get "id" d)).
Proof. done. Qed.

Lemma report_id_of_not_dict (v : pyval) :
  is_dict v = false → ∃ m, report_id_of v = inl (OtherException m).
Proof. destruct v; simpl; [eauto..|done]. Qed.

(** ** Lemmas: [push_report_to_care_bridge] *)

Section push.
Context (post : HttpRequest → HttpOutcome) (base_url : string) (self : App).


Lemma push_gate_closed :
  is_onboarded self = false →
  push_report_to_care_bridge post base_url self
  = (self, false, (false, "Please complete the initial assessment form first.")).
Proof. unfold push_report_to_care_bridge. by intros ->. Qed.

Lemma push_no_conversation :
  is_onboarded self = true → conversation_history (report_data self) = [] →
  push_report_to_care_bridge post base_url self
  = (self, false,
          (false, "Please have a conversation first before pushing a report.")).
Proof. unfold push_report_to_care_bridge. by intros -> ->. Qed.

Section ready.
Hypothesis Hgate : is_onboarded self = true.
Hypothesis Hhistory : truthy (conversation_history (report_data self)) = true.

Lemma push_ready :
  (push_report_to_care_bridge post base_url self) =
  match post (report_request base_url (report_data self)) with
  | inl e => (self, false, (false, push_failure e))
  | inr response =>
      if bool_decide (status_code response = 201%Z) then
        match decode_report_id response with
        | inl e => (self, false, (false, push_failure e))
        | inr report_id =>
            let self' := set_submitted_report_id report_id self in
            ((start_response_polling self').1, (start_response_polling self').2,
             (true, push_success report_id))
        end
      else
        (self, false,
         (false, "❌ API Error: " +:+ str_of_int (status_code response) +:+ " - "
                 +:+ resp_text response))
  end.
Proof.
  unfold push_report_to_care_bridge. rewrite Hgate, Hhistory.
  repeat case_match; done.
Qed.

Lemma push_transport_failure (e : HttpExn) :
  post (report_request base_url (report_data self)) = inl e →
  push_report_to_care_bridge post base_url self
  = (self, false, (false, push_failure e)).
Proof. rewrite push_ready. by intros ->. Qed.

(** When the platform answers with a status other than 201 the push
    returns failure with the status code and the body in the message, the
    state unchanged and no thread started. *)
Lemma push_api_error (response : HttpResponse) :
  post (report_request base_url (report_data self)) = inr response →
  status_code response ≠ 201%Z →
  push_report_to_care_bridge post base_url self
  = (self, false,
          (false, "❌ API Error: " +:+ str_of_int (status_code response) +:+ " - "
                  +:+ resp_text response)).
Proof. rewrite push_ready. intros -> ?. by rewrite bool_decide_eq_false_2. Qed.

Lemma push_bad_body (response : HttpResponse) (e : HttpExn) :
  post (report_request base_url (report_data self)) = inr response →
  status_code response = 201%Z →
  decode_report_id response = inl e →
  push_report_to_care_bridge post base_url self
  = (self, false, (false, push_failure e)).
Proof. rewrite push_ready. intros -> ? ->. by rewrite bool_decide_eq_true_2. Qed.

Lemma push_accepted (response : HttpResponse) (report_id : pyval) :
  post (report_request base_url (report_data self)) = inr response →
  status_code response = 201%Z →
  decode_report_id response = inr report_id →
  push_report_to_care_bridge post base_url self
  = ((start_response_polling (set_submitted_report_id report_id self)).1,
          (start_response_polling (set_submitted_report_id report_id self)).2,
          (true, push_success report_id)).
Proof. rewrite push_ready. intros -> ? ->. by rewrite bool_decide_eq_true_2. Qed.

End ready.

(** The call has one of three shapes: refused at a guard, failed after the
    (report_request base_url (report_data self)), or accepted with an identifier. *)
Lemma push_cases :
  (∃ m, (push_report_to_care_bridge post base_url self) = (self, false, (false, m)))
  ∨ (∃ response report_id,
       is_onboarded self = true
       ∧ truthy (conversation_history (report_data self)) = true
       ∧ post (report_request base_url (report_data self)) = inr response
       ∧ status_code response = 201%Z
       ∧ decode_report_id response = inr report_id
       ∧ push_report_to_care_bridge post base_url self
         = ((start_response_polling (set_submitted_report_id report_id self)).1,
                 (start_response_polling (set_submitted_report_id report_id self)).2,
                 (true, push_success report_id))).
Proof.
  unfold push_report_to_care_bridge.
  destruct (is_onboarded self); [|by left; eexists].
  destruct (truthy (conversation_history _)); [|by left; eexists].
  destruct (post _) as [e|response] eqn:Hp; [by left; eexists|].
  case_bool_decide as Hs; [|by left; eexists].
  destruct (decode_report_id response) as [e|report_id] eqn:Hd; [by left; eexists|].
  right. exists response, report_id. by destruct (start_response_polling _).
Qed.

(** C4: A push that reports failure (closed gate, empty transcript,
    transport exception, status other than 201, undecodable body) leaves the
    application object exactly as it was and starts no thread. *)
Lemma push_failed_unchanged :
  (push_report_to_care_bridge post base_url self).2.1 = false →
  (push_report_to_care_bridge post base_url self).1 = (self, false).
Proof.
  destruct push_cases as [[m ->]|(? & ? & _ & _ & _ & _ & _ & ->)]; by simpl.
Qed.

(** The call writes [submitted_report_id] and [polling_active] and nothing
    else: a reply stored for an earlier report stays. *)
Lemma push_frame :
  let self' := (push_report_to_care_bridge post base_url self).1.1 in
  report_data self' = report_data self
  ∧ is_onboarded self' = is_onboarded self
  ∧ supabase self' = supabase self
  ∧ ollama_conversation self' = ollama_conversation self
  ∧ specialist_response self' = specialist_response self.
Proof.
  destruct push_cases as [[m ->]|(? & id & _ & _ & _ & _ & _ & ->)]; [done|].
  cbn [fst snd].
  by destruct (start_response_polling_frame (set_submitted_report_id id self))
    as (-> & -> & _ & -> & -> & ->).
Qed.

(** C9: A push starts a polling thread exactly when it succeeded, the lookup
    store is configured, the stored identifier is truthy and polling was not
    already active. *)
Lemma push_started_iff :
  (push_report_to_care_bridge post base_url self).1.2 = true ↔
  (push_report_to_care_bridge post base_url self).2.1 = true ∧ supabase self = true
  ∧ truthy (submitted_report_id
              (push_report_to_care_bridge post base_url self).1.1) = true
  ∧ polling_active self = false.
Proof.
  destruct push_cases as [[m ->]|(? & id & _ & _ & _ & _ & _ & ->)];
    [naive_solver|].
  cbn [fst snd]. rewrite start_response_polling_started.
  destruct (start_response_polling_frame (set_submitted_report_id id self))
    as (_ & _ & -> & _). simpl. naive_solver.
Qed.

(** The flag is never lowered by a submission. *)
Lemma push_active_mono :
  polling_active self = true →
  polling_active (push_report_to_care_bridge post base_url self).1.1 = true.
Proof.
  destruct push_cases as [[m ->]|(? & id & _ & _ & _ & _ & _ & ->)]; [done|].
  cbn [fst snd]. rewrite start_response_polling_active. simpl. by intros ->.
Qed.

(** After a successful push submitted_report_id is the value of the key
    id of the decoded body, or the text Unknown when the body has no such
    key. *)
Lemma push_stores_id :
  (push_report_to_care_bridge post base_url self).2.1 = true →
  ∃ response d,
    post (report_request base_url (report_data self)) = inr response
    ∧ resp_json response = inr (PDict d)
    ∧ submitted_report_id (push_report_to_care_bridge post base_url self).1.1
      = from_option id (PStr "Unknown") (dict_get "id" d).
Proof.
  destruct push_cases as [[m ->]|(response & rid & _ & _ & Hp & _ & Hd & ->)];
    [done|]. intros _. cbn [fst snd].
  destruct (start_response_polling_frame (set_submitted_report_id rid self))
    as (_ & _ & -> & _). simpl.
  unfold decode_report_id in Hd. destruct (resp_json response) as [|v] eqn:Hj; [done|].
  destruct v; try done. rewrite report_id_of_dict in Hd. naive_solver.
Qed.

End push.

(** Before onboarding or with an empty transcript the result of a push
    does not depend on the platform: no request is made. *)
Lemma push_guard_no_request (post post' : HttpRequest → HttpOutcome)
    (base_url : string) (self : App) :
  is_onboarded self && truthy (conversation_history (report_data self)) = false →
  push_report_to_care_bridge post base_url self
  = push_report_to_care_bridge post' base_url self.
Proof.
  unfold push_report_to_care_bridge.
  by destruct (is_onboarded self), (truthy _).
Qed.

(** ** Lemmas: [get_specialist_response] *)

Lemma get_specialist_response_none (self : App) :
  specialist_response self = None →
  get_specialist_response self
  = Ok (false, "No specialist response available yet. Still monitoring...").
Proof. unfold get_specialist_response. by intros ->. Qed.

(** The answer depends on the stored reply alone. *)
Lemma get_specialist_response_ext (self self' : App) :
  specialist_response self = specialist_response self' →
  get_specialist_response self = get_specialist_response self'.
Proof. unfold get_specialist_response. by intros ->. Qed.

Lemma get_specialist_response_flag (self : App) (has_response : bool) (text : string) :
  get_specialist_response self = Ok (has_response, text) →
  has_response = bool_decide (is_Some (specialist_response self)).
Proof.
  unfold get_specialist_response. destruct (specialist_response self) as [r|].
  - destruct (format_specialist_response r); simpl; [|done]. by intros [= <- _].
  - by intros [= <- _].
Qed.

Global Arguments urgency_emoji_of : simpl never.

Lemma urgency_emoji_of_str (level : string) :
  ∃ emoji, urgency_emoji_of (PStr level) = Ok emoji
    ∧ (emoji = "⚪" ↔ level ∉ urgency_color.*1).
Proof.
  unfold urgency_emoji_of. simpl. eexists. split; [done|].
  rewrite !not_elem_of_cons.
  repeat case_decide; simpl in *; (split; [try done | naive_solver]).
  intros _. repeat split; try done. apply not_elem_of_nil.
Qed.

Lemma format_specialist_response_wellformed
    (d : list (string * pyval)) (level date : string)
    (specialist notes recommendations : pyval) :
  dict_get "urgency_level" d = Some (PStr level) →
  dict_get "response_date" d = Some (PStr date) →
  dict_get "psychologist_id" d = Some specialist →
  dict_get "psychologist_notes" d = Some notes →
  dict_get "recommendations" d = Some recommendations →
  ∃ emoji, urgency_emoji_of (PStr level) = Ok emoji ∧
    format_specialist_response (PDict d)
    = Ok (response_header (str_replace "T" " " (str_take 19 date))
            (py_str specialist) emoji (str_upper level) (py_str notes)
          +:+ format_recommendations recommendations).
Proof.
  intros Hl Hd Hs Hn Hr. destruct (urgency_emoji_of_str level) as (emoji & He & _).
  exists emoji. split; [done|]. unfold format_specialist_response, py_getitem.
  rewrite Hl, Hd, Hs, Hn, Hr.
  by cbn [from_option py_slice_to py_replace py_upper mbind result_bind]; rewrite He.
Qed.

(** The stored reply renders without raising exactly when it is an
    object that has the five fields, with urgency_level and response_date
    strings. *)
Lemma format_specialist_response_ok (response : pyval) :
  is_ok (format_specialist_response response) = true ↔
  ∃ d level date specialist notes recommendations,
    response = PDict d
    ∧ dict_get "urgency_level" d = Some (PStr level)
    ∧ dict_get "response_date" d = Some (PStr date)
    ∧ dict_get "psychologist_id" d = Some specialist
    ∧ dict_get "psychologist_notes" d = Some notes
    ∧ dict_get "recommendations" d = Some recommendations.
Proof.
  split.
  - destruct (format_specialist_response response) as [text|] eqn:H; [intros _|done].
    unfold format_specialist_response in H.
    repeat (apply result_bind_ok in H as (? & ? & H)).
    repeat match goal with
           | H : py_getitem _ _ = Ok _ |- _ => apply py_getitem_ok in H as (? & ? & ?)
           end.
    repeat match goal with
           | H : py_upper ?v = Ok _ |- _ => destruct v; [done..| |done|done]; clear H
           | H : py_slice_to _ ?v = Ok _ |- _ => destruct v; simplify_eq/=
           end; try done.
    simplify_eq. eauto 12.
  - intros (d & level & date & specialist & notes & recs & -> & Hl & Hd & Hs & Hn & Hr).
    by destruct (format_specialist_response_wellformed _ _ _ _ _ _ Hl Hd Hs Hn Hr)
      as (? & _ & ->).
Qed.

Lemma format_recommendations_dict (items : list (string * pyval)) :
  format_recommendations (PDict items)
  = String.concat "" (recommendation_line <$> items).
Proof. done. Qed.

Lemma recommendation_line_key (key : string) (value : pyval) :
  str_in (str_title (str_replace "_" " " key)) (recommendation_line (key, value)) = true.
Proof.
  unfold recommendation_line. cbn [fst snd].
  apply str_in_app_r, str_in_app_l, str_in_refl.
Qed.

(** ** The flag and the thread

    What the two calls that can start a thread do to [polling_active]:
    it is raised exactly when a thread is started, and a thread is started
    only while it is low. *)

Lemma start_response_polling_flag (self : App) :
  polling_active (start_response_polling self).1
  = polling_active self || (start_response_polling self).2
  ∧ ((start_response_polling self).2 = true →
     polling_active self = false ∧ supabase self = true).
Proof.
  rewrite start_response_polling_cases.
  destruct (supabase self), (truthy _), (polling_active self) eqn:E; simpl;
    by rewrite ?E.
Qed.

Lemma push_flag (post : HttpRequest → HttpOutcome) (base_url : string) (self : App) :
  let r := push_report_to_care_bridge post base_url self in
  polling_active r.1.1 = polling_active self || r.1.2
  ∧ (r.1.2 = true → polling_active self = false ∧ supabase self = true).
Proof.
  destruct (push_cases post base_url self)
    as [[m ->]|(? & id & _ & _ & _ & _ & _ & ->)]; cbn [fst snd].
  - by rewrite orb_false_r.
  - apply (start_response_polling_flag (set_submitted_report_id id self)).
Qed.

(** ** The scenarios of submission *)

Lemma push_failed_unchanged_witness :
  (push_report_to_care_bridge example_failed default_base_url example_session).1
  = (example_session, false).
Proof. apply push_failed_unchanged. reflexivity. Defined.

Lemma push_api_error_witness :
  push_report_to_care_bridge example_failed default_base_url example_session
  = (example_session, false,
     (false, "❌ API Error: 500 - Internal Server Error")).
Proof.
  by apply (push_api_error example_failed default_base_url example_session
              eq_refl eq_refl
              {| status_code := 500; resp_text := "Internal Server Error";
                 resp_json := inl (OtherException "Expecting value") |}).
Defined.

Lemma push_guard_no_request_witness :
  push_report_to_care_bridge example_created default_base_url example_app
  = push_report_to_care_bridge example_failed default_base_url example_app.
Proof. apply push_guard_no_request. reflexivity. Defined.

Lemma push_stores_id_witness :
  ∃ response d,
    example_created (report_request default_base_url (report_data example_session))
    = inr response
    ∧ resp_json response = inr (PDict d)
    ∧ submitted_report_id
        (push_report_to_care_bridge example_created default_base_url
           example_session).1.1
      = from_option id (PStr "Unknown") (dict_get "id" d).
Proof. apply push_stores_id. reflexivity. Defined.

(** Scenario 2: with an empty transcript the push is refused. *)
Example push_empty_transcript :
  push_report_to_care_bridge example_created default_base_url example_app
  = (example_app, false,
     (false, "Please have a conversation first before pushing a report.")).
Proof. reflexivity. Qed.

(** A push that succeeds stores the identifier and starts the thread. *)
Example push_created :
  push_report_to_care_bridge example_created default_base_url example_session
  = (set_polling_active true (set_submitted_report_id (PStr "r-1") example_session),
     true,
     (true, push_success (PStr "r-1"))).
Proof. reflexivity. Qed.

Example format_example_reply :
  format_specialist_response example_reply
  = Ok (response_header "2025-03-08 10:15:00" "psy-7" "🟠" "HIGH"
          "Sleep disturbance after displacement."
        +:+ "**Follow Up:** within 2 weeks

").
Proof. reflexivity. Qed.
