(* ===== verification/Polling.v ===== *)
(** * Polling: the background loop that waits for the specialist

    [_poll_for_response] of [src/app.py], twice:

    - [poll_for_response], the loop run from its first line to its last
      with nothing else touching the state ([poll_loop] is the [while],
      [poll_iteration] its body);
    - [thread_step], one statement of the loop at a time, for the
      interleaving with the handlers of the main flow (file [Concurrency]).

    [thread_run_poll_for_response] shows that stepping the thread to its
    end computes [poll_for_response].

    The lookup store is the oracle [query]: for the attempt number and the
    report identifier asked for it says whether the call raised or which
    rows came back.  [time.sleep(5)] only passes time: the number of sleeps
    is the final [poll_count]. *)

From S2P Require Import Spec2Rocq PyStr PyVal PyTime Session Submission.

(** ** Data *)

(** What [self.supabase.table("responses").select("*").eq(...).execute()]
    did: it raised, or it returned with [response.data] the given rows (no
    data is the empty list). *)
Inductive QueryOutcome : Type :=
| QueryRaised
| QueryData (data : list pyval).

(** Where the thread stands in [_poll_for_response]. *)
Inductive PollPc : Type :=
| AtLoopHead
| AtQuery
| AtStore (row : pyval)
| AtRender
| AtDeactivate
| AtSleep
| AtExit
| Terminated.

Record PollThread : Type := {
  pc : PollPc;
  poll_count : nat
}.

Global Instance PollPc_eq_dec : EqDecision PollPc.
Proof. solve_decision. Defined.
Global Instance PollThread_eq_dec : EqDecision PollThread.
Proof. solve_decision. Defined.

Definition max_polls : nat := 120.

(** Seconds slept after each attempt that did not end the loop. *)
Definition poll_interval : nat := 5.

(** ** The loop as one function *)

(** The body of the [while] on the outcome of its query: the state it
    leaves and whether it left the loop by [break]. *)
Definition poll_iteration (outcome : QueryOutcome) (self : App) : App * bool :=
  match outcome with
  | QueryRaised | QueryData [] => (self, false)
  | QueryData (row :: _) =>
      let self := set_specialist_response row self in
      if is_ok (get_specialist_response self)
      then (set_polling_active false self, true)
      else (self, false)
  end.

Fixpoint poll_loop (query : nat → pyval → QueryOutcome)
    (fuel poll_count : nat) (self : App) : App * nat :=
  match fuel with
  | O => (self, poll_count)
  | S fuel' =>
      if polling_active self && (poll_count <? max_polls) then
        let '(self, broke) :=
          poll_iteration (query poll_count (submitted_report_id self)) self in
        if broke then (self, poll_count)
        else poll_loop query fuel' (S poll_count) self
      else (self, poll_count)
  end.

(** The state after the thread's body and the number of sleeps. *)
Definition poll_for_response (query : nat → pyval → QueryOutcome) (self : App)
  : App * nat :=
  let '(self, poll_count) := poll_loop query max_polls 0 self in
  (if max_polls <=? poll_count then set_polling_active false self else self,
   poll_count).

(** ** The loop one statement at a time *)

Definition at_pc (p : PollPc) (t : PollThread) : PollThread :=
  {| pc := p; poll_count := poll_count t |}.

Definition thread_start : PollThread := {| pc := AtLoopHead; poll_count := 0 |}.

(** [outcome] is read only at [AtQuery]. *)
Definition thread_step (outcome : QueryOutcome) (t : PollThread) (self : App)
  : PollThread * App :=
  match pc t with
  | AtLoopHead =>
      if polling_active self && (poll_count t <? max_polls)
      then (at_pc AtQuery t, self) else (at_pc AtExit t, self)
  | AtQuery =>
      match outcome with
      | QueryRaised | QueryData [] => (at_pc AtSleep t, self)
      | QueryData (row :: _) => (at_pc (AtStore row) t, self)
      end
  | AtStore row => (at_pc AtRender t, set_specialist_response row self)
  | AtRender =>
      if is_ok (get_specialist_response self)
      then (at_pc AtDeactivate t, self) else (at_pc AtSleep t, self)
  | AtDeactivate => (at_pc AtExit t, set_polling_active false self)
  | AtSleep => ({| pc := AtLoopHead; poll_count := S (poll_count t) |}, self)
  | AtExit =>
      (at_pc Terminated t,
       if max_polls <=? poll_count t then set_polling_active false self else self)
  | Terminated => (t, self)
  end.

(** [n] steps of a thread that runs alone against [query]. *)
Fixpoint thread_run (query : nat → pyval → QueryOutcome) (n : nat)
    (t : PollThread) (self : App) : PollThread * App :=
  match n with
  | O => (t, self)
  | S n' =>
      let '(t, self) :=
        thread_step (query (poll_count t) (submitted_report_id self)) t self in
      thread_run query n' t self
  end.

(** The thread may still write [polling_active]. *)
Definition owns_flag (t : PollThread) : bool :=
  match pc t with
  | Terminated => false
  | AtExit => max_polls <=? poll_count t
  | _ => true
  end.

(** The thread is inside the body of the [while]. *)
Definition in_body (t : PollThread) : bool :=
  match pc t with
  | AtQuery | AtStore _ | AtRender | AtDeactivate | AtSleep => true
  | _ => false
  end.

(** Steps the thread has left at most: the measure of its termination. *)
Definition pc_rank (p : PollPc) : nat :=
  match p with
  | AtLoopHead => 6
  | AtQuery => 5
  | AtStore _ => 4
  | AtRender => 3
  | AtDeactivate => 2
  | AtSleep => 1
  | AtExit => 1
  | Terminated => 0
  end.

Definition thread_measure (t : PollThread) : nat :=
  match pc t with
  | Terminated => 0
  | AtExit => 1
  | AtDeactivate => 2
  | p => 2 + 6 * (max_polls - poll_count t) + pc_rank p
  end.

(** The seconds the thread has slept: [time.sleep(5)] comes before
    every increment of the counter. *)
Definition slept (t : PollThread) : nat := poll_interval * poll_count t.

(** The thread's counter respects the budget. *)
Definition thread_inv (t : PollThread) : Prop :=
  poll_count t ≤ max_polls ∧ (in_body t = true → poll_count t < max_polls).

Global Instance thread_inv_dec t : Decision (thread_inv t).
Proof. unfold thread_inv. apply _. Defined.

(** The attempt brought nothing: the call raised or no row matched. *)
Definition no_rows (outcome : QueryOutcome) : bool :=
  match outcome with QueryRaised | QueryData [] => true | _ => false end.

(** ** The lookup stores of the examples *)

(** The session of the examples after its report was accepted as [r-1]. *)
Definition example_polling : App :=
  set_polling_active true (set_submitted_report_id (PStr "r-1") example_session).

(** No reply ever arrives. *)
Definition example_silent : nat → pyval → QueryOutcome := λ _ _, QueryData [].

(** The reply is there at the fourth attempt, after an error. *)
Definition example_answered : nat → pyval → QueryOutcome := λ i _,
  match i with
  | 1 => QueryRaised
  | 3 => QueryData [example_reply]
  | _ => QueryData []
  end.

(** A row without the fields of a reply answers every attempt. *)
Definition example_malformed : nat → pyval → QueryOutcome := λ _ _,
  QueryData [PDict [("report_id", PStr "r-1")]].

(** ** The budget

    From here on [max_polls] is folded: the proofs use that it is 120 only
    through [max_polls_eq]. *)

Lemma max_polls_eq : max_polls = 120.
Proof. reflexivity. Qed.

Global Opaque max_polls.

(** ** The body of the loop *)

Lemma poll_iteration_cases (outcome : QueryOutcome) (self : App) :
  (∃ row rest, outcome = QueryData (row :: rest)
     ∧ is_ok (get_specialist_response (set_specialist_response row self)) = true
     ∧ poll_iteration outcome self
       = (set_polling_active false (set_specialist_response row self), true))
  ∨ (∃ row rest, outcome = QueryData (row :: rest)
     ∧ is_ok (get_specialist_response (set_specialist_response row self)) = false
     ∧ poll_iteration outcome self = (set_specialist_response row self, false))
  ∨ ((outcome = QueryRaised ∨ outcome = QueryData [])
     ∧ poll_iteration outcome self = (self, false)).
Proof.
  destruct outcome as [|[|row rest]]; simpl; [naive_solver..|].
  case_cond; [left | right; left]; eauto.
Qed.

Lemma poll_iteration_frame (outcome : QueryOutcome) (self : App) :
  let self' := (poll_iteration outcome self).1 in
  report_data self' = report_data self
  ∧ is_onboarded self' = is_onboarded self
  ∧ submitted_report_id self' = submitted_report_id self
  ∧ supabase self' = supabase self
  ∧ ollama_conversation self' = ollama_conversation self.
Proof. destruct outcome as [|[|row rest]]; simpl; try done. by case_cond. Qed.

Lemma poll_iteration_broke (outcome : QueryOutcome) (self : App) :
  (poll_iteration outcome self).2 = true →
  polling_active (poll_iteration outcome self).1 = false
  ∧ ∃ row rest, outcome = QueryData (row :: rest)
    ∧ specialist_response (poll_iteration outcome self).1 = Some row.
Proof.
  destruct (poll_iteration_cases outcome self)
    as [(row & rest & -> & _ & ->)|[(? & ? & _ & _ & ->)|[_ ->]]]; simpl; try done.
  eauto.
Qed.

Lemma poll_iteration_continue (outcome : QueryOutcome) (self : App) :
  (poll_iteration outcome self).2 = false →
  polling_active (poll_iteration outcome self).1 = polling_active self.
Proof.
  destruct (poll_iteration_cases outcome self)
    as [(? & ? & _ & _ & ->)|[(? & ? & _ & _ & ->)|[_ ->]]]; by simpl.
Qed.

(** ** The loop *)

Section poll_loop.
Context (query : nat → pyval → QueryOutcome).

Lemma poll_loop_exit (fuel c : nat) (self : App) :
  polling_active self && (c <? max_polls) = false →
  poll_loop query fuel c self = (self, c).
Proof. destruct fuel; simpl; [done|]. by intros ->. Qed.

Lemma poll_loop_unfold (fuel c : nat) (self : App) :
  polling_active self && (c <? max_polls) = true →
  poll_loop query (S fuel) c self
  = let '(self', broke) :=
      poll_iteration (query c (submitted_report_id self)) self in
    if broke then (self', c) else poll_loop query fuel (S c) self'.
Proof. simpl. by intros ->. Qed.

Lemma poll_loop_count (fuel c : nat) (self : App) :
  c ≤ (poll_loop query fuel c self).2 ≤ c `max` max_polls.
Proof.
  revert c self. induction fuel as [|fuel IH]; intros c self; simpl; [lia|].
  case_cond; simpl; [|lia]. bool_hyps.
  destruct (poll_iteration _ _) as [self' [|]]; simpl; [lia|].
  specialize (IH (S c) self'). apply Nat.ltb_lt in H0. lia.
Qed.

(** Any fuel of at least max_polls - poll_count gives the same result
    of the loop: the fuel max_polls used by poll_for_response never runs
    out. *)
Lemma poll_loop_fuel (fuel fuel' c : nat) (self : App) :
  max_polls - c ≤ fuel → max_polls - c ≤ fuel' →
  poll_loop query fuel c self = poll_loop query fuel' c self.
Proof.
  revert fuel' c self. induction fuel as [|fuel IH]; intros fuel' c self Hf Hf'.
  - rewrite (poll_loop_exit fuel'); [done|].
    apply andb_false_iff. right. apply Nat.ltb_ge. lia.
  - destruct (polling_active self && (c <? max_polls)) eqn:E.
    + destruct fuel' as [|fuel'].
      { bool_hyps. apply Nat.ltb_lt in H0. lia. }
      rewrite !poll_loop_unfold by done.
      destruct (poll_iteration _ _) as [self' [|]]; [done|].
      apply IH; lia.
    + by rewrite !poll_loop_exit.
Qed.

(** When the loop is left, polling is off or the budget is spent. *)
Lemma poll_loop_done (fuel c : nat) (self : App) :
  max_polls - c ≤ fuel →
  let r := poll_loop query fuel c self in
  polling_active r.1 = false ∨ max_polls ≤ r.2.
Proof.
  revert c self. induction fuel as [|fuel IH]; intros c self Hf; simpl.
  { right. lia. }
  case_cond; simpl.
  - destruct (poll_iteration _ _) as [self' [|]] eqn:E; simpl.
    + left. by destruct (poll_iteration_broke _ _ (f_equal snd E)) as [? _];
        rewrite E in *.
    + apply IH. lia.
  - apply andb_false_iff in Heqb as [->| Hc%Nat.ltb_ge]; auto.
Qed.

Lemma poll_loop_frame (fuel c : nat) (self : App) :
  let self' := (poll_loop query fuel c self).1 in
  report_data self' = report_data self
  ∧ is_onboarded self' = is_onboarded self
  ∧ submitted_report_id self' = submitted_report_id self
  ∧ supabase self' = supabase self
  ∧ ollama_conversation self' = ollama_conversation self.
Proof.
  revert c self. induction fuel as [|fuel IH]; intros c self; simpl; [done|].
  case_cond; [|done].
  pose proof (poll_iteration_frame (query c (submitted_report_id self)) self) as Hf.
  destruct (poll_iteration _ _) as [self' [|]]; simpl in *; [done|].
  specialize (IH (S c) self'). simpl in IH. naive_solver congruence.
Qed.

End poll_loop.

(** ** The thread *)

Lemma thread_inv_slept t : thread_inv t → slept t ≤ 600.
Proof.
  intros [Hle _]. pose proof max_polls_eq. unfold slept, poll_interval. lia.
Qed.

Lemma thread_step_inv outcome t self :
  thread_inv t → thread_inv (thread_step outcome t self).1.
Proof.
  unfold thread_inv, thread_step, in_body.
  destruct t as [p c]; simpl. intros [Hle Hbody].
  destruct p; simpl; repeat case_match; simpl; bool_hyps;
    rewrite ?Nat.ltb_lt in *; try (split; [lia | done || lia || auto]).
  all: split; [specialize (Hbody eq_refl); lia | done || intros; lia].
Qed.

Lemma thread_step_measure outcome t self :
  thread_inv t → pc t ≠ Terminated →
  thread_measure (thread_step outcome t self).1 < thread_measure t.
Proof.
  unfold thread_inv, thread_step, thread_measure, in_body.
  destruct t as [p c]; simpl. intros [Hle Hbody] Hpc.
  destruct p; simpl; repeat case_match; simpl in *; simplify_eq;
    try specialize (Hbody eq_refl); lia.
Qed.

(** The equations of [thread_step], one per statement. *)

Section thread_step.
Context (outcome : QueryOutcome) (c : nat) (self : App).

Lemma thread_step_head_enter :
  polling_active self && (c <? max_polls) = true →
  thread_step outcome {| pc := AtLoopHead; poll_count := c |} self
  = ({| pc := AtQuery; poll_count := c |}, self).
Proof. unfold thread_step. simpl. by intros ->. Qed.

Lemma thread_step_head_leave :
  polling_active self && (c <? max_polls) = false →
  thread_step outcome {| pc := AtLoopHead; poll_count := c |} self
  = ({| pc := AtExit; poll_count := c |}, self).
Proof. unfold thread_step. simpl. by intros ->. Qed.

Lemma thread_step_query_row row rest :
  outcome = QueryData (row :: rest) →
  thread_step outcome {| pc := AtQuery; poll_count := c |} self
  = ({| pc := AtStore row; poll_count := c |}, self).
Proof. by intros ->. Qed.

Lemma thread_step_query_none :
  outcome = QueryRaised ∨ outcome = QueryData [] →
  thread_step outcome {| pc := AtQuery; poll_count := c |} self
  = ({| pc := AtSleep; poll_count := c |}, self).
Proof. by intros [-> | ->]. Qed.

Lemma thread_step_store row :
  thread_step outcome {| pc := AtStore row; poll_count := c |} self
  = ({| pc := AtRender; poll_count := c |}, set_specialist_response row self).
Proof. done. Qed.

Lemma thread_step_render (ok : bool) :
  is_ok (get_specialist_response self) = ok →
  thread_step outcome {| pc := AtRender; poll_count := c |} self
  = ({| pc := if ok then AtDeactivate else AtSleep; poll_count := c |}, self).
Proof. unfold thread_step. simpl. intros ->. by destruct ok. Qed.

Lemma thread_step_deactivate :
  thread_step outcome {| pc := AtDeactivate; poll_count := c |} self
  = ({| pc := AtExit; poll_count := c |}, set_polling_active false self).
Proof. done. Qed.

Lemma thread_step_sleep :
  thread_step outcome {| pc := AtSleep; poll_count := c |} self
  = ({| pc := AtLoopHead; poll_count := S c |}, self).
Proof. done. Qed.

Lemma thread_step_exit :
  thread_step outcome {| pc := AtExit; poll_count := c |} self
  = ({| pc := Terminated; poll_count := c |},
     if max_polls <=? c then set_polling_active false self else self).
Proof. done. Qed.

Lemma thread_step_terminated :
  thread_step outcome {| pc := Terminated; poll_count := c |} self
  = ({| pc := Terminated; poll_count := c |}, self).
Proof. done. Qed.

End thread_step.

#[export] Hint Rewrite thread_step_store thread_step_deactivate thread_step_sleep
  thread_step_exit thread_step_terminated : py.

Section thread_run.
Context (query : nat → pyval → QueryOutcome).

Lemma thread_run_S (n : nat) t self :
  thread_run query (S n) t self
  = thread_run query n
      (thread_step (query (poll_count t) (submitted_report_id self)) t self).1
      (thread_step (query (poll_count t) (submitted_report_id self)) t self).2.
Proof. simpl. by destruct (thread_step _ _ _). Qed.

Lemma thread_run_add (n m : nat) t self :
  thread_run query (n + m) t self
  = thread_run query m (thread_run query n t self).1 (thread_run query n t self).2.
Proof.
  revert t self. induction n as [|n IH]; intros t self; simpl; [done|].
  destruct (thread_step _ _ _) as [t' self']. apply IH.
Qed.

Lemma thread_run_terminated (n c : nat) self :
  thread_run query n {| pc := Terminated; poll_count := c |} self
  = ({| pc := Terminated; poll_count := c |}, self).
Proof. induction n as [|n IH]; simpl; [done|]. apply IH. Qed.

(** Run one statement, by the equation [lem] of [thread_step]. *)
Tactic Notation "thread_step_with" uconstr(lem) :=
  rewrite thread_run_S, lem by done; cbn [fst snd poll_count].

(** One pass through the body, from the loop head to the loop head or to
    the exit. *)
Lemma thread_run_iteration (c : nat) self :
  polling_active self && (c <? max_polls) = true →
  let r := poll_iteration (query c (submitted_report_id self)) self in
  ∃ n, 0 < n ≤ 5 ∧
    thread_run query n {| pc := AtLoopHead; poll_count := c |} self
    = ({| pc := if r.2 then AtExit else AtLoopHead;
          poll_count := if r.2 then c else S c |}, r.1).
Proof.
  intros Hc.
  destruct (poll_iteration_cases (query c (submitted_report_id self)) self)
    as [(row & rest & Hq & Hok & Hr)|[(row & rest & Hq & Hok & Hr)|[Hq Hr]]];
    rewrite Hr; cbn [fst snd].
  - exists 5. split; [lia|].
    thread_step_with thread_step_head_enter.
    thread_step_with (thread_step_query_row _ c self row rest).
    thread_step_with thread_step_store.
    thread_step_with (thread_step_render _ c (set_specialist_response row self) true).
    by thread_step_with thread_step_deactivate.
  - exists 5. split; [lia|].
    thread_step_with thread_step_head_enter.
    thread_step_with (thread_step_query_row _ c self row rest).
    thread_step_with thread_step_store.
    thread_step_with (thread_step_render _ c (set_specialist_response row self) false).
    by thread_step_with thread_step_sleep.
  - exists 3. split; [lia|].
    thread_step_with thread_step_head_enter.
    thread_step_with thread_step_query_none.
    by thread_step_with thread_step_sleep.
Qed.

Lemma thread_run_loop (fuel c : nat) self :
  max_polls - c ≤ fuel →
  let r := poll_loop query fuel c self in
  ∃ n, n ≤ 5 * fuel + 1 ∧
    thread_run query n {| pc := AtLoopHead; poll_count := c |} self
    = ({| pc := AtExit; poll_count := r.2 |}, r.1).
Proof.
  revert c self. induction fuel as [|fuel IH]; intros c self Hf.
  - exists 1. split; [lia|].
    rewrite thread_run_S, thread_step_head_leave; [done|].
    apply andb_false_iff. right. apply Nat.ltb_ge. lia.
  - destruct (polling_active self && (c <? max_polls)) eqn:Hc.
    + destruct (thread_run_iteration c self Hc) as (n & Hn & Hrun).
      simpl. rewrite Hc.
      destruct (poll_iteration _ _) as [self' [|]]; simpl in *.
      * exists n. split; [lia | done].
      * destruct (IH (S c) self') as (m & Hm & Hrun'); [lia|].
        exists (n + m). split; [lia|]. by rewrite thread_run_add, Hrun.
    + exists 1. split; [lia|]. rewrite poll_loop_exit by done.
      by rewrite thread_run_S, thread_step_head_leave.
Qed.

End thread_run.

(** ** What the loop computes *)

Lemma poll_iteration_no_rows outcome self :
  no_rows outcome = true → poll_iteration outcome self = (self, false).
Proof. by destruct outcome as [|[|??]]. Qed.

Lemma set_specialist_response_idemp row self :
  set_specialist_response row (set_specialist_response row self)
  = set_specialist_response row self.
Proof. done. Qed.

Lemma get_specialist_response_stored row self :
  get_specialist_response (set_specialist_response row self)
  = format_specialist_response row ≫= λ s, Ok (true, s).
Proof. done. Qed.

Lemma is_ok_get_specialist_response row self :
  is_ok (get_specialist_response (set_specialist_response row self))
  = is_ok (format_specialist_response row).
Proof. rewrite get_specialist_response_stored. by destruct (format_specialist_response row). Qed.

Section poll_results.
Context (query : nat → pyval → QueryOutcome) (self : App).
Let id := submitted_report_id self.

(** [k] attempts in a row that bring nothing only move the counter. *)
Lemma poll_loop_quiet (k fuel c : nat) :
  polling_active self = true → c + k ≤ max_polls →
  (∀ i, c ≤ i < c + k → no_rows (query i id) = true) →
  poll_loop query (k + fuel) c self = poll_loop query fuel (c + k) self.
Proof.
  intros Hact. revert c. induction k as [|k IH]; intros c Hle Hq.
  { by rewrite Nat.add_0_r. }
  rewrite Nat.add_succ_l, poll_loop_unfold.
  - rewrite poll_iteration_no_rows by (apply Hq; lia).
    rewrite IH by (try lia; intros; apply Hq; lia). f_equal. lia.
  - rewrite Hact. apply Nat.ltb_lt. lia.
Qed.

(** C3: When polling is active and every attempt raises or returns no row,
    the loop stops after exactly max_polls = 120 attempts, lowers
    polling_active and changes nothing else. *)
Lemma poll_for_response_timeout :
  polling_active self = true →
  (∀ i, i < max_polls → no_rows (query i id) = true) →
  poll_for_response query self = (set_polling_active false self, max_polls).
Proof.
  intros Hact Hq. unfold poll_for_response.
  replace max_polls with (max_polls + 0) at 1 by lia.
  rewrite poll_loop_quiet by (done || lia || intros; apply Hq; lia).
  cbn [poll_loop Nat.add]. by rewrite Nat.leb_refl.
Qed.

(** C5: When the first row arrives at attempt k < max_polls and renders, the
    loop stores that row as specialist_response, lowers polling_active and
    stops with poll_count = k. *)
Lemma poll_for_response_found (k : nat) (row : pyval) (rest : list pyval) :
  polling_active self = true → k < max_polls →
  (∀ i, i < k → no_rows (query i id) = true) →
  query k id = QueryData (row :: rest) →
  is_ok (format_specialist_response row) = true →
  poll_for_response query self
  = (set_polling_active false (set_specialist_response row self), k).
Proof.
  intros Hact Hk Hq Hrow Hok. unfold poll_for_response.
  replace max_polls with (k + S (max_polls - S k)) at 1 by lia.
  rewrite poll_loop_quiet by (done || lia || intros; apply Hq; lia).
  rewrite poll_loop_unfold by (rewrite Hact; apply Nat.ltb_lt; lia).
  fold id. simpl. rewrite Hrow. simpl. rewrite is_ok_get_specialist_response, Hok.
  by replace (max_polls <=? k) with false by (symmetry; apply Nat.leb_gt; lia).
Qed.

End poll_results.

(** A row that cannot be rendered is stored, and the loop goes on to the
    end of its budget. *)
Lemma poll_loop_malformed query (row : pyval) (n c : nat) self :
  polling_active self = true → specialist_response self = Some row →
  is_ok (format_specialist_response row) = false →
  (∀ i, i < max_polls → ∃ rest, query i (submitted_report_id self)
                                 = QueryData (row :: rest)) →
  c + n = max_polls →
  poll_loop query n c self = (self, max_polls).
Proof.
  intros Hact Hstored Hbad Hq. revert c. induction n as [|n IH]; intros c Hc.
  { simpl. do 2 f_equal. lia. }
  rewrite poll_loop_unfold by (rewrite Hact; apply Nat.ltb_lt; lia).
  destruct (Hq c) as [rest ->]; [lia|]. simpl.
  rewrite is_ok_get_specialist_response, Hbad.
  replace (set_specialist_response row self) with self
    by (destruct self; simpl in *; by subst).
  apply IH. lia.
Qed.

(** C33: When every attempt returns a row that does not render, the row is
    stored at the first attempt but the loop runs through all max_polls
    attempts before it lowers polling_active. *)
Lemma poll_for_response_malformed query (row : pyval) self :
  polling_active self = true →
  is_ok (format_specialist_response row) = false →
  (∀ i, i < max_polls → ∃ rest, query i (submitted_report_id self)
                                 = QueryData (row :: rest)) →
  poll_for_response query self
  = (set_polling_active false (set_specialist_response row self), max_polls).
Proof.
  intros Hact Hbad Hq. unfold poll_for_response.
  pose proof max_polls_eq as Hmax.
  replace max_polls with (S (max_polls - 1)) at 1 by lia.
  rewrite poll_loop_unfold by (rewrite Hact; apply Nat.ltb_lt; lia).
  destruct (Hq 0) as [rest ->]; [lia|]. simpl.
  rewrite is_ok_get_specialist_response, Hbad.
  by rewrite (poll_loop_malformed query row (max_polls - 1) 1).
Qed.

Section poll_for_response.
Context (query : nat → pyval → QueryOutcome) (self : App).

(** The loop never makes more than max_polls attempts, whatever the
    lookup store does, errors included. *)
Lemma poll_for_response_count : (poll_for_response query self).2 ≤ max_polls.
Proof.
  unfold poll_for_response.
  pose proof (poll_loop_count query max_polls 0 self).
  destruct (poll_loop _ _ _ _). simpl in *. lia.
Qed.

(** The loop sleeps ten minutes at most. *)
Lemma poll_for_response_time :
  poll_interval * (poll_for_response query self).2 ≤ 600.
Proof.
  pose proof poll_for_response_count. pose proof max_polls_eq.
  unfold poll_interval. lia.
Qed.

(** When the thread's body returns, having run alone, polling_active is
    low. *)
Lemma poll_for_response_deactivates :
  polling_active (poll_for_response query self).1 = false.
Proof.
  unfold poll_for_response.
  pose proof (poll_loop_done query max_polls 0 self) as Hd.
  destruct (poll_loop _ _ _ _) as [self' c]. simpl in *.
  destruct (max_polls <=? c) eqn:E; [done|].
  apply Nat.leb_gt in E. destruct Hd; [lia|done|lia].
Qed.

(** The loop leaves the report data, the gate, the report identifier,
    the lookup store handle and the model conversation as they were. *)
Lemma poll_for_response_frame :
  let self' := (poll_for_response query self).1 in
  report_data self' = report_data self
  ∧ is_onboarded self' = is_onboarded self
  ∧ submitted_report_id self' = submitted_report_id self
  ∧ supabase self' = supabase self
  ∧ ollama_conversation self' = ollama_conversation self.
Proof.
  unfold poll_for_response.
  pose proof (poll_loop_frame query max_polls 0 self) as Hf.
  destruct (poll_loop _ _ _ _) as [self' c]. simpl in *. by case_cond.
Qed.

(** C2: Stepping the polling thread one statement at a time, alone, for 5 *
    max_polls + 2 steps or more ends in Terminated with exactly the state
    and the attempt count that the loop _poll_for_response computes as one
    function. *)
Lemma thread_run_poll_for_response (k : nat) :
  thread_run query (5 * max_polls + 2 + k) thread_start self
  = ({| pc := Terminated; poll_count := (poll_for_response query self).2 |},
     (poll_for_response query self).1).
Proof.
  destruct (thread_run_loop query max_polls 0 self) as (n & Hn & Hrun); [lia|].
  replace (5 * max_polls + 2 + k) with (n + (1 + (5 * max_polls + 1 - n + k))) by lia.
  unfold thread_start. rewrite thread_run_add, Hrun. cbn [fst snd].
  rewrite thread_run_add. cbn [thread_run Nat.add].
  rewrite thread_step_exit. cbn [fst snd]. rewrite thread_run_terminated.
  unfold poll_for_response. by destruct (poll_loop _ _ _ _).
Qed.

End poll_for_response.

(** ** What one statement does to the rest of the state *)

Lemma thread_step_frame outcome t self :
  let self' := (thread_step outcome t self).2 in
  report_data self' = report_data self
  ∧ is_onboarded self' = is_onboarded self
  ∧ submitted_report_id self' = submitted_report_id self
  ∧ supabase self' = supabase self
  ∧ ollama_conversation self' = ollama_conversation self.
Proof. unfold thread_step. by repeat case_match. Qed.

(** A thread that may still write the flag holds it raised until the
    statement with which it gives it up; a thread that may not write it
    leaves it alone. *)
Lemma thread_step_owner outcome t self :
  thread_inv t → (owns_flag t = true → polling_active self = true) →
  let r := thread_step outcome t self in
  polling_active r.2 = (if owns_flag t then owns_flag r.1 else polling_active self)
  ∧ (owns_flag r.1 = true → owns_flag t = true).
Proof.
  unfold thread_inv, thread_step, owns_flag, in_body.
  destruct t as [p c]; simpl. intros [Hle Hbody] Hflag. pose proof max_polls_eq.
  destruct p; simpl in *; repeat case_match; simpl in *; bool_hyps;
    rewrite ?Nat.ltb_lt, ?Nat.ltb_ge, ?Nat.leb_le, ?Nat.leb_gt in *;
    try (split; [done || auto | done || lia || auto]).
  - rewrite Hflag in * by done. simpl in *. symmetry.
    apply Nat.leb_le. apply Nat.ltb_ge in H0. lia.
  - symmetry. apply Nat.leb_gt. auto.
Qed.

(** ** The scenarios of the loop *)

Lemma poll_for_response_timeout_witness :
  poll_for_response example_silent example_polling
  = (set_polling_active false example_polling, max_polls).
Proof. apply poll_for_response_timeout; [reflexivity | intros; reflexivity]. Defined.

Lemma poll_for_response_found_witness :
  poll_for_response example_answered example_polling
  = (set_polling_active false (set_specialist_response example_reply example_polling),
     3).
Proof.
  apply (poll_for_response_found example_answered example_polling 3 example_reply []);
    try reflexivity.
  - apply Nat.ltb_lt. reflexivity.
  - intros [|[|[|i]]] Hi; try reflexivity. lia.
Defined.

Lemma poll_for_response_malformed_witness :
  poll_for_response example_malformed example_polling
  = (set_polling_active false
       (set_specialist_response (PDict [("report_id", PStr "r-1")]) example_polling),
     max_polls).
Proof.
  apply poll_for_response_malformed; try reflexivity. intros i _. by exists [].
Defined.

Lemma poll_loop_fuel_witness :
  poll_loop example_answered 120 0 example_polling
  = poll_loop example_answered 500 0 example_polling.
Proof.
  apply poll_loop_fuel; apply Nat.leb_le; reflexivity.
Defined.
