(* ===== verification/Report.v ===== *)
(** * Report: synthesis of the assessment and its rendering

    [generate_comprehensive_report] of [src/app.py] and the pydantic model
    [RiskAssessment].  The language model is asked once, with a prompt built
    from the child's record, for a record of the fixed shape; what comes
    back replaces the assessment, and when the call or the validation of its
    answer raises, a fixed severity and three fixed indicators stand in.
    Either way the report is rendered from the state.

    Oracles: [chat] is the call of the model ([None] when it raises),
    [model_validate_json] the validation of its answer ([None] when it
    raises), [clock] the successive readings of [datetime.now()] during the
    rendering.  [progress_callback] says whether a callback was passed; the
    strings it would have received are returned in order. *)

From S2P Require Import Spec2Rocq PyStr PyVal PyTime Session Conversation.

(** ** The pydantic model *)

Module RiskAssessment.
Record t : Type := {
  parent_observations : string;
  ai_analysis : string;
  severity_score : Z;
  risk_indicators : list string;
  cultural_context : string
}.
End RiskAssessment.

(** The five assignments that copy the validated record into the report. *)
Definition store_assessment (a : RiskAssessment.t) (d : AssessmentData)
  : AssessmentData :=
  let d := set_parent_observations (RiskAssessment.parent_observations a) d in
  let d := set_ai_analysis (RiskAssessment.ai_analysis a) d in
  let d := set_severity_score (RiskAssessment.severity_score a) d in
  let d := set_risk_indicators (RiskAssessment.risk_indicators a) d in
  set_cultural_context (RiskAssessment.cultural_context a) d.

(** The two assignments of the [except] branch. *)
Definition fallback_indicators : list string :=
  ["sleep disturbances"; "behavioral changes"; "anxiety"].

Definition store_fallback (d : AssessmentData) : AssessmentData :=
  set_risk_indicators fallback_indicators (set_severity_score 6 d).

(** ** The prompt *)

Definition assessment_prompt (c : ChildInfo) : string :=
  "Based on our conversation about " +:+
  name c +:+
  ", a " +:+
  str_of_int (age c) +:+
  "-year-old " +:+
  gender c +:+
  " from " +:+
  location c +:+
  ", generate a comprehensive trauma risk assessment report. 

Include:
- Parent observations summary from our conversation
- AI analysis of trauma indicators
- Severity score (1-10 scale)
- List of risk indicators identified
- Cultural context considering the child's location and circumstances

Consider the conversation history and any cultural factors relevant to " +:+
  location c +:+
  ".".

(** ** The rendering *)

Definition nl : string := String "010"%char "".

Definition bullet (indicator : string) : string := "• " +:+ indicator.

Definition risk_level (severity : Z) : string :=
  if (severity <? 7)%Z then "🟡 Moderate Risk"
  else "🔴 High Risk - Urgent Intervention Recommended".

Definition clinical_priority (severity : Z) : string :=
  if (severity <? 7)%Z then "Standard referral appropriate"
  else "Expedited professional evaluation needed".

(** The title block. *)
Definition report_header (clock : nat → datetime) (r : ReportData) : string :=
  "# 🔍 COMPREHENSIVE TRAUMA ASSESSMENT REPORT

**Generated:** " +:+
  strftime_date_time (clock 0) +:+
  "  
**Assessment ID:** " +:+
  str_take 8 (mobile_app_id r) +:+
  "  
**Confidentiality Level:** Protected Health Information
**Platform:** Child Trauma Assessment AI

---

".

(** The child's record. *)
Definition report_child (clock : nat → datetime) (c : ChildInfo) : string :=
  "## 👤 CHILD INFORMATION

**Name:** " +:+
  name c +:+
  "  
**Age:** " +:+
  str_of_int (age c) +:+
  " years old  
**Gender:** " +:+
  str_title (gender c) +:+
  "  
**Location:** " +:+
  location c +:+
  "  
**Assessment Date:** " +:+
  strftime_date (clock 1) +:+
  "

---

".

(** The observations and the counts of the session. *)
Definition report_observations (r : ReportData) : string :=
  let d := assessment_data r in
  let m := media_attachments r in
  "## 👥 PARENT OBSERVATIONS

" +:+
  parent_observations d +:+
  "

**Session Details:**
- **Duration:** " +:+
  pretty (length (conversation_history r)) +:+
  " message exchanges
- **Media Provided:** " +:+
  pretty (length (drawings m)) +:+
  " drawings, " +:+
  pretty (length (photos m)) +:+
  " photographs

---

".

(** The analysis and one bullet per indicator. *)
Definition report_analysis (d : AssessmentData) : string :=
  "## 🧠 AI ANALYSIS

" +:+
  ai_analysis d +:+
  "

**Behavioral Patterns Identified:**
" +:+
  str_join nl (bullet <$> risk_indicators d) +:+
  "

---

".

(** The score and the two lines it selects. *)
Definition report_severity (severity : Z) : string :=
  "## ⚠️ SEVERITY ASSESSMENT

**Severity Score:** " +:+
  str_of_int severity +:+
  "/10  
**Risk Level:** " +:+
  risk_level severity +:+
  "  
**Clinical Priority:** " +:+
  clinical_priority severity +:+
  "

---

".

(** The cultural context. *)
Definition report_context (d : AssessmentData) (c : ChildInfo) : string :=
  "## 🌍 CULTURAL CONTEXT

" +:+
  cultural_context d +:+
  "

This assessment considers the cultural and environmental factors specific to " +:+
  location c +:+
  ", including region-specific trauma expressions, family dynamics, and community support systems.

---

".

(** The fixed recommendations. *)
Definition report_recommendations (c : ChildInfo) : string :=
  "## 📋 CLINICAL RECOMMENDATIONS

**Immediate Actions:**
1. Schedule comprehensive evaluation with licensed child trauma specialist
2. Ensure stable, predictable environment for " +:+
  name c +:+
  "
3. Implement safety planning and crisis contact protocols

**Therapeutic Interventions:**
1. Begin trauma-focused cognitive behavioral therapy (TF-CBT)
2. Consider family therapy to strengthen support systems
3. Monitor sleep, appetite, and behavioral patterns daily

**Cultural Considerations:**
1. Engage culturally competent mental health services
2. Incorporate traditional coping mechanisms where appropriate
3. Consider community-based support resources

**Follow-up:**
- Initial professional evaluation within 1-2 weeks
- Regular monitoring and assessment as recommended by treating clinician

---

".

(** The disclaimers and the footer. *)
Definition report_footer (clock : nat → datetime) : string :=
  "## ⚖️ IMPORTANT DISCLAIMERS

- **Preliminary Screening Tool:** This AI-generated assessment is for screening purposes only and does NOT constitute a clinical diagnosis
- **Professional Validation Required:** All findings must be validated by licensed mental health professionals
- **Emergency Protocol:** For immediate safety concerns, contact emergency services immediately
- **Clinical Judgment:** AI analysis should supplement, not replace, professional clinical assessment

**Report Generated:** " +:+
  isoformat (clock 2) +:+
  "  
**Next Review Recommended:** " +:+
  strftime_date (clock 3) +:+
  " (2 weeks)
".

Definition render_report (clock : nat → datetime) (r : ReportData) : string :=
  let c := child_info r in
  let d := assessment_data r in
  report_header clock r +:+ report_child clock c +:+ report_observations r +:+
  report_analysis d +:+ report_severity (severity_score d) +:+
  report_context d c +:+ report_recommendations c +:+ report_footer clock.

(** ** [generate_comprehensive_report] *)

(** The milestones passed to the callback. *)
Definition msg_analyzing : string := "🤖 Analyzing conversation with AI...".
Definition msg_generating : string := "🧠 AI is generating structured assessment...".
Definition msg_processing : string := "📊 Processing assessment data...".
Definition msg_formatting : string := "📋 Formatting final report...".
Definition msg_fallback : string := "⚠️ Using fallback assessment...".

(** The [try] block: the assessment it leaves in the report and the
    milestones it passes, from the second on. *)
Definition structured_assessment
    (chat : ChatRequest → option string)
    (model_validate_json : string → option RiskAssessment.t)
    (r : ReportData) : AssessmentData * list string :=
  let d := assessment_data r in
  match chat (StructuredChat (assessment_prompt (child_info r))) with
  | None => (store_fallback d, [msg_generating; msg_fallback])
  | Some content =>
      match model_validate_json content with
      | None => (store_fallback d, [msg_generating; msg_processing; msg_fallback])
      | Some assessment =>
          (store_assessment assessment d,
           [msg_generating; msg_processing; msg_formatting])
      end
  end.

(** The state after the call, the milestones the callback received, and
    the text returned. *)
Definition generate_comprehensive_report
    (chat : ChatRequest → option string)
    (model_validate_json : string → option RiskAssessment.t)
    (clock : nat → datetime) (progress_callback : bool) (self : App)
  : App * list string * string :=
  (guard is_onboarded self
   else (self, [], "Please complete the initial assessment form first.") ;;
   guard truthy (ollama_conversation self)
   else (self, [],
         "Please have a conversation first before generating a report.") ;;
   let '(d, milestones) :=
     structured_assessment chat model_validate_json (report_data self) in
   let self := with_report_data (with_assessment_data (λ _, d)) self in
   (self,
    if progress_callback then msg_analyzing :: milestones else [],
    render_report clock (report_data self)))%py.

(** The model's answer as the [try] block sees it: the validated record,
    or nothing when either call raised. *)
Definition structured_outcome (chat : ChatRequest → option string)
    (model_validate_json : string → option RiskAssessment.t) (r : ReportData)
  : option RiskAssessment.t :=
  chat (StructuredChat (assessment_prompt (child_info r))) ≫= model_validate_json.

(** ** The model of the examples *)

(** The model does not answer the structured request. *)
Definition example_mute : ChatRequest → option string := λ _, None.

Definition example_validate : string → option RiskAssessment.t := λ _, None.

(** ** The stored assessment *)

Lemma store_fallback_fields (d : AssessmentData) :
  severity_score (store_fallback d) = 6%Z
  ∧ risk_indicators (store_fallback d) = fallback_indicators
  ∧ parent_observations (store_fallback d) = parent_observations d
  ∧ ai_analysis (store_fallback d) = ai_analysis d
  ∧ cultural_context (store_fallback d) = cultural_context d.
Proof. done. Qed.

Lemma store_assessment_fields (a : RiskAssessment.t) (d : AssessmentData) :
  store_assessment a d
  = {| parent_observations := RiskAssessment.parent_observations a;
       ai_analysis := RiskAssessment.ai_analysis a;
       severity_score := RiskAssessment.severity_score a;
       risk_indicators := RiskAssessment.risk_indicators a;
       cultural_context := RiskAssessment.cultural_context a |}.
Proof. done. Qed.

Section structured.
Context (chat : ChatRequest → option string).
Context (model_validate_json : string → option RiskAssessment.t).

Lemma structured_assessment_stored (r : ReportData) :
  (structured_assessment chat model_validate_json r).1
  = match structured_outcome chat model_validate_json r with
    | Some a => store_assessment a (assessment_data r)
    | None => store_fallback (assessment_data r)
    end.
Proof.
  unfold structured_assessment, structured_outcome.
  destruct (chat _) as [content|]; simpl; [|done].
  by destruct (model_validate_json content).
Qed.

Lemma structured_assessment_milestones (r : ReportData) :
  (structured_assessment chat model_validate_json r).2
  ∈ [[msg_generating; msg_fallback];
     [msg_generating; msg_processing; msg_fallback];
     [msg_generating; msg_processing; msg_formatting]].
Proof.
  unfold structured_assessment.
  destruct (chat _) as [content|]; simpl; [|set_solver].
  destruct (model_validate_json content); set_solver.
Qed.

Lemma structured_assessment_formatting (r : ReportData) :
  msg_formatting ∈ (structured_assessment chat model_validate_json r).2
  ↔ is_Some (structured_outcome chat model_validate_json r).
Proof.
  unfold structured_assessment, structured_outcome.
  destruct (chat _) as [content|]; simpl.
  - destruct (model_validate_json content); simpl.
    + split; [eauto | set_solver].
    + split; [|by intros [? ?]]. intros Hin.
      repeat (apply elem_of_cons in Hin as [Hin|Hin]; [done|]). by inv Hin.
  - split; [|by intros [? ?]]. intros Hin.
    repeat (apply elem_of_cons in Hin as [Hin|Hin]; [done|]). by inv Hin.
Qed.

End structured.

(** ** [generate_comprehensive_report] *)

Section generate.
Context (chat : ChatRequest → option string).
Context (model_validate_json : string → option RiskAssessment.t).
Context (clock : nat → datetime) (progress_callback : bool) (self : App).

Let ready : bool := is_onboarded self && truthy (ollama_conversation self).

(** Before onboarding or without a conversation with the model the
    report is one of the two refusal sentences, nothing is stored and no
    milestone is reported. *)
Lemma generate_report_rejected :
  ready = false →
  generate_comprehensive_report chat model_validate_json clock
    progress_callback self
  = (self, [],
     if is_onboarded self
     then "Please have a conversation first before generating a report."
     else "Please complete the initial assessment form first.").
Proof.
  unfold ready, generate_comprehensive_report.
  destruct (is_onboarded self); simpl; [|done]. by intros ->.
Qed.

Lemma generate_report_accepted :
  ready = true →
  let d := (structured_assessment chat model_validate_json (report_data self)).1 in
  let self' := with_report_data (with_assessment_data (λ _, d)) self in
  generate_comprehensive_report chat model_validate_json clock
    progress_callback self
  = (self',
     if progress_callback
     then msg_analyzing
          :: (structured_assessment chat model_validate_json (report_data self)).2
     else [],
     render_report clock (report_data self')).
Proof.
  unfold ready, generate_comprehensive_report. intros [-> ->]%andb_true_iff.
  by destruct (structured_assessment _ _ _).
Qed.

Lemma generate_report_frame :
  let self' := (generate_comprehensive_report chat model_validate_json clock
                  progress_callback self).1.1 in
  child_info (report_data self') = child_info (report_data self)
  ∧ media_attachments (report_data self') = media_attachments (report_data self)
  ∧ conversation_history (report_data self')
    = conversation_history (report_data self)
  ∧ mobile_app_id (report_data self') = mobile_app_id (report_data self)
  ∧ is_onboarded self' = is_onboarded self
  ∧ submitted_report_id self' = submitted_report_id self
  ∧ polling_active self' = polling_active self
  ∧ ollama_conversation self' = ollama_conversation self
  ∧ supabase self' = supabase self
  ∧ specialist_response self' = specialist_response self.
Proof.
  unfold generate_comprehensive_report.
  destruct (is_onboarded self) eqn:Hgate; [|done].
  destruct (truthy (ollama_conversation self)); [|done].
  by destruct (structured_assessment _ _ _).
Qed.

End generate.

(** ** What the report shows *)

(** The report shows High Risk exactly when the severity score is at
    least 7. *)
Lemma risk_level_threshold (severity : Z) :
  risk_level severity
  = if bool_decide (7 ≤ severity)%Z
    then "🔴 High Risk - Urgent Intervention Recommended" else "🟡 Moderate Risk".
Proof.
  unfold risk_level. destruct (Z.ltb_spec severity 7); case_bool_decide; done || lia.
Qed.

Lemma render_report_severity clock r :
  str_in (report_severity (severity_score (assessment_data r)))
         (render_report clock r) = true.
Proof.
  unfold render_report. do 4 apply str_in_app_r. apply str_in_app_l, str_in_refl.
Qed.

Lemma render_report_analysis clock r :
  str_in (report_analysis (assessment_data r)) (render_report clock r) = true.
Proof.
  unfold render_report. do 3 apply str_in_app_r. apply str_in_app_l, str_in_refl.
Qed.

Lemma report_analysis_bullets d :
  str_in (str_join nl (bullet <$> risk_indicators d)) (report_analysis d) = true.
Proof.
  unfold report_analysis. do 3 apply str_in_app_r. apply str_in_app_l, str_in_refl.
Qed.

(** Every indicator stored is a bullet of the report. *)
Lemma render_report_indicator clock r (indicator : string) :
  indicator ∈ risk_indicators (assessment_data r) →
  str_in (bullet indicator) (render_report clock r) = true.
Proof.
  intros Hin. eapply str_in_trans; [|apply render_report_analysis].
  eapply str_in_trans; [|apply report_analysis_bullets].
  apply str_join_in. by apply list_elem_of_fmap_2.
Qed.

(** ** The fallback

    When the structured call or its validation raises, the report is
    still rendered, from the record with severity 6 and the three fixed
    indicators; the observations collected so far stay. *)

(** C39: When the structured call or its validation raises, the report is
    still rendered: severity 6 and the three fallback indicators are stored
    and shown, the other fields of the assessment stay as they were. *)
Lemma generate_report_fallback chat model_validate_json clock progress_callback self :
  is_onboarded self && truthy (ollama_conversation self) = true →
  structured_outcome chat model_validate_json (report_data self) = None →
  let r := generate_comprehensive_report chat model_validate_json clock
             progress_callback self in
  let d := assessment_data (report_data r.1.1) in
  d = store_fallback (assessment_data (report_data self))
  ∧ r.2 = render_report clock (report_data r.1.1)
  ∧ str_in (report_severity 6) r.2 = true
  ∧ Forall (λ i, str_in (bullet i) r.2 = true) fallback_indicators.
Proof.
  intros Hready Hnone.
  rewrite (generate_report_accepted _ _ _ _ _ Hready). cbn zeta. cbn [fst snd].
  rewrite structured_assessment_stored, Hnone.
  split; [done|]. split; [done|]. split.
  - apply (render_report_severity clock
      (with_assessment_data (λ _, store_fallback (assessment_data (report_data self)))
         (report_data self))).
  - apply Forall_forall. intros i Hi. by apply render_report_indicator.
Qed.

(** ** The scenarios of the report *)

Lemma generate_report_fallback_witness :
  let r := generate_comprehensive_report example_mute example_validate
             example_clock true example_session in
  let d := assessment_data (report_data r.1.1) in
  d = store_fallback (assessment_data (report_data example_session))
  ∧ r.2 = render_report example_clock (report_data r.1.1)
  ∧ str_in (report_severity 6) r.2 = true
  ∧ Forall (λ i, str_in (bullet i) r.2 = true) fallback_indicators.
Proof. by apply generate_report_fallback. Defined.

Lemma generate_report_rejected_witness :
  generate_comprehensive_report example_mute example_validate example_clock true
    example_app
  = (example_app, [],
     "Please have a conversation first before generating a report.").
Proof.
  by apply (generate_report_rejected example_mute example_validate example_clock
              true example_app).
Defined.

Lemma render_report_indicator_witness :
  str_in (bullet "sleep disturbances")
    (render_report example_clock
       (with_assessment_data store_fallback (report_data example_session)))
  = true.
Proof. apply render_report_indicator. vm_compute. set_solver. Defined.
