(* ===== verification/Document.v ===== *)
(** * Document: the report data as the JSON document that is saved

    [self.report_data] is a dictionary of dictionaries, lists, strings and
    integers; [Session] keeps it as the record [ReportData].  This file
    gives the dictionary itself: [report_document] is the Python value the
    record stands for, key by key in the order [__init__] inserts them
    (every later assignment replaces the value of an existing key, so the
    order never changes), and [saved_data] is the text
    [save_report_with_data] writes to the data file.

    A [Codec] is what each part of the record needs to be written and read
    back: an encoding, a decoding, the shape of the encodings, and the laws
    that tie them.  The instances follow the dictionary literals of the
    source; [report_ty] is the shape of the whole document, [payload_ty]
    the shape of what [push_report_to_care_bridge] posts, and [reply_ty]
    what [format_specialist_response] needs of a row to render it.

    A turn of the conversation is written with the two keys the code gives
    it, [role] and [content]. *)

From S2P Require Import Spec2Rocq PyStr PyVal PyTime Json Schema Session Submission.

(** ** Codecs *)

(** What a part of the report needs to be written and read back: the
    encoding, the decoding, the shape of the encodings, and the laws. *)
Class Codec (A : Type) : Type := {
  encode : A → pyval;
  decode : pyval → option A;
  schema : jty;
  decode_encode x : decode (encode x) = Some x;
  encode_typed x : has_type schema (encode x) = true;
  typed_decode v :
    has_type schema v = true → ∃ x, decode v = Some x ∧ encode x = v
}.
Global Arguments schema _ {_}.

(** The text of a part, and the part a text holds. *)
Definition dump `{Codec A} (indent : nat) (x : A) : string :=
  json_encode indent (encode x).

Definition load `{Codec A} (s : string) : option A := json_parse s ≫= decode.

(** The member of a dictionary when its key is [k], decoded by [f]. *)
Definition field {A} (k : string) (f : pyval → option A) (kv : string * pyval)
  : option A :=
  if bool_decide (kv.1 = k) then f kv.2 else None.

Definition role_name (r : Role) : string :=
  match r with User => "user" | Assistant => "assistant" end.

(** ** The parts of the report *)

Definition child_document (c : ChildInfo) : pyval :=
  PDict [("name", PStr (name c)); ("age", PInt (age c));
         ("gender", PStr (gender c)); ("location", PStr (location c))].

Definition assessment_document (d : AssessmentData) : pyval :=
  PDict [("parent_observations", PStr (parent_observations d));
         ("ai_analysis", PStr (ai_analysis d));
         ("severity_score", PInt (severity_score d));
         ("risk_indicators", PList (PStr <$> risk_indicators d));
         ("cultural_context", PStr (cultural_context d))].

Definition content_document (c : Content) : pyval :=
  match c with
  | Text s => PStr s
  | Path file => PDict [("path", PStr file)]
  end.

Definition message_document (m : Message) : pyval :=
  PDict [("role", PStr (role_name (role m)));
         ("content", content_document (content m))].

(** [self.report_data]. *)
Definition report_document (r : ReportData) : pyval :=
  PDict [("child_info", child_document (child_info r));
         ("assessment_data", assessment_document (assessment_data r));
         ("media_attachments", media_json (media_attachments r));
         ("mobile_app_id", PStr (mobile_app_id r));
         ("session_start", PStr (session_start r));
         ("conversation_history",
          PList (message_document <$> conversation_history r))].

(** [json.dump(app.report_data, f, indent=2, ensure_ascii=False,
    default=str)]: the text of the data file. *)
Definition saved_data (r : ReportData) : string :=
  json_encode 2 (report_document r).

(** ** The shapes *)

Definition child_ty : jty :=
  TRecord [("name", TStr); ("age", TInt); ("gender", TStr); ("location", TStr)].

(** The fields of [RiskAssessment], which are the keys of
    [assessment_data]. *)
Definition assessment_ty : jty :=
  TRecord [("parent_observations", TStr); ("ai_analysis", TStr);
           ("severity_score", TInt); ("risk_indicators", TList TStr);
           ("cultural_context", TStr)].

Definition attachment_ty : jty := TRecord [("path", TStr); ("timestamp", TStr)].

Definition media_ty : jty :=
  TRecord [("drawings", TList attachment_ty);
           ("audio_recordings", TList attachment_ty);
           ("photos", TList attachment_ty)].

Definition message_ty : jty :=
  TRecord [("role", TEnum ["user"; "assistant"]);
           ("content", TUnion TStr (TRecord [("path", TStr)]))].

Definition report_ty : jty :=
  TRecord [("child_info", child_ty); ("assessment_data", assessment_ty);
           ("media_attachments", media_ty); ("mobile_app_id", TStr);
           ("session_start", TStr); ("conversation_history", TList message_ty)].

(** The payload of the push: the report without the child's name, the
    start of the session and the conversation. *)
Definition payload_ty : jty :=
  TRecord [("child_info",
            TRecord [("age", TInt); ("gender", TStr); ("location", TStr)]);
           ("assessment_data", assessment_ty);
           ("media_attachments", media_ty); ("mobile_app_id", TStr)].

(** What the rendering of a reply reads: the five keys, two of them
    strings. *)
Definition reply_ty : jty :=
  TObject [("urgency_level", TStr); ("response_date", TStr);
           ("psychologist_id", TAny); ("psychologist_notes", TAny);
           ("recommendations", TAny)].

(** ** Reading the parts back *)

Definition decode_str (v : pyval) : option string :=
  match v with PStr s => Some s | _ => None end.

Definition decode_int (v : pyval) : option Z :=
  match v with PInt z => Some z | _ => None end.

Definition decode_role (v : pyval) : option Role :=
  match v with
  | PStr s =>
      if bool_decide (s = "user") then Some User
      else if bool_decide (s = "assistant") then Some Assistant
      else None
  | _ => None
  end.

Definition decode_content (v : pyval) : option Content :=
  match v with
  | PStr s => Some (Text s)
  | PDict [kv] =>
      if bool_decide (kv.1 = "path") then Path <$> decode_str kv.2 else None
  | _ => None
  end.

Definition decode_list {A} (f : pyval → option A) (v : pyval) : option (list A) :=
  match v with PList l => mapM f l | _ => None end.

Definition decode_child (v : pyval) : option ChildInfo :=
  match v with
  | PDict [f1; f2; f3; f4] =>
      n ← field "name" decode_str f1;
      a ← field "age" decode_int f2;
      g ← field "gender" decode_str f3;
      l ← field "location" decode_str f4;
      Some {| name := n; age := a; gender := g; location := l |}
  | _ => None
  end.

Definition decode_assessment (v : pyval) : option AssessmentData :=
  match v with
  | PDict [f1; f2; f3; f4; f5] =>
      o ← field "parent_observations" decode_str f1;
      a ← field "ai_analysis" decode_str f2;
      s ← field "severity_score" decode_int f3;
      r ← field "risk_indicators" (decode_list decode_str) f4;
      c ← field "cultural_context" decode_str f5;
      Some {| parent_observations := o; ai_analysis := a; severity_score := s;
              risk_indicators := r; cultural_context := c |}
  | _ => None
  end.

Definition decode_attachment (v : pyval) : option Attachment :=
  match v with
  | PDict [f1; f2] =>
      p ← field "path" decode_str f1;
      t ← field "timestamp" decode_str f2;
      Some {| path := p; timestamp := t |}
  | _ => None
  end.

Definition decode_media (v : pyval) : option MediaAttachments :=
  match v with
  | PDict [f1; f2; f3] =>
      d ← field "drawings" (decode_list decode_attachment) f1;
      a ← field "audio_recordings" (decode_list decode_attachment) f2;
      p ← field "photos" (decode_list decode_attachment) f3;
      Some {| drawings := d; audio_recordings := a; photos := p |}
  | _ => None
  end.

Definition decode_message (v : pyval) : option Message :=
  match v with
  | PDict [f1; f2] =>
      r ← field "role" decode_role f1;
      c ← field "content" decode_content f2;
      Some {| role := r; content := c |}
  | _ => None
  end.

(** The record a document stands for. *)
Definition report_of_document (v : pyval) : option ReportData :=
  match v with
  | PDict [f1; f2; f3; f4; f5; f6] =>
      c ← field "child_info" decode_child f1;
      a ← field "assessment_data" decode_assessment f2;
      m ← field "media_attachments" decode_media f3;
      i ← field "mobile_app_id" decode_str f4;
      s ← field "session_start" decode_str f5;
      h ← field "conversation_history" (decode_list decode_message) f6;
      Some {| child_info := c; assessment_data := a; media_attachments := m;
              mobile_app_id := i; session_start := s; conversation_history := h |}
  | _ => None
  end.

(** What is read back from the data file. *)
Definition load_data (s : string) : option ReportData :=
  json_parse s ≫= report_of_document.

(** The laws of a codec, of an encoding, a decoding and a shape given
    apart. *)
Definition codec_laws {A} (enc : A → pyval) (dec : pyval → option A) (t : jty)
  : Prop :=
  (∀ x, dec (enc x) = Some x)
  ∧ (∀ x, has_type t (enc x) = true)
  ∧ (∀ v, has_type t v = true → ∃ x, dec v = Some x ∧ enc x = v).

Definition codec_of_laws {A} (enc : A → pyval) (dec : pyval → option A) (t : jty)
    (H : codec_laws enc dec t) : Codec A :=
  {| encode := enc; decode := dec; schema := t;
     decode_encode := proj1 H;
     encode_typed := proj1 (proj2 H);
     typed_decode := proj2 (proj2 H) |}.

(** ** Assignments on the document

    [doc_set k x v] is [v] after [v[k] = x], [doc_set2 k1 k2 x v] after
    [v[k1][k2] = x] and [doc_append2 k1 k2 x v] after
    [v[k1][k2].append(x)], on the documents on which the assignment does
    not raise. *)

Definition doc_set (k : string) (x : pyval) (v : pyval) : pyval :=
  match v with
  | PDict d => PDict (dict_set k x d)
  | _ => v
  end.

Definition doc_with (k : string) (f : pyval → pyval) (v : pyval) : pyval :=
  match v with
  | PDict d =>
      match dict_get k d with
      | Some inner => PDict (dict_set k (f inner) d)
      | None => v
      end
  | _ => v
  end.

Definition doc_set2 (k1 k2 : string) (x : pyval) : pyval → pyval :=
  doc_with k1 (doc_set k2 x).



(** ** Lemmas: the laws of the parts *)

Lemma field_encode {A} k (enc : A → pyval) dec x :
  dec (enc x) = Some x → field k dec (k, enc x) = Some x.
Proof. intros H. unfold field. simpl. by rewrite bool_decide_true. Qed.

(** A typed first member decodes, and is the encoding of what it decodes
    to. *)
Lemma fields_typed_cons {A} (enc : A → pyval) dec t k fields kv d :
  codec_laws enc dec t →
  fields_typed ((k, t) :: fields) (kv :: d) = true →
  ∃ x, field k dec kv = Some x ∧ kv = (k, enc x) ∧ fields_typed fields d = true.
Proof.
  intros (_ & _ & Hdec). destruct kv as [k' v]. cbn [fields_typed].
  intros H. bool_hyps. subst k'. destruct (Hdec v) as (x & Hx & <-); [done|].
  exists x. unfold field. simpl. by rewrite bool_decide_true.
Qed.

Lemma str_laws : codec_laws PStr decode_str TStr.
Proof.
  split; [done|]. split; [done|].
  intros v Hv. apply has_type_str in Hv as [s ->]. by exists s.
Qed.

Lemma int_laws : codec_laws PInt decode_int TInt.
Proof.
  split; [done|]. split; [done|].
  intros v Hv. apply has_type_int in Hv as [z ->]. by exists z.
Qed.

Lemma list_laws {A} (enc : A → pyval) dec t :
  codec_laws enc dec t →
  codec_laws (λ l, PList (enc <$> l)) (decode_list dec) (TList t).
Proof.
  intros (Hde & Hty & Hdec). split; [|split].
  - intros l. by apply mapM_fmap_Some.
  - intros l. by apply has_type_list_fmap.
  - intros v Hv. apply has_type_list in Hv as (l & -> & Hl). simpl.
    induction Hl as [|v l Hv _ (xs & Hxs & Heq)]; [by exists []|].
    destruct (Hdec v Hv) as (x & Hx & <-). exists (x :: xs).
    injection Heq as <-. simpl. by rewrite Hx, Hxs.
Qed.

Lemma role_laws :
  codec_laws (λ r, PStr (role_name r)) decode_role (TEnum ["user"; "assistant"]).
Proof.
  split; [by intros []|]. split; [by intros []|].
  intros v Hv. apply has_type_enum in Hv as (s & -> & Hs).
  apply elem_of_cons in Hs as [->|Hs]; [by exists User|].
  apply list_elem_of_singleton in Hs as ->. by exists Assistant.
Qed.

Lemma content_laws :
  codec_laws content_document decode_content
    (TUnion TStr (TRecord [("path", TStr)])).
Proof.
  split; [by intros []|]. split; [by intros []|].
  intros v Hv.
  change (has_type TStr v || has_type (TRecord [("path", TStr)]) v = true) in Hv.
  apply orb_true_iff in Hv as [Hv|Hv].
  - apply has_type_str in Hv as [s ->]. by exists (Text s).
  - apply has_type_record_cons in Hv as (x & d & -> & Hx & Hd).
    apply has_type_record_nil in Hd as [= ->].
    apply has_type_str in Hx as [s ->]. by exists (Path s).
Qed.

Lemma field_laws {A} (enc : A → pyval) dec t k x :
  codec_laws enc dec t → field k dec (k, enc x) = Some x.
Proof. intros (H & _). by apply field_encode. Qed.

Lemma typed_laws {A} (enc : A → pyval) dec t x :
  codec_laws enc dec t → has_type t (enc x) = true.
Proof. by intros (_ & H & _). Qed.

Create HintDb codec discriminated.
#[export] Hint Resolve str_laws int_laws list_laws role_laws content_laws : codec.

(** The next field of an encoded record is decoded. *)
Ltac field_step :=
  match goal with
  | |- context [field ?k ?dec (?k, _)] =>
      let L := fresh in
      eassert (codec_laws _ dec _) as L by eauto with codec;
      rewrite (field_laws _ dec _ k _ L); clear L; cbn [mbind option_bind]
  end.

(** A field of an encoded record has its type. *)
Ltac typed_step :=
  match goal with
  | |- context [has_type ?t _] =>
      let L := fresh in
      eassert (codec_laws _ _ t) as L by eauto with codec;
      rewrite (typed_laws _ _ t _ L); clear L
  end.

(** The members of a typed record, decoded one after the other. *)
Ltac typed_fields :=
  repeat match goal with
  | H : fields_typed ((_, ?t) :: _) ?d = true |- _ =>
      destruct d as [|? ?]; [done|];
      let L := fresh in
      eassert (codec_laws _ _ t) as L by eauto with codec;
      destruct (fields_typed_cons _ _ _ _ _ _ _ L H) as (? & ? & -> & ?);
      clear H L
  | H : fields_typed [] ?d = true |- _ => destruct d; [clear H|done]
  end.

Ltac decode_fields :=
  repeat match goal with
  | H : field ?k ?f ?kv = Some _ |- _ =>
      rewrite H; clear H; cbn [mbind option_bind]
  end.

(** The laws of a record whose fields have theirs. *)
Tactic Notation "record_laws" constr(enc) constr(dec) constr(t) :=
  split; [|split];
  [ intros x; unfold enc, dec; repeat field_step; by destruct x
  | intros x; unfold enc, t; rewrite has_type_record; cbn [fields_typed];
    repeat typed_step; done
  | intros [| | | | |d] Hv; try done; unfold t in Hv;
    rewrite has_type_record in Hv; typed_fields; eexists;
    split; [unfold dec; decode_fields; reflexivity|reflexivity] ].

Lemma child_laws : codec_laws child_document decode_child child_ty.
Proof. record_laws child_document decode_child child_ty. Qed.

Lemma assessment_laws :
  codec_laws assessment_document decode_assessment assessment_ty.
Proof. record_laws assessment_document decode_assessment assessment_ty. Qed.

Lemma attachment_laws : codec_laws attachment_json decode_attachment attachment_ty.
Proof. record_laws attachment_json decode_attachment attachment_ty. Qed.

#[export] Hint Resolve child_laws assessment_laws attachment_laws : codec.

Lemma media_laws : codec_laws media_json decode_media media_ty.
Proof. record_laws media_json decode_media media_ty. Qed.

Lemma message_laws : codec_laws message_document decode_message message_ty.
Proof. record_laws message_document decode_message message_ty. Qed.

#[export] Hint Resolve media_laws message_laws : codec.

Lemma report_laws : codec_laws report_document report_of_document report_ty.
Proof. record_laws report_document report_of_document report_ty. Qed.

(** ** The codecs *)

Global Instance str_codec : Codec string := codec_of_laws _ _ _ str_laws.
Global Instance int_codec : Codec Z := codec_of_laws _ _ _ int_laws.
Global Instance child_codec : Codec ChildInfo := codec_of_laws _ _ _ child_laws.
Global Instance assessment_codec : Codec AssessmentData :=
  codec_of_laws _ _ _ assessment_laws.
Global Instance attachment_codec : Codec Attachment :=
  codec_of_laws _ _ _ attachment_laws.
Global Instance media_codec : Codec MediaAttachments :=
  codec_of_laws _ _ _ media_laws.
Global Instance message_codec : Codec Message := codec_of_laws _ _ _ message_laws.
Global Instance report_codec : Codec ReportData := codec_of_laws _ _ _ report_laws.

(** ** What every codec gives

    Proved against the interface: a part that has a codec can be dumped
    as text and loaded back, and neither its encoding nor its text
    confuses two parts. *)

Section codec.
Context `{Codec A}.

Lemma load_dump indent (x : A) : load (dump indent x) = Some x.
Proof.
  unfold load, dump, json_encode. rewrite json_parse_emit. simpl.
  apply decode_encode.
Qed.

Lemma encode_inj : Inj (=) (=) (encode (A:=A)).
Proof.
  intros x y Heq. apply (f_equal decode) in Heq.
  rewrite !decode_encode in Heq. by injection Heq.
Qed.

Lemma dump_inj indent : Inj (=) (=) (dump (A:=A) indent).
Proof.
  intros x y Heq. apply (f_equal load) in Heq.
  rewrite !load_dump in Heq. by injection Heq.
Qed.

(** The encodings are the values of the shape, no more and no fewer. *)
Lemma typed_iff_encoded v : has_type (schema A) v = true ↔ ∃ x : A, encode x = v.
Proof.
  split; [|intros [x <-]; apply encode_typed].
  intros Hv. destruct (typed_decode v Hv) as (x & _ & Hx). by exists x.
Qed.

End codec.

(** ** The document and the record *)

(** Reading the document of a record gives the record back: no two
    sessions have the same report document. *)
Theorem report_document_roundtrip r : report_of_document (report_document r) = Some r.
Proof. apply report_laws. Qed.

(** The data file holds the whole report: reading the text that is saved
    gives the record back. *)
Lemma saved_data_dump r : saved_data r = dump 2 r.
Proof. reflexivity. Qed.

Lemma load_data_load s : load_data s = load s.
Proof. reflexivity. Qed.

Lemma saved_data_roundtrip r : load_data (saved_data r) = Some r.
Proof. rewrite saved_data_dump, load_data_load. apply load_dump. Qed.

Corollary saved_data_inj : Inj (=) (=) saved_data.
Proof.
  intros r r' Heq. rewrite !saved_data_dump in Heq. exact (dump_inj 2 _ _ Heq).
Qed.

(** The document of a record has the shape of the report. *)
Theorem report_document_typed r : has_type report_ty (report_document r) = true.
Proof. apply report_laws. Qed.

(** C18: A document of the shape of the report data is the document of
    exactly one record, and the reader returns it: the shape describes the
    saved documents and nothing else. *)
Theorem report_ty_decodes v :
  has_type report_ty v = true →
  ∃ r, report_of_document v = Some r ∧ report_document r = v.
Proof. apply report_laws. Qed.

Lemma report_ty_decodes_witness :
  ∃ r, report_of_document (report_document (report_data example_session)) = Some r
       ∧ report_document r = report_document (report_data example_session).
Proof. apply report_ty_decodes. reflexivity. Defined.

(** The payload of the push has the shape payload_ty whatever the
    session holds: child_info with exactly age, gender and location (no
    name), the five fields of the assessment, the three lists of attachments
    and the application id. *)
Theorem api_data_typed r : has_type payload_ty (api_data r) = true.
Proof.
  pose proof (typed_laws _ _ _ (assessment_data r) assessment_laws) as Ha.
  pose proof (typed_laws _ _ _ (media_attachments r) media_laws) as Hm.
  unfold assessment_document in Ha.
  unfold api_data, payload_ty. rewrite has_type_record. cbn [fields_typed].
  by rewrite Ha, Hm.
Qed.

(** C34: The rendering of a reply returns, instead of raising, exactly on
    the rows of the shape reply_ty: a dictionary with the five keys in which
    urgency_level and response_date are strings. *)
Theorem format_specialist_response_typed (response : pyval) :
  is_ok (format_specialist_response response) = true ↔
  has_type reply_ty response = true.
Proof.
  rewrite format_specialist_response_ok. unfold reply_ty. split.
  - intros (d & level & date & sp & notes & recs & -> & Hl & Hd & Hs & Hn & Hr).
    apply has_type_object. repeat constructor; by eexists.
  - intros Hty. destruct (has_type_object_dict _ _ Hty) as [d ->].
    apply has_type_object in Hty.
    repeat match goal with
    | H : Forall _ (_ :: _) |- _ => apply Forall_cons in H as [(? & ? & ?) H]
    end.
    simpl in *.
    repeat match goal with
    | H : match ?x with _ => _ end = true |- _ =>
        destruct x; try discriminate H; clear H
    end.
    eauto 12.
Qed.

(** ** Assignments *)


(** [clear_conversation] on the document: the four assignments of the
    handler, in their order. *)
Theorem clear_conversation_document (self : App) :
  report_document (report_data (clear_conversation self))
  = doc_set "media_attachments"
      (PDict [("drawings", PList []); ("audio_recordings", PList []);
              ("photos", PList [])])
      (doc_set2 "assessment_data" "ai_analysis" (PStr "")
        (doc_set2 "assessment_data" "parent_observations" (PStr "")
          (doc_set "conversation_history" (PList [])
            (report_document (report_data self))))).
Proof. reflexivity. Qed.

(** The document [__init__] builds. *)
Example init_document uuid now url key :
  report_document (report_data (init uuid now url key))
  = PDict [("child_info",
            PDict [("name", PStr ""); ("age", PInt 0); ("gender", PStr "");
                   ("location", PStr "")]);
           ("assessment_data",
            PDict [("parent_observations", PStr ""); ("ai_analysis", PStr "");
                   ("severity_score", PInt 0); ("risk_indicators", PList []);
                   ("cultural_context", PStr "")]);
           ("media_attachments",
            PDict [("drawings", PList []); ("audio_recordings", PList []);
                   ("photos", PList [])]);
           ("mobile_app_id", PStr uuid);
           ("session_start", PStr (isoformat now));
           ("conversation_history", PList [])].
Proof. reflexivity. Qed.

(** The first lines of the data file of the example session. *)
Example saved_data_example :
  str_startswith
    (subst_char dquote "'" (saved_data (report_data example_session)))
    "{
  'child_info': {
    'name': 'Sam',
    'age': 8,
    'gender': 'Female',
    'location': 'Gaza'
  },
  'assessment_data': {
    'parent_observations': 'He cannot sleep',"
  = true.
Proof. reflexivity. Qed.
