(* ===== verification/Validate.v ===== *)
(** * Validate: the structured answer of the language model

    [generate_comprehensive_report] of [src/app.py] asks the model for an
    answer in the shape of the class [RiskAssessment] and hands the text
    to [RiskAssessment.model_validate_json].  The validation is the
    library's: [Report] takes it as an argument.  This file states what
    the program needs of it as the class [Validator]: an answer that is
    the JSON text of a record of the class is accepted and gives that
    record.  [strict_validate], which reads the text with [Json.json_parse]
    and takes exactly the documents of the shape [Document.assessment_ty],
    is an instance; the library's validation accepts more (it converts the
    text of a number to the number, for one).

    Against the interface: the answer of the model, when it is such a
    text, is what the report holds after the generation, what the data
    file of [save_report_with_data] holds and what
    [push_report_to_care_bridge] posts as [assessment_data], whatever the
    record held before; nothing keeps the severity score within the range
    1 to 10 of the specification. *)

From S2P Require Import Spec2Rocq PyStr PyVal PyTime Json Schema Session Conversation.
From S2P Require Import Submission Report Document.

(** ** The class [RiskAssessment] as a document *)

Definition risk_document (a : RiskAssessment.t) : pyval :=
  PDict [("parent_observations", PStr (RiskAssessment.parent_observations a));
         ("ai_analysis", PStr (RiskAssessment.ai_analysis a));
         ("severity_score", PInt (RiskAssessment.severity_score a));
         ("risk_indicators", PList (PStr <$> RiskAssessment.risk_indicators a));
         ("cultural_context", PStr (RiskAssessment.cultural_context a))].

Definition decode_risk (v : pyval) : option RiskAssessment.t :=
  match v with
  | PDict [f1; f2; f3; f4; f5] =>
      o ← field "parent_observations" decode_str f1;
      a ← field "ai_analysis" decode_str f2;
      s ← field "severity_score" decode_int f3;
      r ← field "risk_indicators" (decode_list decode_str) f4;
      c ← field "cultural_context" decode_str f5;
      Some {| RiskAssessment.parent_observations := o;
              RiskAssessment.ai_analysis := a;
              RiskAssessment.severity_score := s;
              RiskAssessment.risk_indicators := r;
              RiskAssessment.cultural_context := c |}
  | _ => None
  end.

(** ** The validation *)

(** What the program needs of [RiskAssessment.model_validate_json]. *)
Class Validator (model_validate_json : string → option RiskAssessment.t)
  : Prop := {
  validator_accepts indent a :
    model_validate_json (json_encode indent (risk_document a)) = Some a
}.

(** The validation that takes the documents of the shape and converts
    nothing. *)
Definition strict_validate (content : string) : option RiskAssessment.t :=
  json_parse content ≫= decode_risk.

(** ** The models of the examples *)

(** The model answers with the record [a], written on one line. *)
Definition answers (a : RiskAssessment.t) : ChatRequest → option string :=
  λ _, Some (json_encode 0 (risk_document a)).

Definition example_answer : RiskAssessment.t :=
  {| RiskAssessment.parent_observations := "Sleeps badly since the move.";
     RiskAssessment.ai_analysis := "Signs of hyperarousal.";
     RiskAssessment.severity_score := 11;
     RiskAssessment.risk_indicators := ["nightmares"];
     RiskAssessment.cultural_context := "Displaced family." |}.

(** ** Lemmas: the codec *)

Lemma risk_laws : codec_laws risk_document decode_risk assessment_ty.
Proof. record_laws risk_document decode_risk assessment_ty. Qed.

Global Instance risk_codec : Codec RiskAssessment.t :=
  codec_of_laws _ _ _ risk_laws.

Global Instance strict_validator : Validator strict_validate.
Proof. split. intros indent a. exact (load_dump indent a). Qed.

(** The decoders take a value of one form only. *)
Lemma decode_str_exact v s : decode_str v = Some s → v = PStr s.
Proof. destruct v; by intros [= ->]. Qed.

Lemma decode_int_exact v z : decode_int v = Some z → v = PInt z.
Proof. destruct v; by intros [= ->]. Qed.

Lemma decode_strs_exact v l :
  decode_list decode_str v = Some l → v = PList (PStr <$> l).
Proof.
  destruct v as [| | | |vs|]; try done. simpl. intros H%mapM_Some. f_equal.
  induction H as [|v s vs l ->%decode_str_exact _ ->]; by simpl.
Qed.

Lemma field_exact {A} k (dec : pyval → option A) kv x :
  field k dec kv = Some x → ∃ v, kv = (k, v) ∧ dec v = Some x.
Proof.
  unfold field. destruct kv as [k' v]. simpl. case_bool_decide; [|done].
  subst. by exists v.
Qed.

Lemma decode_risk_exact v a : decode_risk v = Some a → risk_document a = v.
Proof.
  destruct v as [| | | | |d]; try done.
  do 6 (destruct d as [|? d]; try done). simpl. intros ?.
  repeat match goal with
  | H : _ ≫= _ = Some _ |- _ =>
      apply bind_Some in H as (? & (? & -> & ?)%field_exact & ?)
  end.
  match goal with H : Some _ = Some _ |- _ => injection H as <- end.
  unfold risk_document. simpl.
  repeat match goal with
  | H : decode_str _ = Some _ |- _ => apply decode_str_exact in H as ->
  | H : decode_int _ = Some _ |- _ => apply decode_int_exact in H as ->
  | H : decode_list _ _ = Some _ |- _ => apply decode_strs_exact in H as ->
  end.
  done.
Qed.

(** The strict validation takes the texts of the documents of the shape
    and no other text. *)
Lemma strict_validate_typed content :
  is_Some (strict_validate content)
  ↔ ∃ v, json_parse content = Some v ∧ has_type assessment_ty v = true.
Proof.
  unfold strict_validate. destruct risk_laws as (_ & Hty & Hdec). split.
  - intros [a Ha]. destruct (json_parse content) as [v|]; [|done].
    exists v. split; [done|]. apply decode_risk_exact in Ha as <-. apply Hty.
  - intros (v & -> & Hv). destruct (Hdec v Hv) as (a & Ha & _). by exists a.
Qed.

(** What [store_assessment] leaves is the record of the answer, whatever
    the report held. *)
Lemma store_assessment_document a d :
  assessment_document (store_assessment a d) = risk_document a.
Proof. done. Qed.

(** ** Against the interface: the answer reaches the report *)

Section client.
Context (model_validate_json : string → option RiskAssessment.t).
Context `{!Validator model_validate_json}.
Context (chat : ChatRequest → option string) (clock : nat → datetime).

Lemma structured_outcome_answer indent a r :
  chat (StructuredChat (assessment_prompt (child_info r)))
  = Some (json_encode indent (risk_document a)) →
  structured_outcome chat model_validate_json r = Some a.
Proof. unfold structured_outcome. intros ->. apply validator_accepts. Qed.

(** C27: With any validation that accepts the JSON text of a record of
    RiskAssessment, when the model answers with such a text
    generate_comprehensive_report leaves that record as the assessment of
    the report whatever it held before, passes the four milestones to the
    callback and returns the report rendered from it, with the severity the
    model gave. *)
Theorem report_stores_answer indent a progress_callback self :
  is_onboarded self && truthy (ollama_conversation self) = true →
  chat (StructuredChat (assessment_prompt (child_info (report_data self))))
  = Some (json_encode indent (risk_document a)) →
  let r := generate_comprehensive_report chat model_validate_json clock
             progress_callback self in
  assessment_document (assessment_data (report_data r.1.1)) = risk_document a
  ∧ r.1.2 = (if progress_callback : bool
             then [msg_analyzing; msg_generating; msg_processing; msg_formatting]
             else [])
  ∧ r.2 = render_report clock (report_data r.1.1)
  ∧ str_in (report_severity (RiskAssessment.severity_score a)) r.2 = true.
Proof.
  intros Hready Hchat.
  pose proof (structured_outcome_answer indent a _ Hchat) as Hout.
  rewrite (generate_report_accepted _ _ _ _ _ Hready). cbn zeta. cbn [fst snd].
  rewrite structured_assessment_stored, Hout.
  split; [done|]. split; [|split; [done|]].
  - unfold structured_assessment. rewrite Hchat.
    unfold structured_outcome in Hout. rewrite Hchat in Hout. simpl in Hout.
    by rewrite Hout.
  - apply (render_report_severity clock
      (with_assessment_data
         (λ _, store_assessment a (assessment_data (report_data self)))
         (report_data self))).
Qed.

(** The record of the answer is what is posted to the platform as
    [assessment_data]. *)
Theorem answer_posted indent a progress_callback base_url self :
  is_onboarded self && truthy (ollama_conversation self) = true →
  chat (StructuredChat (assessment_prompt (child_info (report_data self))))
  = Some (json_encode indent (risk_document a)) →
  let self' := (generate_comprehensive_report chat model_validate_json clock
                  progress_callback self).1.1 in
  py_getitem (json (report_request base_url (report_data self')))
    "assessment_data"
  = Ok (risk_document a).
Proof.
  intros Hready Hchat.
  pose proof (structured_outcome_answer indent a _ Hchat) as Hout.
  rewrite (generate_report_accepted _ _ _ _ _ Hready). cbn zeta. cbn [fst snd].
  by rewrite structured_assessment_stored, Hout.
Qed.

End client.

Lemma report_stores_answer_witness :
  let r := generate_comprehensive_report (answers example_answer) strict_validate
             example_clock true example_session in
  assessment_document (assessment_data (report_data r.1.1))
  = risk_document example_answer
  ∧ r.1.2 = [msg_analyzing; msg_generating; msg_processing; msg_formatting]
  ∧ r.2 = render_report example_clock (report_data r.1.1)
  ∧ str_in (report_severity 11) r.2 = true.
Proof.
  by apply (report_stores_answer strict_validate (answers example_answer)
              example_clock 0 example_answer true example_session).
Defined.

Lemma answer_posted_witness :
  let self' := (generate_comprehensive_report (answers example_answer)
                  strict_validate example_clock true example_session).1.1 in
  py_getitem (json (report_request default_base_url (report_data self')))
    "assessment_data"
  = Ok (risk_document example_answer).
Proof.
  by apply (answer_posted strict_validate (answers example_answer)
              example_clock 0 example_answer true default_base_url example_session).
Defined.

(** ** Examples *)

(** Nothing keeps the severity within 1 to 10: a score of 11 is stored,
    printed over 10 and read as a high risk. *)
Example severity_unchecked :
  let r := generate_comprehensive_report (answers example_answer) strict_validate
             example_clock false example_session in
  severity_score (assessment_data (report_data r.1.1)) = 11%Z
  ∧ str_in "**Severity Score:** 11/10" r.2 = true
  ∧ str_in "High Risk" r.2 = true.
Proof. by vm_compute. Qed.

(** The strict validation refuses a score written as text, which the
    library's validation would convert. *)
Example strict_refuses_text :
  strict_validate
    (json_encode 0
       (PDict [("parent_observations", PStr ""); ("ai_analysis", PStr "");
               ("severity_score", PStr "6"); ("risk_indicators", PList []);
               ("cultural_context", PStr "")]))
  = None.
Proof. by vm_compute. Qed.
