(* ===== verification/Handlers.v ===== *)
(** * Handlers: the functions the user interface calls

    The event handlers of [src/app.py] that sit between the interface and
    the application object: [handle_onboarding], the chain wired by
    [handle_conversation], [clear_conversation] as the button calls it,
    [generate_report_with_progress], [save_report_with_data],
    [push_to_care_bridge] and [check_for_response].  A component update
    ([gr.Column(visible=...)], [gr.MultimodalTextbox(...)]) is the value
    of the attribute it sets; the HTML fragments are the strings the code
    builds.  [saved_files] is what [save_report_with_data] writes, the
    name and the content of each file; whether the writes succeed is the
    oracle [written]: [None] when both returned, the text of the exception
    otherwise.

    [phase] is the state of a submission as the conditional of
    [check_for_response] distinguishes it, and [status_line] the line
    shown for each. *)

From S2P Require Import Spec2Rocq PyStr PyVal PyTime Session Conversation.
From S2P Require Import Submission Polling Report Document.
From Stdlib Require Import QArith_base.
Local Close Scope Q_scope.

(** ** HTML fragments *)

Definition dq : string := String dquote "".

(** [f'<div class="{cls}">{body}</div>']. *)
Definition div (cls body : string) : string :=
  "<div class=" +:+ dq +:+ cls +:+ dq +:+ ">" +:+ body +:+ "</div>".

(** ** [handle_onboarding] *)

(** The four outputs of the click: the visibility of the two columns, the
    banner with the child's record, the status line. *)
Record OnboardingView : Type := {
  onboarding_section : bool;
  main_interface : bool;
  child_info_display : string;
  onboarding_status : string
}.

Definition child_display (name : string) (age : option Q) (gender location : string)
  : string :=
  "
            <div class=" +:+
  dq +:+
  "child-info-display" +:+
  dq +:+
  ">
                <strong>👤 Assessment for:</strong> " +:+
  name +:+
  ", " +:+
  str_of_int (from_option py_int 0%Z age) +:+
  " years old (" +:+
  gender +:+
  ") • 📍 " +:+
  location +:+
  "
            </div>
            ".

Definition handle_onboarding (name : string) (age : option Q)
    (gender location : string) (app : App) : App * OnboardingView :=
  let '(app, (success, message)) :=
    complete_onboarding name age gender location app in
  if success : bool then
    (app, {| onboarding_section := false; main_interface := true;
             child_info_display := child_display name age gender location;
             onboarding_status := div "status-success" message |})
  else
    (app, {| onboarding_section := true; main_interface := false;
             child_info_display := "";
             onboarding_status := div "status-warning" ("❌ " +:+ message) |}).

(** ** [handle_conversation]

    The chain on a submitted input: [add_message], then [bot_response] on
    the history now shown, then the text box is unlocked.  The result is
    the state, every value the chat surface took in turn, and the text
    box at the end. *)

Definition handle_conversation (chat : ChatRequest → option string)
    (clock : nat → datetime) (chatbot : list Message) (chat_input : UserInput)
    (app : App) : App * list (list Message) * MultimodalTextbox :=
  let '(app, (chatbot, _)) := add_message clock chatbot chat_input app in
  let '(app, yields) := bot_response chat chatbot app in
  (app, chatbot :: yields, {| value := None; interactive := true |}).

(** ** [clear_conversation] as the button calls it *)

Definition handle_clear (app : App) : App * (list Message * MultimodalTextbox) :=
  (clear_conversation app, ([], {| value := None; interactive := true |})).

(** ** [generate_report_with_progress]

    The pairs (report, progress) the generator yields.  The milestones the
    callback receives go to a list that is never shown. *)

Definition update_progress (message : string) : string := div "status-info" message.

Definition generate_report_with_progress
    (chat : ChatRequest → option string)
    (model_validate_json : string → option RiskAssessment.t)
    (clock : nat → datetime) (app : App) : App * list (string * string) :=
  let progress := update_progress "🚀 Starting assessment generation..." in
  let '(app, _, report) :=
    generate_comprehensive_report chat model_validate_json clock true app in
  let final_progress := update_progress "✅ Assessment completed!" in
  (app, [("", progress); (report, final_progress); (report, "")]).

(** The generator object of [generate_report_with_progress]: created and
    not started, suspended at the first [yield], at the second with the
    report it holds, at the third, or finished. *)
Inductive ReportGen : Type :=
| ReportCreated
| ReportStarted
| ReportCompleted (report : string)
| ReportCleared
| ReportFinished.

(** One resumption: the state it leaves, the generator, and the pair it
    yields ([None] when the generator ends).  The report is generated at
    the second resumption, from the object as it is then. *)
Definition report_next
    (chat : ChatRequest → option string)
    (model_validate_json : string → option RiskAssessment.t)
    (clock : nat → datetime) (g : ReportGen) (app : App)
  : App * (ReportGen * option (string * string)) :=
  match g with
  | ReportCreated =>
      let progress := update_progress "🚀 Starting assessment generation..." in
      (app, (ReportStarted, Some ("", progress)))
  | ReportStarted =>
      let '(app, _, report) :=
        generate_comprehensive_report chat model_validate_json clock true app in
      let final_progress := update_progress "✅ Assessment completed!" in
      (app, (ReportCompleted report, Some (report, final_progress)))
  | ReportCompleted report => (app, (ReportCleared, Some (report, "")))
  | ReportCleared | ReportFinished => (app, (ReportFinished, None))
  end.

(** The resumptions a generator takes until it has ended. *)
Definition report_resumptions (g : ReportGen) : nat :=
  match g with
  | ReportCreated => 4
  | ReportStarted => 3
  | ReportCompleted _ => 2
  | ReportCleared | ReportFinished => 1
  end.

(** The first [n] resumptions: the state they leave, the generator, and
    the pairs yielded. *)
Fixpoint report_take
    (chat : ChatRequest → option string)
    (model_validate_json : string → option RiskAssessment.t)
    (clock : nat → datetime) (n : nat) (g : ReportGen) (app : App)
  : App * (ReportGen * list (string * string)) :=
  match n with
  | O => (app, (g, []))
  | S n' =>
      let '(app, (g, y)) := report_next chat model_validate_json clock g app in
      match y with
      | None => (app, (g, []))
      | Some y =>
          let '(app, (g, ys)) :=
            report_take chat model_validate_json clock n' g app in
          (app, (g, y :: ys))
      end
  end.

(** ** [save_report_with_data] *)

Definition report_filename (child : string) (now : datetime) : string :=
  "trauma_report_" +:+ child +:+ "_" +:+ strftime_compact now +:+ ".md".

Definition data_filename (child : string) (now : datetime) : string :=
  "assessment_data_" +:+ child +:+ "_" +:+ strftime_compact now +:+ ".json".

Definition save_report_with_data (written : option string) (now : datetime)
    (report_content : string) (app : App) : string :=
  (guard truthy report_content && negb (str_in "Please complete" report_content)
   else "❌ No report available to save." ;;
   let child := name (child_info (report_data app)) in
   match written with
   | None =>
       "✅ Report saved as: **" +:+ report_filename child now +:+
       "**<br>📊 Data saved as: **" +:+ data_filename child now +:+ "**"
   | Some e => "❌ Error saving files: " +:+ e
   end)%py.

(** The files the handler writes when its guard passes, in the order of
    the two [open]: the name and the content of each.  The report is
    written as it is shown; the data file is the dump of [report_data]. *)
Definition saved_files (now : datetime) (report_content : string) (app : App)
  : list (string * string) :=
  (guard truthy report_content && negb (str_in "Please complete" report_content)
   else [] ;;
   let child := name (child_info (report_data app)) in
   [(report_filename child now, report_content);
    (data_filename child now, saved_data (report_data app))])%py.

(** ** [push_to_care_bridge] *)

Definition push_to_care_bridge (post : HttpRequest → HttpOutcome) (app : App)
  : App * bool * string :=
  let '(app, started, (success, message)) :=
    push_report_to_care_bridge post default_base_url app in
  let status_class := if success : bool then "status-success" else "status-warning" in
  (app, started, div status_class message).

(** ** [check_for_response]

    The text shown and the status line; the call raises when the stored
    reply cannot be rendered. *)

Definition check_for_response (app : App) : result (string * string) :=
  r ← get_specialist_response app;
  let '(has_response, response_content) := r in
  Ok (if has_response : bool then
        (response_content, div "status-success" "✅ Specialist response received!")
      else if polling_active app then
        ("", div "status-info" "🔄 Still monitoring for specialist response...")
      else if truthy (submitted_report_id app) then
        ("", div "status-warning"
               "⏸️ Monitoring stopped. No response received within time limit.")
      else
        ("", div "status-warning" "ℹ️ Submit a report first to check for responses.")).

(** ** The phases

    What [check_for_response] tells the user: the four branches of its
    conditional, as the states of the submission. *)

Inductive Phase : Type := Idle | Polling | Responded | Stopped.

Global Instance Phase_eq_dec : EqDecision Phase.
Proof. solve_decision. Defined.

Definition phase (self : App) : Phase :=
  if bool_decide (is_Some (specialist_response self)) then Responded
  else if polling_active self then Polling
  else if truthy (submitted_report_id self) then Stopped
  else Idle.

Definition status_line (p : Phase) : string :=
  match p with
  | Responded => div "status-success" "✅ Specialist response received!"
  | Polling => div "status-info" "🔄 Still monitoring for specialist response..."
  | Stopped =>
      div "status-warning"
        "⏸️ Monitoring stopped. No response received within time limit."
  | Idle => div "status-warning" "ℹ️ Submit a report first to check for responses."
  end.

(** ** Lemmas: [handle_onboarding] *)

(** The main interface is shown exactly when onboarding succeeded, and the
    form is hidden exactly then. *)
Lemma handle_onboarding_view n a g l self :
  let view := (handle_onboarding n a g l self).2 in
  main_interface view = (complete_onboarding n a g l self).2.1
  ∧ onboarding_section view = negb (main_interface view)
  ∧ (main_interface view = false → child_info_display view = "").
Proof.
  unfold handle_onboarding.
  by destruct (complete_onboarding n a g l self) as [? [[] ?]].
Qed.

Lemma child_display_name n a g l : str_in n (child_display n a g l) = true.
Proof.
  unfold child_display.
  do 5 apply str_in_app_r. apply str_in_app_l, str_in_refl.
Qed.

Lemma child_display_location n a g l : str_in l (child_display n a g l) = true.
Proof.
  unfold child_display.
  do 11 apply str_in_app_r. apply str_in_app_l, str_in_refl.
Qed.

(** C32: The banner of the main column carries the name and the location as
    they were typed: complete_onboarding lets any text that is not empty
    pass and handle_onboarding puts it into the HTML of child_info_display
    without escaping, so markup typed into the form is markup on the page. *)
Theorem banner_embeds_input n a g l self :
  truthy n = true → truthy a = true → truthy g = true → truthy l = true →
  let view := (handle_onboarding n a g l self).2 in
  main_interface view = true
  ∧ str_in n (child_info_display view) = true
  ∧ str_in l (child_info_display view) = true.
Proof.
  intros Hn Ha Hg Hl. unfold handle_onboarding, complete_onboarding.
  cbn [py_all forallb id]. rewrite Hn, Ha, Hg, Hl. cbn.
  split_and!; [done|apply child_display_name|apply child_display_location].
Qed.

Lemma banner_embeds_input_witness :
  let view := (handle_onboarding "<b>Sam</b>" (Some (inject_Z 8)) "Female"
                 "Gaza" (init "7f0c" sample_time None None)).2 in
  main_interface view = true
  ∧ str_in "<b>Sam</b>" (child_info_display view) = true
  ∧ str_in "Gaza" (child_info_display view) = true.
Proof. by apply banner_embeds_input. Defined.

(** ** Lemmas: [generate_report_with_progress] *)

(** Three pairs are yielded: the start, the report with the completion
    line, the report with the line cleared. *)
Lemma generate_report_with_progress_yields chat validate clock self :
  let report := (generate_comprehensive_report chat validate clock true self).2 in
  (generate_report_with_progress chat validate clock self).2
  = [("", div "status-info" "🚀 Starting assessment generation...");
     (report, div "status-info" "✅ Assessment completed!");
     (report, "")].
Proof.
  unfold generate_report_with_progress.
  by destruct (generate_comprehensive_report _ _ _ _ _) as [[? ?] ?].
Qed.

(** Resumed until it ends, the generator leaves the state and yields the
    pairs of [generate_report_with_progress]. *)
Lemma report_take_all chat validate clock self :
  report_take chat validate clock (report_resumptions ReportCreated)
    ReportCreated self
  = ((generate_report_with_progress chat validate clock self).1,
     (ReportFinished, (generate_report_with_progress chat validate clock self).2)).
Proof.
  unfold generate_report_with_progress. simpl.
  by destruct (generate_comprehensive_report _ _ _ _ _) as [[? ?] ?].
Qed.

(** A resumption takes one from the resumptions left, and the last one
    yields nothing. *)
Lemma report_next_resumptions chat validate clock g self :
  let '(_, (g', y)) := report_next chat validate clock g self in
  match y with
  | Some _ => S (report_resumptions g') = report_resumptions g
  | None => report_resumptions g = 1
  end.
Proof.
  destruct g; simpl; try done.
  by destruct (generate_comprehensive_report _ _ _ _ _) as [[? ?] ?].
Qed.

(** The state changes at the second resumption only, as the whole of
    [generate_report_with_progress] changes it. *)
Lemma report_next_state chat validate clock g self :
  (report_next chat validate clock g self).1
  = match g with
    | ReportStarted => (generate_report_with_progress chat validate clock self).1
    | _ => self
    end.
Proof.
  destruct g; simpl; try done. unfold generate_report_with_progress.
  by destruct (generate_comprehensive_report _ _ _ _ _) as [[? ?] ?].
Qed.

(** ** Lemmas: [save_report_with_data] *)

Lemma save_report_refused written now report self :
  truthy report = false ∨ str_in "Please complete" report = true →
  save_report_with_data written now report self = "❌ No report available to save.".
Proof.
  unfold save_report_with_data. intros [-> | ->]; [done|]. by rewrite andb_false_r.
Qed.


(** Nothing is written exactly when the handler answers that there is no
    report. *)
Lemma saved_files_refused now report self :
  saved_files now report self = [] ↔
  save_report_with_data None now report self = "❌ No report available to save.".
Proof.
  unfold saved_files, save_report_with_data.
  by destruct (truthy report && negb (str_in "Please complete" report)).
Qed.

(** C17: When the guard of save_report_with_data passes, two files are
    written, the report under its name as it is shown and the data file
    under its name, and the text of the data file reads back as the report
    data of the session. *)
Lemma saved_files_load now report self :
  truthy report = true → str_in "Please complete" report = false →
  ∃ text,
    saved_files now report self
    = [(report_filename (name (child_info (report_data self))) now, report);
       (data_filename (name (child_info (report_data self))) now, text)]
    ∧ load_data text = Some (report_data self).
Proof.
  intros Hr Hc. exists (saved_data (report_data self)).
  split; [|apply saved_data_roundtrip].
  unfold saved_files. by rewrite Hr, Hc.
Qed.

(** ** Lemmas: [check_for_response] *)

(** check_for_response returns the status line of the phase, with the
    rendered reply when there is one and the empty text otherwise, and
    raises when the rendering raises. *)
Lemma check_for_response_phase self :
  check_for_response self
  = get_specialist_response self ≫= λ r : bool * string,
      Ok (if r.1 then r.2 else "", status_line (phase self)).
Proof.
  unfold check_for_response, get_specialist_response, phase.
  destruct (specialist_response self) as [row|]; simpl.
  - by destruct (format_specialist_response row).
  - by repeat case_match.
Qed.

(** When the stored reply does not render, check_for_response raises. *)
Lemma check_for_response_raises self row :
  specialist_response self = Some row →
  is_ok (format_specialist_response row) = false →
  is_ok (check_for_response self) = false.
Proof.
  unfold check_for_response, get_specialist_response. intros ->. 
  by destruct (format_specialist_response row).
Qed.

(** ** The scenarios of the handlers *)

Lemma save_report_refused_witness :
  save_report_with_data None sample_time
    "Please complete the initial assessment form first." example_init
  = "❌ No report available to save.".
Proof. apply save_report_refused. by right. Defined.


Lemma saved_files_load_witness :
  ∃ text,
    saved_files sample_time "# Report" example_session
    = [("trauma_report_Sam_20250307_090502.md", "# Report");
       ("assessment_data_Sam_20250307_090502.json", text)]
    ∧ load_data text = Some (report_data example_session).
Proof. by apply (saved_files_load sample_time "# Report" example_session). Defined.

(** The child's name goes into the two file names as it was typed. *)
Example report_filename_raw :
  report_filename "../Sam" sample_time = "trauma_report_../Sam_20250307_090502.md".
Proof. reflexivity. Qed.

Lemma check_for_response_raises_witness :
  is_ok (check_for_response
           (set_specialist_response (PDict [("report_id", PStr "r-1")])
              example_polling))
  = false.
Proof.
  by apply (check_for_response_raises _ (PDict [("report_id", PStr "r-1")])).
Defined.

Example handle_onboarding_sam :
  (handle_onboarding "Sam" (Some (inject_Z 8)) "Female" "Gaza" example_init).2
  = {| onboarding_section := false; main_interface := true;
       child_info_display := child_display "Sam" (Some (inject_Z 8)) "Female" "Gaza";
       onboarding_status :=
         div "status-success" "Welcome! I'm ready to help you with Sam's assessment." |}.
Proof. reflexivity. Qed.
