(* ===== verification/Texts.v ===== *)
(** * Texts: the literals of the page

    The texts [src/app.py] fixes: the style sheet passed to [gr.Blocks]
    ([css], lines 511 to 644) and the contents of the [gr.HTML] and
    [gr.Markdown] blocks that are not bound to a name.  Each is the value
    of the Python literal, byte for byte; a double quote of the source is
    [dq].  [Interface.layout] places the blocks and [Style] reads the
    style sheet. *)

From S2P Require Import Spec2Rocq PyStr Handlers.

(** ** The style sheet *)

Definition css : string :=
  "
/* Main container styling */
.gradio-container {
    max-width: 900px !important;
    margin: 0 auto !important;
    font-family: 'Segoe UI', Tahoma, Geneva, Verdana, sans-serif;
}

/* Onboarding specific styles */
.onboarding-container {
    background: linear-gradient(135deg, #667eea 0%, #764ba2 100%);
    color: white;
    padding: 40px 30px;
    border-radius: 20px;
    margin: 20px 0;
    text-align: center;
    box-shadow: 0 10px 30px rgba(0,0,0,0.2);
}

.welcome-form {
    background: white;
    color: #333;
    padding: 30px;
    border-radius: 15px;
    margin: 20px 0;
    box-shadow: 0 5px 20px rgba(0,0,0,0.1);
}

.form-section {
    margin: 20px 0;
    text-align: left;
}

.form-section label {
    font-weight: 600;
    color: #2d3436;
    margin-bottom: 8px;
    display: block;
}

/* Header styling */
.header-container {
    background: linear-gradient(135deg, #667eea 0%, #764ba2 100%);
    color: white;
    padding: 30px 20px;
    border-radius: 15px;
    margin-bottom: 25px;
    text-align: center;
    box-shadow: 0 4px 15px rgba(0,0,0,0.1);
}

/* Status indicators */
.status-success {
    background: linear-gradient(135deg, #84fab0 0%, #8fd3f4 100%);
    border-left: 4px solid #00b894;
    padding: 15px 20px;
    border-radius: 8px;
    margin: 15px 0;
    color: #00b894;
    font-weight: 500;
}

.status-warning {
    background: linear-gradient(135deg, #fff3cd 0%, #ffeaa7 100%);
    border-left: 4px solid #f39c12;
    padding: 15px 20px;
    border-radius: 8px;
    margin: 15px 0;
    color: #e67e22;
}

.status-info {
    background: linear-gradient(135deg, #a8edea 0%, #fed6e3 100%);
    border-left: 4px solid #74b9ff;
    padding: 15px 20px;
    border-radius: 8px;
    margin: 15px 0;
    color: #0984e3;
}

/* Button styling */
.primary-button {
    background: linear-gradient(135deg, #667eea 0%, #764ba2 100%) !important;
    border: none !important;
    color: white !important;
    padding: 15px 30px !important;
    border-radius: 25px !important;
    font-weight: 600 !important;
    font-size: 16px !important;
    transition: all 0.3s ease !important;
    width: 100% !important;
}

.primary-button:hover {
    transform: translateY(-2px) !important;
    box-shadow: 0 8px 25px rgba(102, 126, 234, 0.4) !important;
}

/* Chat interface styling */
.chat-container {
    background: white;
    border-radius: 15px;
    padding: 20px;
    box-shadow: 0 2px 10px rgba(0,0,0,0.1);
    margin-bottom: 20px;
}

.child-info-display {
    background: linear-gradient(135deg, #ddd6fe 0%, #e0e7ff 100%);
    border: 1px solid #c4b5fd;
    padding: 15px 20px;
    border-radius: 10px;
    margin: 15px 0;
    color: #5b21b6;
}

/* Mobile responsiveness */
@media (max-width: 768px) {
    .gradio-container {
        max-width: 100% !important;
        margin: 0 10px !important;
    }
    
    .onboarding-container {
        padding: 25px 20px;
        margin: 10px 0;
    }
    
    .welcome-form {
        padding: 20px;
        margin: 15px 0;
    }
}
".

(** ** The blocks of the layout *)

(** The banner of the onboarding column. *)
Definition welcome_banner : string :=
  "
        <div class=" +:+ dq +:+
  "onboarding-container" +:+ dq +:+
  ">
            <h1>🤗 Welcome to Child Trauma Assessment AI</h1>
            <p>Professional-grade support for families and children in crisis</p>
            <br>
            <h3>Let's start by learning about your child</h3>
        </div>
        ".

(** The title of the form. *)
Definition form_title : string :=
  "<h2 style='text-align: center; color: #667eea; margin-bottom: 25px;'>📝 Child Information Form</h2>".

(** The privacy notice under the form. *)
Definition privacy_notice : string :=
  "
            <div class=" +:+ dq +:+
  "status-info" +:+ dq +:+
  " style=" +:+ dq +:+
  "margin: 20px 0;" +:+ dq +:+
  ">
                <strong>🔒 Privacy Notice:</strong> This information is used only to personalize the assessment 
                and provide culturally appropriate support. No personal data is stored permanently.
            </div>
            ".

(** The notice at the top of the consultation tab. *)
Definition consultation_notice : string :=
  "
            <div class=" +:+ dq +:+
  "status-info" +:+ dq +:+
  ">
                <strong>🤖 REAL AI MODEL:</strong> This platform uses our fine-tuned Gemma 3N model for authentic trauma assessment conversations.
                <br><br>
                <strong>💡 Try These Features:</strong>
                <br>
                • Start a conversation: " +:+ dq +:+
  "Hello, I'm worried about my child's recent behavior changes" +:+ dq +:+
  "
                <br>
                • Upload images (child photos, drawings) for AI visual analysis
                <br>
                • Use different languages - the model supports Arabic, Ukrainian, and English
                <br>
                • Generate structured reports with AI-powered assessment insights
                <br><br>
                <strong>🔒 Privacy:</strong> All conversations are processed securely. Audio support coming soon.
            </div>
            ".

(** The block that fills the row of the clear button. *)
Definition row_spacer : string :=
  "<div style=" +:+ dq +:+
  "flex-grow: 1;" +:+ dq +:+
  "></div>".

(** The notice at the top of the report tab. *)
Definition professional_notice : string :=
  "
            <div class=" +:+ dq +:+
  "status-warning" +:+ dq +:+
  ">
                <strong>⚠️ Professional Use Only:</strong> This AI-generated report is a preliminary screening tool. 
                It must be reviewed by licensed mental health professionals.
            </div>
            ".

(** The notice at the top of the response tab. *)
Definition monitoring_notice : string :=
  "
            <div class=" +:+ dq +:+
  "status-info" +:+ dq +:+
  ">
                <strong>🔄 Background Monitoring:</strong> Once you submit a report, we automatically monitor for specialist responses in the background.
                Click the button below to check for new responses.
            </div>
            ".

(** The text of the resources tab. *)
Definition resources_text : string :=
  "
            ## 🎯 How This Assessment Works
            
            Our AI specialist uses evidence-based approaches tailored to your child's specific situation:
            
            ### 📝 **Personalized Assessment**
            - Responses are customized based on your child's age, gender, and location
            - Cultural context is considered throughout the evaluation
            - All interactions are stored securely for comprehensive reporting
            
            ### 🔍 **What We Analyze**
            - Behavioral pattern changes specific to your child's developmental stage
            - Cultural expressions of trauma and stress
            - Family dynamics and support systems
            - Environmental factors affecting recovery
            
            ### 📊 **Structured Data Collection**
            All information is organized into a comprehensive clinical format:
            - Child demographics and context
            - Detailed parent observations
            - AI analysis and risk assessment  
            - Multimedia evidence (drawings, voice recordings, photos)
            - Cultural considerations and recommendations
            
            ## 🌉 **Care Bridge Platform Integration**
            
            This assessment tool integrates with the Care Bridge Platform to:
            - **Share Reports**: Securely transmit assessment data to professional networks
            - **Track Progress**: Maintain longitudinal care records
            - **Coordinate Care**: Enable multi-disciplinary team collaboration
            - **Emergency Response**: Alert crisis intervention teams when needed
            ".
