(* ===== verification/Concurrency.v ===== *)
(** * Concurrency: the handlers and the polling threads together

    The application object is shared by the calls the interface makes
    (onboarding, a submitted message, the assistant's reply, clearing,
    generating the report, pushing it) and by every thread
    [start_response_polling] has started.  A [System] is the object and
    the threads; an [Event] is one call of the main flow, taken as one
    step, or one statement of one thread ([Polling.thread_step]).  What a
    query of the lookup store returns is part of the event, so a run
    quantifies over every behaviour of the store; the same holds for the
    language model and the platform.

    [sys_inv] is the invariant of the reachable systems: exactly one
    thread may write [polling_active] while it is raised and none while it
    is low.  [phase] reads the system the way [check_for_response] reports
    it, and [code_edge] lists the moves between phases the code can make;
    [spec_edge] is the machine of the specification. *)

From S2P Require Import Spec2Rocq PyStr PyVal PyTime Protocol Session Conversation.
From S2P Require Import Submission Polling Report Handlers.
From Stdlib Require Import QArith_base.
Local Close Scope Q_scope.

(** ** Systems and events *)

Record System : Type := {
  app : App;
  threads : list PollThread
}.

Inductive Event : Type :=
| Onboard (child_name : string) (child_age : option Q)
          (child_gender child_location : string)
| Submit (clock : nat → datetime) (history : list Message) (message : UserInput)
| Reply (chat : ChatRequest → option string) (history : list Message)
| Clear
| Generate (chat : ChatRequest → option string)
           (model_validate_json : string → option RiskAssessment.t)
           (clock : nat → datetime)
| Push (post : HttpRequest → HttpOutcome)
| Poll (i : nat) (outcome : QueryOutcome).

(** A call of the main flow: the state it leaves and whether it started a
    thread. *)
Definition handler (e : Event) (self : App) : App * bool :=
  match e with
  | Onboard n a g l => ((handle_onboarding n a g l self).1, false)
  | Submit clock history message => ((add_message clock history message self).1, false)
  | Reply chat history => ((bot_response chat history self).1, false)
  | Clear => ((handle_clear self).1, false)
  | Generate chat validate clock =>
      ((generate_report_with_progress chat validate clock self).1, false)
  | Push post => (push_to_care_bridge post self).1
  | Poll _ _ => (self, false)
  end.

Definition sys_step (e : Event) (s : System) : System :=
  match e with
  | Poll i outcome =>
      match threads s !! i with
      | Some t =>
          let '(t', self) := thread_step outcome t (app s) in
          {| app := self; threads := <[i := t']> (threads s) |}
      | None => s
      end
  | _ =>
      let '(self, started) := handler e (app s) in
      {| app := self;
         threads := threads s ++ (if started then [thread_start] else []) |}
  end.

Definition sys_run (es : list Event) (s : System) : System :=
  foldl (λ s e, sys_step e s) s es.

Definition sys_init (uuid : string) (now : datetime) (url key : option string)
  : System :=
  {| app := init uuid now url key; threads := [] |}.

Inductive reachable : System → Prop :=
| reachable_init uuid now url key : reachable (sys_init uuid now url key)
| reachable_step e s : reachable s → reachable (sys_step e s).

(** ** The invariant *)

(** The number of threads that may still write [polling_active]. *)
Definition owner_count (ts : list PollThread) : nat :=
  length (filter (λ t, owns_flag t) ts).

Definition sys_inv (s : System) : Prop :=
  Forall thread_inv (threads s)
  ∧ owner_count (threads s) = Nat.b2n (polling_active (app s))
  ∧ (polling_active (app s) = true → supabase (app s) = true)
  ∧ gate_inv (app s).

(** The times thread [i] is scheduled in a run. *)
Definition schedules (i : nat) (e : Event) : bool :=
  match e with Poll j _ => bool_decide (i = j) | _ => false end.

Definition scheduled (i : nat) (es : list Event) : nat :=
  length (filter (λ e, schedules i e) es).

(** ** The machines

    [Handlers.phase] reads the state the way [check_for_response] reports
    it. *)

(** The machine of the specification. *)
Inductive spec_edge : Phase → Phase → Prop :=
| spec_submit : spec_edge Idle Polling
| spec_reply : spec_edge Polling Responded
| spec_timeout : spec_edge Polling Stopped.

(** The moves the code can make beside them. *)
Inductive code_edge : Phase → Phase → Prop :=
| code_spec p q : spec_edge p q → code_edge p q
| code_submit_unwatched : code_edge Idle Stopped
| code_resubmit : code_edge Stopped Polling
| code_lose_id : code_edge Stopped Idle
| code_orphan : code_edge Polling Idle.

(** What an event needs for the system to follow the specification: a
    report is pushed once, with the lookup store configured, and the
    platform answers a success with a truthy identifier. *)
Definition disciplined (e : Event) (self : App) : Prop :=
  match e with
  | Push post =>
      phase self = Idle ∧ supabase self = true
      ∧ ∀ response report_id,
          post (report_request default_base_url (report_data self)) = inr response →
          decode_report_id response = inr report_id → truthy report_id = true
  | _ => True
  end.

(** The fields the submission component and the threads share. *)
Definition control (self : App) : pyval * bool * bool * option pyval :=
  (submitted_report_id self, polling_active self, supabase self,
   specialist_response self).

(** The thread has stored a reply and not yet given up the flag. *)
Definition has_stored (t : PollThread) : bool :=
  match pc t with AtRender | AtDeactivate => true | _ => false end.

(** A thread past [self.specialist_response = ...] finds the reply stored. *)
Definition render_inv (s : System) : Prop :=
  Forall (λ t, has_stored t = true → is_Some (specialist_response (app s)))
         (threads s).

(** The identifier asked for is set while the loop is marked active. *)
Definition id_inv (self : App) : Prop :=
  polling_active self = true → truthy (submitted_report_id self) = true.

(** Every step of the run either keeps the phase or moves it along an
    edge of the given machine. *)
Fixpoint follows (edge : Phase → Phase → Prop) (s : System) (es : list Event)
  : Prop :=
  match es with
  | [] => True
  | e :: es =>
      (phase (app (sys_step e s)) = phase (app s)
       ∨ edge (phase (app s)) (phase (app (sys_step e s))))
      ∧ follows edge (sys_step e s) es
  end.

Fixpoint disciplined_run (s : System) (es : list Event) : Prop :=
  match es with
  | [] => True
  | e :: es => disciplined e (app s) ∧ disciplined_run (sys_step e s) es
  end.

(** ** The runs of the examples *)

Definition example_start : System :=
  sys_init "7f0c" sample_time (Some "https://db.example") (Some "key").

(** Onboarding and one turn of conversation. *)
Definition example_turn : list Event :=
  [Onboard "Sam" (Some (inject_Z 8)) "Female" "Gaza";
   Submit example_clock [] example_input;
   Reply example_chat [user_turn (Text "He cannot sleep")]].

(** The platform accepts the report and sends no identifier. *)
Definition example_null_id : HttpRequest → HttpOutcome := λ _,
  inr {| status_code := 201; resp_text := "";
         resp_json := inr (PDict [("id", PNone)]) |}.

(** Thread [i] from its start to its return when the store has the reply:
    the head of the loop, the query, the assignment, the rendering, the
    flag, the test after the loop. *)
Definition example_answer (i : nat) : list Event :=
  replicate 6 (Poll i (QueryData [example_reply])).

(** Thread [i] from its start to its return when no reply comes: 120
    attempts of three statements, the head of the loop, the test after
    it. *)
Definition example_timeout (i : nat) : list Event :=
  replicate 362 (Poll i (QueryData [])).

(** The session is submitted and watched. *)
Definition example_watched : System :=
  sys_run (example_turn ++ [Push example_created]) example_start.

(** ** The handlers of the main flow *)

Lemma gate_inv_ext (self self' : App) :
  child_info (report_data self') = child_info (report_data self) →
  is_onboarded self' = is_onboarded self →
  gate_inv self → gate_inv self'.
Proof. unfold gate_inv. by intros -> ->. Qed.

Lemma handle_onboarding_state n a g l self :
  (handle_onboarding n a g l self).1 = (complete_onboarding n a g l self).1.
Proof.
  unfold handle_onboarding.
  by destruct (complete_onboarding n a g l self) as [? [[] ?]].
Qed.

Lemma generate_report_with_progress_state chat validate clock self :
  (generate_report_with_progress chat validate clock self).1
  = (generate_comprehensive_report chat validate clock true self).1.1.
Proof.
  unfold generate_report_with_progress.
  by destruct (generate_comprehensive_report _ _ _ _ _) as [[? ?] ?].
Qed.

Lemma push_to_care_bridge_state post self :
  (push_to_care_bridge post self).1
  = (push_report_to_care_bridge post default_base_url self).1.
Proof.
  unfold push_to_care_bridge.
  by destruct (push_report_to_care_bridge _ _ _) as [[? ?] [? ?]].
Qed.

Lemma event_push_cases (e : Event) :
  (∃ post, e = Push post) ∨ (∀ post, e ≠ Push post).
Proof. destruct e; eauto. Qed.

(** Only a push touches the shared fields or starts a thread. *)
Lemma handler_control e self :
  (∀ post, e ≠ Push post) →
  control (handler e self).1 = control self ∧ (handler e self).2 = false.
Proof.
  intros Hpush. unfold control. destruct e; simpl; try done.
  - rewrite handle_onboarding_state. unfold complete_onboarding. by case_cond.
  - by destruct (add_message_frame clock history message self)
      as (_ & _ & -> & -> & -> & ->).
  - unfold bot_response. by case_cond.
  - rewrite generate_report_with_progress_state.
    unfold generate_comprehensive_report. repeat case_cond; try done.
    by destruct (structured_assessment _ _ _).
  - by destruct (Hpush post).
Qed.

Lemma handler_gate_inv e self : gate_inv self → gate_inv (handler e self).1.
Proof.
  destruct e; simpl; try done.
  - rewrite handle_onboarding_state. apply complete_onboarding_gate_inv.
  - destruct (add_message_frame clock history message self) as (? & ? & _).
    by apply gate_inv_ext.
  - apply gate_inv_ext; [by rewrite bot_response_report|].
    unfold bot_response. by case_cond.
  - rewrite generate_report_with_progress_state.
    destruct (generate_report_frame chat model_validate_json clock true self)
      as (? & _ & _ & _ & ? & _).
    by apply gate_inv_ext.
  - rewrite push_to_care_bridge_state.
    destruct (push_frame post default_base_url self) as (Hr & ? & _).
    apply gate_inv_ext; [by rewrite Hr | done].
Qed.

(** What a call of the main flow does to the flag: it raises it exactly
    when it starts a thread, which it does only while the flag is low and
    the lookup store is configured. *)
Lemma handler_flag e self :
  let r := handler e self in
  polling_active r.1 = polling_active self || r.2
  ∧ supabase r.1 = supabase self
  ∧ (r.2 = true → polling_active self = false ∧ supabase self = true).
Proof.
  destruct (event_push_cases e) as [[post ->]|Hne].
  - simpl. rewrite push_to_care_bridge_state.
    destruct (push_flag post default_base_url self) as [Hf Hs].
    by destruct (push_frame post default_base_url self) as (_ & _ & Hsup & _).
  - destruct (handler_control e self Hne) as [Hc Hs]. cbn zeta. rewrite Hs.
    injection Hc as _ Hact Hsup _. by rewrite Hact, Hsup, orb_false_r.
Qed.

(** ** The components follow the protocol of the flag

    [polling_active] is the flag, a handler call the call, a polling
    thread the task and [owns_flag] its hold on the flag. *)

(** A thread never raises the flag. *)
Lemma thread_step_flag_low outcome t self :
  polling_active (thread_step outcome t self).2 = true → polling_active self = true.
Proof. unfold thread_step. by repeat case_match. Qed.

Lemma thread_start_inv : thread_inv thread_start.
Proof. pose proof max_polls_eq. split; simpl; [lia|done]. Qed.

Global Instance polling_protocol
  : FlagProtocol App PollThread Event QueryOutcome.
Proof.
  refine {| raised := polling_active; holder := owns_flag;
            task_ok := thread_inv; task_init := thread_start;
            do_call := handler; task_step := thread_step |}.
  - done.
  - apply thread_start_inv.
  - intros c s. destruct (handler_flag c s) as (Hf & _ & Hst).
    split; [done|]. intros Hs. by apply Hst.
  - intros o t s. apply thread_step_inv.
  - intros o t s. apply thread_step_owner.
Defined.

(** ** One step of the system *)

Lemma sys_step_main e s :
  (∀ i outcome, e ≠ Poll i outcome) →
  sys_step e s
  = {| app := (handler e (app s)).1;
       threads := threads s ++ (if (handler e (app s)).2 then [thread_start] else []) |}.
Proof.
  intros Hne. destruct e; try (by destruct (Hne i outcome));
    unfold sys_step; by destruct (handler _ _).
Qed.

Lemma sys_step_poll i outcome s t :
  threads s !! i = Some t →
  sys_step (Poll i outcome) s
  = {| app := (thread_step outcome t (app s)).2;
       threads := <[i := (thread_step outcome t (app s)).1]> (threads s) |}.
Proof. simpl. intros ->. by destruct (thread_step _ _ _). Qed.

Lemma sys_step_poll_none i outcome s :
  threads s !! i = None → sys_step (Poll i outcome) s = s.
Proof. simpl. by intros ->. Qed.

Lemma event_poll_cases (e : Event) :
  (∃ i outcome, e = Poll i outcome) ∨ (∀ i outcome, e ≠ Poll i outcome).
Proof. destruct e; eauto. Qed.

(** The object and its threads as a pool of the protocol. *)
Lemma sys_inv_pool s :
  sys_inv s ↔
  pool_inv (app s, threads s)
  ∧ (polling_active (app s) = true → supabase (app s) = true)
  ∧ gate_inv (app s).
Proof.
  unfold sys_inv, pool_inv. cbn [fst snd].
  split; [intros (? & ? & ? & ?) | intros ((? & ?) & ? & ?)]; auto.
Qed.

Lemma sys_step_main_pool e s :
  (∀ i outcome, e ≠ Poll i outcome) →
  (app (sys_step e s), threads (sys_step e s)) = pool_call e (app s, threads s).
Proof. intros Hne. by rewrite sys_step_main. Qed.

Lemma sys_step_poll_pool i outcome s :
  (app (sys_step (Poll i outcome) s), threads (sys_step (Poll i outcome) s))
  = pool_advance i outcome (app s, threads s).
Proof.
  unfold pool_advance. cbn [fst snd].
  destruct (threads s !! i) as [t|] eqn:Hi;
    [by rewrite (sys_step_poll _ _ _ _ Hi) | by rewrite sys_step_poll_none].
Qed.

(** A thread that may write the flag finds it raised. *)
Lemma sys_inv_owner s i t :
  sys_inv s → threads s !! i = Some t → owns_flag t = true →
  polling_active (app s) = true.
Proof.
  intros [Hp _]%sys_inv_pool. apply (pool_inv_holder (app s, threads s) i t Hp).
Qed.

Lemma sys_step_main_inv e s :
  (∀ i outcome, e ≠ Poll i outcome) → sys_inv s → sys_inv (sys_step e s).
Proof.
  intros Hne (Hp & Hsup & Hg)%sys_inv_pool. apply sys_inv_pool.
  rewrite sys_step_main_pool by done. split; [by apply pool_call_inv|].
  rewrite sys_step_main by done. cbn [app].
  destruct (handler_flag e (app s)) as (Hf & Hs & Hst). rewrite Hf, Hs.
  split; [|by apply handler_gate_inv].
  destruct (handler e (app s)).2; [by destruct Hst | by rewrite orb_false_r].
Qed.

Lemma sys_step_poll_inv i outcome s :
  sys_inv s → sys_inv (sys_step (Poll i outcome) s).
Proof.
  intros Hinv. pose proof Hinv as (Hp & Hsup & Hg)%sys_inv_pool.
  apply sys_inv_pool. rewrite sys_step_poll_pool.
  split; [by apply pool_advance_inv|].
  destruct (threads s !! i) as [t|] eqn:Hi; [|by rewrite sys_step_poll_none].
  rewrite (sys_step_poll _ _ _ _ Hi). cbn [app].
  destruct (thread_step_frame outcome t (app s)) as (Hr & Hon & _ & Hs & _).
  split.
  - intros Hf%thread_step_flag_low. by rewrite Hs; auto.
  - apply (gate_inv_ext (app s)); [by rewrite Hr|done|done].
Qed.

(** Every step keeps the invariant, and so every reachable system has it. *)
Lemma sys_step_inv e s : sys_inv s → sys_inv (sys_step e s).
Proof.
  destruct (event_poll_cases e) as [(i & outcome & ->)|Hne];
    [apply sys_step_poll_inv | by apply sys_step_main_inv].
Qed.

Lemma sys_init_inv uuid now url key : sys_inv (sys_init uuid now url key).
Proof. by refine (conj (Forall_nil_2 _) (conj _ (conj _ _))). Qed.

Lemma reachable_inv s : reachable s → sys_inv s.
Proof. induction 1; [apply sys_init_inv | by apply sys_step_inv]. Qed.

(** No thread of a reachable system has slept more than ten minutes. *)
Lemma reachable_slept s : reachable s → Forall (λ t, slept t ≤ 600) (threads s).
Proof.
  intros (Hts & _)%reachable_inv.
  eapply Forall_impl; [done|]. apply thread_inv_slept.
Qed.

Lemma sys_run_inv es s : sys_inv s → sys_inv (sys_run es s).
Proof.
  revert s. induction es as [|e es IH]; intros s Hs; [done|].
  apply IH, sys_step_inv, Hs.
Qed.

Lemma reachable_run es s : reachable s → reachable (sys_run es s).
Proof.
  revert s. induction es as [|e es IH]; intros s Hs; [done|].
  by apply IH, reachable_step.
Qed.

(** ** One loop at a time *)

(** Two threads that may still write the flag are the same thread. *)
Lemma single_owner s i j ti tj :
  reachable s →
  threads s !! i = Some ti → threads s !! j = Some tj →
  owns_flag ti = true → owns_flag tj = true → i = j.
Proof.
  intros [Hp _]%reachable_inv%sys_inv_pool.
  apply (pool_inv_unique (app s, threads s) i j ti tj Hp).
Qed.

(** In a reachable system with polling_active low, every thread is at
    the test after the loop or has returned: no thread is inside the loop. *)
Lemma flag_low_no_owner s i t :
  reachable s → polling_active (app s) = false →
  threads s !! i = Some t → pc t = AtExit ∨ pc t = Terminated.
Proof.
  intros Hr Hf Hi. pose proof (sys_inv_owner s i t (reachable_inv s Hr) Hi) as Ho.
  rewrite Hf in Ho. unfold owns_flag in Ho.
  destruct (pc t); auto; by specialize (Ho eq_refl).
Qed.

(** When every thread has returned the flag is low. *)
Lemma all_terminated_flag_low s :
  sys_inv s → Forall (λ t, pc t = Terminated) (threads s) →
  polling_active (app s) = false.
Proof.
  intros [Hp _]%sys_inv_pool Hall. apply (pool_inv_none (app s, threads s) Hp).
  eapply Forall_impl; [done|]. intros t Ht. cbn. unfold owns_flag. by rewrite Ht.
Qed.

(** ** Every thread returns *)

Lemma scheduled_cons i e es :
  scheduled i (e :: es) = Nat.b2n (schedules i e) + scheduled i es.
Proof. apply (filter_length_cons (schedules i)). Qed.

Lemma schedules_poll i e :
  schedules i e = true ↔ ∃ outcome, e = Poll i outcome.
Proof.
  destruct e; simpl; try (split; [done | by intros [? ?]]).
  rewrite bool_decide_eq_true. split; [intros ->; eauto | by intros [? [= -> _]]].
Qed.

(** A step that does not schedule a thread leaves it where it is. *)
Lemma sys_step_thread_other e s i t :
  schedules i e = false → threads s !! i = Some t →
  threads (sys_step e s) !! i = Some t.
Proof.
  intros Hne Hi. destruct (event_poll_cases e) as [(j & outcome & ->)|Hmain].
  - simpl in Hne. apply bool_decide_eq_false in Hne.
    destruct (threads s !! j) as [tj|] eqn:Hj; [|by rewrite sys_step_poll_none].
    rewrite (sys_step_poll _ _ _ _ Hj). simpl. by rewrite list_lookup_insert_ne.
  - rewrite sys_step_main by done. simpl. by apply lookup_app_l_Some.
Qed.

Lemma sys_step_thread_self i outcome s t :
  threads s !! i = Some t →
  threads (sys_step (Poll i outcome) s) !! i
  = Some (thread_step outcome t (app s)).1.
Proof.
  intros Hi. rewrite (sys_step_poll _ _ _ _ Hi). simpl.
  apply list_lookup_insert_eq. by eapply lookup_lt_Some.
Qed.

Lemma thread_measure_zero t : thread_measure t = 0 → pc t = Terminated.
Proof.
  unfold thread_measure. destruct (pc t); simpl; intros H; try done; exfalso; lia.
Qed.

Lemma thread_measure_start : thread_measure thread_start = 6 * max_polls + 8.
Proof. unfold thread_measure. simpl. lia. Qed.

(** One scheduled statement uses up one unit of the measure. *)
Lemma thread_step_budget outcome t self n :
  thread_inv t → thread_measure t ≤ S n →
  thread_measure (thread_step outcome t self).1 ≤ n.
Proof.
  intros Ht Hm. destruct (decide (pc t = Terminated)) as [Hpc|Hpc].
  - destruct t as [p c]. simpl in Hpc. subst p. rewrite thread_step_terminated.
    simpl. unfold thread_measure. simpl. lia.
  - pose proof (thread_step_measure outcome t self Ht Hpc). lia.
Qed.

(** In whatever order the handlers and the threads run, a thread that is
    scheduled as many times as its measure has returned. *)
Lemma thread_returns es s i t :
  sys_inv s → threads s !! i = Some t → thread_measure t ≤ scheduled i es →
  ∃ t', threads (sys_run es s) !! i = Some t' ∧ pc t' = Terminated.
Proof.
  revert s t. induction es as [|e es IH]; intros s t Hinv Hi Hm.
  { exists t. split; [done|]. apply thread_measure_zero.
    change (scheduled i []) with 0 in Hm. lia. }
  rewrite scheduled_cons in Hm. simpl.
  destruct (schedules i e) eqn:He.
  - apply schedules_poll in He as [outcome ->].
    apply (IH _ (thread_step outcome t (app s)).1);
      [by apply sys_step_inv | by apply sys_step_thread_self|].
    apply thread_step_budget; [|done].
    destruct Hinv as [Hts _]. by eapply Forall_lookup_1.
  - apply (IH _ t); [by apply sys_step_inv | by apply sys_step_thread_other | done].
Qed.

(** ** Monitoring ends *)

Lemma sys_step_threads_length e s :
  (∀ post, e ≠ Push post) →
  length (threads (sys_step e s)) = length (threads s).
Proof.
  intros Hne. destruct (event_poll_cases e) as [(i & outcome & ->)|Hmain].
  - destruct (threads s !! i) as [t|] eqn:Hi; [|by rewrite sys_step_poll_none].
    rewrite (sys_step_poll _ _ _ _ Hi). simpl. by rewrite length_insert.
  - rewrite sys_step_main by done. simpl.
    destruct (handler_control e (app s) Hne) as [_ ->]. by rewrite app_nil_r.
Qed.

Lemma sys_run_threads_length es s :
  Forall (λ e, ∀ post, e ≠ Push post) es →
  length (threads (sys_run es s)) = length (threads s).
Proof.
  intros Hes. revert s. induction Hes as [|e es He _ IH]; intros s; [done|].
  simpl. by rewrite IH, sys_step_threads_length.
Qed.

(** C8: If no further report is pushed and every thread is scheduled at
    least as many times as its measure (at most 6 * max_polls + 8), then in
    whatever order the steps are taken every thread has returned and
    polling_active is low. *)
Lemma monitoring_ends es s :
  sys_inv s → Forall (λ e, ∀ post, e ≠ Push post) es →
  (∀ i t, threads s !! i = Some t → thread_measure t ≤ scheduled i es) →
  Forall (λ t, pc t = Terminated) (threads (sys_run es s))
  ∧ polling_active (app (sys_run es s)) = false.
Proof.
  intros Hinv Hes Hsched.
  assert (Forall (λ t, pc t = Terminated) (threads (sys_run es s))) as Hall.
  { apply Forall_lookup. intros i t' Hi'.
    assert (is_Some (threads s !! i)) as [t Hi].
    { apply lookup_lt_is_Some. rewrite <- (sys_run_threads_length es s Hes).
      by eapply lookup_lt_Some. }
    destruct (thread_returns es s i t Hinv Hi (Hsched i t Hi)) as (t'' & ? & ?).
    congruence. }
  split; [done|]. by apply all_terminated_flag_low; [apply sys_run_inv|].
Qed.

(** ** The phases of a run *)

Lemma phase_control self self' : control self = control self' → phase self = phase self'.
Proof. unfold control, phase. by intros [= -> -> _ ->]. Qed.

Lemma phase_responded self :
  phase self = Responded ↔ is_Some (specialist_response self).
Proof.
  unfold phase. case_bool_decide; [done|]. repeat case_match; naive_solver.
Qed.

(** A stored reply is never removed. *)
Lemma thread_step_stored outcome t self :
  (has_stored t = true → is_Some (specialist_response self)) →
  let r := thread_step outcome t self in
  (has_stored r.1 = true → is_Some (specialist_response r.2))
  ∧ (is_Some (specialist_response self) → is_Some (specialist_response r.2)).
Proof.
  unfold thread_step, has_stored. destruct t as [p c]; simpl.
  destruct p; simpl; repeat case_match; simpl; naive_solver.
Qed.

Lemma handler_stored e self :
  specialist_response (handler e self).1 = specialist_response self.
Proof.
  destruct (event_push_cases e) as [[post ->]|Hne].
  - simpl. rewrite push_to_care_bridge_state.
    by destruct (push_frame post default_base_url self) as (_ & _ & _ & _ & ->).
  - destruct (handler_control e self Hne) as [Hc _]. by injection Hc.
Qed.

Lemma sys_step_stored e s :
  is_Some (specialist_response (app s)) →
  is_Some (specialist_response (app (sys_step e s))).
Proof.
  intros Hs. destruct (event_poll_cases e) as [(i & outcome & ->)|Hmain].
  - destruct (threads s !! i) as [t|] eqn:Hi; [|by rewrite sys_step_poll_none].
    rewrite (sys_step_poll _ _ _ _ Hi). simpl.
    by apply (thread_step_stored outcome t (app s)).
  - rewrite sys_step_main by done. simpl. by rewrite handler_stored.
Qed.

Lemma sys_step_render_inv e s : render_inv s → render_inv (sys_step e s).
Proof.
  unfold render_inv. intros Hinv.
  assert (Forall (λ t, has_stored t = true →
            is_Some (specialist_response (app (sys_step e s)))) (threads s)) as Hold.
  { eapply Forall_impl; [done|]. intros t Ht ?. apply sys_step_stored; auto. }
  destruct (event_poll_cases e) as [(i & outcome & ->)|Hmain].
  - destruct (threads s !! i) as [t|] eqn:Hi; [|by rewrite sys_step_poll_none].
    rewrite (sys_step_poll _ _ _ _ Hi) in *. simpl in *.
    apply Forall_insert; [done|].
    apply (thread_step_stored outcome t (app s)).
    by apply (Forall_lookup_1 _ _ _ _ Hinv Hi).
  - rewrite sys_step_main in * by done. simpl in *. apply Forall_app. split; [done|].
    destruct (handler e (app s)).2; [|by apply Forall_nil].
    by apply Forall_singleton.
Qed.

Lemma reachable_render_inv s : reachable s → render_inv s.
Proof. induction 1; [by apply Forall_nil | by apply sys_step_render_inv]. Qed.

(** What one statement of a thread does to the phase. *)
Lemma thread_step_phase outcome t self :
  (owns_flag t = true → polling_active self = true) →
  (has_stored t = true → is_Some (specialist_response self)) →
  let q := phase (thread_step outcome t self).2 in
  q = phase self
  ∨ (phase self = Polling ∧ polling_active self = true
     ∧ (q = Responded
        ∨ q = if truthy (submitted_report_id self) then Stopped else Idle)).
Proof.
  unfold thread_step, owns_flag, has_stored, phase. destruct t as [p c]; simpl.
  intros Hown Hst.
  destruct p; simpl in *; repeat case_match; simpl in *;
    repeat case_bool_decide; simplify_eq/=; auto;
    try (by destruct Hst); try (by rewrite Hown in * );
    try (exfalso; naive_solver).
Qed.

(** What a push does to the phase. *)
Lemma push_phase post self :
  let q := phase (push_report_to_care_bridge post default_base_url self).1.1 in
  q = phase self ∨ code_edge (phase self) q.
Proof.
  destruct (push_cases post default_base_url self)
    as [[m ->]|(? & id & _ & _ & _ & _ & _ & ->)]; cbn [fst snd]; [by left|].
  rewrite start_response_polling_cases. unfold phase. simpl.
  destruct (supabase self) eqn:E1, (truthy id) eqn:E2,
    (polling_active self) eqn:E3, (truthy (submitted_report_id self)) eqn:E4;
    simpl; rewrite ?E2, ?E3, ?E4; case_bool_decide; auto using code_edge, spec_edge.
Qed.

Lemma push_phase_disciplined post self :
  disciplined (Push post) self →
  let r := push_report_to_care_bridge post default_base_url self in
  (phase r.1.1 = phase self ∨ spec_edge (phase self) (phase r.1.1))
  ∧ id_inv r.1.1.
Proof.
  intros (Hp & Hs & Hid).
  destruct (push_cases post default_base_url self)
    as [[m ->]|(response & id & _ & _ & Hpost & _ & Hd & ->)]; cbn [fst snd].
  - split; [by left|]. unfold id_inv. unfold phase in Hp.
    by repeat case_match.
  - rewrite start_response_polling_cases. specialize (Hid _ _ Hpost Hd).
    unfold phase, id_inv in *. simpl. rewrite Hs, Hid. simpl.
    destruct (polling_active self) eqn:E3, (truthy (submitted_report_id self)) eqn:E4;
      simpl in *; rewrite ?Hid, ?E3; case_bool_decide; try done;
      auto using spec_edge.
Qed.

Section step.
Context (e : Event) (s : System).
Hypothesis Hinv : sys_inv s.
Hypothesis Hrender : render_inv s.

Lemma sys_step_phase_code :
  phase (app (sys_step e s)) = phase (app s)
  ∨ code_edge (phase (app s)) (phase (app (sys_step e s))).
Proof.
  destruct (event_poll_cases e) as [(i & outcome & ->)|Hmain].
  - destruct (threads s !! i) as [t|] eqn:Hi; [|rewrite sys_step_poll_none; auto].
    rewrite (sys_step_poll _ _ _ _ Hi). cbn [app].
    destruct (thread_step_phase outcome t (app s)) as [?|(-> & _ & [->| ->])];
      [by eapply sys_inv_owner | by apply (Forall_lookup_1 _ _ _ _ Hrender Hi)
      | auto..]; right; [|case_match]; auto using code_edge, spec_edge.
  - rewrite sys_step_main by done. cbn [app].
    destruct (event_push_cases e) as [[post ->]|Hne].
    + simpl. rewrite push_to_care_bridge_state. apply push_phase.
    + left. apply phase_control. by destruct (handler_control e (app s) Hne).
Qed.

Lemma sys_step_phase_spec :
  id_inv (app s) → disciplined e (app s) →
  (phase (app (sys_step e s)) = phase (app s)
   ∨ spec_edge (phase (app s)) (phase (app (sys_step e s))))
  ∧ id_inv (app (sys_step e s)).
Proof.
  intros Hid Hdisc. destruct (event_poll_cases e) as [(i & outcome & ->)|Hmain].
  - destruct (threads s !! i) as [t|] eqn:Hi; [|rewrite sys_step_poll_none; auto].
    rewrite (sys_step_poll _ _ _ _ Hi). cbn [app]. split.
    + destruct (thread_step_phase outcome t (app s)) as [?|(-> & Hf & [->| ->])];
        [by eapply sys_inv_owner | by apply (Forall_lookup_1 _ _ _ _ Hrender Hi)
        | auto..]; right; [|rewrite Hid by done]; constructor.
    + intros Hf. destruct (thread_step_frame outcome t (app s)) as (_ & _ & -> & _).
      by apply Hid, (thread_step_flag_low outcome t).
  - rewrite sys_step_main by done. cbn [app].
    destruct (event_push_cases e) as [[post ->]|Hne].
    + simpl. rewrite push_to_care_bridge_state. by apply push_phase_disciplined.
    + destruct (handler_control e (app s) Hne) as [Hc _]. split.
      * left. by apply phase_control.
      * unfold id_inv. by injection Hc as -> -> _ _.
Qed.

End step.

(** C10: Every run from a system with the invariant moves the phase only
    along the seven edges of code_edge: the three of the specification and
    four more (Idle to Stopped, Stopped to Polling, Stopped to Idle, Polling
    to Idle). *)
Lemma run_follows_code es s : sys_inv s → render_inv s → follows code_edge s es.
Proof.
  revert s. induction es as [|e es IH]; intros s Hinv Hr; [done|]. split.
  - by apply sys_step_phase_code.
  - by apply IH; [apply sys_step_inv | apply sys_step_render_inv].
Qed.

(** C7: A run in which a report is pushed only from the Idle phase, with the
    lookup store configured and a truthy identifier returned, moves the
    phase shown by check_for_response only along the edges of the specified
    machine (Idle to Polling, Polling to Responded, Polling to Stopped). *)
Lemma run_refines_spec es s :
  sys_inv s → render_inv s → id_inv (app s) → disciplined_run s es →
  follows spec_edge s es.
Proof.
  revert s. induction es as [|e es IH]; intros s Hinv Hr Hid Hd; [done|].
  destruct Hd as [He Hd].
  destruct (sys_step_phase_spec e s Hinv Hr Hid He) as [Hp Hid']. split; [done|].
  by apply IH; [apply sys_step_inv | apply sys_step_render_inv |..].
Qed.

(** C1: In every system reachable by any interleaving of handler calls and
    thread statements, the number of polling threads that may still write
    polling_active is one when the flag is raised and zero when it is low:
    at most one background loop is ever active. *)
Lemma single_poller s :
  reachable s → owner_count (threads s) = Nat.b2n (polling_active (app s)).
Proof. intros Hr. by destruct (reachable_inv s Hr) as (_ & ? & _). Qed.

Lemma single_poller_witness :
  owner_count (threads example_watched) = 1
  ∧ owner_count (threads (sys_run [Push example_created] example_watched)) = 1.
Proof.
  split.
  - apply (single_poller example_watched), reachable_run, reachable_init.
  - apply (single_poller (sys_run [Push example_created] example_watched)).
    apply reachable_run, reachable_run, reachable_init.
Defined.

(** ** The scenarios of a run *)

Lemma example_watched_inv : sys_inv example_watched.
Proof. apply sys_run_inv, sys_init_inv. Qed.

Lemma run_refines_spec_witness :
  follows spec_edge example_start
    (example_turn ++ [Push example_created] ++ example_answer 0).
Proof.
  apply run_refines_spec;
    [apply sys_init_inv | by apply Forall_nil | by intros ? | ].
  repeat (split; [exact I|]). split; [|vm_compute; tauto].
  split; [reflexivity|]. split; [reflexivity|].
  intros response report_id [= <-] [= <-]. reflexivity.
Defined.

Lemma run_follows_code_witness :
  follows code_edge example_start
    (example_turn ++ [Push example_created; Push example_null_id]
     ++ example_timeout 0).
Proof. apply run_follows_code; [apply sys_init_inv | by apply Forall_nil]. Defined.

Lemma monitoring_ends_witness :
  let es := Clear :: replicate 728 (Poll 0 (QueryData [])) in
  Forall (λ t, pc t = Terminated) (threads (sys_run es example_watched))
  ∧ polling_active (app (sys_run es example_watched)) = false.
Proof.
  apply monitoring_ends; [apply example_watched_inv | |].
  - apply Forall_cons. split; [done|]. by apply Forall_replicate.
  - intros [|i] t; [|done]. intros [= <-]. apply Nat.leb_le. by vm_compute.
Defined.

(** ** The edges the specification does not have

    Each of them is taken by a run from the initial system. *)


(** When that loop gives up, the user is told to submit a report first. *)
Example orphan_edge_taken :
  let s := sys_run (Push example_null_id :: replicate 361 (Poll 0 (QueryData [])))
             example_watched in
  phase (app s) = Polling
  ∧ phase (app (sys_step (Poll 0 (QueryData [])) s)) = Idle.
Proof. by vm_compute. Qed.

(** Without the lookup store a push that succeeds is reported as
    monitoring that stopped. *)
Example unwatched_edge_taken :
  let s := sys_run example_turn (sys_init "7f0c" sample_time None None) in
  phase (app s) = Idle
  ∧ phase (app (sys_step (Push example_created) s)) = Stopped
  ∧ threads (sys_step (Push example_created) s) = [].
Proof. by vm_compute. Qed.

(** After a timeout the report can be pushed again, and the loop starts
    again with a full budget; or the identifier can be lost. *)
Example resubmit_edge_taken :
  let s := sys_run (example_timeout 0) example_watched in
  phase (app s) = Stopped
  ∧ phase (app (sys_step (Push example_created) s)) = Polling
  ∧ threads (sys_step (Push example_created) s)
    = [{| pc := Terminated; poll_count := 120 |}; thread_start]
  ∧ phase (app (sys_step (Push example_null_id) s)) = Idle.
Proof. by vm_compute. Qed.


Lemma flag_low_no_owner_witness :
  let s := sys_run (removelast (example_answer 0)) example_watched in
  pc {| pc := AtExit; poll_count := 0 |} = AtExit
  ∨ pc {| pc := AtExit; poll_count := 0 |} = Terminated.
Proof.
  intros s. apply (flag_low_no_owner s 0).
  - apply reachable_run, reachable_run, reachable_init.
  - reflexivity.
  - reflexivity.
Defined.
