(* ===== verification/Atomic.v ===== *)
(** * Atomic: the calls of the main flow one statement at a time

    [Concurrency] takes a call of a handler as one step.  The polling
    threads run beside the main flow, so their statements also come
    between two statements of a call.  This file takes the two calls that
    read or write what the threads read or write one statement at a time:

    - [push_report_to_care_bridge] from the assignment of the identifier
      to the start of the thread (lines 401 to 403 of [src/app.py], with
      [start_response_polling] inlined: lines 419 to 430).  What comes
      before, the two guards and the request, reads only what no thread
      writes and is one step ([push_enter]);
    - [check_for_response], which reads [specialist_response],
      [polling_active] and [submitted_report_id] one after the other
      (lines 972 to 980).

    A [Fine] state is the system and the place of the main flow in the
    call under way ([MainPc]); [fine_step] takes the start of a call, the
    next statement of the call under way, or a statement of a thread.

    The push is atomic: [linearized] relates a fine state to the state of
    [Concurrency] in which the call under way has not happened yet, every
    fine step is none or one step of [Concurrency] ([fine_step_linearized]),
    and the call takes effect at its last statement.  So the states between
    two calls are the reachable states of [Concurrency], and at most one
    thread may write [polling_active] at any time, also in the middle of a
    push.

    The check is not: what it reports on three reads can be a phase the
    submission was never in ([check_reports_timeout_on_reply]). *)

From S2P Require Import Spec2Rocq PyStr PyVal PyTime Protocol Session Conversation.
From S2P Require Import Submission Polling Report Handlers Concurrency.

(** ** The main flow *)

(** Where the main flow stands: between two calls, in a push after the
    platform accepted the report as [report_id], or in a check that found
    no reply. *)
Inductive MainPc : Type :=
| NoCall
| PushStoreId (report_id : pyval)
| PushGuard
| PushActive
| PushRaise
| PushStart
| CheckActive
| CheckId.

Global Instance MainPc_eq_dec : EqDecision MainPc.
Proof. solve_decision. Defined.

Record Fine : Type := {
  fsys : System;
  main_pc : MainPc
}.

Inductive FineEvent : Type :=
| Begin (e : Event)
| BeginCheck
| Next
| Thread (i : nat) (outcome : QueryOutcome).

(** [push_report_to_care_bridge] up to [report_id = result.get('id',
    'Unknown')]: the identifier, when the call gets that far. *)
Definition push_enter (post : HttpRequest → HttpOutcome) (base_url : string)
    (self : App) : option pyval :=
  (guard is_onboarded self else None ;;
   guard truthy (conversation_history (report_data self)) else None ;;
   match post (report_request base_url (report_data self)) with
   | inl _ => None
   | inr response =>
       if bool_decide (status_code response = 201%Z) then
         match decode_report_id response with
         | inl _ => None
         | inr report_id => Some report_id
         end
       else None
   end)%py.

Definition at_main (p : MainPc) (f : Fine) : Fine :=
  {| fsys := fsys f; main_pc := p |}.

Definition on_app (g : App → App) (s : System) : System :=
  {| app := g (app s); threads := threads s |}.

(** The next statement of a push: the assignment of line 401, then
    [start_response_polling] (lines 419 to 430).  The two [print] are in
    [Log]. *)
Definition push_next (p : MainPc) (s : System) : System * MainPc :=
  match p with
  | PushStoreId report_id =>
      (on_app (set_submitted_report_id report_id) s, PushGuard)
  | PushGuard =>
      (s, if supabase (app s) && truthy (submitted_report_id (app s))
          then PushActive else NoCall)
  | PushActive => (s, if polling_active (app s) then NoCall else PushRaise)
  | PushRaise => (on_app (set_polling_active true) s, PushStart)
  | PushStart =>
      ({| app := app s; threads := threads s ++ [thread_start] |}, NoCall)
  | p => (s, p)
  end.

(** The first read of [check_for_response] (lines 972 to 974), and the
    phase it returns with when a reply is stored. *)
Definition check_begin (self : App) : MainPc * option Phase :=
  match get_specialist_response self with
  | Ok (true, _) => (NoCall, Some Responded)
  | Ok (false, _) => (CheckActive, None)
  | Raise _ => (NoCall, None)
  end.

(** The second and the third read (lines 975 to 980). *)
Definition check_next (p : MainPc) (self : App) : MainPc * option Phase :=
  match p with
  | CheckActive =>
      if polling_active self then (NoCall, Some Polling) else (CheckId, None)
  | CheckId =>
      (NoCall, Some (if truthy (submitted_report_id self) then Stopped else Idle))
  | p => (p, None)
  end.

(** One step, and the phase a check reports when the step is its
    [return]. *)
Definition fine_step (fe : FineEvent) (f : Fine) : Fine * option Phase :=
  let s := fsys f in
  match fe, main_pc f with
  | Thread i outcome, p =>
      ({| fsys := sys_step (Poll i outcome) s; main_pc := p |}, None)
  | Begin (Poll _ _), NoCall => (f, None)
  | Begin (Push post), NoCall =>
      match push_enter post default_base_url (app s) with
      | Some report_id => (at_main (PushStoreId report_id) f, None)
      | None => (f, None)
      end
  | Begin e, NoCall => ({| fsys := sys_step e s; main_pc := NoCall |}, None)
  | BeginCheck, NoCall =>
      (at_main (check_begin (app s)).1 f, (check_begin (app s)).2)
  | Next, (CheckActive | CheckId) as p =>
      (at_main (check_next p (app s)).1 f, (check_next p (app s)).2)
  | Next, p =>
      ({| fsys := (push_next p s).1; main_pc := (push_next p s).2 |}, None)
  | _, _ => (f, None)
  end.

Definition fine_run (fes : list FineEvent) (f : Fine) : Fine :=
  foldl (λ f fe, (fine_step fe f).1) f fes.

(** The phases the checks of a run report, in order. *)
Fixpoint fine_reports (fes : list FineEvent) (f : Fine) : list Phase :=
  match fes with
  | [] => []
  | fe :: fes =>
      option_list (fine_step fe f).2 ++ fine_reports fes (fine_step fe f).1
  end.

(** The phases the submission goes through in a run, the first state
    included. *)
Fixpoint fine_phases (fes : list FineEvent) (f : Fine) : list Phase :=
  phase (app (fsys f)) ::
  match fes with
  | [] => []
  | fe :: fes => fine_phases fes (fine_step fe f).1
  end.

Definition fine_init (s : System) : Fine := {| fsys := s; main_pc := NoCall |}.

(** ** The push takes effect at its last statement *)

(** The report was accepted as [report_id] in the state [c]. *)
Definition accepted (report_id : pyval) (c : System) : Prop :=
  ∃ post, push_enter post default_base_url (app c) = Some report_id.

(** The guard of [start_response_polling] after the assignment of
    [report_id]. *)
Definition can_poll (report_id : pyval) (c : System) : Prop :=
  supabase (app c) && truthy report_id = true.

(** The fine state [f] beside the state [c] of [Concurrency] in which the
    call under way has not happened yet. *)
Definition linearized (f : Fine) (c : System) : Prop :=
  sys_inv c ∧
  match main_pc f with
  | NoCall | CheckActive | CheckId => fsys f = c
  | PushStoreId report_id => fsys f = c ∧ accepted report_id c
  | PushGuard =>
      ∃ report_id,
        fsys f = on_app (set_submitted_report_id report_id) c
        ∧ accepted report_id c
  | PushActive =>
      ∃ report_id,
        fsys f = on_app (set_submitted_report_id report_id) c
        ∧ accepted report_id c ∧ can_poll report_id c
  | PushRaise =>
      ∃ report_id,
        fsys f = on_app (set_submitted_report_id report_id) c
        ∧ accepted report_id c ∧ can_poll report_id c
        ∧ polling_active (app c) = false
  | PushStart =>
      ∃ report_id,
        fsys f = on_app (set_polling_active true)
                   (on_app (set_submitted_report_id report_id) c)
        ∧ accepted report_id c ∧ can_poll report_id c
        ∧ polling_active (app c) = false
  end.

(** ** A check and the statements between its reads *)

(** The statements the threads run in a row, as steps of this file and as
    steps of [Concurrency]. *)
Definition statements (ts : list (nat * QueryOutcome)) : list FineEvent :=
  (λ t, Thread t.1 t.2) <$> ts.

Definition polls (ts : list (nat * QueryOutcome)) : list Event :=
  (λ t, Poll t.1 t.2) <$> ts.

(** A check with the statements [ts1] between its first and its second
    read and [ts2] between its second and its third. *)
Definition check_run (ts1 ts2 : list (nat * QueryOutcome)) : list FineEvent :=
  BeginCheck :: statements ts1 ++ Next :: statements ts2 ++ [Next].

(** ** The runs of the examples *)

(** The thread of [example_watched] gets the reply while a check is under
    way: the check read [specialist_response] before the thread stored the
    reply and reads [polling_active] after the thread lowered it. *)
Definition example_overtaken : list FineEvent :=
  [Thread 0 (QueryData [example_reply]);
   Thread 0 (QueryData [example_reply]);
   BeginCheck;
   Thread 0 (QueryData [example_reply]);
   Thread 0 (QueryData [example_reply]);
   Thread 0 (QueryData [example_reply]);
   Next; Next].

(** A second push while the thread of the first gives up: the thread
    lowers the flag between the assignment of the identifier and the test
    of the flag. *)
Definition example_repush : list FineEvent :=
  replicate 4 (Thread 0 (QueryData [example_reply]))
  ++ [Begin (Push example_created); Next; Next;
      Thread 0 (QueryData [example_reply]);
      Next; Next; Next].

(** ** Lemmas: the call of [Concurrency] by its statements *)

Lemma push_enter_call post base_url self :
  (push_report_to_care_bridge post base_url self).1
  = match push_enter post base_url self with
    | Some report_id =>
        start_response_polling (set_submitted_report_id report_id self)
    | None => (self, false)
    end.
Proof.
  unfold push_report_to_care_bridge, push_enter.
  by repeat (first [case_cond | case_match]).
Qed.

(** An accepted push as the statements from the assignment of the
    identifier on. *)
Lemma sys_step_push post report_id c :
  push_enter post default_base_url (app c) = Some report_id →
  sys_step (Push post) c
  = let c' := on_app (set_submitted_report_id report_id) c in
    if supabase (app c) && truthy report_id && negb (polling_active (app c))
    then {| app := set_polling_active true (app c');
            threads := threads c ++ [thread_start] |}
    else c'.
Proof.
  intros Henter. rewrite sys_step_main by done. cbn [handler].
  rewrite push_to_care_bridge_state, push_enter_call, Henter.
  rewrite start_response_polling_cases. cbn.
  case_cond; cbn; [done|]. by rewrite app_nil_r.
Qed.

(** ** Lemmas: the statements of a thread beside a push *)

(** No statement of a thread reads or writes the identifier. *)
Lemma thread_step_set_id outcome t report_id self :
  thread_step outcome t (set_submitted_report_id report_id self)
  = ((thread_step outcome t self).1,
     set_submitted_report_id report_id (thread_step outcome t self).2).
Proof.
  unfold thread_step, get_specialist_response. cbn.
  by repeat (first [case_cond | case_match]).
Qed.

Lemma sys_step_poll_set_id i outcome report_id c :
  sys_step (Poll i outcome) (on_app (set_submitted_report_id report_id) c)
  = on_app (set_submitted_report_id report_id) (sys_step (Poll i outcome) c).
Proof.
  simpl. destruct (threads c !! i) as [t|]; [|done].
  rewrite thread_step_set_id. by destruct (thread_step outcome t (app c)).
Qed.

(** A thread that may not write the flag any more has one statement left,
    which touches nothing. *)
Lemma thread_step_inert outcome t self :
  owns_flag t = false →
  thread_step outcome t self
  = ({| pc := Terminated; poll_count := poll_count t |}, self).
Proof.
  unfold owns_flag, thread_step. destruct t as [p c]. simpl.
  destruct p; try done. by intros ->.
Qed.

(** While the flag is low no thread of the system may write it, so a
    statement of a thread does not see whether the main flow has raised
    it. *)
Lemma sys_step_poll_low i outcome c (g : App → App) :
  sys_inv c → polling_active (app c) = false →
  sys_step (Poll i outcome) (on_app g c) = on_app g (sys_step (Poll i outcome) c)
  ∧ polling_active (app (sys_step (Poll i outcome) c)) = false.
Proof.
  intros Hinv Hlow. simpl. destruct (threads c !! i) as [t|] eqn:Hi; [|done].
  assert (owns_flag t = false) as Ht.
  { destruct (owns_flag t) eqn:Ho; [|done].
    by rewrite (sys_inv_owner c i t Hinv Hi Ho) in Hlow. }
  by rewrite !thread_step_inert.
Qed.

(** What [push_enter] reads no statement of a thread writes. *)
Lemma sys_step_poll_accepted i outcome report_id c :
  accepted report_id c → accepted report_id (sys_step (Poll i outcome) c).
Proof.
  intros [post Hpost]. exists post. simpl.
  destruct (threads c !! i) as [t|]; [|done].
  pose proof (thread_step_frame outcome t (app c)) as (Hr & Ho & _).
  destruct (thread_step outcome t (app c)) as [t' self']. cbn in *.
  unfold push_enter in *. by rewrite Hr, Ho.
Qed.

Lemma sys_step_poll_can_poll i outcome report_id c :
  can_poll report_id c → can_poll report_id (sys_step (Poll i outcome) c).
Proof.
  unfold can_poll. simpl. destruct (threads c !! i) as [t|]; [|done].
  pose proof (thread_step_frame outcome t (app c)) as (_ & _ & _ & Hs & _).
  destruct (thread_step outcome t (app c)) as [t' self']. cbn in *.
  by rewrite Hs.
Qed.

(** ** Lemmas: every step keeps the two states side by side *)

Lemma linearized_init s : sys_inv s → linearized (fine_init s) s.
Proof. by split. Qed.

(** A statement of a thread is the same statement in [Concurrency]. *)
Lemma linearized_thread i outcome f c :
  linearized f c →
  linearized (fine_step (Thread i outcome) f).1 (sys_step (Poll i outcome) c).
Proof.
  intros [Hinv Hrel]. split; [by apply sys_step_inv|].
  destruct f as [s p]. cbn [fine_step fst fsys main_pc] in *.
  destruct p; cbn [main_pc fsys] in *.
  - by subst.
  - destruct Hrel as [-> Hacc]. auto using sys_step_poll_accepted.
  - destruct Hrel as (rid & -> & Hacc). exists rid.
    rewrite sys_step_poll_set_id. auto using sys_step_poll_accepted.
  - destruct Hrel as (rid & -> & Hacc & Hcan). exists rid.
    rewrite sys_step_poll_set_id.
    auto using sys_step_poll_accepted, sys_step_poll_can_poll.
  - destruct Hrel as (rid & -> & Hacc & Hcan & Hlow). exists rid.
    rewrite sys_step_poll_set_id.
    destruct (sys_step_poll_low i outcome c (λ self, self) Hinv Hlow)
      as [_ Hlow'].
    auto using sys_step_poll_accepted, sys_step_poll_can_poll.
  - destruct Hrel as (rid & -> & Hacc & Hcan & Hlow). exists rid.
    destruct (sys_step_poll_low i outcome c
      (λ self, set_polling_active true (set_submitted_report_id rid self))
      Hinv Hlow) as [Hstep Hlow'].
    split; [exact Hstep|].
    auto using sys_step_poll_accepted, sys_step_poll_can_poll.
  - by subst.
  - by subst.
Qed.

(** The two ways a step is matched: by no step of [Concurrency], or by the
    call [e]. *)
Ltac stay :=
  exists []; split; [simpl; lia|]; split; [done|];
  cbn [sys_run foldl fst main_pc fsys at_main].

Ltac call e :=
  exists [e]; split; [simpl; lia|]; split; [by apply sys_step_inv|];
  cbn [sys_run foldl fst main_pc fsys at_main].

(** The statements of a push: the call of [Concurrency] is made at the
    statement with which the push returns. *)
Lemma linearized_next f c :
  linearized f c →
  ∃ cs, length cs ≤ 1 ∧ linearized (fine_step Next f).1 (sys_run cs c).
Proof.
  intros [Hinv Hrel]. destruct f as [s p].
  cbn [fine_step fst fsys main_pc] in *.
  destruct p; cbn [main_pc fsys push_next check_next fst snd] in *.
  - by stay.
  - destruct Hrel as [-> Hacc]. stay. by exists report_id.
  - destruct Hrel as (rid & -> & [post Hpost]). cbn [on_app app supabase submitted_report_id polling_active
      set_submitted_report_id].
    destruct (supabase (app c) && truthy rid) eqn:Hcan.
    + stay. exists rid. split; [done|]. split; [by exists post|done].
    + call (Push post). by rewrite (sys_step_push post rid c Hpost), Hcan.
  - destruct Hrel as (rid & -> & [post Hpost] & Hcan). cbn [on_app app supabase submitted_report_id polling_active
      set_submitted_report_id].
    destruct (polling_active (app c)) eqn:Hact.
    + call (Push post).
      by rewrite (sys_step_push post rid c Hpost), Hact, andb_false_r.
    + stay. exists rid. split; [done|]. split; [by exists post|done].
  - destruct Hrel as (rid & -> & Hacc & Hcan & Hlow). stay. by exists rid.
  - destruct Hrel as (rid & -> & [post Hpost] & Hcan & Hlow).
    call (Push post). rewrite (sys_step_push post rid c Hpost), Hlow.
    unfold can_poll in Hcan. by rewrite Hcan.
  - subst. case_cond; by stay.
  - subst. by stay.
Qed.

(** The start of a call: a call that touches neither the flag nor the
    identifier is the call of [Concurrency], a push waits for its last
    statement, a push that fails changes nothing. *)
Lemma linearized_begin e f c :
  linearized f c →
  ∃ cs, length cs ≤ 1 ∧ linearized (fine_step (Begin e) f).1 (sys_run cs c).
Proof.
  intros [Hinv Hrel]. destruct f as [s p].
  cbn [fine_step fst fsys main_pc] in *.
  destruct p; cbn [main_pc fsys] in *; try (by stay; destruct e).
  subst s.
  destruct e;
    try (by match goal with
            | |- context [sys_step ?e c] => call e
            end).
  - destruct (push_enter post default_base_url (app c)) as [rid|] eqn:Hpost;
      stay; [|done]. split; [done|]. by exists post.
  - by stay.
Qed.

Lemma linearized_begin_check f c :
  linearized f c → linearized (fine_step BeginCheck f).1 c.
Proof.
  intros [Hinv Hrel]. split; [done|]. destruct f as [s p].
  cbn [fine_step fst fsys main_pc] in *.
  destruct p; cbn [main_pc fsys at_main] in *; try done.
  unfold check_begin. by destruct (get_specialist_response (app s)) as [[[] ?]|].
Qed.

Lemma linearized_threads f c : linearized f c → threads (fsys f) = threads c.
Proof.
  intros [_ Hrel]. destruct (main_pc f); try (by subst);
    by destruct Hrel as (? & -> & _) || destruct Hrel as [-> _].
Qed.

Lemma sys_run_app cs cs' c : sys_run (cs ++ cs') c = sys_run cs' (sys_run cs c).
Proof. apply foldl_app. Qed.

(** ** Lemmas: the statements of the threads between two reads *)

Lemma fine_run_app fes fes' f :
  fine_run (fes ++ fes') f = fine_run fes' (fine_run fes f).
Proof. apply foldl_app. Qed.

Lemma fine_reports_app fes fes' f :
  fine_reports (fes ++ fes') f
  = fine_reports fes f ++ fine_reports fes' (fine_run fes f).
Proof.
  revert f. induction fes as [|fe fes IH]; intros f; [done|].
  simpl. by rewrite IH, app_assoc.
Qed.

Lemma fine_run_statements ts f :
  fine_run (statements ts) f
  = {| fsys := sys_run (polls ts) (fsys f); main_pc := main_pc f |}.
Proof.
  revert f. induction ts as [|[i outcome] ts IH]; intros f; [by destruct f|].
  change (fine_run (statements ((i, outcome) :: ts)) f)
    with (fine_run (statements ts) (fine_step (Thread i outcome) f).1).
  by rewrite IH.
Qed.

Lemma fine_reports_statements ts f : fine_reports (statements ts) f = [].
Proof.
  revert f. induction ts as [|[i outcome] ts IH]; intros f; [done|].
  simpl. by rewrite IH.
Qed.

(** The statements of the threads leave the identifier, never raise the
    flag and never remove a reply. *)
Lemma polls_frame ts s :
  let s' := sys_run (polls ts) s in
  submitted_report_id (app s') = submitted_report_id (app s)
  ∧ (polling_active (app s') = true → polling_active (app s) = true)
  ∧ (is_Some (specialist_response (app s))
     → is_Some (specialist_response (app s'))).
Proof.
  revert s. induction ts as [|[i outcome] ts IH]; intros s; [done|].
  change (sys_run (polls ((i, outcome) :: ts)) s)
    with (sys_run (polls ts) (sys_step (Poll i outcome) s)).
  destruct (IH (sys_step (Poll i outcome) s)) as (Hid & Hflag & Hrow).
  cbn zeta. rewrite Hid. split; [|split].
  - simpl. destruct (threads s !! i) as [t|]; [|done].
    pose proof (thread_step_frame outcome t (app s)) as (_ & _ & Ht & _).
    by destruct (thread_step outcome t (app s)).
  - intros Hhigh%Hflag. simpl in Hhigh. destruct (threads s !! i) as [t|]; [|done].
    apply (thread_step_flag_low outcome t).
    by destruct (thread_step outcome t (app s)).
  - intros Hs. by apply Hrow, sys_step_stored.
Qed.

(** Between two calls the main flow has no statement to run. *)
Lemma fine_idle ts1 ts2 f :
  main_pc f = NoCall →
  let fes := statements ts1 ++ Next :: statements ts2 ++ [Next] in
  fine_reports fes f = []
  ∧ fsys (fine_run fes f) = sys_run (polls ts2) (sys_run (polls ts1) (fsys f)).
Proof.
  intros Hpc. cbn zeta.
  rewrite fine_reports_app, fine_run_app, fine_reports_statements,
    fine_run_statements, Hpc.
  change (Next :: statements ts2 ++ [Next])
    with ([Next] ++ statements ts2 ++ [Next]).
  rewrite !fine_reports_app, !fine_run_app, fine_reports_statements.
  cbn [fine_run foldl fine_reports fine_step fsys main_pc fst snd push_next
       option_list app].
  by rewrite fine_run_statements.
Qed.

(** What the first read finds. *)
Lemma check_begin_cases self :
  (check_begin self = (NoCall, Some Responded) ∧ phase self = Responded)
  ∨ (check_begin self = (CheckActive, None) ∧ specialist_response self = None)
  ∨ check_begin self = (NoCall, None).
Proof.
  unfold check_begin, get_specialist_response, phase.
  destruct (specialist_response self) as [row|]; [|by right; left].
  destruct (format_specialist_response row); simpl; [|by right; right].
  by left.
Qed.

(** ** Theorems *)

(** Every step of the main flow or of a thread is none or one step of
    [Concurrency]. *)
Theorem fine_step_linearized fe f c :
  linearized f c →
  ∃ cs, length cs ≤ 1 ∧ linearized (fine_step fe f).1 (sys_run cs c).
Proof.
  intros Hrel. destruct fe as [e| | |i outcome].
  - by apply linearized_begin.
  - exists []. split; [simpl; lia|]. by apply linearized_begin_check.
  - by apply linearized_next.
  - exists [Poll i outcome]. split; [done|]. by apply linearized_thread.
Qed.

Theorem fine_run_linearized fes f c :
  linearized f c →
  ∃ cs, length cs ≤ length fes ∧ linearized (fine_run fes f) (sys_run cs c).
Proof.
  revert f c. induction fes as [|fe fes IH]; intros f c Hrel.
  { exists []. by split. }
  destruct (fine_step_linearized fe f c Hrel) as (cs & Hlen & Hrel').
  destruct (IH _ _ Hrel') as (cs' & Hlen' & Hrel'').
  exists (cs ++ cs'). rewrite sys_run_app, length_app. split; [simpl; lia|done].
Qed.

(** C6: push_report_to_care_bridge is atomic with respect to the polling
    threads: run one statement at a time from the assignment of
    submitted_report_id to the start of the thread, with any statements of
    the threads and any checks in between, it leaves, whenever the main flow
    is between two calls, a system that handler calls taken as single steps
    reach. *)
Theorem push_atomic fes s :
  reachable s → main_pc (fine_run fes (fine_init s)) = NoCall →
  reachable (fsys (fine_run fes (fine_init s))).
Proof.
  intros Hs Hpc.
  destruct (fine_run_linearized fes (fine_init s) s) as (cs & _ & _ & Hrel);
    [by apply linearized_init, reachable_inv|].
  rewrite Hpc in Hrel. rewrite Hrel. by apply reachable_run.
Qed.

(** At most one thread may write [polling_active] at any time, also
    between two statements of a push. *)
Theorem fine_single_poller fes s :
  reachable s → owner_count (threads (fsys (fine_run fes (fine_init s)))) ≤ 1.
Proof.
  intros Hs.
  destruct (fine_run_linearized fes (fine_init s) s) as (cs & _ & Hrel);
    [by apply linearized_init, reachable_inv|].
  rewrite (linearized_threads _ _ Hrel).
  destruct Hrel as [(_ & -> & _) _]. destruct (polling_active _); simpl; lia.
Qed.

(** What a check reports is what one attribute held when it was read: the
    reply for [Responded], the flag for [Polling], the identifier for the
    other two. *)
Theorem fine_step_reports fe f p :
  (fine_step fe f).2 = Some p →
  let self := app (fsys f) in
  match p with
  | Responded => is_Some (specialist_response self)
  | Polling => polling_active self = true
  | Stopped => truthy (submitted_report_id self) = true
  | Idle => truthy (submitted_report_id self) = false
  end.
Proof.
  destruct f as [s pc]. unfold fine_step, check_begin, check_next.
  cbn [fsys main_pc].
  destruct fe as [[]| | |], pc; try done; cbn [snd].
  - by case_match.
  - unfold get_specialist_response.
    destruct (specialist_response (app s)); [|done].
    destruct (format_specialist_response _); simpl; [|done].
    by intros [= <-].
  - case_cond; [|done]. by intros [= <-].
  - intros [= <-]. by case_cond.
Qed.

(** A check that no statement of a thread interrupts reports the phase of
    the submission. *)
Theorem check_alone_reports f :
  main_pc f = NoCall →
  is_ok (get_specialist_response (app (fsys f))) = true →
  fine_reports [BeginCheck; Next; Next] f = [phase (app (fsys f))].
Proof.
  destruct f as [s pc]. cbn [fsys main_pc]. intros -> Hok.
  unfold phase, fine_reports, fine_step, check_begin, check_next.
  cbn [fsys main_pc fst snd at_main].
  unfold get_specialist_response in *.
  destruct (specialist_response (app s)) as [row|]; simpl.
  - by destruct (format_specialist_response row).
  - destruct (polling_active (app s)); [done|]. by simpl.
Qed.

Lemma push_atomic_witness :
  reachable (fsys (fine_run example_repush (fine_init example_watched))).
Proof.
  apply push_atomic; [|by vm_compute].
  apply reachable_run, reachable_init.
Defined.

Lemma fine_single_poller_witness :
  owner_count
    (threads (fsys (fine_run example_repush (fine_init example_watched)))) ≤ 1.
Proof. apply fine_single_poller, reachable_run, reachable_init. Defined.

Lemma check_alone_reports_witness :
  fine_reports [BeginCheck; Next; Next] (fine_init example_watched)
  = [phase (app example_watched)].
Proof. by apply (check_alone_reports (fine_init example_watched)). Defined.

Lemma fine_step_reports_witness :
  truthy (submitted_report_id (app example_watched)) = true.
Proof.
  by apply (fine_step_reports Next
              {| fsys := example_watched; main_pc := CheckId |} Stopped).
Defined.

(** ** Examples *)

(** The check is not atomic: it finds no reply, the thread stores the
    reply and lowers the flag, and the check reports that the monitoring
    stopped without a reply, a phase the submission is never in. *)
Example check_reports_timeout_on_reply :
  let f := fine_init example_watched in
  fine_reports example_overtaken f = [Stopped]
  ∧ fine_phases example_overtaken f
    = replicate 4 Polling ++ replicate 5 Responded
  ∧ specialist_response (app (fsys (fine_run example_overtaken f)))
    = Some example_reply.
Proof. by vm_compute. Qed.

(** The thread lowers the flag while a second push is under way: the push
    finds the flag low and starts a thread, as the call of [Concurrency]
    made after the statement of the thread does. *)
Example repush_after_thread :
  fsys (fine_run example_repush (fine_init example_watched))
  = sys_run (replicate 5 (Poll 0 (QueryData [example_reply]))
             ++ [Push example_created]) example_watched
  ∧ length (threads (fsys (fine_run example_repush (fine_init example_watched))))
    = 2.
Proof. by vm_compute. Qed.
