(* ===== verification/Interface.v ===== *)
(** * Interface: the page, its components and the events wired to them

    The block [with gr.Blocks(...) as demo] of [src/app.py]: the components
    it declares ([Widget.t], with the class of each in [Widget.kind]), how
    they are nested ([layout]: the two columns whose visibility the
    onboarding handler switches, the rows and the tabs), the two form
    fields that carry constraints ([child_age], [child_gender]) and the
    wiring of the events ([Wire]: the trigger, the inputs read and the
    outputs written, in the order of the lists in the code; [wires] lists
    every event the page registers).

    A [Page] is the value every component holds in the browser; a [Ui] is
    the page together with the [Concurrency.System] behind it and the
    chains of [handle_conversation] and the generators of
    [generate_report_with_progress] that are under way.  An [Action] is
    what a user can do (edit a field, press a button, submit the chat
    input), the next step of a chain, or one statement of a polling
    thread; [ui_step] runs the wired handler on the values of its inputs
    and delivers what it returns to its outputs.

    The chain of a submitted message is taken one step at a time:
    [submit_message] is [add_message], each [advance] after it is one
    resumption of the generator of [bot_response] (one yield to the chat
    surface) and the last one is the unlocking of the text box, so that
    clicks, edits and thread statements can come between two steps.
    [conversation_turn] is the same chain in one step.  The click on
    [generate_report_btn] creates the generator of
    [generate_report_with_progress], and each [advance] of it is one
    resumption (one yield to the report and the progress line);
    [report_turn] is the same generator run to its end in one step.

    Five behaviours of the platform are taken from its documentation and
    not from the source: a component that is not on screen (one of the
    columns above it is hidden) receives no event, and a text box that is
    not interactive takes no edit and no submission; a number field with
    bounds and a drop-down refuse a value outside the bounds or the choices
    before the handler is called ([Number.preprocess],
    [Dropdown.preprocess]); an event whose handler raises delivers
    nothing; an event chained with [then] is called with the values on
    the page when the event before it has ended; a page that is loaded
    anew is followed by none of the chains of the page it replaces. *)

From stdpp Require Import functions finite.
From S2P Require Import Spec2Rocq PyStr PyVal PyTime Protocol Session Conversation.
From S2P Require Import Submission Polling Report Handlers Texts Concurrency.
From Stdlib Require Import QArith_base.
Local Close Scope Q_scope.

(** ** The components *)

(** The classes of the components the page uses. *)
Module Kind.
Inductive t : Type :=
| State | Column | HTML | Markdown | Textbox | Number | Dropdown | Button
| Chatbot | MultimodalTextbox.

Global Instance eq_dec : EqDecision t.
Proof. solve_decision. Defined.
End Kind.

(** The components bound to a name, by that name. *)
Module Widget.
Inductive t : Type :=
| onboarding_complete
| onboarding_section
| child_name | child_age | child_gender | child_location
| start_assessment_btn
| onboarding_status
| main_interface
| child_info_display
| chatbot | chat_input | clear_btn
| generate_report_btn | progress_status | report_output
| save_report_btn | push_care_bridge_btn
| save_status | care_bridge_status
| check_response_btn | specialist_response_output | response_status.

Global Instance eq_dec : EqDecision t.
Proof. solve_decision. Defined.

Definition all : list t :=
  [onboarding_complete; onboarding_section; child_name; child_age;
   child_gender; child_location; start_assessment_btn; onboarding_status;
   main_interface; child_info_display; chatbot; chat_input; clear_btn;
   generate_report_btn; progress_status; report_output; save_report_btn;
   push_care_bridge_btn; save_status; care_bridge_status;
   check_response_btn; specialist_response_output; response_status].

(** The constructor each name is bound to. *)
Definition kind (w : t) : Kind.t :=
  match w with
  | onboarding_complete => Kind.State
  | onboarding_section | main_interface => Kind.Column
  | child_name | child_location => Kind.Textbox
  | child_age => Kind.Number
  | child_gender => Kind.Dropdown
  | start_assessment_btn | clear_btn | generate_report_btn | save_report_btn
  | push_care_bridge_btn | check_response_btn => Kind.Button
  | onboarding_status | child_info_display | progress_status | save_status
  | care_bridge_status | response_status => Kind.HTML
  | report_output | specialist_response_output => Kind.Markdown
  | chatbot => Kind.Chatbot
  | chat_input => Kind.MultimodalTextbox
  end.
End Widget.

(** ** The layout *)

(** The classes of the style sheet a component is given
    ([elem_classes=[...]]). *)
Definition elem_classes (w : Widget.t) : list string :=
  match w with
  | Widget.child_name | Widget.child_age | Widget.child_gender
  | Widget.child_location => ["form-section"]
  | Widget.start_assessment_btn | Widget.generate_report_btn => ["primary-button"]
  | Widget.chatbot => ["chat-container"]
  | _ => []
  end.

(** The label of a field or of the chat surface ([label=...]) and the
    text on a button (the first argument of [gr.Button]). *)
Definition caption (w : Widget.t) : string :=
  match w with
  | Widget.child_name => "Child's Name (First name only for privacy)"
  | Widget.child_age => "Child's Age"
  | Widget.child_gender => "Gender"
  | Widget.child_location => "Current Location (City/Region)"
  | Widget.start_assessment_btn => "🚀 Begin Assessment"
  | Widget.chatbot => "AI Trauma Assessment Specialist"
  | Widget.clear_btn => "🗑️ New Conversation"
  | Widget.generate_report_btn => "📊 Generate Comprehensive Assessment"
  | Widget.save_report_btn => "💾 Save Report"
  | Widget.push_care_bridge_btn => "🌉 Push to Care Bridge"
  | Widget.check_response_btn => "🔍 Check for Specialist Response"
  | _ => ""
  end.

(** What an empty field shows ([placeholder=...]). *)
Definition placeholder (w : Widget.t) : string :=
  match w with
  | Widget.child_name => "e.g., Sarah, Ahmed, Oleksandr"
  | Widget.child_location => "e.g., Gaza, Kyiv, Aleppo, London"
  | Widget.chat_input =>
      "Share your concerns here... يمكنك الكتابة بالعربية • Можете писати українською"
  | _ => ""
  end.

(** A block of the page: the containers with their children (a column
    with the name it is bound to and its classes), a named component, a
    text the code fixes ([gr.HTML("...")], [gr.Markdown("...")]), and a
    button that is bound to no name. *)
Inductive Block : Type :=
| Blocks (children : list Block)
| Column (name : option Widget.t) (classes : list string) (children : list Block)
| Row (children : list Block)
| Tab (label : string) (children : list Block)
| Fixed (kind : Kind.t) (text : string)
| Named (w : Widget.t)
| Anonymous (label : string) (interactive : bool).

Definition layout : Block :=
  Blocks [
    Named Widget.onboarding_complete;
    Column (Some Widget.onboarding_section) [] [
      Fixed Kind.HTML welcome_banner;
      Column None ["welcome-form"] [
        Fixed Kind.HTML form_title;
        Row [Named Widget.child_name; Named Widget.child_age];
        Row [Named Widget.child_gender; Named Widget.child_location];
        Fixed Kind.HTML privacy_notice;
        Named Widget.start_assessment_btn;
        Named Widget.onboarding_status]];
    Column (Some Widget.main_interface) [] [
      Named Widget.child_info_display;
      Tab "💬 Confidential Consultation" [
        Fixed Kind.HTML consultation_notice;
        Named Widget.chatbot;
        Named Widget.chat_input;
        Row [Named Widget.clear_btn; Fixed Kind.HTML row_spacer]];
      Tab "📋 Professional Assessment Report" [
        Fixed Kind.HTML professional_notice;
        Named Widget.generate_report_btn;
        Named Widget.progress_status;
        Named Widget.report_output;
        Row [Named Widget.save_report_btn;
             Named Widget.push_care_bridge_btn;
             Anonymous "📧 Email to Professional" false];
        Named Widget.save_status;
        Named Widget.care_bridge_status];
      Tab "👨‍⚕️ Specialist Response" [
        Fixed Kind.HTML monitoring_notice;
        Named Widget.check_response_btn;
        Named Widget.specialist_response_output;
        Named Widget.response_status];
      Tab "📖 Resources & Information" [Fixed Kind.Markdown resources_text]]].

(** The names a block binds, in the order of the code. *)
Fixpoint names (b : Block) : list Widget.t :=
  let among := fix among (bs : list Block) : list Widget.t :=
    match bs with [] => [] | b :: bs => names b ++ among bs end in
  match b with
  | Blocks children | Row children | Tab _ children => among children
  | Column name _ children => option_list name ++ among children
  | Named w => [w]
  | Fixed _ _ | Anonymous _ _ => []
  end.

(** The named columns a component lies in, the innermost first. *)
Fixpoint columns_above (w : Widget.t) (above : list Widget.t) (b : Block)
  : option (list Widget.t) :=
  let among := fix among (above : list Widget.t) (bs : list Block)
      : option (list Widget.t) :=
    match bs with
    | [] => None
    | b :: bs =>
        match columns_above w above b with
        | Some cs => Some cs
        | None => among above bs
        end
    end in
  match b with
  | Blocks children | Row children | Tab _ children => among above children
  | Column name _ children =>
      if decide (name = Some w) then Some above
      else among (option_list name ++ above) children
  | Named w' => if decide (w' = w) then Some above else None
  | Fixed _ _ | Anonymous _ _ => None
  end.

Definition enclosing (w : Widget.t) : list Widget.t :=
  default [] (columns_above w [] layout).
Global Arguments enclosing : simpl never.

(** ** The fields with constraints *)

(** [gr.Number(label, minimum, maximum, value)]. *)
Module Number.
Record t : Type := {
  label : string;
  minimum : option Z;
  maximum : option Z;
  value : option Z
}.

(** What the handler receives for the value in the field: nothing when
    the value is outside the bounds ([None]), the value otherwise; an
    empty field passes as [None]. *)
Definition preprocess (n : t) (payload : option Q) : option (option Q) :=
  match payload with
  | None => Some None
  | Some q =>
      if from_option (λ m, negb (Qle_bool (inject_Z m) q)) false (minimum n)
      then None
      else if from_option (λ m, negb (Qle_bool q (inject_Z m))) false (maximum n)
      then None
      else Some (Some q)
  end.
End Number.

(** [gr.Dropdown(label, choices, value)]. *)
Module Dropdown.
Record t : Type := {
  label : string;
  choices : list string;
  value : option string
}.

(** A selection that is not one of the choices is refused. *)
Definition preprocess (d : t) (payload : option string)
  : option (option string) :=
  match payload with
  | None => Some None
  | Some g => if bool_decide (g ∈ choices d) then Some (Some g) else None
  end.
End Dropdown.

Definition child_age : Number.t :=
  {| Number.label := "Child's Age";
     Number.minimum := Some 2%Z;
     Number.maximum := Some 18%Z;
     Number.value := Some 8%Z |}.

Definition child_gender : Dropdown.t :=
  {| Dropdown.label := "Gender";
     Dropdown.choices := ["Female"; "Male"; "Prefer not to say"];
     Dropdown.value := Some "Female" |}.

(** ** The page *)

(** What a component holds: the visibility of a column, the flag of the
    session state, a text, a number, a selection, the turns on the chat
    surface, the multimodal text box; a button holds nothing. *)
Inductive Value : Type :=
| Shown (visible : bool)
| Flag (b : bool)
| Str (s : string)
| Num (q : option Q)
| Choice (g : option string)
| Chat (history : list Message)
| Box (box : MultimodalTextbox)
| NoValue.

(** The values a component of each class can hold. *)
Definition fits (v : Value) (k : Kind.t) : bool :=
  match v, k with
  | Shown _, Kind.Column | Flag _, Kind.State | Num _, Kind.Number
  | Choice _, Kind.Dropdown | Chat _, Kind.Chatbot
  | Box _, Kind.MultimodalTextbox | NoValue, Kind.Button
  | Str _, (Kind.Textbox | Kind.HTML | Kind.Markdown) => true
  | _, _ => false
  end.

Definition Page : Type := Widget.t → Value.

Definition shown_of (v : Value) : bool :=
  match v with Shown b => b | _ => true end.
Definition text_of (v : Value) : string :=
  match v with Str s => s | _ => "" end.
Definition number_of (v : Value) : option Q :=
  match v with Num q => q | _ => None end.
Definition choice_of (v : Value) : option string :=
  match v with Choice g => g | _ => None end.
Definition chat_of (v : Value) : list Message :=
  match v with Chat h => h | _ => [] end.
Definition box_of (v : Value) : MultimodalTextbox :=
  match v with Box b => b | _ => {| value := None; interactive := true |} end.

(** The page as the constructors leave it. *)
Definition page_init : Page := λ w,
  match w with
  | Widget.onboarding_complete => Flag false
  | Widget.onboarding_section => Shown true
  | Widget.main_interface => Shown false
  | Widget.child_age => Num (inject_Z <$> Number.value child_age)
  | Widget.child_gender => Choice (Dropdown.value child_gender)
  | Widget.chatbot => Chat []
  | Widget.chat_input => Box {| value := None; interactive := true |}
  | _ =>
      match Widget.kind w with
      | Kind.Button => NoValue
      | _ => Str ""
      end
  end.

Definition page_typed (p : Page) : Prop :=
  ∀ w, fits (p w) (Widget.kind w) = true.

(** A component is on screen when every named column above it is
    visible. *)
Definition on_screen (w : Widget.t) (p : Page) : bool :=
  forallb (λ c, shown_of (p c)) (enclosing w).

(** ** The wiring *)

(** [trigger.event(fn, inputs, outputs)]. *)
Record Wire : Type := {
  trigger : Widget.t;
  inputs : list Widget.t;
  outputs : list Widget.t
}.

Definition start_assessment_click : Wire :=
  {| trigger := Widget.start_assessment_btn;
     inputs := [Widget.child_name; Widget.child_age; Widget.child_gender;
                Widget.child_location];
     outputs := [Widget.onboarding_section; Widget.main_interface;
                 Widget.child_info_display; Widget.onboarding_status] |}.

(** The chain of [handle_conversation]: [chat_msg], [bot_msg] and the
    unlocking of the text box. *)
Definition chat_msg : Wire :=
  {| trigger := Widget.chat_input;
     inputs := [Widget.chatbot; Widget.chat_input];
     outputs := [Widget.chatbot; Widget.chat_input] |}.

Definition bot_msg : Wire :=
  {| trigger := Widget.chat_input;
     inputs := [Widget.chatbot];
     outputs := [Widget.chatbot] |}.

Definition unlock_input : Wire :=
  {| trigger := Widget.chat_input;
     inputs := [];
     outputs := [Widget.chat_input] |}.

Definition clear_click : Wire :=
  {| trigger := Widget.clear_btn;
     inputs := [];
     outputs := [Widget.chatbot; Widget.chat_input] |}.

Definition generate_report_click : Wire :=
  {| trigger := Widget.generate_report_btn;
     inputs := [];
     outputs := [Widget.report_output; Widget.progress_status] |}.

Definition save_report_click : Wire :=
  {| trigger := Widget.save_report_btn;
     inputs := [Widget.report_output];
     outputs := [Widget.save_status] |}.

Definition push_care_bridge_click : Wire :=
  {| trigger := Widget.push_care_bridge_btn;
     inputs := [];
     outputs := [Widget.care_bridge_status] |}.

Definition check_response_click : Wire :=
  {| trigger := Widget.check_response_btn;
     inputs := [];
     outputs := [Widget.specialist_response_output; Widget.response_status] |}.

(** [chatbot.like(handle_feedback, None, None, like_user_message=True)]. *)
Definition chatbot_like : Wire :=
  {| trigger := Widget.chatbot; inputs := []; outputs := [] |}.

Definition wires : list Wire :=
  [start_assessment_click; chat_msg; bot_msg; unlock_input; clear_click;
   generate_report_click; save_report_click; push_care_bridge_click;
   check_response_click; chatbot_like].

(** [handle_feedback]: the line it prints for a mark on the turn [index];
    it returns nothing and writes no state. *)
Definition feedback_type (liked : bool) : string :=
  if liked then "👍 Helpful" else "👎 Needs Improvement".

Definition handle_feedback (liked : bool) (index : nat) : string :=
  "User feedback: " +:+ feedback_type liked +:+ " on message "
  +:+ str_of_int (Z.of_nat index).

(** The values a handler returns go to the outputs of its wire, the first
    to the first. *)
Definition deliver (ws : list Widget.t) (vs : list Value) (p : Page) : Page :=
  foldl (λ p wv, <[wv.1 := wv.2]> p) p (zip ws vs).

(** ** The page and the system behind it *)

(** A chain of [handle_conversation] under way: [chat_msg] has delivered
    and [bot_msg] runs (the generator of [bot_response], with the answers
    the model gives to this chain), or [bot_msg] has ended and the
    unlocking of the text box is next.  Or the event of
    [generate_report_btn] under way: the generator of
    [generate_report_with_progress] with the answers of the model, of the
    validation and of the clock to it. *)
Inductive Chain : Type :=
| AtBotMsg (chat : ChatRequest → option string) (g : BotGen)
| AtUnlock
| AtReport (chat : ChatRequest → option string)
           (model_validate_json : string → option RiskAssessment.t)
           (clock : nat → datetime) (g : ReportGen).

Record Ui : Type := {
  page : Page;
  sys : System;
  chains : list Chain
}.

Definition ui_init (uuid : string) (now : datetime) (url key : option string)
  : Ui :=
  {| page := page_init; sys := sys_init uuid now url key; chains := [] |}.

(** What happens next: the user edits a field of the form or the chat
    input, presses a button or submits the chat input, a chain under way
    takes its next step ([Advance i]: the generator of [bot_response] or
    of [generate_report_with_progress] is resumed once, or the text box is
    unlocked), the page is loaded anew
    (by the same user or by another: [app] is one object for the process,
    the page is built for each load), or a polling thread runs a
    statement.  The answers of the language model, the platform, the
    clock, the file system and the lookup store are part of the action;
    those of the language model to a chain are fixed when the chain
    starts. *)
Inductive Action : Type :=
| EditName (s : string)
| EditAge (q : option Q)
| EditGender (g : option string)
| EditLocation (s : string)
| EditMessage (message : UserInput)
| ClickStart
| SubmitMessage (chat : ChatRequest → option string) (clock : nat → datetime)
| ClickClear
| ClickGenerate (chat : ChatRequest → option string)
                (model_validate_json : string → option RiskAssessment.t)
                (clock : nat → datetime)
| ClickSave (written : option string) (now : datetime)
| ClickPush (post : HttpRequest → HttpOutcome)
| ClickCheck
| Like (liked : bool) (index : nat)
| Advance (i : nat)
| Reload
| Tick (i : nat) (outcome : QueryOutcome).

(** The component an action is made on. *)
Definition target (a : Action) : option Widget.t :=
  match a with
  | EditName _ => Some Widget.child_name
  | EditAge _ => Some Widget.child_age
  | EditGender _ => Some Widget.child_gender
  | EditLocation _ => Some Widget.child_location
  | EditMessage _ => Some Widget.chat_input
  | ClickStart => Some (trigger start_assessment_click)
  | SubmitMessage _ _ => Some (trigger chat_msg)
  | ClickClear => Some (trigger clear_click)
  | ClickGenerate _ _ _ => Some (trigger generate_report_click)
  | ClickSave _ _ => Some (trigger save_report_click)
  | ClickPush _ => Some (trigger push_care_bridge_click)
  | ClickCheck => Some (trigger check_response_click)
  | Like _ _ => Some (trigger chatbot_like)
  | Advance _ | Reload | Tick _ _ => None
  end.

(** The components an action can write. *)
Definition touched (a : Action) : list Widget.t :=
  match a with
  | EditName _ | EditAge _ | EditGender _ | EditLocation _ | EditMessage _ =>
      option_list (target a)
  | ClickStart => outputs start_assessment_click
  | SubmitMessage _ _ => outputs chat_msg
  | Advance _ =>
      outputs bot_msg ++ outputs unlock_input ++ outputs generate_report_click
  | ClickClear => outputs clear_click
  | ClickGenerate _ _ _ => []
  | ClickSave _ _ => outputs save_report_click
  | ClickPush _ => outputs push_care_bridge_click
  | ClickCheck => outputs check_response_click
  | Like _ _ => outputs chatbot_like
  | Reload => Widget.all
  | Tick _ _ => []
  end.

(** The component is on screen, and the chat input is not locked. *)
Definition enabled (a : Action) (p : Page) : bool :=
  match target a with
  | Some w =>
      on_screen w p
      && (if decide (w = Widget.chat_input)
          then interactive (box_of (p Widget.chat_input)) else true)
  | None => true
  end.

(** The text box as the handler reads it: an empty box is an empty text
    and no files. *)
Definition message_of (box : MultimodalTextbox) : UserInput :=
  default {| text := ""; files := [] |} (value box).

(** The arguments [handle_onboarding] is called with, when the two fields
    accept their values.  A selection of no choice is the empty string
    here: both fail the test of [complete_onboarding] and neither is
    shown. *)
Definition onboarding_inputs (p : Page)
  : option (string * option Q * string * string) :=
  age ← Number.preprocess child_age (number_of (p Widget.child_age));
  gender ← Dropdown.preprocess child_gender (choice_of (p Widget.child_gender));
  Some (text_of (p Widget.child_name), age, default "" gender,
        text_of (p Widget.child_location)).

Definition click_start (u : Ui) : Ui :=
  match onboarding_inputs (page u) with
  | Some (name, age, gender, location) =>
      let '(self, view) :=
        handle_onboarding name age gender location (app (sys u)) in
      {| page := deliver (outputs start_assessment_click)
                   [Shown (Handlers.onboarding_section view);
                    Shown (Handlers.main_interface view);
                    Str (Handlers.child_info_display view);
                    Str (Handlers.onboarding_status view)] (page u);
         sys := {| app := self; threads := threads (sys u) |};
         chains := chains u |}
  | None => u
  end.

(** [chat_input.submit]: [add_message] on the turns shown and the text
    box; the history and the locked box go to the outputs of [chat_msg],
    and [bot_msg] is called with the history now shown. *)
Definition submit_message (chat : ChatRequest → option string)
    (clock : nat → datetime) (u : Ui) : Ui :=
  let p := page u in
  let '(self, (history, box)) :=
    add_message clock (chat_of (p Widget.chatbot))
      (message_of (box_of (p Widget.chat_input))) (app (sys u)) in
  {| page := deliver (outputs chat_msg) [Chat history; Box box] p;
     sys := {| app := self; threads := threads (sys u) |};
     chains := chains u ++ [AtBotMsg chat (BotCreated history)] |}.

(** [gr.MultimodalTextbox(interactive=True)] as an update of the text box:
    what is typed in it stays. *)
Definition unlocked (box : MultimodalTextbox) : MultimodalTextbox :=
  {| value := value box; interactive := true |}.

(** The next step of the chain [i]: one resumption of the generator, whose
    yield goes to the chat surface and whose end makes the unlocking the
    next step; or the unlocking, which ends the chain; or a resumption of
    the generator of [generate_report_with_progress], whose yield goes to
    the report and the progress line and whose end ends the event. *)
Definition advance (i : nat) (u : Ui) : Ui :=
  match chains u !! i with
  | Some (AtBotMsg chat g) =>
      let '(self, (g, yielded)) := bot_next chat g (app (sys u)) in
      {| page := match yielded with
                 | Some history => deliver (outputs bot_msg) [Chat history] (page u)
                 | None => page u
                 end;
         sys := {| app := self; threads := threads (sys u) |};
         chains := <[i := match yielded with
                          | Some _ => AtBotMsg chat g
                          | None => AtUnlock
                          end]> (chains u) |}
  | Some AtUnlock =>
      {| page := deliver (outputs unlock_input)
                   [Box (unlocked (box_of (page u Widget.chat_input)))] (page u);
         sys := sys u;
         chains := delete i (chains u) |}
  | Some (AtReport chat model_validate_json clock g) =>
      let '(self, (g, yielded)) :=
        report_next chat model_validate_json clock g (app (sys u)) in
      {| page := match yielded with
                 | Some y =>
                     deliver (outputs generate_report_click)
                       [Str y.1; Str y.2] (page u)
                 | None => page u
                 end;
         sys := {| app := self; threads := threads (sys u) |};
         chains := match yielded with
                   | Some _ =>
                       <[i := AtReport chat model_validate_json clock g]>
                         (chains u)
                   | None => delete i (chains u)
                   end |}
  | None => u
  end.

(** The whole chain in one step, as it runs when nothing comes between
    its steps. *)
Definition conversation_turn (chat : ChatRequest → option string)
    (clock : nat → datetime) (u : Ui) : Ui :=
  let p := page u in
  let '(self, shown, box) :=
    handle_conversation chat clock (chat_of (p Widget.chatbot))
      (message_of (box_of (p Widget.chat_input))) (app (sys u)) in
  {| page := deliver (outputs unlock_input) [Box box]
               (foldl (λ p h, deliver (outputs bot_msg) [Chat h] p) p shown);
     sys := {| app := self; threads := threads (sys u) |};
     chains := chains u |}.

Definition click_clear (u : Ui) : Ui :=
  let '(self, (history, box)) := handle_clear (app (sys u)) in
  {| page := deliver (outputs clear_click) [Chat history; Box box] (page u);
     sys := {| app := self; threads := threads (sys u) |};
     chains := chains u |}.

(** The click creates the generator; nothing of its body has run. *)
Definition click_generate (chat : ChatRequest → option string)
    (model_validate_json : string → option RiskAssessment.t)
    (clock : nat → datetime) (u : Ui) : Ui :=
  {| page := page u; sys := sys u;
     chains := chains u
               ++ [AtReport chat model_validate_json clock ReportCreated] |}.

(** The generator of a click run to its end in one step. *)
Definition report_turn (chat : ChatRequest → option string)
    (model_validate_json : string → option RiskAssessment.t)
    (clock : nat → datetime) (u : Ui) : Ui :=
  let '(self, yields) :=
    generate_report_with_progress chat model_validate_json clock (app (sys u)) in
  {| page := foldl (λ p y, deliver (outputs generate_report_click)
                             [Str y.1; Str y.2] p) (page u) yields;
     sys := {| app := self; threads := threads (sys u) |};
     chains := chains u |}.

Definition click_save (written : option string) (now : datetime) (u : Ui) : Ui :=
  let report_content := text_of (page u Widget.report_output) in
  {| page := deliver (outputs save_report_click)
               [Str (save_report_with_data written now report_content
                       (app (sys u)))] (page u);
     sys := sys u;
     chains := chains u |}.

Definition click_push (post : HttpRequest → HttpOutcome) (u : Ui) : Ui :=
  let '(self, started, status) := push_to_care_bridge post (app (sys u)) in
  {| page := deliver (outputs push_care_bridge_click) [Str status] (page u);
     sys := {| app := self;
               threads := threads (sys u)
                          ++ (if started : bool then [thread_start] else []) |};
     chains := chains u |}.

Definition click_check (u : Ui) : Ui :=
  match check_for_response (app (sys u)) with
  | Ok (response, status) =>
      {| page := deliver (outputs check_response_click)
                   [Str response; Str status] (page u);
         sys := sys u;
         chains := chains u |}
  | Raise _ => u
  end.

Definition edit (w : Widget.t) (v : Value) (u : Ui) : Ui :=
  {| page := <[w := v]> (page u); sys := sys u; chains := chains u |}.

Definition ui_step (a : Action) (u : Ui) : Ui :=
  if enabled a (page u) then
    match a with
    | EditName s => edit Widget.child_name (Str s) u
    | EditAge q => edit Widget.child_age (Num q) u
    | EditGender g => edit Widget.child_gender (Choice g) u
    | EditLocation s => edit Widget.child_location (Str s) u
    | EditMessage message =>
        edit Widget.chat_input
          (Box {| value := Some message; interactive := true |}) u
    | ClickStart => click_start u
    | SubmitMessage chat clock => submit_message chat clock u
    | ClickClear => click_clear u
    | ClickGenerate chat model_validate_json clock =>
        click_generate chat model_validate_json clock u
    | ClickSave written now => click_save written now u
    | ClickPush post => click_push post u
    | ClickCheck => click_check u
    | Like _ _ => u
    | Advance i => advance i u
    | Reload => {| page := page_init; sys := sys u; chains := [] |}
    | Tick i outcome =>
        {| page := page u; sys := sys_step (Poll i outcome) (sys u);
           chains := chains u |}
    end
  else u.

Definition ui_run (acts : list Action) (u : Ui) : Ui :=
  foldl (λ u a, ui_step a u) u acts.

Inductive ui_reachable : Ui → Prop :=
| ui_reachable_init uuid now url key : ui_reachable (ui_init uuid now url key)
| ui_reachable_step a u : ui_reachable u → ui_reachable (ui_step a u).

(** The calls on the application object an action makes, in order. *)
Definition calls (a : Action) (u : Ui) : list Event :=
  let p := page u in
  if enabled a p then
    match a with
    | ClickStart =>
        match onboarding_inputs p with
        | Some (name, age, gender, location) =>
            [Onboard name age gender location]
        | None => []
        end
    | SubmitMessage chat clock =>
        [Submit clock (chat_of (p Widget.chatbot))
           (message_of (box_of (p Widget.chat_input)))]
    | Advance i =>
        match chains u !! i with
        | Some (AtBotMsg chat (BotCreated history)) => [Reply chat history]
        | Some (AtReport chat model_validate_json clock ReportStarted) =>
            [Generate chat model_validate_json clock]
        | _ => []
        end
    | ClickClear => [Clear]
    | ClickPush post => [Push post]
    | Tick i outcome => [Poll i outcome]
    | _ => []
    end
  else [].

(** Every call but onboarding. *)
Definition not_onboard (e : Event) : Prop :=
  match e with Onboard _ _ _ _ => False | _ => True end.

(** ** The child's record as the specification types it *)

Definition child_typed (c : ChildInfo) : Prop :=
  name c ≠ "" ∧ (2 ≤ age c ≤ 18)%Z ∧ gender c ∈ Dropdown.choices child_gender
  ∧ location c ≠ "".

(** The invariant of the pages a user can reach: the main column is shown
    only behind an open gate, one of the two columns is shown and not the
    other, the record behind an open gate is typed, and every component
    holds a value of its class. *)
Definition ui_inv (u : Ui) : Prop :=
  let self := app (sys u) in
  (shown_of (page u Widget.main_interface) = true → is_onboarded self = true)
  ∧ shown_of (page u Widget.onboarding_section)
    = negb (shown_of (page u Widget.main_interface))
  ∧ (is_onboarded self = true → child_typed (child_info (report_data self)))
  ∧ page_typed (page u).

(** The page shows which side of the gate the session is on: what holds
    as long as the page is not loaded a second time. *)
Definition gate_shown (u : Ui) : Prop :=
  shown_of (page u Widget.main_interface) = is_onboarded (app (sys u)).

Definition no_reload (a : Action) : Prop :=
  match a with Reload => False | _ => True end.

(** The line [handle_onboarding] shows when it refuses the form. *)
Definition onboarding_refusal : string :=
  div "status-warning"
    ("❌ " +:+ "Please fill in all required information about your child.").

(** While the form is on screen its status is empty or the refusal. *)
Definition status_inv (u : Ui) : Prop :=
  shown_of (page u Widget.onboarding_section) = true →
  text_of (page u Widget.onboarding_status) ∈ [""; onboarding_refusal].

(** ** A session for the examples

    A parent fills the form for Sam and starts; says one sentence; then
    the page is loaded again and the form is filled for Lina. *)

Definition example_ui : Ui :=
  ui_init "7f0c" sample_time (Some "https://db.example") (Some "key").

Definition example_onboarding : list Action :=
  [EditName "Sam"; EditLocation "Gaza"; ClickStart].

Definition example_turn_ui : list Action :=
  [EditMessage {| text := "He cannot sleep"; files := [] |};
   SubmitMessage example_chat example_clock]
  ++ replicate 13 (Advance 0).

Definition example_second_visit : list Action :=
  [Reload; EditName "Lina"; EditAge (Some (inject_Z 11)); EditLocation "Kyiv";
   ClickStart].

(** ** Lemmas: the layout *)

Global Instance Widget_finite : Finite Widget.t.
Proof.
  refine {| enum := Widget.all |}; [by apply (bool_decide_unpack _)|].
  by intros []; apply (bool_decide_unpack _).
Defined.

(** Every name is bound once, and the layout lists them in the order of
    [Widget.all]. *)
Lemma layout_names : names layout = Widget.all.
Proof. reflexivity. Qed.

Lemma layout_binds_once : NoDup (names layout) ∧ ∀ w, w ∈ names layout.
Proof.
  rewrite layout_names. split.
  - exact (NoDup_enum Widget.t).
  - exact (elem_of_enum (A:=Widget.t)).
Qed.

(** The form is in the onboarding column, the rest of the components in
    the main one; the two columns and the session state are under no
    column. *)
Lemma enclosing_cases w :
  enclosing w =
  match w with
  | Widget.onboarding_complete | Widget.onboarding_section
  | Widget.main_interface => []
  | Widget.child_name | Widget.child_age | Widget.child_gender
  | Widget.child_location | Widget.start_assessment_btn
  | Widget.onboarding_status => [Widget.onboarding_section]
  | _ => [Widget.main_interface]
  end.
Proof. by destruct w. Qed.

(** ** Lemmas: the fields *)

(** Truncation keeps a number between two integers that are not
    negative. *)
Lemma py_int_between (lo hi : Z) (q : Q) :
  (0 ≤ lo)%Z → Qle_bool (inject_Z lo) q = true → Qle_bool q (inject_Z hi) = true →
  (lo ≤ py_int q ≤ hi)%Z.
Proof.
  intros Hlo Hl Hh. apply Qle_bool_iff in Hl, Hh.
  unfold Qle, py_int in *. destruct q as [n d]. simpl in *.
  rewrite Z.quot_div_nonneg by lia. split.
  - apply Z.div_le_lower_bound; lia.
  - apply Z.div_le_upper_bound; lia.
Qed.

Lemma number_preprocess_bounds (n : Number.t) (lo hi : Z) (q : Q) (r : option Q) :
  Number.minimum n = Some lo → Number.maximum n = Some hi →
  Number.preprocess n (Some q) = Some r →
  r = Some q ∧ Qle_bool (inject_Z lo) q = true ∧ Qle_bool q (inject_Z hi) = true.
Proof.
  unfold Number.preprocess. intros -> ->. simpl.
  destruct (Qle_bool (inject_Z lo) q), (Qle_bool q (inject_Z hi)); naive_solver.
Qed.

Lemma dropdown_preprocess_choice (d : Dropdown.t) (g : string) (r : option string) :
  Dropdown.preprocess d (Some g) = Some r → r = Some g ∧ g ∈ Dropdown.choices d.
Proof. unfold Dropdown.preprocess. case_bool_decide; naive_solver. Qed.

(** ** Lemmas: delivery *)

Lemma page_lookup_insert (p : Page) w v : <[w := v]> p w = v.
Proof. apply fn_lookup_insert. Qed.

Lemma page_lookup_insert_ne (p : Page) w w' v : w ≠ w' → <[w := v]> p w' = p w'.
Proof. apply fn_lookup_insert_ne. Qed.

Lemma deliver_cons w ws v vs p :
  deliver (w :: ws) (v :: vs) p = deliver ws vs (<[w := v]> p).
Proof. done. Qed.

(** A component that is not an output keeps its value. *)
Lemma deliver_notin ws vs p w : w ∉ ws → deliver ws vs p w = p w.
Proof.
  revert vs p. induction ws as [|w' ws IH]; intros [|v vs] p Hw; try done.
  apply not_elem_of_cons in Hw as [Hne Hw].
  by rewrite deliver_cons, IH, page_lookup_insert_ne by done.
Qed.

Lemma deliver_each_notin {A} ws (f : A → list Value) (xs : list A) p w :
  w ∉ ws → foldl (λ p x, deliver ws (f x) p) p xs w = p w.
Proof.
  intros Hw. revert p. induction xs as [|x xs IH]; intros p; [done|].
  simpl. by rewrite IH, deliver_notin by done.
Qed.

Lemma insert_typed w v p :
  fits v (Widget.kind w) = true → page_typed p → page_typed (<[w := v]> p).
Proof.
  intros Hv Hp w'. destruct (decide (w = w')) as [<-|Hne].
  - by rewrite page_lookup_insert.
  - by rewrite page_lookup_insert_ne.
Qed.

(** Values of the classes of the outputs leave the page typed. *)
Lemma deliver_typed ws vs p :
  Forall (λ wv, fits wv.2 (Widget.kind wv.1) = true) (zip ws vs) →
  page_typed p → page_typed (deliver ws vs p).
Proof.
  revert vs p. induction ws as [|w ws IH]; intros [|v vs] p Hvs Hp; try done.
  rewrite deliver_cons. apply Forall_cons in Hvs as [Hv Hvs].
  by apply IH, insert_typed.
Qed.

Lemma deliver_each_typed {A} ws (f : A → list Value) (xs : list A) p :
  (∀ x, Forall (λ wv, fits wv.2 (Widget.kind wv.1) = true) (zip ws (f x))) →
  page_typed p → page_typed (foldl (λ p x, deliver ws (f x) p) p xs).
Proof.
  intros Hf. revert p. induction xs as [|x xs IH]; intros p Hp; [done|].
  simpl. by apply IH, deliver_typed.
Qed.

Lemma page_init_typed : page_typed page_init.
Proof. by intros []. Qed.

(** ** Lemmas: one action *)

Lemma ui_step_disabled a u : enabled a (page u) = false → ui_step a u = u.
Proof. unfold ui_step. by intros ->. Qed.

Lemma advance_frame i u w :
  w ∉ outputs bot_msg ++ outputs unlock_input ++ outputs generate_report_click →
  page (advance i u) w = page u w.
Proof.
  intros Hw. unfold advance.
  destruct (chains u !! i) as [[chat g| |chat validate clock g]|]; [| | |done].
  - destruct (bot_next chat g _) as [self [g' [h|]]]; [|done].
    apply deliver_notin. set_solver.
  - apply deliver_notin. set_solver.
  - destruct (report_next chat validate clock g _) as [self [g' [y|]]]; [|done].
    apply deliver_notin. set_solver.
Qed.

Lemma advance_typed i u : page_typed (page u) → page_typed (page (advance i u)).
Proof.
  intros Hp. unfold advance.
  destruct (chains u !! i) as [[chat g| |chat validate clock g]|]; [| | |done].
  - destruct (bot_next chat g _) as [self [g' [h|]]]; [|done].
    apply deliver_typed; [by repeat constructor|done].
  - apply deliver_typed; [by repeat constructor|done].
  - destruct (report_next chat validate clock g _) as [self [g' [y|]]]; [|done].
    apply deliver_typed; [by repeat constructor|done].
Qed.

(** An action writes the outputs of the wires it fires and nothing else;
    an edit writes its field. *)
Lemma ui_step_frame a u w : w ∉ touched a → page (ui_step a u) w = page u w.
Proof.
  intros Hw. unfold ui_step. destruct (enabled a (page u)); [|done].
  destruct a; simpl in Hw |- *;
    try (apply page_lookup_insert_ne; intros <-; apply Hw; by left); try done.
  - unfold click_start.
    destruct (onboarding_inputs _) as [[[[n a] g] l]|]; [|done].
    destruct (handle_onboarding _ _ _ _ _). by apply deliver_notin.
  - unfold submit_message. destruct (add_message _ _ _ _) as [self [h box]].
    by apply deliver_notin.
  - by apply deliver_notin.
  - unfold click_push. destruct (push_to_care_bridge _ _) as [[self started] st].
    by apply deliver_notin.
  - unfold click_check. destruct (check_for_response _) as [[r st]|]; [|done].
    by apply deliver_notin.
  - by apply advance_frame.
  - destruct Hw. exact (elem_of_enum (A:=Widget.t) w).
Qed.

(** Every handler returns values of the classes of its outputs. *)
Lemma ui_step_typed a u : page_typed (page u) → page_typed (page (ui_step a u)).
Proof.
  intros Hp. unfold ui_step. destruct (enabled a (page u)); [|done].
  destruct a; simpl; try (by apply insert_typed); try done.
  - unfold click_start.
    destruct (onboarding_inputs _) as [[[[n a] g] l]|]; [|done].
    destruct (handle_onboarding _ _ _ _ _). apply deliver_typed; [|done].
    by repeat constructor.
  - unfold submit_message. destruct (add_message _ _ _ _) as [self [h box]].
    apply deliver_typed; [by repeat constructor|done].
  - apply deliver_typed; [|done]. by repeat constructor.
  - unfold click_push. destruct (push_to_care_bridge _ _) as [[self started] st].
    apply deliver_typed; [|done]. by repeat constructor.
  - unfold click_check. destruct (check_for_response _) as [[r st]|]; [|done].
    apply deliver_typed; [|done]. by repeat constructor.
  - by apply advance_typed.
  - apply page_init_typed.
Qed.

(** ** Lemmas: the system behind the page *)

(** Resuming the generator changes the state at its first resumption
    only, as the whole of [bot_response] does. *)
Lemma bot_next_state chat g self :
  (bot_next chat g self).1
  = match g with
    | BotCreated history => (bot_response chat history self).1
    | _ => self
    end.
Proof.
  destruct g as [history|base shown rest|]; [|done..].
  unfold bot_next, bot_response. by case_cond.
Qed.

Lemma advance_sys i u :
  sys (advance i u)
  = sys_run match chains u !! i with
            | Some (AtBotMsg chat (BotCreated history)) => [Reply chat history]
            | Some (AtReport chat model_validate_json clock ReportStarted) =>
                [Generate chat model_validate_json clock]
            | _ => []
            end (sys u).
Proof.
  unfold advance.
  destruct (chains u !! i) as [[chat g| |chat validate clock g]|]; [|done| |done].
  - pose proof (bot_next_state chat g (app (sys u))) as Hst.
    destruct (bot_next chat g _) as [self [g' y]]. simpl in *. subst self.
    destruct g; simpl; [by rewrite app_nil_r|by destruct (sys u)..].
  - pose proof (report_next_state chat validate clock g (app (sys u))) as Hst.
    destruct (report_next chat validate clock g _) as [self [g' y]].
    simpl in *. subst self.
    destruct g; simpl; [|by rewrite app_nil_r|..]; by destruct (sys u).
Qed.

(** The system after an action is the system after the calls the action
    makes. *)
Lemma ui_step_sys a u : sys (ui_step a u) = sys_run (calls a u) (sys u).
Proof.
  unfold ui_step, calls. destruct (enabled a (page u)); [|done].
  destruct a; simpl; try done.
  - unfold click_start.
    destruct (onboarding_inputs _) as [[[[n a] g] l]|]; [|done]. simpl.
    destruct (handle_onboarding _ _ _ _ _). simpl. by rewrite app_nil_r.
  - unfold submit_message. destruct (add_message _ _ _ _) as [self [h box]].
    simpl. by rewrite app_nil_r.
  - by rewrite app_nil_r.
  - unfold click_push. by destruct (push_to_care_bridge _ _) as [[self started] st].
  - unfold click_check. by destruct (check_for_response _) as [[r st]|].
  - apply advance_sys.
Qed.

Lemma ui_run_sys acts u :
  ∃ es, sys (ui_run acts u) = sys_run es (sys u).
Proof.
  revert u. induction acts as [|a acts IH]; intros u; [by exists []|].
  destruct (IH (ui_step a u)) as [es Hes]. exists (calls a u ++ es).
  simpl. rewrite Hes, ui_step_sys. unfold sys_run. by rewrite foldl_app.
Qed.

(** ** Lemmas: the gate and the record behind it *)

(** Only onboarding writes the child's record or the gate. *)
Lemma sys_step_child e s :
  not_onboard e →
  child_info (report_data (app (sys_step e s))) = child_info (report_data (app s))
  ∧ is_onboarded (app (sys_step e s)) = is_onboarded (app s).
Proof.
  intros He. destruct e; try done; simpl.
  - by destruct (add_message_frame clock history message (app s)) as (? & ? & _).
  - rewrite bot_response_report. unfold bot_response. by case_cond.
  - rewrite generate_report_with_progress_state.
    by destruct (generate_report_frame chat model_validate_json clock true (app s))
      as (? & _ & _ & _ & ? & _).
  - pose proof (push_to_care_bridge_state post (app s)) as Hst.
    destruct (push_to_care_bridge post (app s)) as [[self started] st].
    simpl in *. apply (f_equal fst) in Hst. simpl in Hst. subst self.
    by destruct (push_frame post default_base_url (app s)) as (-> & -> & _).
  - destruct (threads s !! i) as [t|]; [|done].
    pose proof (thread_step_frame outcome t (app s)) as (Hr & Ho & _).
    destruct (thread_step outcome t (app s)). simpl in *. by rewrite Hr, Ho.
Qed.

Lemma sys_run_child es s :
  Forall not_onboard es →
  child_info (report_data (app (sys_run es s))) = child_info (report_data (app s))
  ∧ is_onboarded (app (sys_run es s)) = is_onboarded (app s).
Proof.
  intros Hes. revert s. induction Hes as [|e es He _ IH]; intros s; [done|].
  simpl. destruct (IH (sys_step e s)) as [-> ->]. by apply sys_step_child.
Qed.

Lemma calls_not_onboard a u : a ≠ ClickStart → Forall not_onboard (calls a u).
Proof.
  intros Ha. unfold calls. destruct (enabled a (page u)); [|done].
  destruct a; repeat case_match; by repeat constructor.
Qed.

Lemma ui_step_child a u :
  a ≠ ClickStart →
  child_info (report_data (app (sys (ui_step a u))))
  = child_info (report_data (app (sys u)))
  ∧ is_onboarded (app (sys (ui_step a u))) = is_onboarded (app (sys u)).
Proof. intros Ha. rewrite ui_step_sys. by apply sys_run_child, calls_not_onboard. Qed.

(** The values that pass the two fields: an age between the bounds and a
    selection among the choices. *)
Lemma onboarding_inputs_valid p n a g l :
  onboarding_inputs p = Some (n, a, g, l) →
  n = text_of (p Widget.child_name) ∧ l = text_of (p Widget.child_location)
  ∧ (∀ q, a = Some q → (2 ≤ py_int q ≤ 18)%Z)
  ∧ (g ≠ "" → g ∈ Dropdown.choices child_gender).
Proof.
  unfold onboarding_inputs. intros Hin.
  destruct (Number.preprocess _ _) as [a'|] eqn:Ha; [|done].
  destruct (Dropdown.preprocess _ _) as [g'|] eqn:Hg; [|done].
  injection Hin as <- <- <- <-. split; [done|]. split; [done|]. split.
  - intros q ->. destruct (number_of _) as [q'|]; [|done].
    apply (number_preprocess_bounds child_age 2 18) in Ha
      as ([= ->] & Hlo & Hhi); [|done..].
    by apply py_int_between.
  - intros Hne. destruct g' as [g|]; [|done].
    destruct (choice_of _) as [c|]; [|done].
    by apply dropdown_preprocess_choice in Hg as ([= ->] & Hel).
Qed.

(** When an action can be made: the form while the onboarding column is
    shown, the rest while the main column is, the chat input while it is
    unlocked as well, a statement of a thread always. *)
Lemma enabled_cases a p :
  enabled a p =
  match a with
  | EditName _ | EditAge _ | EditGender _ | EditLocation _ | ClickStart =>
      shown_of (p Widget.onboarding_section)
  | EditMessage _ | SubmitMessage _ _ =>
      shown_of (p Widget.main_interface)
      && interactive (box_of (p Widget.chat_input))
  | Advance _ | Reload | Tick _ _ => true
  | _ => shown_of (p Widget.main_interface)
  end.
Proof.
  unfold enabled, on_screen. destruct a; simpl; by rewrite ?andb_true_r.
Qed.

(** The record after an onboarding from the form is typed, when the one
    before was. *)
Lemma onboarding_typed p n a g l self :
  onboarding_inputs p = Some (n, a, g, l) →
  (is_onboarded self = true → child_typed (child_info (report_data self))) →
  is_onboarded (complete_onboarding n a g l self).1 = true →
  child_typed (child_info (report_data (complete_onboarding n a g l self).1)).
Proof.
  intros Hin Hold. destruct (truthy n && truthy a && truthy g && truthy l) eqn:E.
  - intros _. destruct (complete_onboarding_accepted n a g l self E) as (q & -> & ->).
    apply onboarding_inputs_valid in Hin as (_ & _ & Hage & Hgender).
    assert (∀ s : string, truthy s = true → s ≠ "") as Hs by (by intros []).
    bool_hyps. unfold child_typed. simpl.
    split; [by apply Hs|]. split; [by apply Hage|].
    split; [by apply Hgender, Hs|by apply Hs].
  - unfold complete_onboarding. by rewrite complete_onboarding_filled, E.
Qed.

(** ** Lemmas: the invariant *)

Lemma ui_init_inv uuid now url key : ui_inv (ui_init uuid now url key).
Proof.
  unfold ui_inv. simpl. split; [done|]. split; [done|]. split; [done|].
  apply page_init_typed.
Qed.

Lemma click_start_inv u : ui_inv u → ui_inv (click_start u).
Proof.
  intros Hinv. pose proof Hinv as (Hm & Ho & Hc & Ht).
  unfold click_start.
  destruct (onboarding_inputs _) as [[[[n a] g] l]|] eqn:Hin; [|done].
  pose proof (handle_onboarding_view n a g l (app (sys u))) as (Hv & Hv' & _).
  pose proof (handle_onboarding_state n a g l (app (sys u))) as Hst.
  pose proof (onboarding_typed _ n a g l _ Hin Hc) as Hty.
  rewrite complete_onboarding_status in Hv.
  rewrite complete_onboarding_gate in Hty.
  destruct (handle_onboarding _ _ _ _ _) as [self view]. simpl in *. subst self.
  unfold ui_inv. simpl. rewrite complete_onboarding_gate.
  split; [by rewrite Hv; intros ->|]. split; [done|]. split; [done|].
  apply deliver_typed; [by repeat constructor|done].
Qed.

(** The invariant holds after every action. *)
Lemma ui_step_inv a u : ui_inv u → ui_inv (ui_step a u).
Proof.
  intros Hinv. destruct (enabled a (page u)) eqn:Hen;
    [|by rewrite ui_step_disabled].
  assert (a = ClickStart ∨ a = Reload ∨ (a ≠ ClickStart ∧ no_reload a))
    as [->|[->|[Ha Hr]]] by (destruct a; naive_solver).
  { unfold ui_step. rewrite Hen. by apply click_start_inv. }
  { destruct Hinv as (_ & _ & Hc & _). unfold ui_inv. simpl.
    split; [done|]. split; [done|]. split; [done|].
    apply page_init_typed. }
  destruct Hinv as (Hm & Ho & Hc & Ht).
  destruct (ui_step_child a u Ha) as [Hchild Hgate].
  assert ((Widget.main_interface ∉ touched a)
          ∧ (Widget.onboarding_section ∉ touched a)) as [Hm' Ho']
    by (destruct a; try done; split; by apply (bool_decide_unpack _)).
  unfold ui_inv. rewrite !ui_step_frame, Hchild, Hgate by done.
  split; [done|]. split; [done|]. split; [done|].
  by apply ui_step_typed.
Qed.

(** Without a second load the page shows the side of the gate. *)
Lemma ui_step_gate_shown a u :
  no_reload a → ui_inv u → gate_shown u → gate_shown (ui_step a u).
Proof.
  intros Hr Hinv Hg. destruct (enabled a (page u)) eqn:Hen;
    [|by rewrite ui_step_disabled].
  assert (a = ClickStart ∨ a ≠ ClickStart) as [->|Ha]
    by (destruct a; try (by right); by left).
  - rewrite enabled_cases in Hen. destruct Hinv as (_ & Ho & _).
    unfold gate_shown in *. rewrite Hen in Ho. symmetry in Ho.
    apply negb_true_iff in Ho. rewrite Ho in Hg.
    unfold ui_step. rewrite enabled_cases, Hen. unfold click_start.
    destruct (onboarding_inputs _) as [[[[n a] g] l]|]; [|by rewrite Ho].
    pose proof (handle_onboarding_view n a g l (app (sys u))) as (Hv & _).
    pose proof (handle_onboarding_state n a g l (app (sys u))) as Hst.
    rewrite complete_onboarding_status in Hv.
    destruct (handle_onboarding _ _ _ _ _) as [self view]. simpl in *. subst self.
    by rewrite complete_onboarding_gate, <- Hg, orb_false_r.
  - destruct (ui_step_child a u Ha) as [_ Hgate]. unfold gate_shown.
    rewrite ui_step_frame, Hgate; [done|].
    destruct a; try done; by apply (bool_decide_unpack _).
Qed.

Lemma ui_run_inv acts u : ui_inv u → ui_inv (ui_run acts u).
Proof.
  revert u. induction acts as [|a acts IH]; intros u Hu; [done|].
  by apply IH, ui_step_inv.
Qed.

Lemma ui_reachable_inv u : ui_reachable u → ui_inv u.
Proof. induction 1; [apply ui_init_inv|by apply ui_step_inv]. Qed.

Lemma ui_reachable_run acts u : ui_reachable u → ui_reachable (ui_run acts u).
Proof.
  revert u. induction acts as [|a acts IH]; intros u Hu; [done|].
  by apply IH, ui_reachable_step.
Qed.

(** ** Lemmas: the status of the form *)

Lemma handle_onboarding_refused n a g l self :
  main_interface (handle_onboarding n a g l self).2 = false →
  onboarding_status (handle_onboarding n a g l self).2 = onboarding_refusal.
Proof.
  unfold handle_onboarding, complete_onboarding. by case_cond.
Qed.

Lemma ui_step_status_inv a u : ui_inv u → status_inv u → status_inv (ui_step a u).
Proof.
  intros Hinv Hs. destruct (enabled a (page u)) eqn:Hen;
    [|by rewrite ui_step_disabled].
  assert (a = ClickStart ∨ a = Reload ∨ (a ≠ ClickStart ∧ no_reload a))
    as [->|[->|[Ha Hr]]] by (destruct a; naive_solver).
  - unfold ui_step. rewrite Hen. unfold click_start.
    destruct (onboarding_inputs _) as [[[[n a] g] l]|]; [|done].
    pose proof (handle_onboarding_view n a g l (app (sys u))) as (_ & Hv & _).
    pose proof (handle_onboarding_refused n a g l (app (sys u))) as Hst.
    destruct (handle_onboarding _ _ _ _ _) as [self view]. unfold status_inv.
    simpl in *. rewrite Hv. intros Hm. apply negb_true_iff in Hm.
    rewrite (Hst Hm). set_solver.
  - intros _. by left.
  - unfold status_inv. rewrite !ui_step_frame; [done|..];
      destruct a; try done; by apply (bool_decide_unpack _).
Qed.

Lemma ui_reachable_status_inv u : ui_reachable u → status_inv u.
Proof.
  induction 1 as [|a u Hu IH]; [intros _; by left|].
  by apply ui_step_status_inv; [apply ui_reachable_inv|].
Qed.

(** ** Theorems *)

Lemma ui_run_gate_shown acts u :
  Forall no_reload acts → ui_inv u → gate_shown u → gate_shown (ui_run acts u).
Proof.
  intros Hacts. revert u. induction Hacts as [|a acts Ha _ IH]; intros u Hu Hg;
    [done|].
  by apply IH; [apply ui_step_inv|apply ui_step_gate_shown].
Qed.

(** C14: Through the interface the child record behind an open gate is the
    one the specification types: a name and a location that are not empty,
    an age from 2 to 18 and a gender among the three choices of the form,
    whatever the user types, however often the page is loaded and whatever
    the threads do. *)
Theorem ui_reachable_child_typed u :
  ui_reachable u → is_onboarded (app (sys u)) = true →
  child_typed (child_info (report_data (app (sys u)))).
Proof. intros Hu. by apply ui_reachable_inv in Hu as (_ & _ & Hc & _). Qed.

Lemma ui_reachable_child_typed_witness :
  child_typed (child_info (report_data (app (sys
    (ui_run example_onboarding example_ui))))).
Proof.
  apply ui_reachable_child_typed; [|reflexivity].
  apply ui_reachable_run, ui_reachable_init.
Defined.

(** Every component of a reachable page holds a value of its class:
    each handler returns as many values as its event has outputs, in their
    order, a visibility for a column, a text for an HTML or Markdown block,
    the turns for the chat surface, a text box for the chat input. *)
Theorem ui_reachable_page_typed u : ui_reachable u → page_typed (page u).
Proof. intros Hu. by apply ui_reachable_inv in Hu as (_ & _ & _ & Ht). Qed.

Lemma ui_reachable_page_typed_witness :
  page_typed (page (ui_run (example_onboarding ++ example_turn_ui) example_ui)).
Proof. apply ui_reachable_page_typed, ui_reachable_run, ui_reachable_init. Defined.

(** C15: Every action on the page is a sequence of the handler calls and
    thread statements of the concurrent system: the system behind a
    reachable page is a reachable system, so what holds of every
    interleaving holds through the interface. *)
Theorem ui_reachable_system u : ui_reachable u → reachable (sys u).
Proof.
  induction 1 as [|a u Hu IH]; [apply reachable_init|].
  rewrite ui_step_sys. by apply reachable_run.
Qed.

Lemma ui_reachable_system_witness :
  reachable (sys (ui_run (example_onboarding ++ example_turn_ui) example_ui)).
Proof. apply ui_reachable_system, ui_reachable_run, ui_reachable_init. Defined.

(** A sequence of actions leaves every component alone that is an
    output of none of its events (and not an edited field). *)
Theorem ui_run_frame acts u w :
  Forall (λ a, w ∉ touched a) acts → page (ui_run acts u) w = page u w.
Proof.
  intros Hacts. revert u. induction Hacts as [|a acts Ha _ IH]; intros u; [done|].
  simpl. by rewrite IH, ui_step_frame.
Qed.

Lemma ui_run_frame_witness :
  page (ui_run example_turn_ui (ui_run example_onboarding example_ui))
    Widget.child_info_display
  = page (ui_run example_onboarding example_ui) Widget.child_info_display.
Proof.
  apply ui_run_frame. by repeat constructor; apply (bool_decide_unpack _).
Defined.

(** C20: As long as the page is loaded once, the main column is shown
    exactly when is_onboarded is true, after any sequence of edits, clicks,
    submissions and thread statements. *)
Theorem single_session_gate acts uuid now url key :
  Forall no_reload acts → gate_shown (ui_run acts (ui_init uuid now url key)).
Proof. intros Hacts. by apply ui_run_gate_shown; [|apply ui_init_inv|]. Qed.

Lemma single_session_gate_witness :
  gate_shown (ui_run (example_onboarding ++ example_turn_ui) example_ui).
Proof. apply single_session_gate. by repeat constructor. Defined.

(** C37: Whenever onboarding_status is on screen it is empty or the refusal:
    the welcome line of a successful onboarding is delivered to a component
    of the column the same event hides. *)
Theorem welcome_never_seen u :
  ui_reachable u → on_screen Widget.onboarding_status (page u) = true →
  text_of (page u Widget.onboarding_status) ∈ [""; onboarding_refusal].
Proof.
  intros Hu Hon. apply ui_reachable_status_inv; [done|].
  unfold on_screen in Hon. simpl in Hon. by rewrite andb_true_r in Hon.
Qed.

Lemma welcome_never_seen_witness :
  text_of (page (ui_run [ClickStart] example_ui) Widget.onboarding_status)
  ∈ [""; onboarding_refusal].
Proof.
  apply welcome_never_seen; [|reflexivity].
  apply ui_reachable_run, ui_reachable_init.
Defined.

(** ** Examples *)

(** Sam is onboarded from the form: the main column is shown, the form is
    hidden with the welcome in it. *)
Example sam_onboarded :
  let u := ui_run example_onboarding example_ui in
  page u Widget.main_interface = Shown true
  ∧ page u Widget.onboarding_section = Shown false
  ∧ page u Widget.onboarding_status
    = Str (div "status-success" "Welcome! I'm ready to help you with Sam's assessment.")
  ∧ on_screen Widget.onboarding_status (page u) = false
  ∧ child_info (report_data (app (sys u)))
    = {| name := "Sam"; age := 8; gender := "Female"; location := "Gaza" |}.
Proof. by vm_compute. Qed.

(** An age outside the bounds of the field does not reach
    [complete_onboarding]. *)
Example age_outside_bounds :
  let u := ui_run [EditName "Sam"; EditAge (Some (1 # 2)%Q); EditLocation "Gaza";
                   ClickStart] example_ui in
  sys u = sys example_ui ∧ page u Widget.onboarding_status = Str "".
Proof. by vm_compute. Qed.

(** The page is loaded again after Sam's first turn and the form is filled
    for Lina: the record is Lina's, the chat surface is empty, and the
    observations and the turns sent to the model are still those said of
    Sam. *)
Example second_visit_inherits :
  let u := ui_run (example_onboarding ++ example_turn_ui ++ example_second_visit)
             example_ui in
  name (child_info (report_data (app (sys u)))) = "Lina"
  ∧ page u Widget.chatbot = Chat []
  ∧ parent_observations (assessment_data (report_data (app (sys u))))
    = "He cannot sleep"
  ∧ length (ollama_conversation (app (sys u))) = 2.
Proof. by vm_compute. Qed.

(** The form is shown again after a load while the gate stays open. *)
Example reload_leaves_gate_open :
  let u := ui_run (example_onboarding ++ [Reload]) example_ui in
  page u Widget.onboarding_section = Shown true
  ∧ is_onboarded (app (sys u)) = true.
Proof. by vm_compute. Qed.

(** A report asked for before any turn is the sentence that asks for a
    conversation, and the save button writes it. *)
Example refusal_saved :
  let u := ui_run (example_onboarding ++
             [ClickGenerate example_chat example_validate example_clock;
              Advance 0; Advance 0; ClickSave None sample_time]) example_ui in
  page u Widget.report_output
  = Str "Please have a conversation first before generating a report."
  ∧ str_in "Report saved as" (text_of (page u Widget.save_status)) = true.
Proof. by vm_compute. Qed.

(** The session state declared at the top of the page is the trigger, an
    input or an output of no event. *)
Example onboarding_complete_unused :
  Forall (λ w, Widget.onboarding_complete ∉ trigger w :: inputs w ++ outputs w) wires.
Proof. by apply (bool_decide_unpack _). Qed.

(** A reply that does not render: the click on the check button raises
    and the page keeps what it showed. *)
Example check_raises_keeps_page :
  let u := {| page := page (ui_run example_onboarding example_ui);
              sys := {| app := set_specialist_response (PDict [("report_id", PStr "r-1")])
                                 (app (sys (ui_run example_onboarding example_ui)));
                        threads := [] |};
              chains := [] |} in
  ui_step ClickCheck u = u.
Proof. reflexivity. Qed.

Example feedback_line : handle_feedback true 3 = "User feedback: 👍 Helpful on message 3".
Proof. reflexivity. Qed.
