(* ===== verification/Log.v ===== *)
(** * Log: what the program prints

    [src/app.py] writes to the standard output in thirteen places: when the
    object is created without the settings of the lookup store, for every
    image a message carries, when the language model raised (the reply, the
    image, the structured assessment), on each of the three ways
    [start_response_polling] can go, at the start of the polling thread,
    before every query and when a query or the rendering of its row
    raised, and for every mark a user puts on a turn.  The functions of the
    other files leave the output out; this file gives, for each function
    that prints, the entries it prints on the same arguments
    ([start_response_polling_prints] beside
    [Submission.start_response_polling], and so on), with the guards of the
    code in the order of the code, and composes them the way the calls
    compose: [poll_for_response_prints] for the loop run alone,
    [thread_step_prints] for one statement of a thread,
    [sys_run_prints] for a run of the system, [ui_run_prints] for the
    actions on a page.

    An [Entry] is a line: [Printed] with its text, or [Caught] for a line
    that ends with the text of an exception, with the words before it and
    the exception when it is one the program's own lookups raise; the text
    of an exception of a library is the library's.

    The theorems show that the log of a thread stepped to its end is the
    log of the loop, that the attempts and the errors in it are the
    attempts made and the attempts that failed, that
    [start_response_polling] prints one line whatever it does, and that a
    run prints one line [Starting background polling] for every thread of
    the system. *)

From S2P Require Import Spec2Rocq PyStr PyVal PyTime Protocol Session Conversation.
From S2P Require Import Submission Polling Report Handlers Concurrency Interface.

(** ** Entries *)

Inductive Entry : Type :=
| Printed (text : string)
| Caught (prefix : string) (e : option exn).

Global Instance Entry_eq_dec : EqDecision Entry.
Proof. solve_decision. Defined.

(** ** [__init__] *)

Definition init_prints (supabase_url supabase_key : option string) : list Entry :=
  if truthy supabase_url && truthy supabase_key then []
  else [Printed "⚠️ Supabase credentials not found in .env file"].

(** ** [add_message] *)

(** The body of [for file in message["files"]]. *)
Definition add_file_prints (file : string) : list Entry :=
  let file_type := classify_file_type file in
  if bool_decide (file_type = "image")
  then [Printed ("Image file detected: " +:+ file)] else [].

Definition add_message_prints (message : UserInput) (self : App) : list Entry :=
  (guard is_onboarded self else [] ;;
   files message ≫= add_file_prints)%py.

(** ** [bot_response] *)

(** The two [except] clauses, by the request that raised. *)
Definition reply_error (request : ChatRequest) : Entry :=
  match request with
  | ImageChat _ _ => Caught "Ollama image error: " None
  | _ => Caught "Ollama text error: " None
  end.

Definition bot_response_prints (chat : ChatRequest → option string)
    (history : list Message) (self : App) : list Entry :=
  (guard truthy history && is_onboarded self else [] ;;
   let '(request, _) := reply_request history self in
   match chat request with
   | Some _ => []
   | None => [reply_error request]
   end)%py.

(** One [next()] on the generator: the body runs at the first. *)
Definition bot_next_prints (chat : ChatRequest → option string)
    (g : BotGen) (self : App) : list Entry :=
  match g with
  | BotCreated history => bot_response_prints chat history self
  | _ => []
  end.

(** ** [generate_comprehensive_report] *)

Definition generate_comprehensive_report_prints
    (chat : ChatRequest → option string)
    (model_validate_json : string → option RiskAssessment.t) (self : App)
  : list Entry :=
  (guard is_onboarded self else [] ;;
   guard truthy (ollama_conversation self) else [] ;;
   match structured_outcome chat model_validate_json (report_data self) with
   | Some _ => []
   | None => [Caught "Ollama structured output error: " None]
   end)%py.

(** ** [start_response_polling] and [push_report_to_care_bridge] *)

Definition msg_cannot_start : string :=
  "⚠️ Cannot start polling: Missing Supabase connection or report ID".

Definition msg_already_active : string := "ℹ️ Polling already active".

Definition launch_prefix : string :=
  "🔄 Starting background polling for report ID: ".

Definition msg_launch (report_id : pyval) : string :=
  launch_prefix +:+ py_str report_id.

Definition start_response_polling_prints (self : App) : list Entry :=
  (guard supabase self && truthy (submitted_report_id self)
   else [Printed msg_cannot_start] ;;
   guard negb (polling_active self) else [Printed msg_already_active] ;;
   [Printed (msg_launch (submitted_report_id self))])%py.

(** The function prints nothing of its own: what is printed is printed by
    the call of [start_response_polling] on the branch of a success. *)
Definition push_report_to_care_bridge_prints (post : HttpRequest → HttpOutcome)
    (base_url : string) (self : App) : list Entry :=
  (guard is_onboarded self else [] ;;
   guard truthy (conversation_history (report_data self)) else [] ;;
   match post (report_request base_url (report_data self)) with
   | inl _ => []
   | inr response =>
       if bool_decide (status_code response = 201%Z) then
         match decode_report_id response with
         | inl _ => []
         | inr report_id =>
             start_response_polling_prints
               (set_submitted_report_id report_id self)
         end
       else []
   end)%py.

(** ** [_poll_for_response] *)

Definition msg_begin : string := "Starting polling for response...".

Definition msg_attempt : string := "Polling for response...".

Definition polling_error (e : option exn) : Entry :=
  Caught "Error polling for response: " e.

(** The [except] clause on what the rendering of the stored row did. *)
Definition render_prints (self : App) : list Entry :=
  match get_specialist_response self with
  | Ok _ => []
  | Raise e => [polling_error (Some e)]
  end.

(** The body of the [while] on the outcome of its query. *)
Definition poll_iteration_prints (outcome : QueryOutcome) (self : App)
  : list Entry :=
  Printed msg_attempt ::
  match outcome with
  | QueryRaised => [polling_error None]
  | QueryData [] => []
  | QueryData (row :: _) => render_prints (set_specialist_response row self)
  end.

Fixpoint poll_loop_prints (query : nat → pyval → QueryOutcome)
    (fuel poll_count : nat) (self : App) : list Entry :=
  match fuel with
  | O => []
  | S fuel' =>
      if polling_active self && (poll_count <? max_polls) then
        let outcome := query poll_count (submitted_report_id self) in
        let '(self', broke) := poll_iteration outcome self in
        poll_iteration_prints outcome self
        ++ (if broke then []
            else poll_loop_prints query fuel' (S poll_count) self')
      else []
  end.

(** Nothing is printed after the loop: the end of the monitoring leaves no
    line. *)
Definition poll_for_response_prints (query : nat → pyval → QueryOutcome)
    (self : App) : list Entry :=
  Printed msg_begin :: poll_loop_prints query max_polls 0 self.

(** The line before the loop is printed with the first test of the loop's
    condition: the counter is zero at the head of the loop that once. *)
Definition first_line (poll_count : nat) : list Entry :=
  if poll_count =? 0 then [Printed msg_begin] else [].

(** One statement of the thread. *)
Definition thread_step_prints (outcome : QueryOutcome) (t : PollThread)
    (self : App) : list Entry :=
  match pc t with
  | AtLoopHead => first_line (poll_count t)
  | AtQuery =>
      Printed msg_attempt ::
      match outcome with
      | QueryRaised => [polling_error None]
      | QueryData _ => []
      end
  | AtRender => render_prints self
  | _ => []
  end.

(** [n] steps of a thread that runs alone against [query]. *)
Fixpoint thread_run_prints (query : nat → pyval → QueryOutcome) (n : nat)
    (t : PollThread) (self : App) : list Entry :=
  match n with
  | O => []
  | S n' =>
      let outcome := query (poll_count t) (submitted_report_id self) in
      thread_step_prints outcome t self
      ++ thread_run_prints query n' (thread_step outcome t self).1
           (thread_step outcome t self).2
  end.

(** ** The system and the page *)

Definition handler_prints (e : Event) (self : App) : list Entry :=
  match e with
  | Submit _ _ message => add_message_prints message self
  | Reply chat history => bot_response_prints chat history self
  | Generate chat model_validate_json _ =>
      generate_comprehensive_report_prints chat model_validate_json self
  | Push post => push_report_to_care_bridge_prints post default_base_url self
  | Onboard _ _ _ _ | Clear | Poll _ _ => []
  end.

Definition sys_step_prints (e : Event) (s : System) : list Entry :=
  match e with
  | Poll i outcome =>
      match threads s !! i with
      | Some t => thread_step_prints outcome t (app s)
      | None => []
      end
  | _ => handler_prints e (app s)
  end.

Fixpoint sys_run_prints (es : list Event) (s : System) : list Entry :=
  match es with
  | [] => []
  | e :: es => sys_step_prints e s ++ sys_run_prints es (sys_step e s)
  end.

(** An action prints what its calls on the object print; a mark on a turn
    prints the line of [handle_feedback]. *)
Definition ui_step_prints (a : Action) (u : Ui) : list Entry :=
  match a with
  | Like liked index =>
      if enabled a (page u) then [Printed (handle_feedback liked index)] else []
  | _ => sys_run_prints (calls a u) (sys u)
  end.

Fixpoint ui_run_prints (acts : list Action) (u : Ui) : list Entry :=
  match acts with
  | [] => []
  | a :: acts => ui_step_prints a u ++ ui_run_prints acts (ui_step a u)
  end.

(** ** Reading a log *)

Definition is_begin (entry : Entry) : bool :=
  bool_decide (entry = Printed msg_begin).

Definition is_attempt (entry : Entry) : bool :=
  bool_decide (entry = Printed msg_attempt).

Definition is_polling_error (entry : Entry) : bool :=
  match entry with
  | Caught prefix _ => bool_decide (prefix = "Error polling for response: ")
  | Printed _ => false
  end.

Definition is_launch (entry : Entry) : bool :=
  match entry with
  | Printed text => str_startswith text launch_prefix
  | Caught _ _ => false
  end.

Definition count (f : Entry → bool) (log : list Entry) : nat :=
  length (filter (λ entry, f entry) log).

(** The attempt failed: the query raised, or its first row cannot be
    rendered. *)
Definition failed (outcome : QueryOutcome) : bool :=
  match outcome with
  | QueryRaised => true
  | QueryData [] => false
  | QueryData (row :: _) => negb (is_ok (format_specialist_response row))
  end.

(** ** Lemmas: counting entries *)

Lemma count_cons f entry log :
  count f (entry :: log) = Nat.b2n (f entry) + count f log.
Proof. apply filter_length_cons. Qed.

Lemma count_app f log log' : count f (log ++ log') = count f log + count f log'.
Proof. apply filter_length_app. Qed.

Lemma count_nil f : count f [] = 0.
Proof. done. Qed.

#[export] Hint Rewrite count_cons count_app count_nil : py.

Lemma is_launch_msg_launch report_id :
  is_launch (Printed (msg_launch report_id)) = true.
Proof. apply str_startswith_app. Qed.

(** ** Lemmas: [start_response_polling] *)

Lemma start_response_polling_prints_launch self :
  count is_launch (start_response_polling_prints self)
  = Nat.b2n (start_response_polling self).2.
Proof.
  unfold start_response_polling_prints, start_response_polling.
  by repeat case_cond.
Qed.

Lemma push_report_to_care_bridge_prints_launch post base_url self :
  count is_launch (push_report_to_care_bridge_prints post base_url self)
  = Nat.b2n (push_report_to_care_bridge post base_url self).1.2.
Proof.
  unfold push_report_to_care_bridge_prints, push_report_to_care_bridge.
  repeat (first [case_cond | case_match]); simplify_eq/=; try done.
  match goal with
  | H : start_response_polling _ = _ |- _ =>
      by rewrite start_response_polling_prints_launch, H
  end.
Qed.

(** ** Lemmas: the lines that tell of a thread *)

Lemma add_message_prints_launch message self :
  count is_launch (add_message_prints message self) = 0.
Proof.
  unfold add_message_prints. case_cond; [|done].
  induction (files message) as [|file l IH]; [done|].
  cbn [mbind list_bind]. rewrite count_app, IH.
  unfold add_file_prints. by case_bool_decide.
Qed.

Lemma bot_response_prints_launch chat history self :
  count is_launch (bot_response_prints chat history self) = 0.
Proof.
  unfold bot_response_prints. case_cond; [|done].
  destruct (reply_request history self) as [request fallback].
  by destruct (chat request), request.
Qed.

Lemma generate_comprehensive_report_prints_launch chat validate self :
  count is_launch (generate_comprehensive_report_prints chat validate self) = 0.
Proof.
  unfold generate_comprehensive_report_prints.
  by repeat case_cond.
Qed.

Lemma thread_step_prints_launch outcome t self :
  count is_launch (thread_step_prints outcome t self) = 0.
Proof.
  unfold thread_step_prints, render_prints, first_line.
  by repeat (first [case_cond | case_match]).
Qed.

Lemma handler_prints_launch e self :
  count is_launch (handler_prints e self) = Nat.b2n (handler e self).2.
Proof.
  destruct e; simpl;
    auto using add_message_prints_launch, bot_response_prints_launch,
      generate_comprehensive_report_prints_launch.
  rewrite push_report_to_care_bridge_prints_launch. unfold push_to_care_bridge.
  by destruct (push_report_to_care_bridge _ _ _) as [[? ?] [? ?]].
Qed.

(** A step starts a thread exactly when it prints the line of
    [start_response_polling] that says so. *)
Lemma sys_step_prints_launch e s :
  length (threads (sys_step e s))
  = length (threads s) + count is_launch (sys_step_prints e s).
Proof.
  destruct e as [????|???|??| |???|post|i outcome]; simpl;
    rewrite ?add_message_prints_launch, ?bot_response_prints_launch,
      ?generate_comprehensive_report_prints_launch, ?length_app, ?count_nil;
    simpl; try lia.
  - rewrite push_report_to_care_bridge_prints_launch. unfold push_to_care_bridge.
    destruct (push_report_to_care_bridge _ _ _) as [[self started] [ok message]].
    simpl. rewrite length_app. destruct started; simpl; lia.
  - destruct (threads s !! i) as [t|] eqn:Hi; simpl;
      [|rewrite count_nil; lia].
    rewrite thread_step_prints_launch.
    destruct (thread_step outcome t (app s)). simpl.
    rewrite length_insert. lia.
Qed.

Lemma sys_run_prints_launch es s :
  length (threads (sys_run es s))
  = length (threads s) + count is_launch (sys_run_prints es s).
Proof.
  revert s. induction es as [|e es IH]; intros s; simpl.
  { rewrite count_nil. lia. }
  change (sys_run (e :: es) s) with (sys_run es (sys_step e s)).
  rewrite count_app, IH, sys_step_prints_launch. lia.
Qed.

Lemma ui_step_prints_launch a u :
  length (threads (sys (ui_step a u)))
  = length (threads (sys u)) + count is_launch (ui_step_prints a u).
Proof.
  rewrite ui_step_sys, sys_run_prints_launch. unfold ui_step_prints, calls.
  destruct a; try done. by case_cond.
Qed.

(** ** Lemmas: the log of a thread *)

Section thread_prints.
Context (query : nat → pyval → QueryOutcome).

Lemma thread_run_prints_add (n m : nat) t self :
  thread_run_prints query (n + m) t self
  = thread_run_prints query n t self
    ++ thread_run_prints query m (thread_run query n t self).1
         (thread_run query n t self).2.
Proof.
  revert t self. induction n as [|n IH]; intros t self; simpl; [done|].
  rewrite <- app_assoc. f_equal. rewrite IH.
  by destruct (thread_step _ _ _).
Qed.

Lemma thread_run_prints_terminated (n c : nat) self :
  thread_run_prints query n {| pc := Terminated; poll_count := c |} self = [].
Proof. induction n as [|n IH]; simpl; [done|]. apply IH. Qed.

(** The first of [S n] steps, on the run and on its log after the
    entries [log]. *)
Lemma thread_trace_S (n : nat) t self log :
  (thread_run query (S n) t self, log ++ thread_run_prints query (S n) t self)
  = let outcome := query (poll_count t) (submitted_report_id self) in
    let r := thread_step outcome t self in
    (thread_run query n r.1 r.2,
     (log ++ thread_step_prints outcome t self)
     ++ thread_run_prints query n r.1 r.2).
Proof. simpl. rewrite <- app_assoc. by destruct (thread_step _ _ _). Qed.

(** Run one statement, by the equation [lem] of [thread_step]. *)
Tactic Notation "trace_step_with" uconstr(lem) :=
  rewrite thread_trace_S; cbn zeta; rewrite lem by done;
  cbn [fst snd poll_count pc thread_step_prints].

(** One pass through the body: the steps of [Polling.thread_run_iteration]
    and what they print. *)
Lemma thread_iteration_prints (c : nat) self :
  polling_active self && (c <? max_polls) = true →
  let outcome := query c (submitted_report_id self) in
  let r := poll_iteration outcome self in
  ∃ n, n ≤ 5 ∧
    thread_run query n {| pc := AtLoopHead; poll_count := c |} self
    = ({| pc := if r.2 then AtExit else AtLoopHead;
          poll_count := if r.2 then c else S c |}, r.1)
    ∧ thread_run_prints query n {| pc := AtLoopHead; poll_count := c |} self
      = first_line c ++ poll_iteration_prints outcome self.
Proof.
  intros Hc. cbn zeta.
  assert (∀ n t log (x : PollThread * App),
    (thread_run query n t self, [] ++ thread_run_prints query n t self)
    = (x, log) →
    thread_run query n t self = x ∧ thread_run_prints query n t self = log)
    as Hpair by (by intros ???? [= -> <-]).
  destruct (poll_iteration_cases (query c (submitted_report_id self)) self)
    as [(row & rest & Hq & Hok & Hr)|[(row & rest & Hq & Hok & Hr)|[Hq Hr]]];
    rewrite Hr; cbn [fst snd].
  - exists 5. split; [lia|]. apply Hpair.
    trace_step_with thread_step_head_enter.
    trace_step_with (thread_step_query_row _ c self row rest).
    trace_step_with thread_step_store.
    trace_step_with (thread_step_render _ c (set_specialist_response row self) true).
    trace_step_with thread_step_deactivate.
    rewrite Hq. unfold poll_iteration_prints, render_prints.
    destruct (get_specialist_response _); [|done].
    by rewrite !app_nil_r.
  - exists 5. split; [lia|]. apply Hpair.
    trace_step_with thread_step_head_enter.
    trace_step_with (thread_step_query_row _ c self row rest).
    trace_step_with thread_step_store.
    trace_step_with (thread_step_render _ c (set_specialist_response row self) false).
    trace_step_with thread_step_sleep.
    rewrite Hq. unfold poll_iteration_prints, render_prints.
    destruct (get_specialist_response _); [done|].
    simpl. by rewrite !app_nil_r, <- !app_assoc.
  - exists 3. split; [lia|]. apply Hpair.
    trace_step_with thread_step_head_enter.
    trace_step_with thread_step_query_none.
    trace_step_with thread_step_sleep.
    destruct Hq as [-> | ->]; simpl; by rewrite ?app_nil_r, <- ?app_assoc.
Qed.

Lemma thread_loop_prints (fuel c : nat) self :
  max_polls - c ≤ fuel →
  ∃ n, n ≤ 5 * fuel + 1 ∧
    thread_run query n {| pc := AtLoopHead; poll_count := c |} self
    = ({| pc := AtExit; poll_count := (poll_loop query fuel c self).2 |},
       (poll_loop query fuel c self).1)
    ∧ thread_run_prints query n {| pc := AtLoopHead; poll_count := c |} self
      = first_line c ++ poll_loop_prints query fuel c self.
Proof.
  revert c self. induction fuel as [|fuel IH]; intros c self Hf.
  { exists 1. split; [lia|]. simpl. rewrite thread_step_head_leave; [done|].
    apply andb_false_iff. right. apply Nat.ltb_ge. lia. }
  destruct (polling_active self && (c <? max_polls)) eqn:Hc.
  2:{ exists 1. split; [lia|]. simpl. by rewrite Hc, thread_step_head_leave. }
  destruct (thread_iteration_prints c self Hc) as (n & Hn & Hrun & Hlog).
  simpl. rewrite Hc.
  destruct (poll_iteration _ _) as [self' [|]]; simpl in *.
  { exists n. split; [lia|]. by rewrite Hrun, Hlog, app_nil_r. }
  destruct (IH (S c) self') as (m & Hm & Hrun' & Hlog'); [lia|].
  exists (n + m). split; [lia|].
  rewrite thread_run_add, thread_run_prints_add, Hrun, Hlog.
  cbn [fst snd]. by rewrite Hrun', Hlog', <- app_assoc.
Qed.

End thread_prints.

(** ** Lemmas: attempts and errors *)

Lemma poll_iteration_prints_count outcome self :
  let log := poll_iteration_prints outcome self in
  count is_attempt log = 1
  ∧ count is_polling_error log = Nat.b2n (failed outcome)
  ∧ count is_begin log = 0.
Proof.
  unfold poll_iteration_prints, render_prints.
  destruct outcome as [|[|row rest]]; try done. simpl.
  rewrite <- (is_ok_get_specialist_response row self).
  by destruct (get_specialist_response _).
Qed.

(** An attempt that left the loop did not fail. *)
Lemma poll_iteration_failed outcome self :
  (poll_iteration outcome self).2 = true → failed outcome = false.
Proof.
  destruct outcome as [|[|row rest]]; simpl; try done.
  rewrite <- (is_ok_get_specialist_response row self). by case_cond.
Qed.

Section poll_loop_prints.
Context (query : nat → pyval → QueryOutcome).

(** The equations of the loop and of its log, from the counter at [c]. *)
Lemma poll_loop_prints_exit (fuel c : nat) self :
  polling_active self && (c <? max_polls) = false →
  poll_loop_prints query fuel c self = [].
Proof. destruct fuel; simpl; [done|]. by intros ->. Qed.

Lemma poll_loop_prints_unfold (fuel c : nat) self :
  polling_active self && (c <? max_polls) = true →
  let r := poll_iteration (query c (submitted_report_id self)) self in
  poll_loop query (S fuel) c self
  = (if r.2 then (r.1, c) else poll_loop query fuel (S c) r.1)
  ∧ poll_loop_prints query (S fuel) c self
    = poll_iteration_prints (query c (submitted_report_id self)) self
      ++ (if r.2 then [] else poll_loop_prints query fuel (S c) r.1).
Proof. simpl. intros ->. by destruct (poll_iteration _ _) as [self' [|]]. Qed.

(** The counter, the attempts and the errors of the loop. *)
Lemma poll_loop_prints_count (fuel c : nat) self :
  let log := poll_loop_prints query fuel c self in
  let c' := (poll_loop query fuel c self).2 in
  c + count is_polling_error log ≤ c'
  ∧ c' ≤ c + count is_attempt log ≤ S c'
  ∧ c + count is_attempt log ≤ c `max` max_polls
  ∧ count is_begin log = 0.
Proof.
  cbn zeta. revert c self. induction fuel as [|fuel IH]; intros c self.
  { simpl. rewrite !count_nil. lia. }
  destruct (polling_active self && (c <? max_polls)) eqn:Hc.
  2:{ rewrite poll_loop_prints_exit, poll_loop_exit by done.
      simpl. rewrite !count_nil. lia. }
  destruct (poll_loop_prints_unfold fuel c self Hc) as [-> ->].
  apply andb_true_iff in Hc as [_ Hc%Nat.ltb_lt].
  pose proof (poll_iteration_prints_count
    (query c (submitted_report_id self)) self) as (Ha & He & Hb).
  pose proof (poll_iteration_failed (query c (submitted_report_id self)) self)
    as Hf.
  rewrite !count_app, Ha, He, Hb.
  destruct (poll_iteration _ _) as [self' [|]]; cbn [fst snd] in *.
  { rewrite Hf, !count_nil by done. simpl. lia. }
  specialize (IH (S c) self'). simpl in IH.
  destruct (failed _); simpl; lia.
Qed.

(** The errors in the log are the attempts that failed. *)
Lemma poll_loop_prints_errors (fuel c : nat) self :
  let log := poll_loop_prints query fuel c self in
  count is_polling_error log
  = length (filter (λ i, failed (query i (submitted_report_id self)))
              (seq c (count is_attempt log))).
Proof.
  cbn zeta. revert c self. induction fuel as [|fuel IH]; intros c self; [done|].
  destruct (polling_active self && (c <? max_polls)) eqn:Hc.
  2:{ by rewrite poll_loop_prints_exit. }
  destruct (poll_loop_prints_unfold fuel c self Hc) as [_ ->].
  pose proof (poll_iteration_prints_count
    (query c (submitted_report_id self)) self) as (Ha & He & Hb).
  pose proof (poll_iteration_frame (query c (submitted_report_id self)) self)
    as (_ & _ & Hid & _).
  rewrite !count_app, Ha, He. cbn [Nat.add seq]. rewrite filter_length_cons.
  f_equal. destruct (poll_iteration _ _) as [self' [|]]; cbn [fst snd] in *.
  { by rewrite !count_nil. }
  rewrite <- Hid. apply IH.
Qed.

End poll_loop_prints.

(** ** Theorems *)

(** [start_response_polling] prints one line whatever it does; the line
    says that polling starts exactly when a thread is started, and when
    none is the object is as it was. *)
Theorem start_response_polling_logged self :
  ∃ text, start_response_polling_prints self = [Printed text]
    ∧ is_launch (Printed text) = (start_response_polling self).2
    ∧ (is_launch (Printed text) = false → (start_response_polling self).1 = self).
Proof.
  unfold start_response_polling_prints, start_response_polling.
  repeat case_cond; by eexists.
Qed.

(** The reply of the assistant is the model's and nothing is printed, or it
    is the sentence that stands in for it and the error is printed: the
    text of the error goes to the log and not to the page. *)
Theorem fallback_logged chat history self :
  truthy history && is_onboarded self = true →
  let request := (reply_request history self).1 in
  match chat request with
  | Some reply =>
      bot_response_prints chat history self = []
      ∧ response_text chat history self = reply
  | None =>
      bot_response_prints chat history self = [reply_error request]
      ∧ response_text chat history self = (reply_request history self).2
  end.
Proof.
  intros Hguard. unfold bot_response_prints, response_text. rewrite Hguard.
  destruct (reply_request history self) as [request fallback]. simpl.
  by destruct (chat request).
Qed.

(** The statements of a thread stepped alone to its end print what the
    loop prints as one function, and nothing after it. *)
Theorem thread_log_poll_for_response query self (k : nat) :
  thread_run_prints query (5 * max_polls + 2 + k) thread_start self
  = poll_for_response_prints query self.
Proof.
  destruct (thread_loop_prints query max_polls 0 self)
    as (n & Hn & Hrun & Hlog); [lia|].
  replace (5 * max_polls + 2 + k) with (n + (1 + (5 * max_polls + 1 - n + k)))
    by lia.
  unfold thread_start. rewrite thread_run_prints_add, Hrun, Hlog.
  cbn [fst snd]. rewrite thread_run_prints_add. cbn [thread_run_prints thread_run].
  rewrite thread_step_exit. cbn [fst snd].
  by rewrite thread_run_prints_terminated, !app_nil_r.
Qed.

(** C25: The log of _poll_for_response run alone has the line of its start
    once and a line for every attempt, at least poll_count and at most
    max_polls of them; the errors in it are exactly the attempts that failed
    (the query raised or its first row cannot be rendered), and every one of
    them is counted in poll_count. *)
Theorem poll_errors_logged query self :
  let log := poll_for_response_prints query self in
  let n := (poll_for_response query self).2 in
  count is_begin log = 1
  ∧ n ≤ count is_attempt log ≤ max_polls
  ∧ count is_polling_error log
    = length (filter (λ i, failed (query i (submitted_report_id self)))
                (seq 0 (count is_attempt log)))
  ∧ count is_polling_error log ≤ n.
Proof.
  cbn zeta. unfold poll_for_response_prints, poll_for_response.
  pose proof (poll_loop_prints_count query max_polls 0 self) as (He & Ha & Hm & Hb).
  pose proof (poll_loop_prints_errors query max_polls 0 self) as Herr.
  destruct (poll_loop query max_polls 0 self) as [self' n].
  rewrite !count_cons, Hb.
  change (is_begin (Printed msg_begin)) with true.
  change (is_attempt (Printed msg_begin)) with false.
  change (is_polling_error (Printed msg_begin)) with false.
  cbn [fst snd Nat.b2n Nat.add] in *. rewrite <- Herr. lia.
Qed.

(** C24: Every thread of the system was announced: a run of handler calls
    and thread statements from the start prints the line of
    start_response_polling that says polling starts exactly as many times as
    the system has threads. *)
Theorem threads_logged es uuid now url key :
  let s := sys_init uuid now url key in
  length (threads (sys_run es s)) = count is_launch (sys_run_prints es s).
Proof. cbn zeta. by rewrite sys_run_prints_launch. Qed.

(** The same on a page: the actions of a user, the steps of the chains and
    the statements of the threads start as many threads as they print
    lines that say so. *)
Theorem ui_threads_logged acts u :
  length (threads (sys (ui_run acts u)))
  = length (threads (sys u)) + count is_launch (ui_run_prints acts u).
Proof.
  revert u. induction acts as [|a acts IH]; intros u; simpl.
  { rewrite count_nil. lia. }
  change (ui_run (a :: acts) u) with (ui_run acts (ui_step a u)).
  rewrite count_app, IH, ui_step_prints_launch. lia.
Qed.

(** ** Examples *)

(** The store raises at the second attempt and has the reply at the
    fourth: four attempts and one error are printed, and three attempts
    are counted. *)
Example log_answered :
  poll_for_response_prints example_answered example_polling
  = [Printed msg_begin; Printed msg_attempt; Printed msg_attempt;
     polling_error None; Printed msg_attempt; Printed msg_attempt]
  ∧ (poll_for_response example_answered example_polling).2 = 3.
Proof. by vm_compute. Qed.

(** No reply arrives: after the line of the last attempt nothing is
    printed, though the monitoring has ended. *)
Example log_timeout_silent :
  poll_for_response_prints example_silent example_polling
  = Printed msg_begin :: replicate 120 (Printed msg_attempt)
  ∧ polling_active (poll_for_response example_silent example_polling).1 = false.
Proof. by vm_compute. Qed.

(** A row that is not a reply is stored and fails to render at every
    attempt: the log has an error with the key that is missing for each
    of the 120 attempts. *)
Example log_malformed :
  let log := poll_for_response_prints example_malformed example_polling in
  log !! 2 = Some (polling_error (Some (KeyError "urgency_level")))
  ∧ count is_polling_error log = 120.
Proof. by vm_compute. Qed.

(** A session from the start to the reply: the push announces the thread,
    the thread its start and its one attempt. *)
Example log_session :
  sys_run_prints (example_turn ++ [Push example_created] ++ example_answer 0)
    example_start
  = [Printed "🔄 Starting background polling for report ID: r-1";
     Printed msg_begin; Printed msg_attempt].
Proof. by vm_compute. Qed.

(** Without the settings of the lookup store the object says so when it is
    created and again when a report is pushed; the page says that the
    report is monitored. *)
Example unwatched_only_logged :
  let s := sys_run example_turn (sys_init "7f0c" sample_time None None) in
  init_prints None None
  = [Printed "⚠️ Supabase credentials not found in .env file"]
  ∧ sys_step_prints (Push example_created) s = [Printed msg_cannot_start]
  ∧ str_in "Now monitoring for specialist response"
      (push_to_care_bridge example_created (app s)).2 = true
  ∧ threads (sys_step (Push example_created) s) = [].
Proof. by vm_compute. Qed.

(** An image with the child's name in its path: the path is printed. *)
Example log_image :
  ui_run_prints
    [EditMessage {| text := ""; files := ["/tmp/gradio/sam_drawing.png"] |};
     SubmitMessage example_chat example_clock; Like true 0]
    (ui_run example_onboarding example_ui)
  = [Printed "Image file detected: /tmp/gradio/sam_drawing.png";
     Printed "User feedback: 👍 Helpful on message 0"].
Proof. by vm_compute. Qed.
