(* ===== verification/Style.v ===== *)
(** * Style: the style sheet and the classes of the page

    The style sheet [css] of [src/app.py] (lines 511 to 644) as data:
    [style_sheet] lists its rules ([Css.Rule]: a selector and its
    declarations) with the comments above them and the block
    [@media (max-width: 768px)]; [Css.css_text] writes a sheet as text, and
    the text of [style_sheet] is [Texts.css] byte for byte.

    The program names classes of the sheet in three places: the
    [elem_classes] of components ([Interface.elem_classes], and the column
    of the form), the [class] attributes of the HTML blocks the layout
    fixes ([html_classes] reads them), and the [class] attributes of the
    HTML the handlers return ([Handlers.div], [child_display]).  This file
    shows that every class named has a rule ([layout_styled],
    [statuses_styled]), which rules are named nowhere, and that the banner
    of the main column carries the text typed into the form as it was
    typed. *)

From S2P Require Import Spec2Rocq PyStr PyVal PyTime Protocol Session Conversation.
From S2P Require Import Submission Polling Report Handlers Texts Concurrency.
From S2P Require Import Interface.
From Stdlib Require Import QArith_base.
Local Close Scope Q_scope.

(** ** The style sheet as data *)

Module Css.

(** [property: value;] or [property: value !important;]. *)
Record Declaration : Type := {
  property : string;
  value : string;
  important : bool
}.

(** The three forms of selector the sheet has: [.class], [.class tag]
    and [.class:state]. *)
Inductive Selector : Type :=
| OfClass (class : string)
| Inside (class tag : string)
| When (class state : string).

Record Rule : Type := {
  selector : Selector;
  declarations : list Declaration
}.

(** A rule, or the rules under [@media (max-width: ...px)]. *)
Inductive Body : Type :=
| Styled (rule : Rule)
| Media (max_width : nat) (rules : list Rule).

(** A rule or a block with the comment above it. *)
Record Item : Type := {
  comment : option string;
  body : Body
}.

Definition decl (property value : string) : Declaration :=
  {| property := property; value := value; important := false |}.

Definition forced (property value : string) : Declaration :=
  {| property := property; value := value; important := true |}.

Definition class_of (s : Selector) : string :=
  match s with OfClass c | Inside c _ | When c _ => c end.

(** The rules of a sheet, those of the media blocks included, and the
    classes that have a rule. *)
Definition rules (sheet : list Item) : list Rule :=
  sheet ≫= λ item,
    match body item with Styled rule => [rule] | Media _ rules => rules end.

Definition styled (sheet : list Item) : list string :=
  (λ rule, class_of (selector rule)) <$> rules sheet.

(** *** The text of a sheet *)

Definition indent (n : nat) : string := str_concat (replicate n " ").

Definition selector_text (s : Selector) : string :=
  match s with
  | OfClass c => "." +:+ c
  | Inside c tag => "." +:+ c +:+ " " +:+ tag
  | When c state => "." +:+ c +:+ ":" +:+ state
  end.

Definition declaration_text (i : nat) (d : Declaration) : string :=
  indent i +:+ property d +:+ ": " +:+ value d
  +:+ (if important d then " !important" else "") +:+ ";" +:+ nl.

Definition rule_text (i : nat) (r : Rule) : string :=
  indent i +:+ selector_text (selector r) +:+ " {" +:+ nl
  +:+ str_concat (declaration_text (i + 4) <$> declarations r)
  +:+ indent i +:+ "}" +:+ nl.

Definition body_text (b : Body) : string :=
  match b with
  | Styled rule => rule_text 0 rule
  | Media max_width rules =>
      "@media (max-width: " +:+ pretty max_width +:+ "px) {" +:+ nl
      +:+ str_join (indent 4 +:+ nl) (rule_text 4 <$> rules)
      +:+ "}" +:+ nl
  end.

Definition item_text (item : Item) : string :=
  from_option (λ c, "/* " +:+ c +:+ " */" +:+ nl) "" (comment item)
  +:+ body_text (body item).

Definition css_text (sheet : list Item) : string :=
  nl +:+ str_join nl (item_text <$> sheet).

(** No property is declared twice in a rule. *)
Definition rule_ok (r : Rule) : Prop := NoDup (property <$> declarations r).

End Css.

Import Css.

(** ** The style sheet of the program *)

Definition style_sheet : list Item := [
  {| comment := Some "Main container styling";
     body := Styled
       {| selector := OfClass "gradio-container";
          declarations := [
         forced "max-width" "900px";
         forced "margin" "0 auto";
         decl "font-family" "'Segoe UI', Tahoma, Geneva, Verdana, sans-serif"] |} |};
  {| comment := Some "Onboarding specific styles";
     body := Styled
       {| selector := OfClass "onboarding-container";
          declarations := [
         decl "background" "linear-gradient(135deg, #667eea 0%, #764ba2 100%)";
         decl "color" "white";
         decl "padding" "40px 30px";
         decl "border-radius" "20px";
         decl "margin" "20px 0";
         decl "text-align" "center";
         decl "box-shadow" "0 10px 30px rgba(0,0,0,0.2)"] |} |};
  {| comment := None;
     body := Styled
       {| selector := OfClass "welcome-form";
          declarations := [
         decl "background" "white";
         decl "color" "#333";
         decl "padding" "30px";
         decl "border-radius" "15px";
         decl "margin" "20px 0";
         decl "box-shadow" "0 5px 20px rgba(0,0,0,0.1)"] |} |};
  {| comment := None;
     body := Styled
       {| selector := OfClass "form-section";
          declarations := [
         decl "margin" "20px 0";
         decl "text-align" "left"] |} |};
  {| comment := None;
     body := Styled
       {| selector := Inside "form-section" "label";
          declarations := [
         decl "font-weight" "600";
         decl "color" "#2d3436";
         decl "margin-bottom" "8px";
         decl "display" "block"] |} |};
  {| comment := Some "Header styling";
     body := Styled
       {| selector := OfClass "header-container";
          declarations := [
         decl "background" "linear-gradient(135deg, #667eea 0%, #764ba2 100%)";
         decl "color" "white";
         decl "padding" "30px 20px";
         decl "border-radius" "15px";
         decl "margin-bottom" "25px";
         decl "text-align" "center";
         decl "box-shadow" "0 4px 15px rgba(0,0,0,0.1)"] |} |};
  {| comment := Some "Status indicators";
     body := Styled
       {| selector := OfClass "status-success";
          declarations := [
         decl "background" "linear-gradient(135deg, #84fab0 0%, #8fd3f4 100%)";
         decl "border-left" "4px solid #00b894";
         decl "padding" "15px 20px";
         decl "border-radius" "8px";
         decl "margin" "15px 0";
         decl "color" "#00b894";
         decl "font-weight" "500"] |} |};
  {| comment := None;
     body := Styled
       {| selector := OfClass "status-warning";
          declarations := [
         decl "background" "linear-gradient(135deg, #fff3cd 0%, #ffeaa7 100%)";
         decl "border-left" "4px solid #f39c12";
         decl "padding" "15px 20px";
         decl "border-radius" "8px";
         decl "margin" "15px 0";
         decl "color" "#e67e22"] |} |};
  {| comment := None;
     body := Styled
       {| selector := OfClass "status-info";
          declarations := [
         decl "background" "linear-gradient(135deg, #a8edea 0%, #fed6e3 100%)";
         decl "border-left" "4px solid #74b9ff";
         decl "padding" "15px 20px";
         decl "border-radius" "8px";
         decl "margin" "15px 0";
         decl "color" "#0984e3"] |} |};
  {| comment := Some "Button styling";
     body := Styled
       {| selector := OfClass "primary-button";
          declarations := [
         forced "background" "linear-gradient(135deg, #667eea 0%, #764ba2 100%)";
         forced "border" "none";
         forced "color" "white";
         forced "padding" "15px 30px";
         forced "border-radius" "25px";
         forced "font-weight" "600";
         forced "font-size" "16px";
         forced "transition" "all 0.3s ease";
         forced "width" "100%"] |} |};
  {| comment := None;
     body := Styled
       {| selector := When "primary-button" "hover";
          declarations := [
         forced "transform" "translateY(-2px)";
         forced "box-shadow" "0 8px 25px rgba(102, 126, 234, 0.4)"] |} |};
  {| comment := Some "Chat interface styling";
     body := Styled
       {| selector := OfClass "chat-container";
          declarations := [
         decl "background" "white";
         decl "border-radius" "15px";
         decl "padding" "20px";
         decl "box-shadow" "0 2px 10px rgba(0,0,0,0.1)";
         decl "margin-bottom" "20px"] |} |};
  {| comment := None;
     body := Styled
       {| selector := OfClass "child-info-display";
          declarations := [
         decl "background" "linear-gradient(135deg, #ddd6fe 0%, #e0e7ff 100%)";
         decl "border" "1px solid #c4b5fd";
         decl "padding" "15px 20px";
         decl "border-radius" "10px";
         decl "margin" "15px 0";
         decl "color" "#5b21b6"] |} |};
  {| comment := Some "Mobile responsiveness";
     body := Media 768 [
       {| selector := OfClass "gradio-container";
          declarations := [
         forced "max-width" "100%";
         forced "margin" "0 10px"] |};
       {| selector := OfClass "onboarding-container";
          declarations := [
         decl "padding" "25px 20px";
         decl "margin" "10px 0"] |};
       {| selector := OfClass "welcome-form";
          declarations := [
         decl "padding" "20px";
         decl "margin" "15px 0"] |}] |}].

(** ** The classes the page names *)

(** The values of the [class] attributes of an HTML text, in order:
    [skip] characters are passed over, then the text is searched for
    [class=] and the quote after it or, inside a value, read up to the
    closing quote. *)
Fixpoint class_values (skip : nat) (inside : option string) (s : string)
  : list string :=
  match s with
  | "" => []
  | String a s' =>
      match skip, inside with
      | S n, _ => class_values n inside s'
      | O, Some w =>
          if Ascii.eqb a dquote then w :: class_values 0 None s'
          else class_values 0 (Some (w +:+ String a "")) s'
      | O, None =>
          if str_startswith s ("class=" +:+ dq) then class_values 6 (Some "") s'
          else class_values 0 None s'
      end
  end.

(** The words of a value, which spaces separate. *)
Fixpoint words (word : string) (s : string) : list string :=
  let close := if truthy word then [word] else [] in
  match s with
  | "" => close
  | String a s' =>
      if Ascii.eqb a " " then close ++ words "" s'
      else words (word +:+ String a "") s'
  end.

Definition html_classes (html : string) : list string :=
  class_values 0 None html ≫= words "".

(** The classes the layout names: those given to components and columns
    and those of the HTML it fixes. *)
Fixpoint layout_classes (b : Block) : list string :=
  let among := fix among (bs : list Block) : list string :=
    match bs with [] => [] | b :: bs => layout_classes b ++ among bs end in
  match b with
  | Blocks children | Row children | Tab _ children => among children
  | Column _ classes children => classes ++ among children
  | Fixed Kind.HTML text => html_classes text
  | Named w => elem_classes w
  | Fixed _ _ | Anonymous _ _ => []
  end.

(** The classes the handlers put on what they return. *)
Definition handler_classes : list string :=
  ["child-info-display"; "status-success"; "status-warning"; "status-info"].

(** ** The status lines *)

(** The components that show a status line of a handler. *)
Definition status_widgets : list Widget.t :=
  [Widget.onboarding_status; Widget.progress_status; Widget.care_bridge_status;
   Widget.response_status].

(** A status line: nothing, or a block of a class that has a rule. *)
Definition status_text (s : string) : Prop :=
  s = "" ∨ ∃ c body, s = div c body ∧ c ∈ styled style_sheet.

(** A value fits a component when it is a status line, or the component
    shows none. *)
Definition status_at (w : Widget.t) (v : Value) : Prop :=
  w ∈ status_widgets → status_text (text_of v).

Definition statuses_styled (p : Page) : Prop := ∀ w, status_at w (p w).

(** ** A name for the examples *)

(** A name that carries markup. *)
Definition example_markup : string :=
  "<b class=" +:+ dq +:+ "x" +:+ dq +:+ ">Sam</b>".

(** ** Lemmas: values delivered to a page *)

Section pointwise.
Context (P : Widget.t → Value → Prop).

Lemma insert_pointwise w v (p : Page) :
  P w v → (∀ w', P w' (p w')) → ∀ w', P w' (<[w := v]> p w').
Proof.
  intros Hv Hp w'. destruct (decide (w = w')) as [<-|Hne].
  - by rewrite page_lookup_insert.
  - by rewrite page_lookup_insert_ne.
Qed.

(** When every value delivered has the property at its component, the
    page keeps it. *)
Lemma deliver_pointwise ws vs (p : Page) :
  Forall (λ wv, P wv.1 wv.2) (zip ws vs) →
  (∀ w, P w (p w)) → ∀ w, P w (deliver ws vs p w).
Proof.
  revert vs p. induction ws as [|w ws IH]; intros [|v vs] p Hvs Hp; try done.
  rewrite deliver_cons. apply Forall_cons in Hvs as [Hv Hvs].
  by apply IH, insert_pointwise.
Qed.
End pointwise.

(** ** Lemmas: the status lines the handlers return *)

Lemma status_text_div c body : c ∈ handler_classes → status_text (div c body).
Proof.
  intros Hc. right. exists c, body. split; [done|].
  revert Hc. apply (Forall_forall (λ c, c ∈ styled style_sheet)).
  apply (bool_decide_unpack _). by vm_compute.
Qed.

#[local] Hint Extern 1 (_ ∈ handler_classes) =>
  apply (bool_decide_unpack _); reflexivity : core.
#[local] Hint Resolve status_text_div : core.

Lemma handle_onboarding_status n a g l self :
  status_text (Handlers.onboarding_status (handle_onboarding n a g l self).2).
Proof.
  unfold handle_onboarding.
  destruct (complete_onboarding n a g l self) as [self' [[] message]];
    simpl; auto.
Qed.

Lemma report_next_status chat validate clock g self y :
  (report_next chat validate clock g self).2.2 = Some y → status_text y.2.
Proof.
  destruct g; simpl; try done;
    try destruct (generate_comprehensive_report _ _ _ _ _) as [[? ?] ?];
    intros [= <-]; simpl; unfold update_progress; first [by left|by auto].
Qed.

Lemma push_to_care_bridge_status post self :
  status_text (push_to_care_bridge post self).2.
Proof.
  unfold push_to_care_bridge.
  destruct (push_report_to_care_bridge _ _ _) as [[self' started] [[] message]];
    simpl; auto.
Qed.

Lemma check_for_response_status self response status :
  check_for_response self = Ok (response, status) → status_text status.
Proof.
  unfold check_for_response.
  destruct (get_specialist_response self) as [[[] content]|]; simpl; [| |done];
    repeat case_match; intros [= <- <-]; auto.
Qed.

(** ** Lemmas: the status lines on the page *)

Lemma page_init_statuses : statuses_styled page_init.
Proof.
  intros w Hw. left. revert w Hw.
  apply (Forall_forall (λ w, text_of (page_init w) = "")). by repeat constructor.
Qed.

Lemma status_at_other w v : w ∉ status_widgets → status_at w v.
Proof. by intros Hw ?. Qed.

#[local] Hint Extern 1 (status_at _ _) =>
  apply status_at_other, (bool_decide_unpack _); reflexivity : core.

(** The values are delivered to the outputs of an event, each of which a
    status line fits. *)
Ltac delivered :=
  unfold statuses_styled in *; cbn [page];
  apply (deliver_pointwise status_at); [|done];
  repeat first [apply Forall_nil_2 | apply Forall_cons_2]; cbn [fst snd];
  auto; intros _; cbn [text_of].

Lemma advance_statuses i u :
  statuses_styled (page u) → statuses_styled (page (advance i u)).
Proof.
  intros Hp. unfold advance.
  destruct (chains u !! i) as [[chat g| |chat validate clock g]|]; [| | |done].
  - destruct (bot_next chat g _) as [self [g' [h|]]]; [|done]. delivered.
  - delivered.
  - pose proof (report_next_status chat validate clock g (app (sys u))) as Hy.
    destruct (report_next chat validate clock g _) as [self [g' [y|]]]; [|done].
    delivered. by apply Hy.
Qed.

Lemma ui_step_statuses a u :
  statuses_styled (page u) → statuses_styled (page (ui_step a u)).
Proof.
  intros Hp. unfold ui_step. destruct (enabled a (page u)); [|done].
  destruct a; simpl; try done;
    try (unfold edit, statuses_styled in *; cbn [page];
         apply (insert_pointwise status_at); by auto).
  - unfold click_start.
    destruct (onboarding_inputs _) as [[[[n a] g] l]|]; [|done].
    pose proof (handle_onboarding_status n a g l (app (sys u))) as Hst.
    destruct (handle_onboarding _ _ _ _ _) as [self view]. by delivered.
  - unfold submit_message. destruct (add_message _ _ _ _) as [self [h box]].
    delivered.
  - delivered.
  - unfold click_push.
    pose proof (push_to_care_bridge_status post (app (sys u))) as Hst.
    destruct (push_to_care_bridge _ _) as [[self started] st]. by delivered.
  - unfold click_check.
    destruct (check_for_response _) as [[r st]|] eqn:Hcheck; [|done].
    delivered. by eapply check_for_response_status.
  - by apply advance_statuses.
  - apply page_init_statuses.
Qed.

Lemma ui_run_statuses acts u :
  statuses_styled (page u) → statuses_styled (page (ui_run acts u)).
Proof.
  revert u. induction acts as [|a acts IH]; intros u Hu; [done|].
  by apply IH, ui_step_statuses.
Qed.

(** ** Theorems *)

(** The style sheet as data is the style sheet of the source: written as
    text it is the literal passed to gr.Blocks, byte for byte. *)
Theorem style_sheet_text : css_text style_sheet = css.
Proof. by vm_compute. Qed.

(** Every class the layout names (the elem_classes of the components and
    of the column of the form, and the class attributes of the HTML blocks)
    has a rule in the style sheet. *)
Theorem layout_styled :
  Forall (λ c, c ∈ styled style_sheet) (layout_classes layout).
Proof. apply (bool_decide_unpack _). by vm_compute. Qed.

(** C26: On every page a user can reach, each of the four components that
    show the status of a handler (onboarding_status, progress_status,
    care_bridge_status, response_status) holds nothing or a div whose class
    has a rule in the style sheet css. *)
Theorem ui_reachable_statuses_styled u :
  ui_reachable u → statuses_styled (page u).
Proof.
  induction 1 as [uuid now url key|a u _ IH];
    [apply page_init_statuses|by apply ui_step_statuses].
Qed.

Lemma ui_reachable_statuses_styled_witness :
  statuses_styled
    (page (ui_run (example_onboarding
                   ++ [ClickPush example_created; ClickCheck]) example_ui)).
Proof.
  apply ui_reachable_statuses_styled, ui_reachable_run, ui_reachable_init.
Defined.

(** ** Examples *)

(** No rule declares a property twice. *)
Example style_sheet_ok : Forall rule_ok (rules style_sheet).
Proof. apply (bool_decide_unpack _). by vm_compute. Qed.

(** Two classes have rules and are named nowhere in the program: the one
    of the platform's own container, twice, and [header-container]. *)
Example rules_not_named :
  filter (λ c, c ∉ layout_classes layout ++ handler_classes) (styled style_sheet)
  = ["gradio-container"; "header-container"; "gradio-container"].
Proof. by vm_compute. Qed.

(** The classes the handlers name have rules, and the line of
    [save_report_with_data] names none: it is shown as plain text. *)
Example handler_classes_styled :
  Forall (λ c, c ∈ styled style_sheet) handler_classes
  ∧ html_classes (save_report_with_data None sample_time "report"
                    (init "7f0c" sample_time None None)) = [].
Proof. split; [apply (bool_decide_unpack _)|]; by vm_compute. Qed.

(** Markup typed as the name is markup on the page: the banner has a
    class attribute the program never wrote. *)
Example markup_reaches_banner :
  let u := ui_run [EditName example_markup; EditLocation "Gaza"; ClickStart]
             example_ui in
  shown_of (page u Widget.main_interface) = true
  ∧ html_classes (text_of (page u Widget.child_info_display))
    = ["child-info-display"; "x"].
Proof. by vm_compute. Qed.

(** The notice under the form says that nothing is stored permanently;
    the files [save_report_with_data] writes are named after the child and
    hold the record with the name. *)
Example notice_and_files :
  let files := saved_files sample_time "report" example_session in
  str_in "No personal data is stored permanently." privacy_notice = true
  ∧ files.*1 = ["trauma_report_Sam_20250307_090502.md";
                "assessment_data_Sam_20250307_090502.json"]
  ∧ Forall (λ text, str_in ("name" +:+ dq +:+ ": " +:+ dq +:+ "Sam") text = true)
      (drop 1 files.*2).
Proof. split_and!; [by vm_compute..|]. apply (bool_decide_unpack _). by vm_compute. Qed.
