(* ===== verification/Chain.v ===== *)
(** * Chain: the events of the page step by step, and the lock of the chat input

    [handle_conversation] of [src/app.py] wires three events into a chain:
    [chat_input.submit] calls [add_message], which returns the text box
    emptied and locked; then [bot_response] streams the reply to the chat
    surface, one yield for each character; then a third event unlocks the
    text box.  The click on the report button runs the generator
    [generate_report_with_progress], which yields three times.
    [Interface.ui_step] takes both one step at a time ([SubmitMessage] or
    [ClickGenerate], then [Advance]), so that other actions can come
    between two steps.  This file holds what the chains guarantee:

    - the lock: as long as [New Conversation] is not pressed during a
      chain, the page has at most one chain of [handle_conversation] under
      way and the text box is locked exactly while it has one
      ([lock_inv]), whatever generators of reports run beside it;
    - every chain ends, after a number of steps that is known when it
      starts ([chain_steps]), and a chain of [handle_conversation] leaves
      the text box unlocked;
    - a chain that nothing interrupts does what [conversation_turn] does
      in one step ([ui_equiv]: the same value in every component, the same
      system, the same chains), and the generator of a report what
      [report_turn] does;
    - what [New Conversation] does during a chain: the text box is
      unlocked while the chain goes on, a second chain can start, and the
      turns that were cleared are drawn again;
    - what comes between the steps of the generator of a report: the
      report is generated from the record as it is at the second
      resumption. *)

From S2P Require Import Spec2Rocq PyStr PyVal PyTime Protocol Session Conversation.
From S2P Require Import Submission Polling Report Document Handlers Concurrency.
From S2P Require Import Interface.

(** ** Definitions *)

(** Two states of the interface that show the same: pages are functions,
    and two pages with the same value in every component are the same
    page. *)
Definition ui_equiv (u u' : Ui) : Prop :=
  (∀ w, page u w = page u' w) ∧ sys u = sys u' ∧ chains u = chains u'.

(** What a generator does from where it stands to its end: the state it
    leaves and the histories it yields. *)
Definition bot_rest (chat : ChatRequest → option string) (g : BotGen)
    (self : App) : App * list (list Message) :=
  match g with
  | BotCreated history => bot_response chat history self
  | BotSuspended base shown rest => (self, stream base shown rest)
  | BotFinished => (self, [])
  end.

(** The yields a generator has left. *)
Definition yields_left (chat : ChatRequest → option string) (g : BotGen)
    (self : App) : nat :=
  length (bot_rest chat g self).2.

(** The steps a chain has left: the yields, the resumption that ends the
    generator, and the unlocking; for the generator of a report, its
    resumptions. *)
Definition chain_steps (c : Chain) (self : App) : nat :=
  match c with
  | AtBotMsg chat g => yields_left chat g self + 2
  | AtUnlock => 1
  | AtReport _ _ _ g => report_resumptions g
  end.

(** The chains of [handle_conversation] among the chains under way, and
    how many of them there are. *)
Definition is_talk (c : Chain) : bool :=
  match c with AtReport _ _ _ _ => false | _ => true end.

Definition talking (cs : list Chain) : nat :=
  length (filter (λ c, is_talk c) cs).

(** The steps of the chain a submission starts. *)
Definition turn_steps (chat : ChatRequest → option string)
    (clock : nat → datetime) (u : Ui) : nat :=
  let '(self, (history, _)) :=
    add_message clock (chat_of (page u Widget.chatbot))
      (message_of (box_of (page u Widget.chat_input))) (app (sys u)) in
  chain_steps (AtBotMsg chat (BotCreated history)) self.

(** The history [add_message] returns on a submission, and the reply
    [bot_response] gives to it. *)
Definition turn_history (clock : nat → datetime) (u : Ui) : list Message :=
  (add_message clock (chat_of (page u Widget.chatbot))
     (message_of (box_of (page u Widget.chat_input))) (app (sys u))).2.1.

Definition turn_reply (chat : ChatRequest → option string)
    (clock : nat → datetime) (u : Ui) : string :=
  response_text chat (turn_history clock u)
    (add_message clock (chat_of (page u Widget.chatbot))
       (message_of (box_of (page u Widget.chat_input))) (app (sys u))).1.

Definition input_unlocked (u : Ui) : bool :=
  interactive (box_of (page u Widget.chat_input)).

(** The lock: at most one chain of [handle_conversation], and the text
    box is unlocked exactly when there is none. *)
Definition lock_inv (u : Ui) : Prop :=
  talking (chains u) ≤ 1 ∧ (input_unlocked u = true ↔ talking (chains u) = 0).

(** The actions that start, advance or drop a chain. *)
Definition on_chain (a : Action) : Prop :=
  match a with
  | SubmitMessage _ _ | ClickGenerate _ _ _ | Advance _ | Reload => True
  | _ => False
  end.

(** [New Conversation] is pressed, on screen, while a chain of
    [handle_conversation] is under way. *)
Definition clears_mid_chain (a : Action) (u : Ui) : Prop :=
  a = ClickClear ∧ enabled a (page u) = true ∧ talking (chains u) ≠ 0.

(** A sequence of actions in which that does not happen. *)
Fixpoint patient (acts : list Action) (u : Ui) : Prop :=
  match acts with
  | [] => True
  | a :: acts => ¬ clears_mid_chain a u ∧ patient acts (ui_step a u)
  end.

(** ** A turn for the examples

    Sam's parent is onboarded, types a sentence and submits it; the reply
    has eleven characters.  In [example_arabic] the reply is a greeting of
    five Arabic letters, ten bytes.  In [example_impatient] the parent presses
    [New Conversation] after the third character of the reply, types a
    second sentence and submits it while the first reply is streamed. *)

Definition example_submit : list Action :=
  example_onboarding
  ++ [EditMessage {| text := "He cannot sleep"; files := [] |};
      SubmitMessage example_chat example_clock].

Definition example_impatient : list Action :=
  example_submit
  ++ [Advance 0; Advance 0; Advance 0; ClickClear;
      EditMessage {| text := "She is afraid"; files := [] |};
      SubmitMessage example_chat example_clock].

Definition example_arabic : ChatRequest → option string := λ _, Some "مرحبا".

(** ** Lemmas: pages that show the same *)

Global Instance ui_equiv_equivalence : Equivalence ui_equiv.
Proof.
  split.
  - by intros u.
  - intros u u' (Hp & Hs & Hc). by split_and!.
  - intros u u' u'' (Hp & Hs & Hc) (Hp' & Hs' & Hc'). split_and!; [|congruence..].
    intros w. by rewrite Hp.
Qed.

Global Instance page_proper w : Proper (ui_equiv ==> eq) (λ u, page u w).
Proof. by intros u u' (Hp & _). Qed.

Global Instance sys_proper : Proper (ui_equiv ==> eq) sys.
Proof. by intros u u' (_ & Hs & _). Qed.

Global Instance chains_proper : Proper (ui_equiv ==> eq) chains.
Proof. by intros u u' (_ & _ & Hc). Qed.

(** What a delivery leaves in a component depends on what the component
    held, not on the rest of the page. *)
Lemma deliver_ext_at ws vs (p p' : Page) w :
  p w = p' w → deliver ws vs p w = deliver ws vs p' w.
Proof.
  revert vs p p'. induction ws as [|w0 ws IH]; intros [|v vs] p p' Hp; try done.
  rewrite !deliver_cons. apply IH.
  destruct (decide (w0 = w)) as [<-|Hne].
  - by rewrite !page_lookup_insert.
  - by rewrite !page_lookup_insert_ne.
Qed.

Lemma deliver_each_ext_at {A} ws (f : A → list Value) (xs : list A) (p p' : Page) w :
  p w = p' w →
  foldl (λ p x, deliver ws (f x) p) p xs w
  = foldl (λ p x, deliver ws (f x) p) p' xs w.
Proof.
  revert p p'. induction xs as [|x xs IH]; intros p p' Hp; [done|].
  simpl. by apply IH, deliver_ext_at.
Qed.

Lemma deliver_ext ws vs (p p' : Page) :
  (∀ w, p w = p' w) → ∀ w, deliver ws vs p w = deliver ws vs p' w.
Proof. intros Hp w. apply deliver_ext_at, Hp. Qed.

Lemma deliver_each_ext {A} ws (f : A → list Value) (xs : list A) (p p' : Page) :
  (∀ w, p w = p' w) →
  ∀ w, foldl (λ p x, deliver ws (f x) p) p xs w
       = foldl (λ p x, deliver ws (f x) p) p' xs w.
Proof. intros Hp w. apply deliver_each_ext_at, Hp. Qed.

(** A value written last hides what the component held. *)
Lemma insert_override w0 v (p p' : Page) :
  (∀ w, w ≠ w0 → p w = p' w) → ∀ w, <[w0 := v]> p w = <[w0 := v]> p' w.
Proof.
  intros Hp w. destruct (decide (w0 = w)) as [<-|Hne].
  - by rewrite !page_lookup_insert.
  - rewrite !page_lookup_insert_ne by done. by apply Hp.
Qed.

Lemma insert_ext w0 v (p p' : Page) :
  (∀ w, p w = p' w) → ∀ w, <[w0 := v]> p w = <[w0 := v]> p' w.
Proof. intros Hp. by apply (deliver_ext [w0] [v]). Qed.

(** The pages of two states that show the same, when the rest of the two
    states is the same term. *)
Ltac same_page :=
  split_and!; simpl; [|done..];
  first [ by apply deliver_ext | by apply deliver_each_ext
        | by apply insert_ext | done ].

(** An action reads the page one component at a time: on two states that
    show the same it gives two states that show the same. *)
Global Instance ui_step_proper a : Proper (ui_equiv ==> ui_equiv) (ui_step a).
Proof.
  intros [p s c] [p' s' c'] (Hp & Hs & Hc). simpl in *. subst s' c'.
  unfold ui_step. simpl. rewrite !enabled_cases, !Hp.
  destruct a; simpl; try case_cond; try same_page; try done;
    unfold click_start, onboarding_inputs, submit_message,
      click_save, click_push, click_check, advance; simpl; rewrite ?Hp;
    repeat case_match; same_page.
Qed.

Global Instance ui_run_proper acts : Proper (ui_equiv ==> ui_equiv) (ui_run acts).
Proof.
  induction acts as [|a acts IH]; intros u u' Hu; [done|].
  simpl. by apply IH, ui_step_proper.
Qed.

(** ** Lemmas: the lock *)

Lemma ui_step_chains a u : ¬ on_chain a → chains (ui_step a u) = chains u.
Proof.
  intros Ha. unfold ui_step. case_cond; [|done].
  destruct a; try done; simpl;
    unfold click_start, click_clear, click_push, click_check;
    by repeat case_match.
Qed.

(** A step of a chain leaves a chain of the same kind in its place, or
    takes the chain away: the unlocking always, a generator of a report
    when it ends. *)
Lemma advance_chains i u c :
  chains u !! i = Some c →
  match c with
  | AtUnlock => chains (advance i u) = delete i (chains u)
  | _ =>
      (is_talk c = false ∧ chains (advance i u) = delete i (chains u))
      ∨ ∃ c', chains (advance i u) = <[i := c']> (chains u)
              ∧ is_talk c' = is_talk c
  end.
Proof.
  intros Hi. unfold advance. rewrite Hi.
  destruct c as [chat g| |chat validate clock g]; [|done|].
  - destruct (bot_next chat g _) as [self [g' [h|]]]; right; by eexists.
  - destruct (report_next chat validate clock g _) as [self [g' [y|]]];
      [right; by eexists|by left].
Qed.

(** Only the unlocking takes a chain of [handle_conversation] away. *)
Lemma advance_talking i u :
  talking (chains (advance i u))
  = talking (chains u)
    - match chains u !! i with Some AtUnlock => 1 | _ => 0 end.
Proof.
  destruct (chains u !! i) as [c|] eqn:Hi; [|unfold advance; rewrite Hi; lia].
  pose proof (advance_chains i u c Hi) as Hcs. unfold talking.
  pose proof (filter_length_delete is_talk _ _ _ Hi) as Hdel.
  destruct c; simpl in *;
    try (destruct Hcs as [[? ->]|(c' & -> & Hc')];
         [|pose proof (filter_length_insert is_talk _ _ _ c' Hi) as Hins;
           rewrite Hc' in Hins; simpl in Hins]);
    try rewrite Hcs; simpl in *; lia.
Qed.

(** And only the unlocking writes the text box. *)
Lemma advance_unlocked i u :
  input_unlocked (advance i u)
  = match chains u !! i with
    | Some AtUnlock => true
    | _ => input_unlocked u
    end.
Proof.
  unfold advance, input_unlocked.
  destruct (chains u !! i) as [[chat g| |chat validate clock g]|]; [|done| |done].
  - destruct (bot_next chat g _) as [self [g' [h|]]]; [|done].
    simpl. by rewrite deliver_notin by (by apply (bool_decide_unpack _)).
  - destruct (report_next chat validate clock g _) as [self [g' [y|]]]; [|done].
    simpl. by rewrite deliver_notin by (by apply (bool_decide_unpack _)).
Qed.

Lemma submit_message_lock chat clock u :
  talking (chains u) = 0 → lock_inv (submit_message chat clock u).
Proof.
  intros Hc. unfold submit_message, lock_inv, input_unlocked.
  pose proof (add_message_locked clock (chat_of (page u Widget.chatbot))
    (message_of (box_of (page u Widget.chat_input))) (app (sys u))) as Hbox.
  destruct (add_message _ _ _ _) as [self [h box]]. simpl in *. subst box.
  unfold talking in *. rewrite filter_length_app, Hc. simpl. split; [lia|]. done.
Qed.

Lemma advance_lock i u : lock_inv u → lock_inv (advance i u).
Proof.
  intros [Hlen Hbox]. unfold lock_inv.
  rewrite advance_talking, advance_unlocked.
  destruct (chains u !! i) as [c|] eqn:Hi; [|by rewrite Nat.sub_0_r].
  pose proof (filter_length_lookup is_talk _ _ _ Hi) as Hc. fold (talking (chains u)) in Hc.
  destruct c; simpl in *; rewrite ?Nat.sub_0_r; try done.
  split; [lia|]. split; [lia|done].
Qed.

Lemma click_generate_lock chat validate clock u :
  lock_inv u → lock_inv (click_generate chat validate clock u).
Proof.
  unfold lock_inv, input_unlocked, click_generate, talking. simpl.
  rewrite filter_length_app. simpl. by rewrite Nat.add_0_r.
Qed.

(** The actions that write the text box, and the others. *)
Lemma action_cases a :
  (¬ on_chain a ∧ Widget.chat_input ∉ touched a)
  ∨ a = ClickClear ∨ (∃ message, a = EditMessage message) ∨ on_chain a.
Proof.
  destruct a; simpl; eauto; left; (split; [tauto|]);
    by apply (bool_decide_unpack _).
Qed.

(** Every action keeps the lock, but [New Conversation] during a chain. *)
Lemma ui_step_lock a u :
  lock_inv u → ¬ clears_mid_chain a u → lock_inv (ui_step a u).
Proof.
  intros Hinv Hclear. destruct (enabled a (page u)) eqn:Hen;
    [|by rewrite ui_step_disabled].
  pose proof Hinv as [Hlen Hbox]. unfold input_unlocked in Hbox.
  assert (Hun : target a = Some Widget.chat_input → talking (chains u) = 0).
  { intros Ht. unfold enabled in Hen. rewrite Ht in Hen. simpl in Hen.
    bool_hyps. by apply Hbox. }
  destruct (action_cases a) as [[Hch Hout]|[->|[[m ->]|Hch]]].
  - unfold lock_inv, input_unlocked. by rewrite ui_step_chains, ui_step_frame.
  - assert (talking (chains u) = 0) as Hcs.
    { destruct (talking (chains u)) eqn:E; [done|]. destruct Hclear.
      unfold clears_mid_chain. by rewrite E. }
    unfold ui_step. rewrite Hen. unfold lock_inv. simpl. rewrite Hcs.
    split; [lia|done].
  - specialize (Hun eq_refl). unfold ui_step. rewrite Hen.
    unfold lock_inv, edit. simpl. rewrite Hun. split; [lia|done].
  - unfold ui_step. rewrite Hen. destruct a; try done.
    + by apply submit_message_lock, Hun.
    + by apply click_generate_lock.
    + by apply advance_lock.
    + unfold lock_inv, talking. simpl. split; [lia|done].
Qed.

Lemma ui_init_lock uuid now url key : lock_inv (ui_init uuid now url key).
Proof. unfold lock_inv, talking. simpl. split; [lia|done]. Qed.

Lemma ui_run_lock acts u : lock_inv u → patient acts u → lock_inv (ui_run acts u).
Proof.
  revert u. induction acts as [|a acts IH]; intros u Hu Hp; [done|].
  destruct Hp as [Ha Hp]. by apply IH; [apply ui_step_lock|].
Qed.

(** ** Lemmas: the steps of a chain *)

(** One resumption yields the first of the histories the generator has
    left, or ends it when it has none left. *)
Lemma bot_rest_next chat g self :
  bot_rest chat g self
  = let '(self', (g', yielded)) := bot_next chat g self in
    match yielded with
    | Some history =>
        ((bot_rest chat g' self').1, history :: (bot_rest chat g' self').2)
    | None => (self', [])
    end.
Proof.
  destruct g as [history|base shown [|c rest]|]; try done.
  unfold bot_rest, bot_response, bot_next. case_cond; [|done].
  by destruct (str_chars (response_text chat history self)).
Qed.

Lemma chain_steps_pos c self : 0 < chain_steps c self.
Proof. destruct c as [| |? ? ? []]; simpl; lia. Qed.

(** A step of a chain takes one from the steps it has left; the last one
    takes the chain away, and unlocks the text box when the chain is one
    of [handle_conversation]. *)
Lemma advance_steps i u c :
  chains u !! i = Some c →
  (chain_steps c (app (sys u)) = 1
   ∧ chains (advance i u) = delete i (chains u)
   ∧ (is_talk c = true → input_unlocked (advance i u) = true))
  ∨ ∃ c', chains (advance i u) = <[i := c']> (chains u)
          ∧ S (chain_steps c' (app (sys (advance i u))))
            = chain_steps c (app (sys u))
          ∧ is_talk c' = is_talk c.
Proof.
  intros Hi. unfold advance. rewrite Hi.
  destruct c as [chat g| |chat validate clock g]; [|by left|].
  - right. unfold chain_steps, yields_left. rewrite (bot_rest_next chat g).
    destruct (bot_next chat g _) as [self [g' [h|]]]; simpl; eauto.
  - pose proof (report_next_resumptions chat validate clock g (app (sys u))) as Hn.
    destruct (report_next chat validate clock g _) as [self [g' [y|]]];
      [right; simpl; eauto|left; by simpl].
Qed.

Lemma list_delete_insert {A} (l : list A) i x : delete i (<[i := x]> l) = delete i l.
Proof.
  revert i. induction l as [|y l IH]; intros [|i]; simpl; try done.
  by rewrite IH.
Qed.

Lemma list_delete_end {A} (l : list A) x : delete (length l) (l ++ [x]) = l.
Proof. induction l as [|y l IH]; simpl; [done|]. by rewrite IH. Qed.

Lemma ui_run_advance i n u :
  ui_run (replicate (S n) (Advance i)) u = ui_run (replicate n (Advance i)) (advance i u).
Proof. done. Qed.

Lemma chain_run i n : ∀ u c,
  chains u !! i = Some c → chain_steps c (app (sys u)) = n →
  chains (ui_run (replicate n (Advance i)) u) = delete i (chains u)
  ∧ (is_talk c = true → input_unlocked (ui_run (replicate n (Advance i)) u) = true).
Proof.
  induction n as [|n IH]; intros u c Hi Hn.
  { pose proof (chain_steps_pos c (app (sys u))). lia. }
  rewrite ui_run_advance.
  destruct (advance_steps i u c Hi) as [(H1 & Hcs & Hun)|(c' & Hc' & Hn' & Htalk)].
  - assert (n = 0) as -> by lia. done.
  - destruct (IH (advance i u) c') as [Hcs Hun].
    + rewrite Hc'. apply list_lookup_insert_eq. by eapply lookup_lt_Some.
    + lia.
    + rewrite Hcs, Hc', list_delete_insert, <- Htalk. done.
Qed.

Lemma ui_run_cons a acts u : ui_run (a :: acts) u = ui_run acts (ui_step a u).
Proof. done. Qed.

Lemma ui_run_app acts acts' u : ui_run (acts ++ acts') u = ui_run acts' (ui_run acts u).
Proof. apply foldl_app. Qed.

(** A chain run until its generator has ended: every history it had left
    is on the chat surface in turn, the state is the one the generator
    leaves, and the unlocking is next. *)
Lemma bot_run chat i n : ∀ g u,
  chains u !! i = Some (AtBotMsg chat g) →
  yields_left chat g (app (sys u)) = n →
  ui_run (replicate (S n) (Advance i)) u
  = {| page := foldl (λ p h, deliver (outputs bot_msg) [Chat h] p) (page u)
                 (bot_rest chat g (app (sys u))).2;
       sys := {| app := (bot_rest chat g (app (sys u))).1;
                 threads := threads (sys u) |};
       chains := <[i := AtUnlock]> (chains u) |}.
Proof.
  induction n as [|n IH]; intros g u Hi Hn; unfold yields_left in Hn;
    rewrite (bot_rest_next chat g) in Hn |- *;
    rewrite ui_run_advance; unfold advance; rewrite Hi;
    destruct (bot_next chat g _) as [self [g' [h|]]]; try done.
  simpl in Hn. injection Hn as Hn. apply lookup_lt_Some in Hi.
  rewrite (IH g'); [|by apply list_lookup_insert_eq|done].
  cbn [page sys chains app threads fst snd foldl].
  by rewrite list_insert_insert_eq.
Qed.

(** The generator of a report run to its end: the pairs it had left are
    on the page in turn, the state is the one the generator leaves, and
    the chain is gone. *)
Lemma report_run chat validate clock i n : ∀ g u,
  chains u !! i = Some (AtReport chat validate clock g) →
  report_resumptions g = n →
  ui_run (replicate n (Advance i)) u
  = let r := report_take chat validate clock n g (app (sys u)) in
    {| page := foldl (λ p y, deliver (outputs generate_report_click)
                               [Str y.1; Str y.2] p) (page u) r.2.2;
       sys := {| app := r.1; threads := threads (sys u) |};
       chains := delete i (chains u) |}.
Proof.
  induction n as [|n IH]; intros g u Hi Hn; [by destruct g|].
  pose proof (report_next_resumptions chat validate clock g (app (sys u))) as Hres.
  rewrite ui_run_advance. unfold advance. rewrite Hi. cbn [report_take].
  destruct (report_next chat validate clock g _) as [self [g' [y|]]].
  - apply lookup_lt_Some in Hi.
    rewrite (IH g'); [|by apply list_lookup_insert_eq|lia].
    cbn [page sys chains app threads].
    destruct (report_take chat validate clock n g' self) as [self' [g'' ys]].
    cbn [fst snd foldl]. by rewrite list_delete_insert.
  - by assert (n = 0) as -> by lia.
Qed.

(** ** Theorems *)

(** A chain that nothing interrupts does what [conversation_turn] does
    in one step. *)
Lemma turn_in_one_step chat clock u :
  enabled (SubmitMessage chat clock) (page u) = true →
  ui_equiv
    (ui_run (SubmitMessage chat clock
             :: replicate (turn_steps chat clock u)
                  (Advance (length (chains u)))) u)
    (conversation_turn chat clock u).
Proof.
  intros Hen. rewrite ui_run_cons. unfold ui_step. rewrite Hen.
  unfold turn_steps, conversation_turn, handle_conversation, submit_message.
  pose proof (add_message_locked clock (chat_of (page u Widget.chatbot))
    (message_of (box_of (page u Widget.chat_input))) (app (sys u))) as Hbox.
  destruct (add_message _ _ _ _) as [self [h box]]. simpl in Hbox. subst box.
  unfold chain_steps. rewrite Nat.add_comm. cbn [Nat.add].
  rewrite replicate_S_end, ui_run_app.
  erewrite bot_run; [|by apply list_lookup_middle|done].
  cbn [bot_rest page sys chains app threads].
  destruct (bot_response chat h self) as [self' ys]. cbn [fst snd].
  cbn [ui_run foldl ui_step enabled target]. unfold advance.
  cbn [page sys chains].
  rewrite list_lookup_insert_eq by (rewrite length_app; simpl; lia).
  rewrite list_delete_insert, list_delete_end.
  split_and!; [|done..]. cbn [page].
  rewrite (deliver_each_notin _ (λ h, [Chat h]))
    by (by apply (bool_decide_unpack _)).
  apply insert_override. intros w Hw.
  apply (deliver_each_ext_at _ (λ h, [Chat h]) ys).
  by apply page_lookup_insert_ne.
Qed.

(** The generator of a report that nothing interrupts does what
    [report_turn] does in one step. *)
Lemma report_in_one_step chat validate clock u :
  enabled (ClickGenerate chat validate clock) (page u) = true →
  ui_run (ClickGenerate chat validate clock
          :: replicate 4 (Advance (length (chains u)))) u
  = report_turn chat validate clock u.
Proof.
  intros Hen. rewrite ui_run_cons. unfold ui_step. rewrite Hen.
  unfold click_generate, report_turn.
  erewrite (report_run _ _ _ _ 4); [|by apply list_lookup_middle|done].
  rewrite report_take_all. cbn [page sys chains app threads fst snd].
  rewrite list_delete_end.
  by destruct (generate_report_with_progress _ _ _ _).
Qed.

(** C28: A chain that nothing interrupts, taken step by step (the
    submission, then turn_steps steps of the chain it started), leaves what
    handle_conversation leaves in one step: the same value in every
    component, the same application object and threads, and the chains that
    were under way before; so do the actions made after it. *)
Theorem turn_uninterrupted chat clock acts u :
  enabled (SubmitMessage chat clock) (page u) = true →
  ui_equiv
    (ui_run (SubmitMessage chat clock
             :: replicate (turn_steps chat clock u)
                  (Advance (length (chains u))) ++ acts) u)
    (ui_run acts (conversation_turn chat clock u)).
Proof.
  intros Hen. rewrite app_comm_cons, ui_run_app.
  by rewrite turn_in_one_step.
Qed.

Lemma turn_uninterrupted_witness :
  let u := ui_run (example_onboarding
                   ++ [EditMessage {| text := "He cannot sleep"; files := [] |}])
             example_ui in
  ui_equiv
    (ui_run (SubmitMessage example_chat example_clock
             :: replicate (turn_steps example_chat example_clock u)
                  (Advance (length (chains u)))
                ++ [ClickClear]) u)
    (ui_run [ClickClear] (conversation_turn example_chat example_clock u)).
Proof. by apply turn_uninterrupted. Defined.

(** C16: As long as New Conversation is not pressed during a chain, a page
    has at most one chain of handle_conversation under way and the chat
    input is unlocked exactly when it has none: add_message locks it, the
    steps of bot_response leave it locked, and only the last event of the
    chain unlocks it, whatever edits, clicks, loads, thread statements and
    resumptions of report generators come between. *)
Theorem lock_excludes acts uuid now url key :
  patient acts (ui_init uuid now url key) →
  lock_inv (ui_run acts (ui_init uuid now url key)).
Proof. apply ui_run_lock, ui_init_lock. Qed.

Lemma lock_excludes_witness :
  lock_inv (ui_run (example_submit ++ [Advance 0; Advance 0]) example_ui).
Proof.
  apply lock_excludes. cbn -[ui_step]. unfold clears_mid_chain.
  repeat split; by intros [? _].
Defined.

(** The generator of generate_report_with_progress taken one resumption
    at a time (the click, then four resumptions of the generator it created,
    when nothing comes between) leaves what the generator run to its end
    leaves: the three pairs delivered in turn, the assessment stored, the
    chain gone; so do the actions made after it. *)
Theorem report_uninterrupted chat validate clock acts u :
  enabled (ClickGenerate chat validate clock) (page u) = true →
  ui_run (ClickGenerate chat validate clock
          :: replicate
               (chain_steps (AtReport chat validate clock ReportCreated)
                  (app (sys u)))
               (Advance (length (chains u))) ++ acts) u
  = ui_run acts (report_turn chat validate clock u).
Proof.
  intros Hen. cbn [chain_steps report_resumptions].
  rewrite app_comm_cons, ui_run_app.
  by rewrite report_in_one_step.
Qed.

Lemma report_uninterrupted_witness :
  let u := ui_run example_submit example_ui in
  ui_run (ClickGenerate example_mute example_validate example_clock
          :: replicate
               (chain_steps
                  (AtReport example_mute example_validate example_clock
                     ReportCreated) (app (sys u)))
               (Advance (length (chains u)))
             ++ [ClickSave None sample_time]) u
  = ui_run [ClickSave None sample_time]
      (report_turn example_mute example_validate example_clock u).
Proof. by apply report_uninterrupted. Defined.

(** Under the lock a submission during a chain does nothing: the text box
    does not take it. *)
Lemma submit_waits chat clock u :
  lock_inv u → talking (chains u) ≠ 0 →
  ui_step (SubmitMessage chat clock) u = u.
Proof.
  intros [_ Hbox] Hcs. apply ui_step_disabled. rewrite enabled_cases.
  destruct (input_unlocked u) eqn:E; [by destruct Hcs; apply Hbox|].
  unfold input_unlocked in E. by rewrite E, andb_false_r.
Qed.

(** C21: Every chain ends: after chain_steps steps (one for each yield the
    generator of bot_response has left, that is, for each character of the
    reply still to come, one for the resumption that ends it, one for the
    unlocking; for a generator of generate_report_with_progress one for each
    yield and one for its return) the chain is gone from the page, and after
    a chain of handle_conversation the chat input is unlocked, whatever the
    model answers and also when bot_response returns without a reply. *)
Theorem chain_ends i u c :
  chains u !! i = Some c →
  let u' := ui_run (replicate (chain_steps c (app (sys u))) (Advance i)) u in
  chains u' = delete i (chains u)
  ∧ (is_talk c = true → input_unlocked u' = true).
Proof. intros Hi. by apply (chain_run i _ u c). Qed.

Lemma chain_ends_witness :
  let u := ui_run example_submit example_ui in
  let u' := ui_run (replicate 13 (Advance 0)) u in
  chains u' = [] ∧ (true = true → input_unlocked u' = true).
Proof.
  exact (chain_ends 0 (ui_run example_submit example_ui)
           (AtBotMsg example_chat
              (BotCreated [user_turn (Text "He cannot sleep")])) eq_refl).
Defined.

(** [New Conversation] unlocks the text box and leaves the chains under
    way. *)
Lemma click_clear_chains u :
  enabled ClickClear (page u) = true →
  input_unlocked (ui_step ClickClear u) = true
  ∧ chains (ui_step ClickClear u) = chains u.
Proof. intros Hen. unfold ui_step. by rewrite Hen. Qed.

(** C30: New Conversation pressed during a chain breaks the lock:
    clear_conversation returns the text box interactive while the chain is
    still under way, so the chat input takes a second message during the
    reply to the first. *)
Theorem clear_breaks_lock u :
  enabled ClickClear (page u) = true → talking (chains u) ≠ 0 →
  ¬ lock_inv (ui_step ClickClear u).
Proof.
  intros Hen Hcs [_ Hbox]. destruct (click_clear_chains u Hen) as [Hun Heq].
  apply Hcs. rewrite <- Heq. by apply Hbox.
Qed.

Lemma clear_breaks_lock_witness :
  ¬ lock_inv (ui_step ClickClear
                (ui_run (example_submit ++ [Advance 0]) example_ui)).
Proof. by apply clear_breaks_lock. Defined.

(** ** The transcript *)

(** The chat surface after the yields of an event shows the last one. *)
Lemma deliver_each_last (p : Page) (h : list Message) (hs : list (list Message)) :
  chat_of (foldl (λ p h, deliver (outputs bot_msg) [Chat h] p) p (h :: hs)
             Widget.chatbot)
  = default h (last hs).
Proof.
  revert p h. induction hs as [|h' hs IH]; intros p h; [done|].
  rewrite last_cons. change (foldl ?f p (h :: h' :: hs)) with (foldl f (f p h) (h' :: hs)).
  rewrite IH. by destruct (last hs).
Qed.

(** C31: After a turn with a reply, report_data[conversation_history] is the
    history add_message built and the chat surface shows that history
    followed by the reply: bot_response appends the reply to its own copy of
    the history, so the report is one turn behind what is shown. *)
Theorem transcript_lags chat clock u :
  is_onboarded (app (sys u)) = true →
  turn_history clock u ≠ [] → turn_reply chat clock u ≠ "" →
  let u' := conversation_turn chat clock u in
  conversation_history (report_data (app (sys u'))) = turn_history clock u
  ∧ chat_of (page u' Widget.chatbot)
    = turn_history clock u ++ [assistant_turn (turn_reply chat clock u)].
Proof.
  intros Hon Hh Hr. unfold turn_reply, turn_history in *.
  unfold conversation_turn, handle_conversation.
  pose proof (add_message_stored clock (chat_of (page u Widget.chatbot))
    (message_of (box_of (page u Widget.chat_input))) (app (sys u)) Hon) as Hst.
  pose proof (add_message_frame clock (chat_of (page u Widget.chatbot))
    (message_of (box_of (page u Widget.chat_input))) (app (sys u)))
    as (_ & Hon' & _).
  destruct (add_message _ _ _ _) as [self [h box]]. cbn [fst snd] in *.
  pose proof (bot_response_report chat h self) as Hrep.
  rewrite bot_response_accepted in Hrep |- *
    by (rewrite Hon', Hon; by destruct h).
  cbn [fst snd page sys app] in *. rewrite Hrep, Hst. split; [done|].
  rewrite deliver_notin by (by apply (bool_decide_unpack _)).
  rewrite deliver_each_last.
  by rewrite stream_reply_last.
Qed.

Lemma transcript_lags_witness :
  let u := ui_run (example_onboarding
                   ++ [EditMessage {| text := "He cannot sleep"; files := [] |}])
             example_ui in
  let u' := conversation_turn example_chat example_clock u in
  conversation_history (report_data (app (sys u')))
  = turn_history example_clock u
  ∧ chat_of (page u' Widget.chatbot)
    = turn_history example_clock u
      ++ [assistant_turn (turn_reply example_chat example_clock u)].
Proof. by apply transcript_lags. Defined.

(** ** Examples *)

(** The turn of the examples, step by step, ends as the turn in one step:
    the reply on the chat surface, the text box empty and unlocked. *)
Example turn_steps_example :
  let u := ui_run example_onboarding example_ui in
  let u := ui_step (EditMessage {| text := "He cannot sleep"; files := [] |}) u in
  turn_steps example_chat example_clock u = 13
  ∧ page (ui_run (SubmitMessage example_chat example_clock
                  :: replicate 13 (Advance 0)) u) Widget.chatbot
    = Chat [user_turn (Text "He cannot sleep"); assistant_turn "I hear you."].
Proof. by vm_compute. Qed.

(** While the reply is streamed the text box is locked and a second
    submission does nothing. *)
Example locked_while_streaming :
  let u := ui_run (example_submit ++ [Advance 0; Advance 0]) example_ui in
  input_unlocked u = false
  ∧ page u Widget.chatbot
    = Chat [user_turn (Text "He cannot sleep"); assistant_turn "I "]
  ∧ chains (ui_step (SubmitMessage example_chat example_clock) u) = chains u.
Proof. by vm_compute. Qed.

(** [New Conversation] during the reply: two chains are under way, the
    report holds the second sentence only, and the next step of the first
    chain draws the cleared turns again in place of the second sentence. *)
Example cleared_turns_redrawn :
  let u := ui_run example_impatient example_ui in
  length (chains u) = 2
  ∧ page u Widget.chatbot = Chat [user_turn (Text "She is afraid")]
  ∧ conversation_history (report_data (app (sys u)))
    = [user_turn (Text "She is afraid")]
  ∧ page (ui_step (Advance 0) u) Widget.chatbot
    = Chat [user_turn (Text "He cannot sleep"); assistant_turn "I he"].
Proof. by vm_compute. Qed.

(** When the first chain has ended the text box is unlocked although the
    second sentence has no reply yet, and the model is sent both
    conversations when it is asked for it. *)
Example unlocked_before_reply :
  let u := ui_run (example_impatient ++ replicate 10 (Advance 0)) example_ui in
  length (chains u) = 1 ∧ input_unlocked u = true
  ∧ page u Widget.chatbot
    = Chat [user_turn (Text "He cannot sleep"); assistant_turn "I hear you."]
  ∧ chat_content <$> ollama_conversation (app (sys (ui_step (Advance 0) u)))
    = ["He cannot sleep"; "I hear you."; "She is afraid"; "I hear you."].
Proof. by vm_compute. Qed.

(** A reply in Arabic is streamed letter by letter: five yields for its
    ten bytes, so the chain has seven steps. *)
Example arabic_reply_streamed :
  let u := ui_run (example_onboarding
                   ++ [EditMessage {| text := "He cannot sleep"; files := [] |}])
             example_ui in
  String.length "مرحبا" = 10
  ∧ turn_steps example_arabic example_clock u = 7
  ∧ page (ui_run [SubmitMessage example_arabic example_clock; Advance 0; Advance 0] u)
      Widget.chatbot
    = Chat [user_turn (Text "He cannot sleep"); assistant_turn "مر"].
Proof. by vm_compute. Qed.

(** The data file saved after the first turn holds the parent's sentence
    and not the reply that is on the chat surface. *)
Example saved_transcript_lags :
  let u := ui_run (example_submit ++ replicate 13 (Advance 0)) example_ui in
  length (chat_of (page u Widget.chatbot)) = 2
  ∧ message_document <$> conversation_history (report_data (app (sys u)))
    = [PDict [("role", PStr "user"); ("content", PStr "He cannot sleep")]].
Proof. by vm_compute. Qed.

(** ** Examples: the generator of a report between other events *)

(** The first yield blanks the report on the page: between the first and
    the second resumption nothing can be saved, also when a report was
    shown before the click. *)
Example report_blank_while_generating :
  let u := ui_run (example_submit
                   ++ [ClickGenerate example_mute example_validate example_clock]
                   ++ replicate 4 (Advance 1)) example_ui in
  let u' := ui_run [ClickGenerate example_mute example_validate example_clock;
                    Advance 1] u in
  str_in "**Name:** Sam" (text_of (page u Widget.report_output)) = true
  ∧ page u' Widget.report_output = Str ""
  ∧ page u' Widget.progress_status
    = Str (div "status-info" "🚀 Starting assessment generation...")
  ∧ page (ui_step (ClickSave None sample_time) u') Widget.save_status
    = Str "❌ No report available to save.".
Proof. by vm_compute. Qed.

(** The report is generated at the second resumption, from the record as
    it is then: a sentence submitted after the click is in the report. *)
Example report_of_later_state :
  let u := ui_run (example_submit ++ replicate 13 (Advance 0)
                   ++ [ClickGenerate example_mute example_validate example_clock;
                       Advance 0;
                       EditMessage {| text := "She is afraid"; files := [] |};
                       SubmitMessage example_chat example_clock;
                       Advance 0]) example_ui in
  str_in "He cannot sleep She is afraid"
    (text_of (page u Widget.report_output)) = true
  ∧ length (chains u) = 2.
Proof. by vm_compute. Qed.

(** The steps of the reply and of the report taken in turn: both end, the
    text box is unlocked, the progress line is cleared. *)
Example report_and_reply_in_turn :
  let u := ui_run (example_submit
                   ++ [ClickGenerate example_mute example_validate example_clock]
                   ++ mjoin (replicate 4 [Advance 0; Advance 1])
                   ++ replicate 9 (Advance 0)) example_ui in
  chains u = [] ∧ input_unlocked u = true
  ∧ page u Widget.progress_status = Str ""
  ∧ page u Widget.chatbot
    = Chat [user_turn (Text "He cannot sleep"); assistant_turn "I hear you."].
Proof. by vm_compute. Qed.
