(* ===== verification/Schedule.v ===== *)
(** * Schedule: the order in which the platform runs what is under way

    The generators of [bot_response] and of
    [generate_report_with_progress] are resumed by the platform, and the
    polling thread runs beside them: which step comes next is not fixed by
    [src/app.py].  This file holds what is true of every order.

    - Every schedule of chain steps ends ([chain_step] is well founded):
      a generator that has not started will yield a number of times that
      depends on the record when it starts, so the measure is a pair, the
      generators of [bot_response] not yet started and the steps the
      others have left ([rank]).
    - The statements of a polling thread commute with every event of the
      page but [Push to Care Bridge] and [Check for Specialist Response]:
      the thread reads and writes [polling_active] and
      [specialist_response], the handlers of the other events do neither
      ([Mover]).  A run in which the two buttons are not pressed leaves
      what the same run leaves with the thread's statements moved to the
      front ([thread_moves_first]). *)

From Stdlib Require Import Wellfounded Relation_Operators.
From S2P Require Import Spec2Rocq PyStr PyVal PyTime Protocol Session Conversation.
From S2P Require Import Submission Polling Report Document Handlers Concurrency.
From S2P Require Import Interface Chain.

(** ** Definitions *)

(** A step of one of the chains under way. *)
Definition chain_step (u' u : Ui) : Prop :=
  ∃ i, i < length (chains u) ∧ u' = advance i u.

(** The generator of [bot_response] has not been resumed yet: the reply,
    and with it the number of its yields, is not known. *)
Definition is_created (c : Chain) : bool :=
  match c with AtBotMsg _ (BotCreated _) => true | _ => false end.

(** The steps a chain has left, when its generator has started. *)
Definition steps_known (c : Chain) : nat :=
  match c with
  | AtBotMsg _ (BotCreated _) => 0
  | AtBotMsg _ (BotSuspended _ _ rest) => length rest + 2
  | AtBotMsg _ BotFinished => 2
  | AtUnlock => 1
  | AtReport _ _ _ g => report_resumptions g
  end.

Definition rank (u : Ui) : nat * nat :=
  (length (filter (λ c, is_created c) (chains u)),
   sum_list_with steps_known (chains u)).

(** What a handler of the main flow promises the polling thread: it does
    not read [polling_active] or [specialist_response] (on an object in
    which one of them is changed it returns what it returns on the object,
    with the same change), and it does not write them. *)
Class Mover {Out : Type} (h : App → App * Out) : Prop := {
  mover_flag b self :
    h (set_polling_active b self) = (set_polling_active b (h self).1, (h self).2);
  mover_reply row self :
    h (set_specialist_response row self)
    = (set_specialist_response row (h self).1, (h self).2);
  mover_keeps self :
    polling_active (h self).1 = polling_active self
    ∧ specialist_response (h self).1 = specialist_response self
}.

(** An event of the page as a handler on the object followed by what the
    platform does with its outputs: the values delivered and the chains
    started, replaced or ended. *)
Definition lift {Out : Type} (h : App → App * Out)
    (k : Out → Page * list Chain) (u : Ui) : Ui :=
  let '(self, out) := h (app (sys u)) in
  {| page := (k out).1;
     sys := {| app := self; threads := threads (sys u) |};
     chains := (k out).2 |}.

(** [f] on the page [p] with the chains [cs] is such an event, whatever
    the system behind the page is. *)
Definition lifted (f : Ui → Ui) (p : Page) (cs : list Chain) : Prop :=
  ∃ (Out : Type) (h : App → App * Out) (k : Out → Page * list Chain),
    Mover h ∧ ∀ s, f {| page := p; sys := s; chains := cs |}
                   = lift h k {| page := p; sys := s; chains := cs |}.

(** The events whose handlers call neither [start_response_polling] nor
    [get_specialist_response]. *)
Definition main_flow (a : Action) : Prop :=
  match a with ClickPush _ | ClickCheck | Tick _ _ => False | _ => True end.

Definition is_tick (a : Action) : bool :=
  match a with Tick _ _ => true | _ => false end.

(** No press of [Push to Care Bridge] or [Check for Specialist Response]. *)
Definition unwatched (a : Action) : Prop :=
  match a with ClickPush _ | ClickCheck => False | _ => True end.

(** Two objects that differ in [polling_active] and [specialist_response]
    at most, and two states of the interface that show the same, have the
    same chains under way and differ in those two attributes and in the
    threads at most. *)
Definition same_main (self self' : App) : Prop :=
  report_data self = report_data self'
  ∧ is_onboarded self = is_onboarded self'
  ∧ submitted_report_id self = submitted_report_id self'
  ∧ ollama_conversation self = ollama_conversation self'
  ∧ supabase_url self = supabase_url self'
  ∧ supabase_key self = supabase_key self'
  ∧ supabase self = supabase self'.

Definition same_front (u u' : Ui) : Prop :=
  page u = page u' ∧ chains u = chains u'
  ∧ same_main (app (sys u)) (app (sys u')).

(** A state with a thread for the examples: Sam's parent has said one
    sentence, the reply has been streamed, and the report is pushed. *)
Definition example_watched : Ui :=
  ui_run (example_submit ++ replicate 13 (Advance 0)
          ++ [ClickPush example_created]) example_ui.

(** ** Lemmas: sums over a list *)

Lemma sum_list_with_insert {A} (f : A → nat) (l : list A) (i : nat) (x y : A) :
  l !! i = Some x →
  sum_list_with f (<[i := y]> l) + f x = sum_list_with f l + f y.
Proof.
  revert i. induction l as [|a l IH]; intros [|i] Hi; simplify_eq/=; [lia|].
  specialize (IH i Hi). lia.
Qed.

Lemma sum_list_with_delete {A} (f : A → nat) (l : list A) (i : nat) (x : A) :
  l !! i = Some x → sum_list_with f (delete i l) + f x = sum_list_with f l.
Proof.
  revert i. induction l as [|a l IH]; intros [|i] Hi; simplify_eq/=; [lia|].
  specialize (IH i Hi). lia.
Qed.

(** ** Lemmas: every schedule of chain steps ends *)

(** Once started, the steps a chain has left do not depend on the
    record. *)
Lemma steps_known_chain_steps c self :
  is_created c = false → chain_steps c self = steps_known c.
Proof.
  destruct c as [chat [h|base shown rest|]| |]; try done. intros _.
  unfold chain_steps, yields_left. simpl. by rewrite stream_length.
Qed.

(** A step replaces the chain by one that has started and has fewer steps
    left, or takes it away. *)
Lemma advance_chain i u c :
  chains u !! i = Some c →
  (chains (advance i u) = delete i (chains u)
   ∧ is_created c = false ∧ 0 < steps_known c)
  ∨ ∃ c', chains (advance i u) = <[i := c']> (chains u)
          ∧ is_created c' = false
          ∧ (is_created c = false → steps_known c' < steps_known c).
Proof.
  intros Hi. unfold advance. rewrite Hi.
  destruct c as [chat g| |chat validate clock g].
  - right. destruct g as [h|base shown [|ch rest]|]; simpl;
      try case_cond; simpl;
      try destruct (str_chars _); simpl; eexists; split_and!; try done;
      intros _; simpl; lia.
  - left. simpl. split_and!; [done..|lia].
  - pose proof (report_next_resumptions chat validate clock g (app (sys u))) as Hn.
    destruct (report_next chat validate clock g _) as [self [g' [y|]]]; simpl.
    + right. eexists. split_and!; [done..|]. simpl. lia.
    + left. split_and!; [done..|lia].
Qed.

Lemma advance_rank i u :
  i < length (chains u) →
  slexprod nat nat lt lt (rank (advance i u)) (rank u).
Proof.
  intros Hi. apply lookup_lt_is_Some in Hi as [c Hi]. unfold rank.
  pose proof (filter_length_delete is_created _ _ _ Hi) as Hdel.
  pose proof (sum_list_with_delete steps_known _ _ _ Hi) as Hsum.
  destruct (advance_chain i u c Hi) as [(-> & Hc & Hpos)|(c' & -> & Hc' & Hlt)].
  - rewrite Hc in Hdel. simpl in Hdel. rewrite Nat.add_0_r in Hdel.
    rewrite Hdel. apply right_slex. lia.
  - pose proof (filter_length_insert is_created _ _ _ c' Hi) as Hins.
    pose proof (sum_list_with_insert steps_known _ _ _ c' Hi) as Hsum'.
    rewrite Hc' in Hins. simpl in Hins.
    destruct (is_created c) eqn:Hc; simpl in Hins.
    + apply left_slex. lia.
    + assert (length (filter (λ c, is_created c) (<[i:=c']> (chains u)))
              = length (filter (λ c, is_created c) (chains u))) as -> by lia.
      apply right_slex. specialize (Hlt eq_refl). lia.
Qed.

(** ** Lemmas: the handlers of the main flow are movers *)

Ltac mover :=
  split; intros; cbn;
  repeat (first [case_cond | case_match]; simplify_eq/=); try done.

Global Instance id_mover {Out} (out : App → Out) :
  (∀ b self, out (set_polling_active b self) = out self) →
  (∀ row self, out (set_specialist_response row self) = out self) →
  Mover (λ self, (self, out self)).
Proof. intros Hb Hr. split; intros; simpl; by rewrite ?Hb, ?Hr. Qed.

Global Instance handle_onboarding_mover n a g l : Mover (handle_onboarding n a g l).
Proof. unfold handle_onboarding, complete_onboarding. mover. Qed.

Global Instance add_message_mover clock history message :
  Mover (add_message clock history message).
Proof. unfold add_message. mover. Qed.

Global Instance bot_next_mover chat g : Mover (bot_next chat g).
Proof. unfold bot_next. mover. Qed.

Global Instance handle_clear_mover : Mover handle_clear.
Proof. by split. Qed.

Global Instance report_next_mover chat validate clock g :
  Mover (report_next chat validate clock g).
Proof.
  unfold report_next, generate_comprehensive_report, structured_assessment.
  destruct g; mover.
Qed.

(** ** Lemmas: a statement of the thread and a mover *)

Section mover.
Context {Out : Type} (h : App → App * Out) `{!Mover h}.

Lemma get_specialist_response_mover self :
  get_specialist_response (h self).1 = get_specialist_response self.
Proof.
  unfold get_specialist_response. by destruct (mover_keeps self) as [_ ->].
Qed.

(** The statement after the handler leaves what the handler leaves
    after the statement, and the handler returns the same. *)
Lemma thread_step_mover outcome t self :
  thread_step outcome t (h self).1
  = ((thread_step outcome t self).1, (h (thread_step outcome t self).2).1)
  ∧ (h (thread_step outcome t self).2).2 = (h self).2.
Proof.
  destruct (mover_keeps self) as [Hflag Hreply].
  destruct t as [pc c]. unfold thread_step.
  destruct pc; cbn [Polling.pc poll_count];
    rewrite ?Hflag, ?get_specialist_response_mover;
    repeat case_match; cbn [fst snd]; by rewrite ?mover_reply, ?mover_flag.
Qed.

(** The same on the page: a statement of a thread commutes with the
    event. *)
Lemma lift_tick (k : Out → Page * list Chain) i outcome p s cs :
  let tick (u : Ui) :=
    {| page := page u; sys := sys_step (Poll i outcome) (sys u);
       chains := chains u |} in
  tick (lift h k {| page := p; sys := s; chains := cs |})
  = lift h k (tick {| page := p; sys := s; chains := cs |}).
Proof.
  unfold lift. cbn [page sys chains sys_step].
  destruct (threads s !! i) as [t|] eqn:Hi; cbn [app threads].
  - destruct (thread_step_mover outcome t (app s)) as [Hstep Hout].
    destruct (h (app s)) as [self out] eqn:Hh. cbn [page sys chains app threads].
    rewrite Hi. cbn [fst snd] in *. rewrite Hstep.
    destruct (thread_step outcome t (app s)) as [t' self'].
    cbn [fst snd app threads] in *.
    destruct (h self') as [self'' out']. cbn [fst snd] in *. by subst.
  - destruct (h (app s)) as [self out]. cbn [page sys chains app threads].
    by rewrite Hi.
Qed.
End mover.

(** ** Lemmas: what the thread writes is not seen *)

Global Instance same_main_equivalence : Equivalence same_main.
Proof.
  unfold same_main.
  split; [by intros ?|intros ??; intuition|intros ???; intuition congruence].
Qed.

Lemma same_main_flag b self : same_main (set_polling_active b self) self.
Proof. done. Qed.

Lemma same_main_reply row self : same_main (set_specialist_response row self) self.
Proof. done. Qed.

Lemma thread_step_same_main outcome t self :
  same_main (thread_step outcome t self).2 self.
Proof. unfold thread_step. by repeat case_match. Qed.

(** On two objects that differ in what the thread writes, a mover returns
    the same and leaves two objects that differ in what the thread
    writes. *)
Lemma same_main_cases self self' :
  same_main self self' →
  ∃ b, self' = set_polling_active b self
       ∨ (∃ row, self' = set_specialist_response row (set_polling_active b self))
       ∨ (∃ row, set_polling_active b self = set_specialist_response row self').
Proof.
  destruct self as [r o id pa oc url key sb sr],
    self' as [r' o' id' pa' oc' url' key' sb' sr'].
  intros (? & ? & ? & ? & ? & ? & ?). simplify_eq/=. exists pa'.
  destruct sr' as [row'|], sr as [row|]; eauto.
Qed.

Lemma mover_same_main {Out} (h : App → App * Out) `{!Mover h} self self' :
  same_main self self' →
  (h self).2 = (h self').2 ∧ same_main (h self).1 (h self').1.
Proof.
  intros [b Hcases]%same_main_cases.
  pose proof (mover_flag (h:=h) b self) as Hflag.
  destruct Hcases as [->|[[row ->]|[row E]]].
  - rewrite Hflag. split; [done|]. symmetry. apply same_main_flag.
  - rewrite mover_reply, Hflag. split; [done|].
    symmetry. etrans; [apply same_main_reply|apply same_main_flag].
  - pose proof (mover_reply (h:=h) row self') as Hreply.
    rewrite <- E, Hflag in Hreply. apply pair_equal_spec in Hreply as [Hst Hout].
    split; [done|]. etrans; [symmetry; apply (same_main_flag b)|].
    rewrite Hst. apply same_main_reply.
Qed.

(** Every event of the main flow is a mover followed by deliveries that
    depend on the page and the chains, not on the object: first the events
    that leave the object alone, then the four that call a handler. *)
Lemma lifted_const f p cs q :
  (∀ s, f {| page := p; sys := s; chains := cs |}
        = {| page := q.1; sys := s; chains := q.2 |}) →
  lifted f p cs.
Proof.
  intros Hf. exists unit, (λ self, (self, ())), (λ _, q).
  split; [by apply id_mover|]. intros s. rewrite Hf. by destruct s.
Qed.

Lemma click_start_lifted p cs : lifted click_start p cs.
Proof.
  destruct (onboarding_inputs p) as [[[[n a] g] l]|] eqn:E.
  2:{ apply (lifted_const _ _ _ (p, cs)). intros s. unfold click_start.
      cbn [page]. by rewrite E. }
  exists _, (handle_onboarding n a g l), (λ view,
    (deliver (outputs start_assessment_click)
       [Shown (Handlers.onboarding_section view);
        Shown (Handlers.main_interface view);
        Str (Handlers.child_info_display view);
        Str (Handlers.onboarding_status view)] p, cs)).
  split; [apply _|]. intros s. unfold click_start, lift.
  cbn [page sys chains]. rewrite E.
  by destruct (handle_onboarding n a g l (app s)).
Qed.

Lemma submit_message_lifted chat clock p cs :
  lifted (submit_message chat clock) p cs.
Proof.
  exists _, (add_message clock (chat_of (p Widget.chatbot))
               (message_of (box_of (p Widget.chat_input)))), (λ out,
    (deliver (outputs chat_msg) [Chat out.1; Box out.2] p,
     cs ++ [AtBotMsg chat (BotCreated out.1)])).
  split; [apply _|]. intros s. unfold submit_message, lift.
  cbn [page sys chains].
  by destruct (add_message _ _ _ (app s)) as [self [h box]].
Qed.

Lemma click_clear_lifted p cs : lifted click_clear p cs.
Proof.
  exists _, handle_clear, (λ out,
    (deliver (outputs clear_click) [Chat out.1; Box out.2] p, cs)).
  split; [apply _|]. intros s. unfold click_clear, lift.
  cbn [page sys chains].
  by destruct (handle_clear (app s)) as [self [h box]].
Qed.

Lemma click_save_lifted written now p cs :
  lifted (click_save written now) p cs.
Proof.
  exists _, (λ self, (self, save_report_with_data written now
                              (text_of (p Widget.report_output)) self)),
    (λ out, (deliver (outputs save_report_click) [Str out] p, cs)).
  split; [by apply id_mover|]. intros s. unfold click_save, lift. cbn.
  by destruct s.
Qed.

Lemma advance_lifted i p cs : lifted (advance i) p cs.
Proof.
  destruct (cs !! i) as [[chat g| |chat validate clock g]|] eqn:E.
  - exists _, (bot_next chat g), (λ out,
      (match out.2 with
       | Some history => deliver (outputs bot_msg) [Chat history] p
       | None => p
       end,
       <[i := match out.2 with
              | Some _ => AtBotMsg chat out.1
              | None => AtUnlock
              end]> cs)).
    split; [apply _|]. intros s. unfold advance, lift.
    cbn [page sys chains]. rewrite E.
    by destruct (bot_next chat g (app s)) as [self [g' y]].
  - apply (lifted_const _ _ _
      (deliver (outputs unlock_input)
         [Box (unlocked (box_of (p Widget.chat_input)))] p, delete i cs)).
    intros s. unfold advance. cbn [page sys chains]. by rewrite E.
  - exists _, (report_next chat validate clock g), (λ out,
      (match out.2 with
       | Some y => deliver (outputs generate_report_click) [Str y.1; Str y.2] p
       | None => p
       end,
       match out.2 with
       | Some _ => <[i := AtReport chat validate clock out.1]> cs
       | None => delete i cs
       end)).
    split; [apply _|]. intros s. unfold advance, lift.
    cbn [page sys chains]. rewrite E.
    by destruct (report_next chat validate clock g (app s)) as [self [g' y]].
  - apply (lifted_const _ _ _ (p, cs)). intros s. unfold advance.
    cbn [page sys chains]. by rewrite E.
Qed.

Lemma ui_step_lift a p cs : main_flow a → lifted (ui_step a) p cs.
Proof.
  intros Ha. destruct (enabled a p) eqn:Hen.
  2:{ apply (lifted_const _ _ _ (p, cs)). intros s. unfold ui_step.
      cbn [page]. by rewrite Hen. }
  assert (∀ f, lifted f p cs →
    (∀ u, page u = p → f u = ui_step a u) → lifted (ui_step a) p cs) as Hvia.
  { intros f (Out & h & k & Hm & Hf) Hstep. exists Out, h, k.
    split; [done|]. intros s. by rewrite <- Hstep, Hf. }
  destruct a; try done;
    try (eapply (lifted_const _ _ _ (_, _)); intros ?;
         unfold ui_step, edit, click_generate; cbn [page sys chains];
         rewrite Hen; reflexivity);
    [apply (Hvia _ (click_start_lifted p cs))
    |apply (Hvia _ (submit_message_lifted chat clock p cs))
    |apply (Hvia _ (click_clear_lifted p cs))
    |apply (Hvia _ (click_save_lifted written now p cs))
    |apply (Hvia _ (advance_lifted i p cs))];
    intros u <-; unfold ui_step; by rewrite Hen.
Qed.

(** The events of the main flow keep two states that show the same
    showing the same, and a statement of a thread does not change what a
    state shows. *)
Lemma ui_step_same_front a u u' :
  main_flow a → same_front u u' → same_front (ui_step a u) (ui_step a u').
Proof.
  intros Ha. destruct u as [p s cs], u' as [p' s' cs'].
  intros (Hp & Hcs & Hmain). simplify_eq/=.
  destruct (ui_step_lift a p' cs' Ha) as (Out & h & k & Hm & Hstep).
  rewrite !Hstep. unfold lift. cbn [page sys chains].
  destruct (mover_same_main h (app s) (app s') Hmain) as [Hout Hsame].
  destruct (h (app s)) as [self out], (h (app s')) as [self' out'].
  cbn in *. by subst.
Qed.

Lemma tick_same_front i outcome u u' :
  same_front u u' → same_front (ui_step (Tick i outcome) u) u'.
Proof.
  intros (Hp & Hcs & Hmain). unfold ui_step.
  cbn [enabled target page sys chains sys_step]. split_and!; [done..|].
  destruct (threads (sys u) !! i) as [t|]; [|done].
  pose proof (thread_step_same_main outcome t (app (sys u))) as Hstep.
  destruct (thread_step outcome t (app (sys u))) as [t' self]. cbn in *.
  by etrans.
Qed.

Lemma ui_run_same_front acts : ∀ u u',
  Forall unwatched acts → same_front u u' →
  same_front (ui_run acts u) (ui_run (filter (λ a, negb (is_tick a)) acts) u').
Proof.
  induction acts as [|a acts IH]; intros u u' Hacts Hsame; [done|].
  apply Forall_cons in Hacts as [Ha Hacts].
  rewrite ui_run_cons, filter_cons. destruct (is_tick a) eqn:Ht; simpl.
  - destruct a; try done. by apply IH, tick_same_front.
  - apply IH; [done|]. apply ui_step_same_front; [by destruct a|done].
Qed.

(** A statement of a thread commutes with every event of the main
    flow. *)
Lemma tick_commutes a i outcome u :
  main_flow a →
  ui_step (Tick i outcome) (ui_step a u) = ui_step a (ui_step (Tick i outcome) u).
Proof.
  intros Ha. destruct u as [p s cs].
  destruct (ui_step_lift a p cs Ha) as (Out & h & k & Hm & Hstep).
  unfold ui_step at 1 4. cbn [enabled target page sys chains].
  rewrite !Hstep. apply (lift_tick h).
Qed.

Lemma ticks_commute a ts u :
  main_flow a → Forall (λ t, is_tick t = true) ts →
  ui_run ts (ui_step a u) = ui_step a (ui_run ts u).
Proof.
  intros Ha Hts. revert u. induction Hts as [|t ts Ht _ IH]; intros u; [done|].
  destruct t; try done. rewrite !ui_run_cons, <- IH. by rewrite tick_commutes.
Qed.

(** ** Theorems *)

(** C22: Every schedule of chain steps ends: in whatever order the platform
    resumes the generators of bot_response and of
    generate_report_with_progress and runs the unlocking events, and
    whatever the model answers, there is no endless sequence of steps (the
    relation of a state to the state after a step of one of its chains is
    well founded). *)
Theorem chain_steps_end : well_founded chain_step.
Proof.
  apply (wf_incl _ _ (λ u' u, slexprod nat nat lt lt (rank u') (rank u))).
  - intros u' u (i & Hi & ->). by apply advance_rank.
  - apply (wf_inverse_image _ _ _ rank), wf_slexprod; apply lt_wf.
Qed.

(** C29: The statements of _poll_for_response commute with every event of
    the page but the two buttons of the coordinator: a run in which Push to
    Care Bridge and Check for Specialist Response are not pressed leaves the
    state it leaves when every statement of the threads is run first. *)
Theorem thread_moves_first acts u :
  Forall unwatched acts →
  ui_run acts u
  = ui_run (filter (λ a, is_tick a) acts ++ filter (λ a, negb (is_tick a)) acts) u.
Proof.
  intros Hacts. revert u. induction Hacts as [|a acts Ha _ IH]; intros u; [done|].
  rewrite ui_run_cons, IH, !filter_cons. destruct (is_tick a) eqn:Ht; simpl.
  - done.
  - rewrite !ui_run_app, ui_run_cons. rewrite ticks_commute; [done| |].
    + by destruct a.
    + apply Forall_forall. intros t [Ht' _]%list_elem_of_filter.
      by destruct (is_tick t).
Qed.

Lemma thread_moves_first_witness :
  let acts := [Tick 0 (QueryData [example_reply]);
               EditMessage {| text := "She is afraid"; files := [] |};
               Tick 0 (QueryData [example_reply]);
               SubmitMessage example_chat example_clock;
               Tick 0 (QueryData [example_reply]); Advance 0] in
  ui_run acts example_watched
  = ui_run (filter (λ a, is_tick a) acts ++ filter (λ a, negb (is_tick a)) acts)
      example_watched.
Proof. apply thread_moves_first. by repeat constructor. Defined.

(** C23: What a polling thread does is not seen before Check for Specialist
    Response or Push to Care Bridge is pressed: a run without the two
    buttons leaves the page, the chains and the object, but for
    polling_active and specialist_response, as the same run without the
    statements of the threads. *)
Theorem thread_unseen acts u :
  Forall unwatched acts →
  same_front (ui_run acts u) (ui_run (filter (λ a, negb (is_tick a)) acts) u).
Proof. intros Hacts. by apply ui_run_same_front. Qed.

Lemma thread_unseen_witness :
  let acts := [Tick 0 (QueryData [example_reply]);
               EditMessage {| text := "She is afraid"; files := [] |};
               Tick 0 (QueryData [example_reply]);
               SubmitMessage example_chat example_clock;
               Tick 0 (QueryData [example_reply]); Advance 0] in
  same_front (ui_run acts example_watched)
    (ui_run (filter (λ a, negb (is_tick a)) acts) example_watched).
Proof. apply thread_unseen. by repeat constructor. Defined.

(** ** Examples *)

(** [Check for Specialist Response] does not commute with a statement of
    the thread: before the statement that stores the reply the page says
    that monitoring goes on, after it the reply is shown. *)
Example check_does_not_commute :
  let u := ui_run (replicate 2 (Tick 0 (QueryData [example_reply])))
             example_watched in
  page (ui_run [ClickCheck; Tick 0 (QueryData [example_reply])] u)
    Widget.specialist_response_output = Str ""
  ∧ page (ui_run [Tick 0 (QueryData [example_reply]); ClickCheck] u)
      Widget.specialist_response_output ≠ Str "".
Proof. by vm_compute. Qed.

(** The thread has stored the reply and lowered the flag; nothing on the
    page has changed. *)
Example reply_stored_unseen :
  let u := ui_run (replicate 6 (Tick 0 (QueryData [example_reply])))
             example_watched in
  specialist_response (app (sys u)) = Some example_reply
  ∧ polling_active (app (sys u)) = false
  ∧ (λ w, page u w) <$> Widget.all = (λ w, page example_watched w) <$> Widget.all.
Proof. by vm_compute. Qed.
