(* ===== verification/Journey.v ===== *)
(** * Journey: from the push of a report to the reply on the page

    The path the program is built for, through every part of it: the
    parent presses [Push to Care Bridge] ([push_to_care_bridge],
    [push_report_to_care_bridge], [start_response_polling]), the platform
    accepts the report, the polling thread finds the specialist's reply at
    one of its 120 queries ([_poll_for_response], one statement at a
    time), and the parent presses [Check for Specialist Response]
    ([check_for_response], [get_specialist_response]).  [reply_reaches_page]
    states what is on the page at the end and what is left in the object;
    [timeout_reaches_page] does so for the thread that spends its 120
    queries without a reply.  The lemmas before them give the state after
    each of the three parts. *)

From S2P Require Import Spec2Rocq PyStr PyVal PyTime Protocol Session Conversation.
From S2P Require Import Submission Polling Report Document Handlers Concurrency.
From S2P Require Import Interface Chain.

(** ** Definitions *)

(** The statements of an iteration whose query finds a row that renders:
    the test of the loop, the query, the assignment of the row, the
    rendering, the lowering of the flag. *)
Definition found_at_once (i : nat) (row : pyval) : list Action :=
  replicate 5 (Tick i (QueryData [row])).

(** The statements of an iteration whose query brings nothing or raises:
    the test of the loop, the query, the sleep with the increment. *)
Definition quiet_round (i : nat) (outcome : QueryOutcome) : list Action :=
  replicate 3 (Tick i outcome).

(** The thread [i] until it has found [row], after one quiet iteration
    for each outcome of [quiet]. *)
Definition found_after (i : nat) (quiet : list QueryOutcome) (row : pyval)
  : list Action :=
  (quiet ≫= quiet_round i) ++ found_at_once i row.

(** The thread [i] until it has returned, after as many quiet iterations
    as the loop allows: the test of the loop fails and the statement
    after the loop lowers the flag. *)
Definition timed_out (i : nat) (quiet : list QueryOutcome) : list Action :=
  (quiet ≫= quiet_round i) ++ replicate 2 (Tick i QueryRaised).

(** The object after a push that was accepted with [report_id], after the
    thread has stored [row], and after it has lowered the flag. *)
Definition pushed (report_id : pyval) (self : App) : App :=
  set_polling_active true (set_submitted_report_id report_id self).

Definition replied (report_id row : pyval) (self : App) : App :=
  set_polling_active false (set_specialist_response row (pushed report_id self)).

(** The journey of the examples: Sam's parent has said one sentence and
    the reply has been streamed. *)
Definition example_ready : Ui :=
  ui_run (example_submit ++ replicate 13 (Advance 0)) example_ui.

(** ** Lemmas: the thread that was started last *)

Lemma tick_last ts t t' self self' outcome p cs :
  thread_step outcome t self = (t', self') →
  ui_step (Tick (length ts) outcome)
    {| page := p; sys := {| app := self; threads := ts ++ [t] |}; chains := cs |}
  = {| page := p; sys := {| app := self'; threads := ts ++ [t'] |}; chains := cs |}.
Proof.
  intros Hstep. unfold ui_step.
  cbn [enabled target sys_step sys page chains threads app].
  by rewrite list_lookup_middle, Hstep, insert_app_r_alt, Nat.sub_diag.
Qed.

(** The five statements of [found_at_once], from the head of the loop. *)
Lemma found_at_once_run ts c row self p cs :
  polling_active self = true → c < max_polls →
  is_ok (format_specialist_response row) = true →
  ui_run (found_at_once (length ts) row)
    {| page := p;
       sys := {| app := self;
                 threads := ts ++ [{| pc := AtLoopHead; poll_count := c |}] |};
       chains := cs |}
  = {| page := p;
       sys := {| app := set_polling_active false (set_specialist_response row self);
                 threads := ts ++ [{| pc := AtExit; poll_count := c |}] |};
       chains := cs |}.
Proof.
  intros Hactive Hc Hrow. unfold found_at_once. cbn [replicate ui_run foldl].
  erewrite tick_last
    by (apply thread_step_head_enter; rewrite Hactive; by apply Nat.ltb_lt).
  erewrite tick_last by (by apply (thread_step_query_row _ _ _ row [])).
  erewrite tick_last by apply thread_step_store.
  erewrite tick_last
    by (apply (thread_step_render _ _ _ true);
        by rewrite is_ok_get_specialist_response).
  by erewrite tick_last by apply thread_step_deactivate.
Qed.

(** A quiet iteration moves the counter and nothing else. *)
Lemma quiet_round_run ts c outcome self p cs :
  polling_active self = true → c < max_polls → no_rows outcome = true →
  ui_run (quiet_round (length ts) outcome)
    {| page := p;
       sys := {| app := self;
                 threads := ts ++ [{| pc := AtLoopHead; poll_count := c |}] |};
       chains := cs |}
  = {| page := p;
       sys := {| app := self;
                 threads := ts ++ [{| pc := AtLoopHead; poll_count := S c |}] |};
       chains := cs |}.
Proof.
  intros Hactive Hc Hquiet. unfold quiet_round. cbn [replicate ui_run foldl].
  erewrite tick_last
    by (apply thread_step_head_enter; rewrite Hactive; by apply Nat.ltb_lt).
  erewrite tick_last
    by (apply thread_step_query_none; destruct outcome as [|[|??]]; by eauto).
  by erewrite tick_last by apply thread_step_sleep.
Qed.

(** Quiet iterations in a row move the counter and nothing else. *)
Lemma quiet_rounds_run ts quiet : ∀ c self p cs,
  polling_active self = true → c + length quiet ≤ max_polls →
  Forall (λ outcome, no_rows outcome = true) quiet →
  ui_run (quiet ≫= quiet_round (length ts))
    {| page := p;
       sys := {| app := self;
                 threads := ts ++ [{| pc := AtLoopHead; poll_count := c |}] |};
       chains := cs |}
  = {| page := p;
       sys := {| app := self;
                 threads := ts ++ [{| pc := AtLoopHead;
                                      poll_count := c + length quiet |}] |};
       chains := cs |}.
Proof.
  induction quiet as [|outcome quiet IH]; intros c self p cs Hactive Hc Hquiet.
  - simpl. by rewrite Nat.add_0_r.
  - apply Forall_cons in Hquiet as [Ho Hquiet]. simpl in Hc.
    cbn [mbind list_bind]. rewrite ui_run_app.
    rewrite quiet_round_run by (done || lia).
    rewrite IH by (done || lia). simpl. do 4 f_equal. f_equal. lia.
Qed.

Lemma found_after_run ts quiet c row self p cs :
  polling_active self = true → c + length quiet < max_polls →
  Forall (λ outcome, no_rows outcome = true) quiet →
  is_ok (format_specialist_response row) = true →
  ui_run (found_after (length ts) quiet row)
    {| page := p;
       sys := {| app := self;
                 threads := ts ++ [{| pc := AtLoopHead; poll_count := c |}] |};
       chains := cs |}
  = {| page := p;
       sys := {| app := set_polling_active false (set_specialist_response row self);
                 threads := ts ++ [{| pc := AtExit;
                                      poll_count := c + length quiet |}] |};
       chains := cs |}.
Proof.
  intros Hactive Hc Hquiet Hrow. unfold found_after.
  rewrite ui_run_app, quiet_rounds_run by (done || lia).
  by apply found_at_once_run.
Qed.

(** When the budget is spent the test of the loop fails and the thread
    lowers the flag on its way out. *)
Lemma timed_out_run ts quiet self p cs :
  polling_active self = true → length quiet = max_polls →
  Forall (λ outcome, no_rows outcome = true) quiet →
  ui_run (timed_out (length ts) quiet)
    {| page := p; sys := {| app := self; threads := ts ++ [thread_start] |};
       chains := cs |}
  = {| page := p;
       sys := {| app := set_polling_active false self;
                 threads := ts ++ [{| pc := Terminated; poll_count := max_polls |}] |};
       chains := cs |}.
Proof.
  intros Hactive Hlen Hquiet. unfold timed_out, thread_start.
  rewrite ui_run_app, quiet_rounds_run by (done || lia).
  rewrite Hlen. cbn [Nat.add replicate ui_run foldl].
  erewrite tick_last
    by (apply thread_step_head_leave; by rewrite Nat.ltb_irrefl, andb_false_r).
  erewrite tick_last by apply thread_step_exit.
  by rewrite Nat.leb_refl.
Qed.

(** ** Lemmas: the push and the check *)

Section accepted.
Context (post : HttpRequest → HttpOutcome) (response : HttpResponse).
Context (report_id : pyval) (u : Ui).
Hypothesis Hshown : shown_of (page u Widget.main_interface) = true.
Hypothesis Hgate : is_onboarded (app (sys u)) = true.
Hypothesis Hhistory : truthy (conversation_history (report_data (app (sys u)))) = true.
Hypothesis Hstore : supabase (app (sys u)) = true.
Hypothesis Hidle : polling_active (app (sys u)) = false.
Hypothesis Hpost :
  post (report_request default_base_url (report_data (app (sys u)))) = inr response.
Hypothesis Hcreated : status_code response = 201%Z.
Hypothesis Hid : decode_report_id response = inr report_id.
Hypothesis Htruthy : truthy report_id = true.

(** A push that is accepted stores the identifier, raises the flag and
    starts a thread; the page shows the success. *)
Lemma click_push_accepted :
  ui_step (ClickPush post) u
  = {| page := deliver (outputs push_care_bridge_click)
                 [Str (div "status-success" (push_success report_id))] (page u);
       sys := {| app := pushed report_id (app (sys u));
                 threads := threads (sys u) ++ [thread_start] |};
       chains := chains u |}.
Proof.
  unfold ui_step. rewrite enabled_cases, Hshown.
  unfold click_push, push_to_care_bridge.
  rewrite (push_accepted _ _ _ Hgate Hhistory response report_id) by done.
  rewrite start_response_polling_cases. cbn [supabase submitted_report_id
    polling_active set_submitted_report_id]. by rewrite Hstore, Htruthy, Hidle.
Qed.

End accepted.

(** A check on a stored reply that renders shows the reply and the line
    that it was received. *)
Lemma click_check_stored row text u :
  shown_of (page u Widget.main_interface) = true →
  specialist_response (app (sys u)) = Some row →
  format_specialist_response row = Ok text →
  ui_step ClickCheck u
  = {| page := deliver (outputs check_response_click)
                 [Str text; Str (status_line Responded)] (page u);
       sys := sys u; chains := chains u |}.
Proof.
  intros Hshown Hrow Htext. unfold ui_step. rewrite enabled_cases, Hshown.
  unfold click_check, check_for_response, get_specialist_response.
  by rewrite Hrow, Htext.
Qed.

(** A check when no reply is stored, the flag is low and an identifier is
    stored says that monitoring stopped. *)
Lemma click_check_stopped u :
  shown_of (page u Widget.main_interface) = true →
  specialist_response (app (sys u)) = None →
  polling_active (app (sys u)) = false →
  truthy (submitted_report_id (app (sys u))) = true →
  ui_step ClickCheck u
  = {| page := deliver (outputs check_response_click)
                 [Str ""; Str (status_line Stopped)] (page u);
       sys := sys u; chains := chains u |}.
Proof.
  intros Hshown Hnone Hidle Hid. unfold ui_step. rewrite enabled_cases, Hshown.
  unfold click_check, check_for_response.
  rewrite get_specialist_response_none by done. simpl. by rewrite Hidle, Hid.
Qed.

(** ** Theorems *)

(** C11: From the push to the reply on the page: when the gate is open, a
    conversation is stored, the lookup store is configured and no loop runs,
    a push the platform accepts with a truthy identifier shows the success,
    stores the identifier, raises polling_active and starts a thread; when a
    query of that thread finds a row that renders, after fewer than 120
    queries that found nothing or raised, the row is stored and the flag is
    low; and a click on the check button then shows the rendered reply with
    the line that it was received. *)
Theorem reply_reaches_page post response report_id quiet row u :
  shown_of (page u Widget.main_interface) = true →
  is_onboarded (app (sys u)) = true →
  truthy (conversation_history (report_data (app (sys u)))) = true →
  supabase (app (sys u)) = true →
  polling_active (app (sys u)) = false →
  post (report_request default_base_url (report_data (app (sys u)))) = inr response →
  status_code response = 201%Z →
  decode_report_id response = inr report_id →
  truthy report_id = true →
  length quiet < max_polls → Forall (λ outcome, no_rows outcome = true) quiet →
  is_ok (format_specialist_response row) = true →
  let i := length (threads (sys u)) in
  let u' := ui_run (ClickPush post :: found_after i quiet row ++ [ClickCheck]) u in
  page u' Widget.care_bridge_status
  = Str (div "status-success" (push_success report_id))
  ∧ format_specialist_response row
    = Ok (text_of (page u' Widget.specialist_response_output))
  ∧ page u' Widget.response_status = Str (status_line Responded)
  ∧ app (sys u') = replied report_id row (app (sys u)).
Proof.
  intros Hshown Hgate Hhistory Hstore Hidle Hpost Hcreated Hid Htruthy Hlen Hquiet
    Hrow i u'.
  subst i u'. rewrite ui_run_cons, ui_run_app.
  rewrite (click_push_accepted post response report_id u) by done.
  unfold thread_start. rewrite found_after_run by done.
  destruct (format_specialist_response row) as [text|] eqn:Htext; [|done].
  cbn [ui_run foldl]. erewrite (click_check_stored row text); [|by cbn..].
  by cbn.
Qed.

Lemma reply_reaches_page_witness :
  let u' := ui_run (ClickPush example_created
                    :: found_after 0 [QueryData []; QueryRaised] example_reply
                       ++ [ClickCheck])
              example_ready in
  page u' Widget.care_bridge_status
  = Str (div "status-success" (push_success (PStr "r-1")))
  ∧ format_specialist_response example_reply
    = Ok (text_of (page u' Widget.specialist_response_output))
  ∧ page u' Widget.response_status = Str (status_line Responded)
  ∧ app (sys u') = replied (PStr "r-1") example_reply (app (sys example_ready)).
Proof.
  apply (reply_reaches_page example_created
           {| status_code := 201; resp_text := "";
              resp_json := inr (PDict [("id", PStr "r-1")]) |}
           (PStr "r-1") [QueryData []; QueryRaised] example_reply example_ready);
    try done.
  - rewrite max_polls_eq. simpl. lia.
  - by repeat constructor.
Defined.

(** C12: From the push to the line that monitoring stopped: after an
    accepted push with no reply stored, when 120 queries in a row bring no
    row or raise, the thread leaves the loop with its counter at 120, lowers
    polling_active and returns; Check for Response then shows an empty reply
    and the line that monitoring stopped, and the object differs from the
    one before the push by the stored identifier only. *)
Theorem timeout_reaches_page post response report_id quiet u :
  shown_of (page u Widget.main_interface) = true →
  is_onboarded (app (sys u)) = true →
  truthy (conversation_history (report_data (app (sys u)))) = true →
  supabase (app (sys u)) = true →
  polling_active (app (sys u)) = false →
  specialist_response (app (sys u)) = None →
  post (report_request default_base_url (report_data (app (sys u)))) = inr response →
  status_code response = 201%Z →
  decode_report_id response = inr report_id →
  truthy report_id = true →
  length quiet = max_polls → Forall (λ outcome, no_rows outcome = true) quiet →
  let i := length (threads (sys u)) in
  let u' := ui_run (ClickPush post :: timed_out i quiet ++ [ClickCheck]) u in
  page u' Widget.specialist_response_output = Str ""
  ∧ page u' Widget.response_status = Str (status_line Stopped)
  ∧ app (sys u') = set_submitted_report_id report_id (app (sys u))
  ∧ threads (sys u')
    = threads (sys u) ++ [{| pc := Terminated; poll_count := max_polls |}].
Proof.
  intros Hshown Hgate Hhistory Hstore Hidle Hnone Hpost Hcreated Hid Htruthy Hlen
    Hquiet i u'.
  subst i u'. rewrite ui_run_cons, ui_run_app.
  rewrite (click_push_accepted post response report_id u) by done.
  rewrite timed_out_run by done.
  cbn [ui_run foldl]. rewrite click_check_stopped by (by cbn).
  cbn. split_and!; [done..| |done].
  destruct u as [p [self ts] cs], self. cbn in *. by subst.
Qed.

Lemma timeout_reaches_page_witness :
  let u' := ui_run (ClickPush example_created
                    :: timed_out 0 (replicate 120 QueryRaised) ++ [ClickCheck])
              example_ready in
  page u' Widget.specialist_response_output = Str ""
  ∧ page u' Widget.response_status = Str (status_line Stopped)
  ∧ app (sys u') = set_submitted_report_id (PStr "r-1") (app (sys example_ready))
  ∧ threads (sys u')
    = threads (sys example_ready)
      ++ [{| pc := Terminated; poll_count := max_polls |}].
Proof.
  apply (timeout_reaches_page example_created
           {| status_code := 201; resp_text := "";
              resp_json := inr (PDict [("id", PStr "r-1")]) |}
           (PStr "r-1") (replicate 120 QueryRaised) example_ready);
    try done.
  by apply Forall_replicate.
Defined.

(** ** Examples *)

(** What the parent reads at the end of the journey of the examples. *)
Example journey_shown :
  let u' := ui_run (ClickPush example_created
                    :: found_at_once 0 example_reply ++ [ClickCheck])
              example_ready in
  str_in "**Urgency Level:** 🟠 HIGH"
    (text_of (page u' Widget.specialist_response_output)) = true
  ∧ str_in "**Follow Up:** within 2 weeks"
      (text_of (page u' Widget.specialist_response_output)) = true
  ∧ phase (app (sys u')) = Responded.
Proof. by vm_compute. Qed.

(** Without the lookup store the push succeeds and nothing watches: the
    check says that monitoring stopped. *)
Example journey_unwatched :
  let u := ui_run (example_submit ++ replicate 13 (Advance 0))
             (ui_init "7f0c" sample_time None None) in
  let u' := ui_run [ClickPush example_created; ClickCheck] u in
  threads (sys u') = []
  ∧ page u' Widget.response_status = Str (status_line Stopped).
Proof. by vm_compute. Qed.
