(* ===== verification/Visitors.v ===== *)
(** * Visitors: several pages on the one application object

    [app = EnhancedTraumaAssessmentApp()] of [src/app.py] is created once,
    when the module is loaded, and every handler is a method of it or a
    closure over it; the page is built for every browser that loads it.
    A [Server] is the pages that are open, each with its chains, and the
    one [Concurrency.System] behind all of them.  A [Move] opens a page,
    makes an [Interface.Action] on one of the pages, or runs a statement
    of a polling thread.

    The file shows what carries over from one page to many (every page
    holds values of its classes, the record behind the gate is typed, the
    lock of each page holds, the system is a reachable system, a page that
    is alone behaves as [Interface.ui_run] says) and what does not: the
    child on a page is not the child of the report once another page has
    onboarded, and the model is sent the sentences of every page. *)

From S2P Require Import Spec2Rocq PyStr PyVal PyTime Protocol Session Conversation.
From S2P Require Import Submission Polling Report Document Handlers Concurrency.
From S2P Require Import Interface Chain.
From Stdlib Require Import QArith_base.
Local Close Scope Q_scope.

(** ** Definitions *)

(** The arguments of [demo.launch] at the end of the module.  With
    [share] the page is served on a public link besides the local
    address: the visitors are any number of browsers, and none of them
    is asked who it is. *)
Record Launch : Type := {
  share : bool;
  inbrowser : bool;
  show_error : bool
}.

Definition launch : Launch :=
  {| share := true; inbrowser := true; show_error := true |}.

(** A page in a browser, and the chains under way on it. *)
Record Visit : Type := {
  screen : Page;
  running : list Chain
}.

Record Server : Type := {
  visits : list Visit;
  shared : System
}.

(** A page as [Interface] sees it: with the system behind it. *)
Definition view (v : Visit) (s : System) : Ui :=
  {| page := screen v; sys := s; chains := running v |}.

Definition visit_of (u : Ui) : Visit :=
  {| screen := page u; running := chains u |}.

(** The page [k] of a server (the page as loaded when there is none). *)
Definition screen_of (k : nat) (s : Server) : Page :=
  from_option screen page_init (visits s !! k).

Inductive Move : Type :=
| Open
| On (k : nat) (a : Action)
| Background (i : nat) (outcome : QueryOutcome).

(** The action is made on the page [k] and the system behind it; the
    other pages stay as they are and see the system it leaves. *)
Definition server_step (m : Move) (s : Server) : Server :=
  match m with
  | Open =>
      {| visits := visits s ++ [{| screen := page_init; running := [] |}];
         shared := shared s |}
  | On k a =>
      match visits s !! k with
      | Some v =>
          let u := ui_step a (view v (shared s)) in
          {| visits := <[k := visit_of u]> (visits s); shared := sys u |}
      | None => s
      end
  | Background i outcome =>
      {| visits := visits s; shared := sys_step (Poll i outcome) (shared s) |}
  end.

Definition server_run (ms : list Move) (s : Server) : Server :=
  foldl (λ s m, server_step m s) s ms.

Definition server_init (uuid : string) (now : datetime) (url key : option string)
  : Server :=
  {| visits := []; shared := sys_init uuid now url key |}.

Inductive server_reachable : Server → Prop :=
| server_reachable_init uuid now url key :
    server_reachable (server_init uuid now url key)
| server_reachable_step m s :
    server_reachable s → server_reachable (server_step m s).

(** The record behind an open gate is typed. *)
Definition gate_typed (self : App) : Prop :=
  is_onboarded self = true → child_typed (child_info (report_data self)).

Definition server_inv (s : Server) : Prop :=
  gate_typed (app (shared s))
  ∧ Forall (λ v, ui_inv (view v (shared s))) (visits s).

(** No page has [New Conversation] pressed during one of its chains. *)
Definition move_patient (m : Move) (s : Server) : Prop :=
  match m with
  | On k a => ∀ v, visits s !! k = Some v → ¬ clears_mid_chain a (view v (shared s))
  | _ => True
  end.

Fixpoint server_patient (ms : list Move) (s : Server) : Prop :=
  match ms with
  | [] => True
  | m :: ms => move_patient m s ∧ server_patient ms (server_step m s)
  end.

(** ** Two visitors for the examples

    The model answers a conversation with the sentences it was sent,
    joined by a bar.  Two pages are open.  On the first Sam is onboarded,
    on the second Lina; each parent says one sentence. *)

Definition example_echo : ChatRequest → option string := λ request,
  match request with
  | TextChat messages => Some (str_join " | " (chat_content <$> messages))
  | _ => None
  end.

Definition example_server : Server :=
  server_run [Open; Open]
    (server_init "7f0c" sample_time (Some "https://db.example") (Some "key")).

Definition example_two_children : list Move :=
  (On 0 <$> example_onboarding)
  ++ (On 1 <$> [EditName "Lina"; EditAge (Some (inject_Z 11));
                EditLocation "Kyiv"; ClickStart]).

Definition example_two_parents : list Move :=
  example_two_children
  ++ [On 0 (EditMessage {| text := "He cannot sleep"; files := [] |});
      On 0 (SubmitMessage example_echo example_clock);
      On 1 (EditMessage {| text := "She is afraid"; files := [] |});
      On 1 (SubmitMessage example_echo example_clock);
      On 0 (Advance 0); On 1 (Advance 0)].

(** The first parent pushes the report; the specialist replies, and the
    thread stores the reply. *)
Definition example_replied : list Move :=
  example_two_parents
  ++ [On 0 (ClickPush example_created)]
  ++ replicate 3 (Background 0 (QueryData [example_reply])).

(** ** Lemmas: one move *)

Lemma view_visit_of (u : Ui) : view (visit_of u) (sys u) = u.
Proof. by destruct u. Qed.

(** A page keeps its invariant when the system behind it changes, as
    long as the gate stays open and the record stays typed. *)
Lemma ui_inv_shared v s s' :
  ui_inv (view v s) →
  (is_onboarded (app s) = true → is_onboarded (app s') = true) →
  gate_typed (app s') → ui_inv (view v s').
Proof. intros (Hm & Ho & _ & Ht) Hmono Hg. split_and!; eauto. Qed.

(** No action closes the gate. *)
Lemma ui_step_onboarded a u :
  is_onboarded (app (sys u)) = true →
  is_onboarded (app (sys (ui_step a u))) = true.
Proof.
  intros Hon. assert (a = ClickStart ∨ a ≠ ClickStart) as [->|Ha]
    by (destruct a; try (by right); by left).
  - unfold ui_step. case_cond; [|done]. unfold click_start.
    destruct (onboarding_inputs _) as [[[[n a] g] l]|]; [|done].
    pose proof (handle_onboarding_state n a g l (app (sys u))) as Hst.
    destruct (handle_onboarding _ _ _ _ _) as [self view]. simpl in *. subst self.
    by rewrite complete_onboarding_gate, Hon, orb_true_r.
  - by destruct (ui_step_child a u Ha) as [_ ->].
Qed.

Lemma server_step_inv m s : server_inv s → server_inv (server_step m s).
Proof.
  intros [Hg Hall]. unfold server_inv.
  destruct m as [|k a|i outcome]; cbn [server_step shared visits].
  - split; [done|]. apply Forall_app. split; [done|]. apply Forall_singleton.
    split_and!; [done|done|exact Hg|apply page_init_typed].
  - destruct (visits s !! k) as [v|] eqn:Hk; [|done]. cbn [shared visits].
    pose proof (Forall_lookup_1 _ _ _ _ Hall Hk) as Hv.
    pose proof (ui_step_inv a _ Hv) as Hv'.
    assert (gate_typed (app (sys (ui_step a (view v (shared s)))))) as Hg'
      by (by destruct Hv' as (_ & _ & ? & _)).
    split; [done|]. apply Forall_insert.
    + eapply Forall_impl; [done|]. intros v0 Hv0.
      apply (ui_inv_shared v0 (shared s)); [done| |done].
      apply (ui_step_onboarded a (view v (shared s))).
    + by rewrite view_visit_of.
  - destruct (sys_step_child (Poll i outcome) (shared s) I) as [Hc Ho].
    assert (gate_typed (app (sys_step (Poll i outcome) (shared s)))) as Hg'.
    { unfold gate_typed. rewrite Hc, Ho. apply Hg. }
    split; [done|]. eapply Forall_impl; [done|]. intros v Hv.
    apply (ui_inv_shared v (shared s)); [done| |done]. by rewrite Ho.
Qed.

Lemma server_init_inv uuid now url key : server_inv (server_init uuid now url key).
Proof. split; [done|constructor]. Qed.

Lemma server_reachable_inv s : server_reachable s → server_inv s.
Proof. induction 1; [apply server_init_inv|by apply server_step_inv]. Qed.

Lemma server_reachable_run ms s :
  server_reachable s → server_reachable (server_run ms s).
Proof.
  revert s. induction ms as [|m ms IH]; intros s Hs; [done|].
  by apply IH, server_reachable_step.
Qed.

(** ** Lemmas: the system, the lock, a page alone *)

Lemma server_step_system m s : reachable (shared s) → reachable (shared (server_step m s)).
Proof.
  intros Hs. destruct m as [|k a|i outcome]; cbn [server_step shared]; [done| |].
  - destruct (visits s !! k) as [v|]; [|done]. cbn [shared].
    rewrite ui_step_sys. by apply reachable_run.
  - by apply reachable_step.
Qed.

(** The lock of a page does not look at the system. *)
Lemma lock_inv_view v s s' : lock_inv (view v s) → lock_inv (view v s').
Proof. done. Qed.

Lemma server_step_lock m s :
  Forall (λ v, lock_inv (view v (shared s))) (visits s) → move_patient m s →
  Forall (λ v, lock_inv (view v (shared (server_step m s))))
    (visits (server_step m s)).
Proof.
  intros Hall Hm. destruct m as [|k a|i outcome]; cbn [server_step shared visits].
  - apply Forall_app. split; [done|]. apply Forall_singleton.
    unfold lock_inv, talking. split; [simpl; lia|done].
  - destruct (visits s !! k) as [v|] eqn:Hk; [|done]. cbn [shared visits].
    apply Forall_insert.
    + eapply Forall_impl; [done|]. intros v0. apply lock_inv_view.
    + rewrite view_visit_of. apply ui_step_lock; [|by apply Hm].
      by apply (Forall_lookup_1 _ _ _ _ Hall Hk).
  - done.
Qed.

Lemma server_run_lock ms s :
  Forall (λ v, lock_inv (view v (shared s))) (visits s) → server_patient ms s →
  Forall (λ v, lock_inv (view v (shared (server_run ms s))))
    (visits (server_run ms s)).
Proof.
  revert s. induction ms as [|m ms IH]; intros s Hs Hp; [done|].
  destruct Hp as [Hm Hp]. by apply IH; [apply server_step_lock|].
Qed.

(** ** Theorems *)

(** With any number of pages open on the one application object, in
    every order of the visitors' actions and the threads' statements: the
    child record behind an open gate is typed as the specification types it,
    every component of every page holds a value of its class, and the main
    column of a page is shown only behind the open gate. *)
Theorem server_reachable_typed s :
  server_reachable s →
  gate_typed (app (shared s))
  ∧ Forall (λ v, page_typed (screen v)
                 ∧ (shown_of (screen v Widget.main_interface) = true
                    → is_onboarded (app (shared s)) = true)) (visits s).
Proof.
  intros [Hg Hall]%server_reachable_inv. split; [done|].
  eapply Forall_impl; [done|]. by intros v (Hm & _ & _ & Ht).
Qed.

Lemma server_reachable_typed_witness :
  let s := server_run example_two_parents example_server in
  gate_typed (app (shared s))
  ∧ Forall (λ v, page_typed (screen v)
                 ∧ (shown_of (screen v Widget.main_interface) = true
                    → is_onboarded (app (shared s)) = true)) (visits s).
Proof.
  apply server_reachable_typed.
  apply server_reachable_run, server_reachable_run, server_reachable_init.
Defined.

(** The system behind the pages is a system of [Concurrency]: what holds
    of every interleaving of handler calls and thread statements holds
    for every number of visitors. *)
Theorem server_reachable_system s : server_reachable s → reachable (shared s).
Proof.
  induction 1 as [|m s Hs IH]; [apply reachable_init|by apply server_step_system].
Qed.

Lemma server_reachable_system_witness :
  reachable (shared (server_run example_two_parents example_server)).
Proof.
  apply server_reachable_system.
  apply server_reachable_run, server_reachable_run, server_reachable_init.
Defined.

(** A page that is alone on the server behaves as the page of
    Interface: a run of actions on it leaves the page, the chains and the
    system that ui_run leaves. *)
Theorem lone_visitor acts u :
  server_run (On 0 <$> acts) {| visits := [visit_of u]; shared := sys u |}
  = {| visits := [visit_of (ui_run acts u)]; shared := sys (ui_run acts u) |}.
Proof.
  revert u. induction acts as [|a acts IH]; intros u; [done|].
  cbn [fmap list_fmap server_run foldl server_step visits shared lookup list_lookup].
  rewrite view_visit_of. apply IH.
Qed.

(** The lock of every page holds as long as no visitor presses
    [New Conversation] during a chain of the own page: what the other
    visitors do does not unlock a text box. *)
Theorem visitors_locked ms uuid now url key :
  let s := server_run ms (server_init uuid now url key) in
  server_patient ms (server_init uuid now url key) →
  Forall (λ v, lock_inv (view v (shared s))) (visits s).
Proof. intros s Hp. by apply server_run_lock. Qed.

Lemma visitors_locked_witness :
  let s := server_run ([Open; Open] ++ example_two_parents)
             (server_init "7f0c" sample_time None None) in
  Forall (λ v, lock_inv (view v (shared s))) (visits s).
Proof.
  apply visitors_locked. cbn -[server_step]. unfold clears_mid_chain.
  repeat split; try done; by intros v _ [? _].
Defined.

(** ** Examples: what the visitors share *)

(** Two visitors onboard two children on two pages: the first page
    still names the first child, the record holds the second, and the report
    generated from the first page is about the second child. *)
Example children_swapped :
  let s := server_run (example_two_parents
             ++ [On 0 (ClickGenerate example_mute example_validate example_clock);
                 On 0 (Advance 1); On 0 (Advance 1)])
             example_server in
  str_in "Sam, 8 years old"
    (text_of (screen_of 0 s Widget.child_info_display)) = true
  ∧ str_in "**Name:** Lina" (text_of (screen_of 0 s Widget.report_output)) = true
  ∧ str_in "Sam" (text_of (screen_of 0 s Widget.report_output)) = false
  ∧ name (child_info (report_data (app (shared s)))) = "Lina".
Proof. by vm_compute. Qed.

(** The model is sent the sentences of both parents: the request for the
    reply on the second page carries the sentence said on the first. *)
Example sentences_shared :
  let s := server_run example_two_parents example_server in
  chat_content <$> ollama_conversation (app (shared s))
  = ["He cannot sleep"; "She is afraid";
     "He cannot sleep | She is afraid";
     "He cannot sleep | She is afraid | He cannot sleep | She is afraid"].
Proof. by vm_compute. Qed.

(** The main column of the second page is hidden while the gate is open:
    with two visitors the page does not show the side of the gate, also
    when no page is loaded twice. *)
Example second_page_behind :
  let s := server_run (On 0 <$> example_onboarding) example_server in
  is_onboarded (app (shared s)) = true
  ∧ length (visits s) = 2
  ∧ screen_of 1 s Widget.main_interface = Shown false.
Proof. by vm_compute. Qed.

(** The reply to the report the first parent pushed is shown on the page
    of the second. *)
Example reply_shown_to_all :
  let s := server_run (example_replied ++ [On 1 ClickCheck]) example_server in
  str_in "Sleep disturbance after displacement."
    (text_of (screen_of 1 s Widget.specialist_response_output)) = true.
Proof. by vm_compute. Qed.
